(** * Liberation Circuit: the LAN session protocol engine (n_network)

    A shallow embedding of the network module: the framing codec
    ([_network_send_message], [_network_receive_message]), the dispatcher
    ([_network_handle_message]), the per-tick [network_update] and the public
    session operations, followed by the properties of the protocol
    specification that are settled against them.

    Modelling conventions.
    - Fixed-width C integers are [Z] with the wrap-around written out
      ([u8], [u16], [u32]).  [size_t] values are non-negative [Z].
    - Memory is [list byte]; a pointer argument is the list of bytes readable
      from it.  Scalars are laid out in the byte order of a little-endian host
      ([store_le], [load_le]); [htonl]/[htons] reverse that representation.
    - The POSIX branch of the header is the one modelled: [socket_t] is [int]
      and [INVALID_SOCKET_VALUE] is [-1].
    - The globals [g_network], [g_network_callbacks] and the two function
      statics live in one [world] value that every operation threads through.
      The operating system is a record of oracles ([sys_env]); what the
      module sends and which callbacks it fires is logged in the world. *)

From Stdlib Require Import ZArith Lia List Bool.
From Stdlib Require Import Init.Byte.
From Stdlib Require Strings.Byte.
From stdpp Require Import base list numbers strings.

Local Open Scope Z_scope.

(** ** Machine integers and bytes *)

Definition u8 (x : Z) : Z := x mod 256.
Definition u16 (x : Z) : Z := x mod 65536.
Definition u32 (x : Z) : Z := x mod 4294967296.

Definition Z_of_byte (b : byte) : Z := Z.of_N (Strings.Byte.to_N b).

Definition byte_of_Z (z : Z) : byte :=
  match Strings.Byte.of_N (Z.to_N (z mod 256)) with
  | Some b => b
  | None => x00
  end.

(** The [n] bytes that hold [v] in the memory of a little-endian host. *)
Fixpoint store_le (n : nat) (v : Z) : list byte :=
  match n with
  | O => []
  | S n' => byte_of_Z v :: store_le n' (v / 256)
  end.

(** The unsigned scalar held by a run of bytes of such a host. *)
Fixpoint load_le (bs : list byte) : Z :=
  match bs with
  | [] => 0
  | b :: bs' => Z_of_byte b + 256 * load_le bs'
  end.

(** [htonl], [htons] and their inverses: on a little-endian host they reverse
    the bytes of the representation. *)
Definition htonl (x : Z) : Z := load_le (rev (store_le 4 x)).
Definition ntohl (x : Z) : Z := load_le (rev (store_le 4 x)).
Definition htons (x : Z) : Z := load_le (rev (store_le 2 x)).
Definition ntohs (x : Z) : Z := load_le (rev (store_le 2 x)).

(** [memcpy (dst, src, length src)]: the copy replaces a prefix of what the
    destination held. *)
Definition memcpy (dst src : list byte) : list byte :=
  src ++ drop (length src) dst.

(** [memcpy (dst + off, src, length src)]. *)
Definition memcpy_at (dst : list byte) (off : nat) (src : list byte) : list byte :=
  take off dst ++ src ++ drop (off + length src) dst.

(** The bytes [off .. off+n-1] of a buffer. *)
Definition slice (off n : nat) (buf : list byte) : list byte :=
  take n (drop off buf).

(** A run of bytes forced to the size of the array that holds it. *)
Definition pad (n : nat) (bs : list byte) : list byte := resize n x00 bs.

(** The characters of the C string that starts a buffer (up to the first NUL). *)
Fixpoint cstr (buf : list byte) : list byte :=
  match buf with
  | [] => []
  | b :: r => if Byte.eqb b x00 then [] else b :: cstr r
  end.

(** [strcpy (dst, src)]: the characters and the terminating NUL over a prefix
    of the destination array. *)
Definition strcpy (dst src : list byte) : list byte :=
  memcpy dst (cstr src ++ [x00]).

(** [strncpy (dst, src, n)]: exactly [n] bytes are written, the characters of
    the source string followed by NUL padding. *)
Definition strncpy (dst src : list byte) (n : nat) : list byte :=
  memcpy dst (pad n (take n (cstr src))).

(** Decimal digits as printed by [%d]. *)
Fixpoint decimal_aux (fuel : nat) (n : Z) (acc : list byte) : list byte :=
  match fuel with
  | O => acc
  | S f =>
      let acc' := byte_of_Z (48 + n mod 10) :: acc in
      if n / 10 =? 0 then acc' else decimal_aux f (n / 10) acc'
  end.

Definition decimal (n : Z) : list byte :=
  if n <? 0 then byte_of_Z 45 :: decimal_aux 20 (- n) []
  else decimal_aux 20 n [].

(** ** Configuration (n_network.h) *)

Definition NETWORK_MAX_PLAYERS : Z := 8.
Definition NETWORK_DEFAULT_PORT : Z := 7777.
Definition NETWORK_BROADCAST_PORT : Z := 7778.
Definition NETWORK_BUFFER_SIZE : Z := 4096.
Definition NETWORK_MAX_MESSAGE_SIZE : Z := 1024.
Definition NETWORK_DISCOVERY_INTERVAL : Z := 1000.
Definition NETWORK_MAX_HOSTNAME : Z := 256.
Definition NETWORK_MAX_GAME_NAME : Z := 64.
Definition NETWORK_PROTOCOL_VERSION : Z := 1.
Definition NETWORK_MAGIC : Z := 0x4C494243.
Definition MAX_DISCOVERED_GAMES : Z := 16.

Definition INVALID_SOCKET_VALUE : Z := -1.
(** [EWOULDBLOCK] as Linux defines it. *)
Definition SOCKET_WOULD_BLOCK : Z := 11.
Definition INADDR_LOOPBACK : Z := 0x7F000001.
Definition INADDR_BROADCAST : Z := 0xFFFFFFFF.

Inductive network_state_t :=
| NETWORK_STATE_DISCONNECTED
| NETWORK_STATE_HOSTING
| NETWORK_STATE_CONNECTING
| NETWORK_STATE_CONNECTED
| NETWORK_STATE_ERROR.

Global Instance network_state_eq_dec : EqDecision network_state_t.
Proof. solve_decision. Defined.

Inductive message_type_t :=
| MSG_DISCOVERY_REQUEST
| MSG_DISCOVERY_RESPONSE
| MSG_JOIN_REQUEST
| MSG_JOIN_RESPONSE
| MSG_PLAYER_LIST
| MSG_GAME_START
| MSG_GAME_DATA
| MSG_PLAYER_DISCONNECT
| MSG_PING
| MSG_PONG
| MSG_CHAT
| MSG_GAME_STATE_SYNC
| MSG_TURN_DATA
| MSG_ERROR.

(** The enumerators count from 1. *)
Definition message_type_code (t : message_type_t) : Z :=
  match t with
  | MSG_DISCOVERY_REQUEST => 1
  | MSG_DISCOVERY_RESPONSE => 2
  | MSG_JOIN_REQUEST => 3
  | MSG_JOIN_RESPONSE => 4
  | MSG_PLAYER_LIST => 5
  | MSG_GAME_START => 6
  | MSG_GAME_DATA => 7
  | MSG_PLAYER_DISCONNECT => 8
  | MSG_PING => 9
  | MSG_PONG => 10
  | MSG_CHAT => 11
  | MSG_GAME_STATE_SYNC => 12
  | MSG_TURN_DATA => 13
  | MSG_ERROR => 14
  end.

(** A received type field is any 16-bit value; the dispatcher's [switch]
    recognises the enumerators and has no default. *)
Definition message_type_of_code (c : Z) : option message_type_t :=
  match c with
  | 1 => Some MSG_DISCOVERY_REQUEST
  | 2 => Some MSG_DISCOVERY_RESPONSE
  | 3 => Some MSG_JOIN_REQUEST
  | 4 => Some MSG_JOIN_RESPONSE
  | 5 => Some MSG_PLAYER_LIST
  | 6 => Some MSG_GAME_START
  | 7 => Some MSG_GAME_DATA
  | 8 => Some MSG_PLAYER_DISCONNECT
  | 9 => Some MSG_PING
  | 10 => Some MSG_PONG
  | 11 => Some MSG_CHAT
  | 12 => Some MSG_GAME_STATE_SYNC
  | 13 => Some MSG_TURN_DATA
  | 14 => Some MSG_ERROR
  | _ => None
  end.

(** ** Wire header: [message_header_t], a packed struct of 20 bytes *)

Record message_header_t := {
  h_magic : Z;
  h_version : Z;
  h_type : Z;
  h_size : Z;
  h_sequence : Z;
  h_timestamp : Z
}.

Definition sizeof_message_header_t : Z := 20.

(** The struct as [memcpy] sees it. *)
Definition header_bytes (h : message_header_t) : list byte :=
  store_le 4 (h_magic h) ++ store_le 2 (h_version h) ++ store_le 2 (h_type h)
  ++ store_le 4 (h_size h) ++ store_le 4 (h_sequence h)
  ++ store_le 4 (h_timestamp h).

(** The struct read through a [message_header_t*] into a buffer. *)
Definition header_at (buf : list byte) : message_header_t :=
  {| h_magic := load_le (slice 0 4 buf);
     h_version := load_le (slice 4 2 buf);
     h_type := load_le (slice 6 2 buf);
     h_size := load_le (slice 8 4 buf);
     h_sequence := load_le (slice 12 4 buf);
     h_timestamp := load_le (slice 16 4 buf) |}.

(** [struct sockaddr_in]: the address and port fields as stored (network
    byte order). *)
Record sockaddr_in := { sin_addr : Z; sin_port : Z }.

(** ** Roster and registry entries *)

Record network_player_t := {
  player_id : Z;
  name : list byte;          (* char name[32] *)
  hostname : list byte;      (* char hostname[NETWORK_MAX_HOSTNAME] *)
  ip_address : Z;
  port : Z;
  last_ping : Z;
  connected : Z
}.

Record game_info_t := {
  gi_game_name : list byte;  (* char game_name[NETWORK_MAX_GAME_NAME] *)
  gi_host_name : list byte;  (* char host_name[32] *)
  gi_host_ip : Z;
  gi_host_port : Z;
  gi_current_players : Z;
  gi_max_players : Z;
  gi_game_id : Z;
  gi_last_seen : Z
}.

(** [sizeof (game_info_t)]: 64 + 32 + 4 + 2 + 1 + 1 + 4 + 4, no padding. *)
Definition sizeof_game_info_t : Z := 112.

Definition game_info_bytes (g : game_info_t) : list byte :=
  pad 64 (gi_game_name g) ++ pad 32 (gi_host_name g)
  ++ store_le 4 (gi_host_ip g) ++ store_le 2 (gi_host_port g)
  ++ store_le 1 (gi_current_players g) ++ store_le 1 (gi_max_players g)
  ++ store_le 4 (gi_game_id g) ++ store_le 4 (gi_last_seen g).

(** The struct read through a [game_info_t*] into a buffer. *)
Definition game_info_at (buf : list byte) : game_info_t :=
  {| gi_game_name := slice 0 64 buf;
     gi_host_name := slice 64 32 buf;
     gi_host_ip := load_le (slice 96 4 buf);
     gi_host_port := load_le (slice 100 2 buf);
     gi_current_players := load_le (slice 102 1 buf);
     gi_max_players := load_le (slice 103 1 buf);
     gi_game_id := load_le (slice 104 4 buf);
     gi_last_seen := load_le (slice 108 4 buf) |}.

Definition zero_player : network_player_t :=
  {| player_id := 0; name := replicate 32 x00; hostname := replicate 256 x00;
     ip_address := 0; port := 0; last_ping := 0; connected := 0 |}.

Definition zero_game_info : game_info_t :=
  {| gi_game_name := replicate 64 x00; gi_host_name := replicate 32 x00;
     gi_host_ip := 0; gi_host_port := 0; gi_current_players := 0;
     gi_max_players := 0; gi_game_id := 0; gi_last_seen := 0 |}.

(** ** The session context ([network_context_t]) and the callback table

    [send_buffer] is never read or written by the module and is left out. *)

Record network_context_t := {
  state : network_state_t;
  server_socket : Z;
  broadcast_socket : Z;
  local_port : Z;
  players : list network_player_t;
  player_count : Z;
  local_player_id : Z;
  game_name : list byte;
  game_id : Z;
  is_host : Z;
  discovered_games : list game_info_t;
  discovered_game_count : Z;
  last_discovery_time : Z;
  next_sequence : Z;
  receive_buffer : list byte;
  bytes_sent : Z;
  bytes_received : Z;
  messages_sent : Z;
  messages_received : Z;
  errors : Z
}.
Definition set_state (v : network_state_t) (c : network_context_t) : network_context_t :=
  {| state := v; server_socket := server_socket c; broadcast_socket :=
     broadcast_socket c; local_port := local_port c; players := players c;
     player_count := player_count c; local_player_id := local_player_id c;
     game_name := game_name c; game_id := game_id c; is_host := is_host c;
     discovered_games := discovered_games c; discovered_game_count :=
     discovered_game_count c; last_discovery_time := last_discovery_time c;
     next_sequence := next_sequence c; receive_buffer := receive_buffer c;
     bytes_sent := bytes_sent c; bytes_received := bytes_received c;
     messages_sent := messages_sent c; messages_received := messages_received
     c; errors := errors c |}.

Definition set_server_socket (v : Z) (c : network_context_t) : network_context_t :=
  {| state := state c; server_socket := v; broadcast_socket :=
     broadcast_socket c; local_port := local_port c; players := players c;
     player_count := player_count c; local_player_id := local_player_id c;
     game_name := game_name c; game_id := game_id c; is_host := is_host c;
     discovered_games := discovered_games c; discovered_game_count :=
     discovered_game_count c; last_discovery_time := last_discovery_time c;
     next_sequence := next_sequence c; receive_buffer := receive_buffer c;
     bytes_sent := bytes_sent c; bytes_received := bytes_received c;
     messages_sent := messages_sent c; messages_received := messages_received
     c; errors := errors c |}.

Definition set_broadcast_socket (v : Z) (c : network_context_t) : network_context_t :=
  {| state := state c; server_socket := server_socket c; broadcast_socket :=
     v; local_port := local_port c; players := players c; player_count :=
     player_count c; local_player_id := local_player_id c; game_name :=
     game_name c; game_id := game_id c; is_host := is_host c; discovered_games
     := discovered_games c; discovered_game_count := discovered_game_count c;
     last_discovery_time := last_discovery_time c; next_sequence :=
     next_sequence c; receive_buffer := receive_buffer c; bytes_sent :=
     bytes_sent c; bytes_received := bytes_received c; messages_sent :=
     messages_sent c; messages_received := messages_received c; errors :=
     errors c |}.

Definition set_local_port (v : Z) (c : network_context_t) : network_context_t :=
  {| state := state c; server_socket := server_socket c; broadcast_socket :=
     broadcast_socket c; local_port := v; players := players c; player_count
     := player_count c; local_player_id := local_player_id c; game_name :=
     game_name c; game_id := game_id c; is_host := is_host c; discovered_games
     := discovered_games c; discovered_game_count := discovered_game_count c;
     last_discovery_time := last_discovery_time c; next_sequence :=
     next_sequence c; receive_buffer := receive_buffer c; bytes_sent :=
     bytes_sent c; bytes_received := bytes_received c; messages_sent :=
     messages_sent c; messages_received := messages_received c; errors :=
     errors c |}.

Definition set_players (v : list network_player_t) (c : network_context_t) : network_context_t :=
  {| state := state c; server_socket := server_socket c; broadcast_socket :=
     broadcast_socket c; local_port := local_port c; players := v;
     player_count := player_count c; local_player_id := local_player_id c;
     game_name := game_name c; game_id := game_id c; is_host := is_host c;
     discovered_games := discovered_games c; discovered_game_count :=
     discovered_game_count c; last_discovery_time := last_discovery_time c;
     next_sequence := next_sequence c; receive_buffer := receive_buffer c;
     bytes_sent := bytes_sent c; bytes_received := bytes_received c;
     messages_sent := messages_sent c; messages_received := messages_received
     c; errors := errors c |}.

Definition set_player_count (v : Z) (c : network_context_t) : network_context_t :=
  {| state := state c; server_socket := server_socket c; broadcast_socket :=
     broadcast_socket c; local_port := local_port c; players := players c;
     player_count := v; local_player_id := local_player_id c; game_name :=
     game_name c; game_id := game_id c; is_host := is_host c; discovered_games
     := discovered_games c; discovered_game_count := discovered_game_count c;
     last_discovery_time := last_discovery_time c; next_sequence :=
     next_sequence c; receive_buffer := receive_buffer c; bytes_sent :=
     bytes_sent c; bytes_received := bytes_received c; messages_sent :=
     messages_sent c; messages_received := messages_received c; errors :=
     errors c |}.

Definition set_local_player_id (v : Z) (c : network_context_t) : network_context_t :=
  {| state := state c; server_socket := server_socket c; broadcast_socket :=
     broadcast_socket c; local_port := local_port c; players := players c;
     player_count := player_count c; local_player_id := v; game_name :=
     game_name c; game_id := game_id c; is_host := is_host c; discovered_games
     := discovered_games c; discovered_game_count := discovered_game_count c;
     last_discovery_time := last_discovery_time c; next_sequence :=
     next_sequence c; receive_buffer := receive_buffer c; bytes_sent :=
     bytes_sent c; bytes_received := bytes_received c; messages_sent :=
     messages_sent c; messages_received := messages_received c; errors :=
     errors c |}.

Definition set_game_name (v : list byte) (c : network_context_t) : network_context_t :=
  {| state := state c; server_socket := server_socket c; broadcast_socket :=
     broadcast_socket c; local_port := local_port c; players := players c;
     player_count := player_count c; local_player_id := local_player_id c;
     game_name := v; game_id := game_id c; is_host := is_host c;
     discovered_games := discovered_games c; discovered_game_count :=
     discovered_game_count c; last_discovery_time := last_discovery_time c;
     next_sequence := next_sequence c; receive_buffer := receive_buffer c;
     bytes_sent := bytes_sent c; bytes_received := bytes_received c;
     messages_sent := messages_sent c; messages_received := messages_received
     c; errors := errors c |}.

Definition set_game_id (v : Z) (c : network_context_t) : network_context_t :=
  {| state := state c; server_socket := server_socket c; broadcast_socket :=
     broadcast_socket c; local_port := local_port c; players := players c;
     player_count := player_count c; local_player_id := local_player_id c;
     game_name := game_name c; game_id := v; is_host := is_host c;
     discovered_games := discovered_games c; discovered_game_count :=
     discovered_game_count c; last_discovery_time := last_discovery_time c;
     next_sequence := next_sequence c; receive_buffer := receive_buffer c;
     bytes_sent := bytes_sent c; bytes_received := bytes_received c;
     messages_sent := messages_sent c; messages_received := messages_received
     c; errors := errors c |}.

Definition set_is_host (v : Z) (c : network_context_t) : network_context_t :=
  {| state := state c; server_socket := server_socket c; broadcast_socket :=
     broadcast_socket c; local_port := local_port c; players := players c;
     player_count := player_count c; local_player_id := local_player_id c;
     game_name := game_name c; game_id := game_id c; is_host := v;
     discovered_games := discovered_games c; discovered_game_count :=
     discovered_game_count c; last_discovery_time := last_discovery_time c;
     next_sequence := next_sequence c; receive_buffer := receive_buffer c;
     bytes_sent := bytes_sent c; bytes_received := bytes_received c;
     messages_sent := messages_sent c; messages_received := messages_received
     c; errors := errors c |}.

Definition set_discovered_games (v : list game_info_t) (c : network_context_t) : network_context_t :=
  {| state := state c; server_socket := server_socket c; broadcast_socket :=
     broadcast_socket c; local_port := local_port c; players := players c;
     player_count := player_count c; local_player_id := local_player_id c;
     game_name := game_name c; game_id := game_id c; is_host := is_host c;
     discovered_games := v; discovered_game_count := discovered_game_count c;
     last_discovery_time := last_discovery_time c; next_sequence :=
     next_sequence c; receive_buffer := receive_buffer c; bytes_sent :=
     bytes_sent c; bytes_received := bytes_received c; messages_sent :=
     messages_sent c; messages_received := messages_received c; errors :=
     errors c |}.

Definition set_discovered_game_count (v : Z) (c : network_context_t) : network_context_t :=
  {| state := state c; server_socket := server_socket c; broadcast_socket :=
     broadcast_socket c; local_port := local_port c; players := players c;
     player_count := player_count c; local_player_id := local_player_id c;
     game_name := game_name c; game_id := game_id c; is_host := is_host c;
     discovered_games := discovered_games c; discovered_game_count := v;
     last_discovery_time := last_discovery_time c; next_sequence :=
     next_sequence c; receive_buffer := receive_buffer c; bytes_sent :=
     bytes_sent c; bytes_received := bytes_received c; messages_sent :=
     messages_sent c; messages_received := messages_received c; errors :=
     errors c |}.

Definition set_last_discovery_time (v : Z) (c : network_context_t) : network_context_t :=
  {| state := state c; server_socket := server_socket c; broadcast_socket :=
     broadcast_socket c; local_port := local_port c; players := players c;
     player_count := player_count c; local_player_id := local_player_id c;
     game_name := game_name c; game_id := game_id c; is_host := is_host c;
     discovered_games := discovered_games c; discovered_game_count :=
     discovered_game_count c; last_discovery_time := v; next_sequence :=
     next_sequence c; receive_buffer := receive_buffer c; bytes_sent :=
     bytes_sent c; bytes_received := bytes_received c; messages_sent :=
     messages_sent c; messages_received := messages_received c; errors :=
     errors c |}.

Definition set_next_sequence (v : Z) (c : network_context_t) : network_context_t :=
  {| state := state c; server_socket := server_socket c; broadcast_socket :=
     broadcast_socket c; local_port := local_port c; players := players c;
     player_count := player_count c; local_player_id := local_player_id c;
     game_name := game_name c; game_id := game_id c; is_host := is_host c;
     discovered_games := discovered_games c; discovered_game_count :=
     discovered_game_count c; last_discovery_time := last_discovery_time c;
     next_sequence := v; receive_buffer := receive_buffer c; bytes_sent :=
     bytes_sent c; bytes_received := bytes_received c; messages_sent :=
     messages_sent c; messages_received := messages_received c; errors :=
     errors c |}.

Definition set_receive_buffer (v : list byte) (c : network_context_t) : network_context_t :=
  {| state := state c; server_socket := server_socket c; broadcast_socket :=
     broadcast_socket c; local_port := local_port c; players := players c;
     player_count := player_count c; local_player_id := local_player_id c;
     game_name := game_name c; game_id := game_id c; is_host := is_host c;
     discovered_games := discovered_games c; discovered_game_count :=
     discovered_game_count c; last_discovery_time := last_discovery_time c;
     next_sequence := next_sequence c; receive_buffer := v; bytes_sent :=
     bytes_sent c; bytes_received := bytes_received c; messages_sent :=
     messages_sent c; messages_received := messages_received c; errors :=
     errors c |}.

Definition set_bytes_sent (v : Z) (c : network_context_t) : network_context_t :=
  {| state := state c; server_socket := server_socket c; broadcast_socket :=
     broadcast_socket c; local_port := local_port c; players := players c;
     player_count := player_count c; local_player_id := local_player_id c;
     game_name := game_name c; game_id := game_id c; is_host := is_host c;
     discovered_games := discovered_games c; discovered_game_count :=
     discovered_game_count c; last_discovery_time := last_discovery_time c;
     next_sequence := next_sequence c; receive_buffer := receive_buffer c;
     bytes_sent := v; bytes_received := bytes_received c; messages_sent :=
     messages_sent c; messages_received := messages_received c; errors :=
     errors c |}.

Definition set_bytes_received (v : Z) (c : network_context_t) : network_context_t :=
  {| state := state c; server_socket := server_socket c; broadcast_socket :=
     broadcast_socket c; local_port := local_port c; players := players c;
     player_count := player_count c; local_player_id := local_player_id c;
     game_name := game_name c; game_id := game_id c; is_host := is_host c;
     discovered_games := discovered_games c; discovered_game_count :=
     discovered_game_count c; last_discovery_time := last_discovery_time c;
     next_sequence := next_sequence c; receive_buffer := receive_buffer c;
     bytes_sent := bytes_sent c; bytes_received := v; messages_sent :=
     messages_sent c; messages_received := messages_received c; errors :=
     errors c |}.

Definition set_messages_sent (v : Z) (c : network_context_t) : network_context_t :=
  {| state := state c; server_socket := server_socket c; broadcast_socket :=
     broadcast_socket c; local_port := local_port c; players := players c;
     player_count := player_count c; local_player_id := local_player_id c;
     game_name := game_name c; game_id := game_id c; is_host := is_host c;
     discovered_games := discovered_games c; discovered_game_count :=
     discovered_game_count c; last_discovery_time := last_discovery_time c;
     next_sequence := next_sequence c; receive_buffer := receive_buffer c;
     bytes_sent := bytes_sent c; bytes_received := bytes_received c;
     messages_sent := v; messages_received := messages_received c; errors :=
     errors c |}.

Definition set_messages_received (v : Z) (c : network_context_t) : network_context_t :=
  {| state := state c; server_socket := server_socket c; broadcast_socket :=
     broadcast_socket c; local_port := local_port c; players := players c;
     player_count := player_count c; local_player_id := local_player_id c;
     game_name := game_name c; game_id := game_id c; is_host := is_host c;
     discovered_games := discovered_games c; discovered_game_count :=
     discovered_game_count c; last_discovery_time := last_discovery_time c;
     next_sequence := next_sequence c; receive_buffer := receive_buffer c;
     bytes_sent := bytes_sent c; bytes_received := bytes_received c;
     messages_sent := messages_sent c; messages_received := v; errors :=
     errors c |}.

Definition set_errors (v : Z) (c : network_context_t) : network_context_t :=
  {| state := state c; server_socket := server_socket c; broadcast_socket :=
     broadcast_socket c; local_port := local_port c; players := players c;
     player_count := player_count c; local_player_id := local_player_id c;
     game_name := game_name c; game_id := game_id c; is_host := is_host c;
     discovered_games := discovered_games c; discovered_game_count :=
     discovered_game_count c; last_discovery_time := last_discovery_time c;
     next_sequence := next_sequence c; receive_buffer := receive_buffer c;
     bytes_sent := bytes_sent c; bytes_received := bytes_received c;
     messages_sent := messages_sent c; messages_received := messages_received
     c; errors := v |}.

(** Function pointers of the table: [true] stands for a registered handler,
    [false] for NULL. *)
Record network_callbacks_t := {
  on_player_joined : bool;
  on_player_left : bool;
  on_game_data : bool;
  on_chat : bool;
  on_error : bool
}.

(** A call made through the table, with its arguments. *)
Inductive callback_event :=
| EvPlayerJoined (id : Z) (player_name : list byte)
| EvPlayerLeft (id : Z)
| EvGameData (id : Z) (data : list byte) (size : Z)
| EvChat (id : Z) (message : list byte).

(** One call of [sendto]: socket, destination, the bytes handed over and the
    value the call returned. *)
Record sent_datagram := {
  dg_sock : Z;
  dg_addr : sockaddr_in;
  dg_bytes : list byte;
  dg_ret : Z
}.

(** ** The world: globals, function statics and the observable trace

    [network_initialized] and [counter] are the statics of the module;
    [clock_reads] and [os_calls] index the oracles of the environment;
    [wire] logs every [sendto], [closed] every [CLOSE_SOCKET] and [events]
    every callback. *)

Record world := {
  g_network : network_context_t;
  g_network_callbacks : network_callbacks_t;
  network_initialized : Z;
  counter : Z;
  clock_reads : nat;
  os_calls : nat;
  wire : list sent_datagram;
  closed : list Z;
  events : list callback_event
}.

Definition put_g_network (v : network_context_t) (w : world) : world :=
  {| g_network := v; g_network_callbacks := g_network_callbacks w;
     network_initialized := network_initialized w; counter := counter w;
     clock_reads := clock_reads w; os_calls := os_calls w; wire := wire w;
     closed := closed w; events := events w |}.

Definition put_g_network_callbacks (v : network_callbacks_t) (w : world) : world :=
  {| g_network := g_network w; g_network_callbacks := v; network_initialized
     := network_initialized w; counter := counter w; clock_reads :=
     clock_reads w; os_calls := os_calls w; wire := wire w; closed := closed
     w; events := events w |}.

Definition put_network_initialized (v : Z) (w : world) : world :=
  {| g_network := g_network w; g_network_callbacks := g_network_callbacks w;
     network_initialized := v; counter := counter w; clock_reads :=
     clock_reads w; os_calls := os_calls w; wire := wire w; closed := closed
     w; events := events w |}.

Definition put_counter (v : Z) (w : world) : world :=
  {| g_network := g_network w; g_network_callbacks := g_network_callbacks w;
     network_initialized := network_initialized w; counter := v; clock_reads
     := clock_reads w; os_calls := os_calls w; wire := wire w; closed :=
     closed w; events := events w |}.

Definition put_clock_reads (v : nat) (w : world) : world :=
  {| g_network := g_network w; g_network_callbacks := g_network_callbacks w;
     network_initialized := network_initialized w; counter := counter w;
     clock_reads := v; os_calls := os_calls w; wire := wire w; closed :=
     closed w; events := events w |}.

Definition put_os_calls (v : nat) (w : world) : world :=
  {| g_network := g_network w; g_network_callbacks := g_network_callbacks w;
     network_initialized := network_initialized w; counter := counter w;
     clock_reads := clock_reads w; os_calls := v; wire := wire w; closed :=
     closed w; events := events w |}.

Definition put_wire (v : list sent_datagram) (w : world) : world :=
  {| g_network := g_network w; g_network_callbacks := g_network_callbacks w;
     network_initialized := network_initialized w; counter := counter w;
     clock_reads := clock_reads w; os_calls := os_calls w; wire := v; closed
     := closed w; events := events w |}.

Definition put_closed (v : list Z) (w : world) : world :=
  {| g_network := g_network w; g_network_callbacks := g_network_callbacks w;
     network_initialized := network_initialized w; counter := counter w;
     clock_reads := clock_reads w; os_calls := os_calls w; wire := wire w;
     closed := v; events := events w |}.

Definition put_events (v : list callback_event) (w : world) : world :=
  {| g_network := g_network w; g_network_callbacks := g_network_callbacks w;
     network_initialized := network_initialized w; counter := counter w;
     clock_reads := clock_reads w; os_calls := os_calls w; wire := wire w;
     closed := closed w; events := v |}.


(** A field of [g_network] updated in place. *)
Definition upd (f : network_context_t -> network_context_t) (w : world) : world :=
  put_g_network (f (g_network w)) w.

Definition log_send (d : sent_datagram) (w : world) : world :=
  put_wire (wire w ++ [d]) w.

Definition log_close (sock : Z) (w : world) : world :=
  put_closed (closed w ++ [sock]) w.

Definition log_event (e : callback_event) (w : world) : world :=
  put_events (events w ++ [e]) w.

Definition bytes_of_string (s : string) : list byte :=
  String.list_byte_of_string s.

(** [inet_ntop (AF_INET, ...)]: the four bytes of the address in memory order,
    in dotted decimal. *)
Definition inet_ntop (s_addr : Z) : list byte :=
  match store_le 4 s_addr with
  | [a; b; c; d] =>
      decimal (Z_of_byte a) ++ bytes_of_string "." ++ decimal (Z_of_byte b)
      ++ bytes_of_string "." ++ decimal (Z_of_byte c) ++ bytes_of_string "."
      ++ decimal (Z_of_byte d)
  | _ => []
  end.

(** ** The environment

    What the operating system answers.  [sys_time k] is the value of the
    [k]-th [time (NULL)]; [sys_ret k] the return value of the [k]-th call
    among [socket], [fcntl] and [bind]; [sys_sendto k bytes] the return value
    of the [k]-th [sendto]; [sys_stack k] the indeterminate contents of the
    local array [message] at the [k]-th send; [sys_gethostname] the host name
    ([None] when the call fails) and [sys_gethostbyname] the first address a
    name resolves to. *)
Record sys_env := {
  sys_time : nat -> Z;
  sys_ret : nat -> Z;
  sys_sendto : nat -> list byte -> Z;
  sys_stack : nat -> list byte;
  sys_gethostname : option (list byte);
  sys_gethostbyname : list byte -> option Z
}.

(** What one [recvfrom] on a non-blocking socket produced: a failure that set
    [errno], or a datagram (possibly empty) from a sender, in which case
    [errno] keeps the value it had before the call. *)
Inductive recv_result :=
| RecvFailed (errno : Z)
| RecvDatagram (from : sockaddr_in) (bytes : list byte) (errno : Z).

(** The bytes [recvfrom] stores: at most [NETWORK_BUFFER_SIZE] of them. *)
Definition recv_bytes (r : recv_result) : list byte :=
  match r with
  | RecvFailed _ => []
  | RecvDatagram _ bytes _ => take (Z.to_nat NETWORK_BUFFER_SIZE) bytes
  end.

(** The value [recvfrom] returns. *)
Definition recv_return (r : recv_result) : Z :=
  match r with
  | RecvFailed _ => -1
  | RecvDatagram _ _ _ => Z.of_nat (length (recv_bytes r))
  end.

(** [SOCKET_ERROR_CODE] read after the call. *)
Definition recv_errno (r : recv_result) : Z :=
  match r with
  | RecvFailed errno => errno
  | RecvDatagram _ _ errno => errno
  end.

(** The caller's variables that [_network_receive_message] writes through its
    pointer arguments; [None] stands for a NULL [data] or [size] pointer. *)
Record recv_out := {
  ro_from_addr : sockaddr_in;
  ro_type : Z;
  ro_data : option (list byte);
  ro_size : option Z
}.

(** The indeterminate initial values of the locals of [network_update]. *)
Record stack_frame := {
  sf_from_addr : sockaddr_in;
  sf_type : Z;
  sf_message_data : list byte;
  sf_size : Z
}.

(** The public operations, with their arguments and, for [network_update],
    what [recvfrom] yields on the session socket and on the discovery socket
    when they are polled.  The getters ([network_get_player_count],
    [network_get_discovered_games], [network_get_statistics], ...) only read
    the context and are left out. *)
Inductive api_call :=
| Call_init
| Call_shutdown
| Call_update (rs rb : recv_result) (frame : stack_frame)
| Call_host_game (game_name : option (list byte)) (port : Z)
| Call_join_game (hostname : list byte) (port : Z) (player_name : option (list byte))
| Call_disconnect
| Call_start_discovery
| Call_stop_discovery
| Call_broadcast_discovery
| Call_send_to_player (id type : Z) (data : option (list byte)) (size : Z)
| Call_send_to_all (type : Z) (data : option (list byte)) (size : Z)
| Call_send_chat (message : option (list byte))
| Call_send_game_state (data : option (list byte)) (size : Z)
| Call_send_turn_data (data : option (list byte)) (size : Z)
| Call_set_callbacks (callbacks : option network_callbacks_t).

(** Zero-initialised storage. *)
Definition zero_context : network_context_t :=
  {| state := NETWORK_STATE_DISCONNECTED; server_socket := 0;
     broadcast_socket := 0; local_port := 0;
     players := replicate 8 zero_player; player_count := 0;
     local_player_id := 0; game_name := replicate 64 x00; game_id := 0;
     is_host := 0; discovered_games := replicate 16 zero_game_info;
     discovered_game_count := 0; last_discovery_time := 0; next_sequence := 0;
     receive_buffer := replicate 4096 x00; bytes_sent := 0;
     bytes_received := 0; messages_sent := 0; messages_received := 0;
     errors := 0 |}.

Definition zero_callbacks : network_callbacks_t :=
  {| on_player_joined := false; on_player_left := false;
     on_game_data := false; on_chat := false; on_error := false |}.

(** The world when the program starts: globals zeroed, the statics at their
    initialisers, nothing sent yet. *)
Definition initial_world : world :=
  {| g_network := zero_context; g_network_callbacks := zero_callbacks;
     network_initialized := 0; counter := 1; clock_reads := O; os_calls := O;
     wire := []; closed := []; events := [] |}.

(** The roster scan shared by the dispatcher: the first of the [player_count]
    entries whose address and port are the sender's. *)
Definition find_player_by_addr (from_addr : sockaddr_in) (c : network_context_t)
    : option (nat * network_player_t) :=
  list_find (fun p => ip_address p = sin_addr from_addr
                      /\ port p = ntohs (sin_port from_addr))
            (take (Z.to_nat (player_count c)) (players c)).

Definition sender_id_of (from_addr : sockaddr_in) (c : network_context_t) : Z :=
  match find_player_by_addr from_addr c with
  | Some (_, p) => player_id p
  | None => 0
  end.

(** [for (j = i; j < player_count - 1; j++) players[j] = players[j + 1];]
    run for [fuel] iterations from [j]. *)
Fixpoint shift_players (fuel j : nat) (ps : list network_player_t)
    : list network_player_t :=
  match fuel with
  | O => ps
  | S fuel' =>
      shift_players fuel' (S j) (<[j := default zero_player (ps !! S j)]> ps)
  end.

Definition state_is (s : network_state_t) (w : world) : bool :=
  bool_decide (state (g_network w) = s).

Definition bump_errors (w : world) : world :=
  upd (set_errors (u32 (errors (g_network w) + 1))) w.

(** ** The module (n_network.c) *)

Section Network.

Variable E : sys_env.

(** [(uint32_t)(time (NULL) * 1000)]. *)
Definition get_timestamp (w : world) : Z * world :=
  (u32 (sys_time E (clock_reads w) * 1000),
   put_clock_reads (S (clock_reads w)) w).

(** [(get_timestamp () & 0xFFFFFF00) | (counter++ & 0xFF)]. *)
Definition _network_generate_player_id (w : world) : Z * world :=
  let '(ts, w1) := get_timestamp w in
  let c := counter w1 in
  (Z.lor (Z.land ts 0xFFFFFF00) (Z.land c 0xFF), put_counter (u32 (c + 1)) w1).

Definition _network_generate_game_id (w : world) : Z * world :=
  get_timestamp w.

(** The next answer of the operating system to [socket], [fcntl] or [bind]. *)
Definition os_call (w : world) : Z * world :=
  (sys_ret E (os_calls w), put_os_calls (S (os_calls w)) w).

Definition _network_set_nonblocking (sock : Z) (w : world) : Z * world :=
  let '(flags, w1) := os_call w in
  if flags =? -1 then (0, w1)
  else
    let '(r, w2) := os_call w1 in
    (if r =? 0 then 1 else 0, w2).

(** Returns the result and the value stored through [sock]; the results of
    the two [setsockopt] calls are not looked at. *)
Definition _network_create_socket (w : world) : Z * Z * world :=
  let '(fd, w1) := os_call w in
  if fd =? INVALID_SOCKET_VALUE then (0, fd, w1)
  else
    let '(r, w2) := _network_set_nonblocking fd w1 in
    (r, fd, w2).

Definition _network_bind_socket (sock port : Z) (w : world) : Z * world :=
  let '(r, w1) := os_call w in
  (if r =? 0 then 1 else 0, w1).

(** The buffer [message] as [_network_send_message] fills it. *)
Definition build_message (header : message_header_t) (data : option (list byte))
    (size : Z) (stack : list byte) : list byte :=
  let message :=
    memcpy_at (pad (Z.to_nat (sizeof_message_header_t + NETWORK_MAX_MESSAGE_SIZE)) stack)
              0 (header_bytes header) in
  match data with
  | Some d =>
      if 0 <? size
      then memcpy_at message (Z.to_nat sizeof_message_header_t) (take (Z.to_nat size) d)
      else message
  | None => message
  end.

Definition _network_send_message (sock : Z) (addr : sockaddr_in) (type : Z)
    (data : option (list byte)) (size : Z) (w : world) : Z * world :=
  if NETWORK_MAX_MESSAGE_SIZE <? size then (0, w)
  else
    let seq := next_sequence (g_network w) in
    let w1 := upd (set_next_sequence (u32 (seq + 1))) w in
    let '(ts, w2) := get_timestamp w1 in
    let header :=
      {| h_magic := htonl NETWORK_MAGIC;
         h_version := htons NETWORK_PROTOCOL_VERSION;
         h_type := htons (u16 type);
         h_size := htonl (u32 size);
         h_sequence := htonl seq;
         h_timestamp := htonl ts |} in
    let message := build_message header data size (sys_stack E (length (wire w2))) in
    let total_size := sizeof_message_header_t + size in
    let datagram := take (Z.to_nat total_size) message in
    let sent := sys_sendto E (length (wire w2)) datagram in
    let w3 :=
      log_send {| dg_sock := sock; dg_addr := addr; dg_bytes := datagram;
                  dg_ret := sent |} w2 in
    if sent =? total_size then
      let w4 := upd (set_bytes_sent (u32 (bytes_sent (g_network w3) + sent))) w3 in
      (1, upd (set_messages_sent (u32 (messages_sent (g_network w4) + 1))) w4)
    else (0, bump_errors w3).

Definition _network_receive_message (r : recv_result) (out : recv_out) (w : world)
    : Z * recv_out * world :=
  let received := recv_return r in
  (* recvfrom fills receive_buffer and, when it delivers, from_addr *)
  let w0 := upd (set_receive_buffer (memcpy_at (receive_buffer (g_network w)) 0 (recv_bytes r))) w in
  let out0 :=
    match r with
    | RecvFailed _ => out
    | RecvDatagram from _ _ =>
        {| ro_from_addr := from; ro_type := ro_type out; ro_data := ro_data out;
           ro_size := ro_size out |}
    end in
  if received <=? 0 then
    if recv_errno r =? SOCKET_WOULD_BLOCK then (0, out0, w0)
    else (-1, out0, bump_errors w0)
  else if received <? sizeof_message_header_t then (-1, out0, bump_errors w0)
  else
    let header := header_at (receive_buffer (g_network w0)) in
    if negb (ntohl (h_magic header) =? NETWORK_MAGIC) then (-1, out0, bump_errors w0)
    else if negb (ntohs (h_version header) =? NETWORK_PROTOCOL_VERSION)
    then (-1, out0, bump_errors w0)
    else
      let out1 :=
        {| ro_from_addr := ro_from_addr out0; ro_type := ntohs (h_type header);
           ro_data := ro_data out0; ro_size := ro_size out0 |} in
      let payload_size := ntohl (h_size header) in
      if (NETWORK_MAX_MESSAGE_SIZE <? payload_size)
         || negb (received =? sizeof_message_header_t + payload_size)
      then (-1, out1, bump_errors w0)
      else
        let out2 :=
          match ro_data out1, ro_size out1 with
          | Some d, Some _ =>
              {| ro_from_addr := ro_from_addr out1; ro_type := ro_type out1;
                 ro_data :=
                   Some (if 0 <? payload_size
                         then memcpy_at d 0
                                (slice (Z.to_nat sizeof_message_header_t)
                                       (Z.to_nat payload_size)
                                       (receive_buffer (g_network w0)))
                         else d);
                 ro_size := Some payload_size |}
          | _, _ => out1
          end in
        let w1 := upd (set_bytes_received (u32 (bytes_received (g_network w0) + received))) w0 in
        (1, out2,
         upd (set_messages_received (u32 (messages_received (g_network w1) + 1))) w1).

Definition network_get_local_ip : Z :=
  match sys_gethostname E with
  | None => INADDR_LOOPBACK
  | Some hostname =>
      match sys_gethostbyname E hostname with
      | None => INADDR_LOOPBACK
      | Some s_addr => s_addr
      end
  end.

(** The address built for a roster entry by the send operations. *)
Definition player_addr (p : network_player_t) : sockaddr_in :=
  {| sin_addr := ip_address p; sin_port := htons (port p) |}.

(** The loop of [network_send_to_all] over the roster entries. *)
Fixpoint send_to_each (ps : list network_player_t) (sock type : Z)
    (data : option (list byte)) (size : Z) (success_count : Z) (w : world)
    : Z * world :=
  match ps with
  | [] => (success_count, w)
  | p :: ps' =>
      if negb (connected p =? 0) then
        let '(r, w1) := _network_send_message sock (player_addr p) type data size w in
        send_to_each ps' sock type data size
          (if negb (r =? 0) then success_count + 1 else success_count) w1
      else send_to_each ps' sock type data size success_count w
  end.

Definition network_send_to_all (type : Z) (data : option (list byte)) (size : Z)
    (w : world) : Z * world :=
  if server_socket (g_network w) =? INVALID_SOCKET_VALUE then (0, w)
  else
    send_to_each (take (Z.to_nat (player_count (g_network w))) (players (g_network w)))
      (server_socket (g_network w)) type data size 0 w.

Definition network_send_to_player (id type : Z) (data : option (list byte))
    (size : Z) (w : world) : Z * world :=
  if server_socket (g_network w) =? INVALID_SOCKET_VALUE then (0, w)
  else
    match list_find (fun p => player_id p = id)
            (take (Z.to_nat (player_count (g_network w))) (players (g_network w))) with
    | Some (_, p) =>
        _network_send_message (server_socket (g_network w)) (player_addr p) type data size w
    | None => (0, w)
    end.

Definition network_send_chat (message : option (list byte)) (w : world) : Z * world :=
  match message with
  | None => (0, w)
  | Some m =>
      network_send_to_all (message_type_code MSG_CHAT) (Some (cstr m ++ [x00]))
        (Z.of_nat (length (cstr m)) + 1) w
  end.

Definition network_send_game_state (game_state : option (list byte)) (size : Z)
    (w : world) : Z * world :=
  network_send_to_all (message_type_code MSG_GAME_STATE_SYNC) game_state size w.

Definition network_send_turn_data (turn_data : option (list byte)) (size : Z)
    (w : world) : Z * world :=
  network_send_to_all (message_type_code MSG_TURN_DATA) turn_data size w.

Definition network_broadcast_discovery (w : world) : Z * world :=
  if broadcast_socket (g_network w) =? INVALID_SOCKET_VALUE then (0, w)
  else
    _network_send_message (broadcast_socket (g_network w))
      {| sin_addr := INADDR_BROADCAST; sin_port := htons NETWORK_BROADCAST_PORT |}
      (message_type_code MSG_DISCOVERY_REQUEST) None 0 w.

(** The dispatcher.  [data] is the caller's buffer ([message_data], never
    NULL at the call sites) and is returned because the discovery-response
    case writes [last_seen] into it through the cast pointer. *)
Definition _network_handle_message (from_addr : sockaddr_in) (type : Z)
    (data : list byte) (size : Z) (w : world) : list byte * world :=
  let c := g_network w in
  match message_type_of_code type with
  | Some MSG_DISCOVERY_REQUEST =>
      if negb (is_host c =? 0) && state_is NETWORK_STATE_HOSTING w then
        let game_info :=
          {| gi_game_name := strcpy (replicate 64 x00) (game_name c);
             gi_host_name := strcpy (replicate 32 x00) (bytes_of_string "Host");
             gi_host_ip := network_get_local_ip;
             gi_host_port := local_port c;
             gi_current_players := u8 (player_count c);
             gi_max_players := u8 NETWORK_MAX_PLAYERS;
             gi_game_id := game_id c;
             gi_last_seen := 0 |} in
        let '(_, w1) :=
          _network_send_message (broadcast_socket c) from_addr
            (message_type_code MSG_DISCOVERY_RESPONSE)
            (Some (game_info_bytes game_info)) sizeof_game_info_t w in
        (data, w1)
      else (data, w)
  | Some MSG_DISCOVERY_RESPONSE =>
      if (size =? sizeof_game_info_t)
         && (discovered_game_count c <? MAX_DISCOVERED_GAMES) then
        let '(ts, w1) := get_timestamp w in
        let data1 := memcpy_at data 108 (store_le 4 ts) in
        let game_info := game_info_at data1 in
        let count := discovered_game_count c in
        match list_find (fun g => gi_game_id g = gi_game_id game_info)
                (take (Z.to_nat count) (discovered_games c)) with
        | Some (i, _) =>
            (data1, upd (set_discovered_games (<[i := game_info]> (discovered_games c))) w1)
        | None =>
            (data1,
             upd (set_discovered_game_count (count + 1))
               (upd (set_discovered_games
                       (<[Z.to_nat count := game_info]> (discovered_games c))) w1))
        end
      else (data, w)
  | Some MSG_JOIN_REQUEST =>
      if negb (is_host c =? 0) && (player_count c <? NETWORK_MAX_PLAYERS) then
        let n := Z.to_nat (player_count c) in
        let player := default zero_player (players c !! n) in
        let '(id, w1) := _network_generate_player_id w in
        let '(ts, w2) := get_timestamp w1 in
        let name1 :=
          if 0 <? size
          then <[31%nat := x00]> (strncpy (name player) data 31)
          else memcpy (name player)
                 (bytes_of_string "Player" ++ decimal (player_count c + 1) ++ [x00]) in
        let hostname1 :=
          memcpy (hostname player) (inet_ntop (sin_addr from_addr) ++ [x00]) in
        let player1 :=
          {| player_id := id; name := name1; hostname := hostname1;
             ip_address := sin_addr from_addr;
             port := ntohs (sin_port from_addr);
             last_ping := ts; connected := 1 |} in
        let w3 :=
          upd (set_player_count (player_count c + 1))
            (upd (set_players (<[n := player1]> (players c))) w2) in
        let '(_, w4) :=
          _network_send_message (server_socket c) from_addr
            (message_type_code MSG_JOIN_RESPONSE) (Some (store_le 4 id)) 4 w3 in
        (data,
         if on_player_joined (g_network_callbacks w4)
         then log_event (EvPlayerJoined id name1) w4
         else w4)
      else (data, w)
  | Some MSG_JOIN_RESPONSE =>
      if state_is NETWORK_STATE_CONNECTING w && (size =? 4) then
        (data,
         upd (set_state NETWORK_STATE_CONNECTED)
           (upd (set_local_player_id (load_le (slice 0 4 data))) w))
      else (data, w)
  | Some MSG_GAME_DATA =>
      if on_game_data (g_network_callbacks w) then
        (data,
         log_event (EvGameData (sender_id_of from_addr c)
                      (take (Z.to_nat size) data) size) w)
      else (data, w)
  | Some MSG_CHAT =>
      (* on_chat is handed the caller's buffer itself, as a const char*: the
         event records the string a handler reads there, the bytes before the
         first NUL.  Nothing terminates the buffer: when all of its 1024
         bytes are non-zero the event holds them all, and a handler reading
         a C string would run past the array. *)
      if on_chat (g_network_callbacks w) && (0 <? size) then
        (data, log_event (EvChat (sender_id_of from_addr c) (cstr data)) w)
      else (data, w)
  | Some MSG_PLAYER_DISCONNECT =>
      match find_player_by_addr from_addr c with
      | Some (i, p) =>
          let w1 :=
            if on_player_left (g_network_callbacks w)
            then log_event (EvPlayerLeft (player_id p)) w
            else w in
          let count := player_count c in
          (data,
           upd (set_player_count (count - 1))
             (upd (set_players
                     (shift_players (Z.to_nat (count - 1) - i) i (players c))) w1))
      | None => (data, w)
      end
  | _ => (data, w)
  end.

(** One socket polled by [network_update]: receive, then dispatch when a
    message was delivered. *)
Definition poll_socket (r : recv_result) (out : recv_out) (w : world)
    : recv_out * world :=
  let '(result, out1, w1) := _network_receive_message r out w in
  if 0 <? result then
    let '(data1, w2) :=
      _network_handle_message (ro_from_addr out1) (ro_type out1)
        (default [] (ro_data out1)) (default 0 (ro_size out1)) w1 in
    ({| ro_from_addr := ro_from_addr out1; ro_type := ro_type out1;
        ro_data := Some data1; ro_size := ro_size out1 |}, w2)
  else (out1, w1).

(** The two polls of [network_update], in order. *)
Definition update_receive (rs rb : recv_result) (frame : stack_frame) (w : world)
    : world :=
  let out :=
    {| ro_from_addr := sf_from_addr frame; ro_type := sf_type frame;
       ro_data := Some (pad (Z.to_nat NETWORK_MAX_MESSAGE_SIZE) (sf_message_data frame));
       ro_size := Some (sf_size frame) |} in
  let '(out1, w1) :=
    if negb (server_socket (g_network w) =? INVALID_SOCKET_VALUE)
    then poll_socket rs out w else (out, w) in
  let '(_, w2) :=
    if negb (broadcast_socket (g_network w1) =? INVALID_SOCKET_VALUE)
    then poll_socket rb out1 w1 else (out1, w1) in
  w2.

(** The periodic discovery request at the end of [network_update]; the clock
    is read only when the first two conjuncts hold. *)
Definition update_discovery (w : world) : world :=
  if negb (broadcast_socket (g_network w) =? INVALID_SOCKET_VALUE)
     && (is_host (g_network w) =? 0) then
    let '(now, w1) := get_timestamp w in
    if NETWORK_DISCOVERY_INTERVAL <? u32 (now - last_discovery_time (g_network w1)) then
      let '(_, w2) := network_broadcast_discovery w1 in
      let '(now2, w3) := get_timestamp w2 in
      upd (set_last_discovery_time now2) w3
    else w1
  else w.

Definition network_update (rs rb : recv_result) (frame : stack_frame) (w : world)
    : world :=
  if (network_initialized w =? 0) || state_is NETWORK_STATE_DISCONNECTED w then w
  else update_discovery (update_receive rs rb frame w).

Definition close_socket (sock : Z) (w : world) : world := log_close sock w.

Definition network_host_game (game_name_arg : option (list byte)) (port_arg : Z)
    (w : world) : Z * world :=
  if negb (state_is NETWORK_STATE_DISCONNECTED w) then (0, w)
  else
    let '(r1, fd1, w1) := _network_create_socket w in
    let w1 := upd (set_server_socket fd1) w1 in
    if r1 =? 0 then (0, w1)
    else
      let '(r2, w2) := _network_bind_socket fd1 port_arg w1 in
      if r2 =? 0 then
        (0, upd (set_server_socket INVALID_SOCKET_VALUE) (close_socket fd1 w2))
      else
        let '(r3, fd2, w3) := _network_create_socket w2 in
        let w3 := upd (set_broadcast_socket fd2) w3 in
        if r3 =? 0 then
          (0, upd (set_server_socket INVALID_SOCKET_VALUE) (close_socket fd1 w3))
        else
          let '(r4, w4) := _network_bind_socket fd2 NETWORK_BROADCAST_PORT w3 in
          if r4 =? 0 then
            (0,
             upd (set_broadcast_socket INVALID_SOCKET_VALUE)
               (upd (set_server_socket INVALID_SOCKET_VALUE)
                  (close_socket fd2 (close_socket fd1 w4))))
          else
            let w5 :=
              upd (set_player_count 0)
                (upd (set_state NETWORK_STATE_HOSTING)
                   (upd (set_is_host 1) (upd (set_local_port (u16 port_arg)) w4))) in
            (1,
             match game_name_arg with
             | Some n =>
                 upd (set_game_name
                        (<[63%nat := x00]>
                           (strncpy (game_name (g_network w5)) n 63))) w5
             | None => w5
             end).

Definition network_join_game (hostname_arg : list byte) (port_arg : Z)
    (player_name : option (list byte)) (w : world) : Z * world :=
  if negb (state_is NETWORK_STATE_DISCONNECTED w) then (0, w)
  else
    let '(r1, fd1, w1) := _network_create_socket w in
    let w1 := upd (set_server_socket fd1) w1 in
    if r1 =? 0 then (0, w1)
    else
      match sys_gethostbyname E (cstr hostname_arg) with
      | None => (0, upd (set_server_socket INVALID_SOCKET_VALUE) (close_socket fd1 w1))
      | Some s_addr =>
          let server_addr := {| sin_addr := s_addr; sin_port := htons (u16 port_arg) |} in
          let join_data :=
            match player_name with
            | Some n => <[63%nat := x00]> (strncpy (replicate 64 x00) n 63)
            | None => strcpy (replicate 64 x00) (bytes_of_string "Player")
            end in
          let '(r2, w2) :=
            _network_send_message fd1 server_addr (message_type_code MSG_JOIN_REQUEST)
              (Some join_data) (Z.of_nat (length (cstr join_data)) + 1) w1 in
          if r2 =? 0 then
            (0, upd (set_server_socket INVALID_SOCKET_VALUE) (close_socket fd1 w2))
          else
            (1, upd (set_state NETWORK_STATE_CONNECTING) (upd (set_is_host 0) w2))
      end.

Definition network_disconnect (w : world) : world :=
  if state_is NETWORK_STATE_DISCONNECTED w then w
  else
    let w1 :=
      if state_is NETWORK_STATE_CONNECTED w || state_is NETWORK_STATE_HOSTING w
      then snd (network_send_to_all (message_type_code MSG_PLAYER_DISCONNECT) None 0 w)
      else w in
    let w2 :=
      if negb (server_socket (g_network w1) =? INVALID_SOCKET_VALUE)
      then upd (set_server_socket INVALID_SOCKET_VALUE)
             (close_socket (server_socket (g_network w1)) w1)
      else w1 in
    let w3 :=
      if negb (broadcast_socket (g_network w2) =? INVALID_SOCKET_VALUE)
      then upd (set_broadcast_socket INVALID_SOCKET_VALUE)
             (close_socket (broadcast_socket (g_network w2)) w2)
      else w2 in
    upd (set_players (replicate 8 zero_player))
      (upd (set_is_host 0)
         (upd (set_player_count 0)
            (upd (set_state NETWORK_STATE_DISCONNECTED) w3))).

Definition network_start_discovery (w : world) : Z * world :=
  let '(r, fd, w1) := _network_create_socket w in
  let w1 := upd (set_broadcast_socket fd) w1 in
  if r =? 0 then (0, w1)
  else
    let w2 := upd (set_discovered_game_count 0) w1 in
    let '(ts, w3) := get_timestamp w2 in
    network_broadcast_discovery (upd (set_last_discovery_time ts) w3).

Definition network_stop_discovery (w : world) : world :=
  if negb (broadcast_socket (g_network w) =? INVALID_SOCKET_VALUE)
  then upd (set_broadcast_socket INVALID_SOCKET_VALUE)
         (close_socket (broadcast_socket (g_network w)) w)
  else w.

Definition network_init (w : world) : Z * world :=
  if negb (network_initialized w =? 0) then (1, w)
  else
    (* platform_network_init () succeeds outside Windows *)
    let w1 := put_g_network_callbacks zero_callbacks (put_g_network zero_context w) in
    let w2 :=
      upd (set_next_sequence 1)
        (upd (set_local_port NETWORK_DEFAULT_PORT)
           (upd (set_broadcast_socket INVALID_SOCKET_VALUE)
              (upd (set_server_socket INVALID_SOCKET_VALUE)
                 (upd (set_state NETWORK_STATE_DISCONNECTED) w1)))) in
    let '(gid, w3) := _network_generate_game_id w2 in
    let w3 := upd (set_game_id gid) w3 in
    let '(pid, w4) := _network_generate_player_id w3 in
    let w4 := upd (set_local_player_id pid) w4 in
    let w5 :=
      upd (set_game_name
             (strcpy (game_name (g_network w4))
                (bytes_of_string "Liberation Circuit Game"))) w4 in
    (1, put_network_initialized 1 w5).

Definition network_shutdown (w : world) : world :=
  if network_initialized w =? 0 then w
  else put_network_initialized 0 (network_disconnect w).

Definition network_set_callbacks (callbacks : option network_callbacks_t)
    (w : world) : world :=
  match callbacks with
  | Some cb => put_g_network_callbacks cb w
  | None => put_g_network_callbacks zero_callbacks w
  end.

(** ** Runs of the public interface *)

Definition step (call : api_call) (w : world) : world :=
  match call with
  | Call_init => snd (network_init w)
  | Call_shutdown => network_shutdown w
  | Call_update rs rb frame => network_update rs rb frame w
  | Call_host_game n p => snd (network_host_game n p w)
  | Call_join_game h p n => snd (network_join_game h p n w)
  | Call_disconnect => network_disconnect w
  | Call_start_discovery => snd (network_start_discovery w)
  | Call_stop_discovery => network_stop_discovery w
  | Call_broadcast_discovery => snd (network_broadcast_discovery w)
  | Call_send_to_player id t d s => snd (network_send_to_player id t d s w)
  | Call_send_to_all t d s => snd (network_send_to_all t d s w)
  | Call_send_chat m => snd (network_send_chat m w)
  | Call_send_game_state d s => snd (network_send_game_state d s w)
  | Call_send_turn_data d s => snd (network_send_turn_data d s w)
  | Call_set_callbacks cb => network_set_callbacks cb w
  end.

Fixpoint run (calls : list api_call) (w : world) : world :=
  match calls with
  | [] => w
  | call :: rest => run rest (step call w)
  end.

(** The worlds the program can be in: those a sequence of public calls leads
    to from the start of the program. *)
Definition reachable (w : world) : Prop :=
  exists calls, w = run calls initial_world.

End Network.

(** ** The read-only part of the public interface (n_network.c)

    These functions read [g_network] and leave the world as it is. *)

(** [memcpy (dst, src, n * sizeof *src)] between two arrays of entries. *)
Definition copy_entries {A : Type} (dst src : list A) (n : nat) : list A :=
  take n src ++ drop n dst.

(** [network_get_discovered_games]: the value returned and the caller's array
    after the call ([None] for a NULL [games]).  The copy is defined when the
    count is not negative and both arrays hold that many entries; otherwise
    [memcpy] runs out of bounds and the whole result is [None]. *)
Definition network_get_discovered_games (games : option (list game_info_t))
    (max_games : Z) (w : world) : option (Z * option (list game_info_t)) :=
  let count := discovered_game_count (g_network w) in
  let count := if max_games <? count then max_games else count in
  match games with
  | None => Some (count, None)
  | Some g =>
      if (0 <=? count) && (count <=? Z.of_nat (length g))
         && (count <=? Z.of_nat (length (discovered_games (g_network w))))
      then Some (count,
                 Some (copy_entries g (discovered_games (g_network w)) (Z.to_nat count)))
      else None
  end.

(** The enumerators of [network_state_t] count from 0. *)
Definition network_state_code (s : network_state_t) : Z :=
  match s with
  | NETWORK_STATE_DISCONNECTED => 0
  | NETWORK_STATE_HOSTING => 1
  | NETWORK_STATE_CONNECTING => 2
  | NETWORK_STATE_CONNECTED => 3
  | NETWORK_STATE_ERROR => 4
  end.

(** The argument is whatever integer the caller passes as a state. *)
Definition network_get_state_string (state_arg : Z) : string :=
  match state_arg with
  | 0 => "Disconnected"
  | 1 => "Hosting"
  | 2 => "Connecting"
  | 3 => "Connected"
  | 4 => "Error"
  | _ => "Unknown"
  end.

Definition network_get_player_count (w : world) : Z := player_count (g_network w).

(** The pointer returned is the slot of the entry, [None] for NULL. *)
Definition network_get_player (id : Z) (w : world) : option nat :=
  fst <$> list_find (fun p => player_id p = id)
            (take (Z.to_nat (player_count (g_network w))) (players (g_network w))).

Definition network_get_all_players (w : world) : list network_player_t :=
  players (g_network w).

Definition network_get_local_player_id (w : world) : Z :=
  local_player_id (g_network w).

(** The five variables [network_get_statistics] writes through its pointer
    arguments; [None] stands for a NULL pointer. *)
Record statistics_out := {
  so_bytes_sent : option Z;
  so_bytes_received : option Z;
  so_messages_sent : option Z;
  so_messages_received : option Z;
  so_errors : option Z
}.

Definition network_get_statistics (out : statistics_out) (w : world) : statistics_out :=
  let c := g_network w in
  {| so_bytes_sent := (fun _ => bytes_sent c) <$> so_bytes_sent out;
     so_bytes_received := (fun _ => bytes_received c) <$> so_bytes_received out;
     so_messages_sent := (fun _ => messages_sent c) <$> so_messages_sent out;
     so_messages_received := (fun _ => messages_received c) <$> so_messages_received out;
     so_errors := (fun _ => errors c) <$> so_errors out |}.

(** * The multiplayer menu (s_multiplayer.c)

    The menu is the caller of the network module.  Its global [g_mp_menu],
    the statics of its input handlers and [game.phase] are threaded through
    in a [menu_world] next to the world of the network module.  Drawing
    changes none of them and is left out, except for the text of the
    connection status line.

    - [al_get_time () * 1000 + timeout], converted to [uint32_t], is given by
      an oracle from the number of the reading and the timeout added.
    - The keyboard is an argument of the input handler: [kb k key] is what
      [al_key_down] answers for [key] on the [k]-th keyboard state the call
      takes.  The values kept in the statics are those answers.
    - The callbacks of the network module are the functions of this file
      (the only ones [multiplayer_menu_init] installs).  The network module
      calls them from inside [network_update]; they touch [g_mp_menu] and the
      Allegro clock only, which the network module never reads, so they are
      run on the calls logged by the update, in order, after it.
    - [ALLEGRO_COLOR] is either zeroed storage or what [al_map_rgb] made. *)

Inductive multiplayer_menu_state_t :=
| MP_MENU_MAIN
| MP_MENU_HOST_SETUP
| MP_MENU_GAME_BROWSER
| MP_MENU_JOIN_SETUP
| MP_MENU_LOBBY
| MP_MENU_CONNECTING
| MP_MENU_ERROR
| MP_MENU_SETTINGS.

Global Instance multiplayer_menu_state_eq_dec : EqDecision multiplayer_menu_state_t.
Proof. solve_decision. Defined.

Inductive ALLEGRO_COLOR :=
| color_zero
| al_map_rgb (r g b : Z).

Definition MP_COLOR_ERROR : ALLEGRO_COLOR := al_map_rgb 255 100 100.
Definition MP_COLOR_SUCCESS : ALLEGRO_COLOR := al_map_rgb 100 255 100.
Definition MP_COLOR_WARNING : ALLEGRO_COLOR := al_map_rgb 255 255 100.

Definition MP_REFRESH_INTERVAL : Z := 2000.
Definition GAME_PHASE_MENU : Z := 6.

Inductive allegro_key :=
| ALLEGRO_KEY_1
| ALLEGRO_KEY_2
| ALLEGRO_KEY_3
| ALLEGRO_KEY_R
| ALLEGRO_KEY_ESCAPE
| ALLEGRO_KEY_ENTER
| ALLEGRO_KEY_SPACE
| ALLEGRO_KEY_UP
| ALLEGRO_KEY_DOWN.

Record game_browser_entry_t := {
  be_game_info : game_info_t;
  be_ping : Z;
  be_selected : Z;
  be_last_update : Z
}.

Record lobby_player_entry_t := {
  lp_player : network_player_t;
  lp_ready : Z;
  lp_host : Z;
  lp_name_color : ALLEGRO_COLOR
}.

Definition zero_browser_entry : game_browser_entry_t :=
  {| be_game_info := zero_game_info; be_ping := 0; be_selected := 0;
     be_last_update := 0 |}.

Definition zero_lobby_entry : lobby_player_entry_t :=
  {| lp_player := zero_player; lp_ready := 0; lp_host := 0;
     lp_name_color := color_zero |}.

Record multiplayer_menu_context_t := {
  current_state : multiplayer_menu_state_t;
  previous_state : multiplayer_menu_state_t;
  host_game_name : list byte;  (* char host_game_name[64] *)
  host_player_name : list byte;  (* char host_player_name[32] *)
  host_port : Z;
  host_max_players : Z;
  join_hostname : list byte;  (* char join_hostname[256] *)
  join_player_name : list byte;  (* char join_player_name[32] *)
  join_port : Z;
  browser_games : list game_browser_entry_t;  (* browser_games[16] *)
  browser_game_count : Z;
  browser_selected_game : Z;
  browser_last_refresh : Z;
  browser_auto_refresh : Z;
  lobby_players : list lobby_player_entry_t;  (* lobby_players[8] *)
  lobby_player_count : Z;
  lobby_ready : Z;
  status_message : list byte;  (* char status_message[256] *)
  status_timeout : Z;
  status_color : ALLEGRO_COLOR;
  error_message : list byte;  (* char error_message[512] *)
  error_timeout : Z;
  default_player_name : list byte  (* char default_player_name[32] *)
}.

Definition set_current_state (v : multiplayer_menu_state_t) (m : multiplayer_menu_context_t)
    : multiplayer_menu_context_t :=
  {| current_state := v; previous_state := previous_state m; host_game_name :=
     host_game_name m; host_player_name := host_player_name m; host_port :=
     host_port m; host_max_players := host_max_players m; join_hostname :=
     join_hostname m; join_player_name := join_player_name m; join_port :=
     join_port m; browser_games := browser_games m; browser_game_count :=
     browser_game_count m; browser_selected_game := browser_selected_game m;
     browser_last_refresh := browser_last_refresh m; browser_auto_refresh :=
     browser_auto_refresh m; lobby_players := lobby_players m;
     lobby_player_count := lobby_player_count m; lobby_ready := lobby_ready m;
     status_message := status_message m; status_timeout := status_timeout m;
     status_color := status_color m; error_message := error_message m;
     error_timeout := error_timeout m; default_player_name :=
     default_player_name m |}.

Definition set_previous_state (v : multiplayer_menu_state_t) (m : multiplayer_menu_context_t)
    : multiplayer_menu_context_t :=
  {| current_state := current_state m; previous_state := v; host_game_name :=
     host_game_name m; host_player_name := host_player_name m; host_port :=
     host_port m; host_max_players := host_max_players m; join_hostname :=
     join_hostname m; join_player_name := join_player_name m; join_port :=
     join_port m; browser_games := browser_games m; browser_game_count :=
     browser_game_count m; browser_selected_game := browser_selected_game m;
     browser_last_refresh := browser_last_refresh m; browser_auto_refresh :=
     browser_auto_refresh m; lobby_players := lobby_players m;
     lobby_player_count := lobby_player_count m; lobby_ready := lobby_ready m;
     status_message := status_message m; status_timeout := status_timeout m;
     status_color := status_color m; error_message := error_message m;
     error_timeout := error_timeout m; default_player_name :=
     default_player_name m |}.

Definition set_host_game_name (v : list byte) (m : multiplayer_menu_context_t)
    : multiplayer_menu_context_t :=
  {| current_state := current_state m; previous_state := previous_state m;
     host_game_name := v; host_player_name := host_player_name m; host_port :=
     host_port m; host_max_players := host_max_players m; join_hostname :=
     join_hostname m; join_player_name := join_player_name m; join_port :=
     join_port m; browser_games := browser_games m; browser_game_count :=
     browser_game_count m; browser_selected_game := browser_selected_game m;
     browser_last_refresh := browser_last_refresh m; browser_auto_refresh :=
     browser_auto_refresh m; lobby_players := lobby_players m;
     lobby_player_count := lobby_player_count m; lobby_ready := lobby_ready m;
     status_message := status_message m; status_timeout := status_timeout m;
     status_color := status_color m; error_message := error_message m;
     error_timeout := error_timeout m; default_player_name :=
     default_player_name m |}.

Definition set_host_player_name (v : list byte) (m : multiplayer_menu_context_t)
    : multiplayer_menu_context_t :=
  {| current_state := current_state m; previous_state := previous_state m;
     host_game_name := host_game_name m; host_player_name := v; host_port :=
     host_port m; host_max_players := host_max_players m; join_hostname :=
     join_hostname m; join_player_name := join_player_name m; join_port :=
     join_port m; browser_games := browser_games m; browser_game_count :=
     browser_game_count m; browser_selected_game := browser_selected_game m;
     browser_last_refresh := browser_last_refresh m; browser_auto_refresh :=
     browser_auto_refresh m; lobby_players := lobby_players m;
     lobby_player_count := lobby_player_count m; lobby_ready := lobby_ready m;
     status_message := status_message m; status_timeout := status_timeout m;
     status_color := status_color m; error_message := error_message m;
     error_timeout := error_timeout m; default_player_name :=
     default_player_name m |}.

Definition set_host_port (v : Z) (m : multiplayer_menu_context_t)
    : multiplayer_menu_context_t :=
  {| current_state := current_state m; previous_state := previous_state m;
     host_game_name := host_game_name m; host_player_name := host_player_name
     m; host_port := v; host_max_players := host_max_players m; join_hostname
     := join_hostname m; join_player_name := join_player_name m; join_port :=
     join_port m; browser_games := browser_games m; browser_game_count :=
     browser_game_count m; browser_selected_game := browser_selected_game m;
     browser_last_refresh := browser_last_refresh m; browser_auto_refresh :=
     browser_auto_refresh m; lobby_players := lobby_players m;
     lobby_player_count := lobby_player_count m; lobby_ready := lobby_ready m;
     status_message := status_message m; status_timeout := status_timeout m;
     status_color := status_color m; error_message := error_message m;
     error_timeout := error_timeout m; default_player_name :=
     default_player_name m |}.

Definition set_host_max_players (v : Z) (m : multiplayer_menu_context_t)
    : multiplayer_menu_context_t :=
  {| current_state := current_state m; previous_state := previous_state m;
     host_game_name := host_game_name m; host_player_name := host_player_name
     m; host_port := host_port m; host_max_players := v; join_hostname :=
     join_hostname m; join_player_name := join_player_name m; join_port :=
     join_port m; browser_games := browser_games m; browser_game_count :=
     browser_game_count m; browser_selected_game := browser_selected_game m;
     browser_last_refresh := browser_last_refresh m; browser_auto_refresh :=
     browser_auto_refresh m; lobby_players := lobby_players m;
     lobby_player_count := lobby_player_count m; lobby_ready := lobby_ready m;
     status_message := status_message m; status_timeout := status_timeout m;
     status_color := status_color m; error_message := error_message m;
     error_timeout := error_timeout m; default_player_name :=
     default_player_name m |}.

Definition set_join_hostname (v : list byte) (m : multiplayer_menu_context_t)
    : multiplayer_menu_context_t :=
  {| current_state := current_state m; previous_state := previous_state m;
     host_game_name := host_game_name m; host_player_name := host_player_name
     m; host_port := host_port m; host_max_players := host_max_players m;
     join_hostname := v; join_player_name := join_player_name m; join_port :=
     join_port m; browser_games := browser_games m; browser_game_count :=
     browser_game_count m; browser_selected_game := browser_selected_game m;
     browser_last_refresh := browser_last_refresh m; browser_auto_refresh :=
     browser_auto_refresh m; lobby_players := lobby_players m;
     lobby_player_count := lobby_player_count m; lobby_ready := lobby_ready m;
     status_message := status_message m; status_timeout := status_timeout m;
     status_color := status_color m; error_message := error_message m;
     error_timeout := error_timeout m; default_player_name :=
     default_player_name m |}.

Definition set_join_player_name (v : list byte) (m : multiplayer_menu_context_t)
    : multiplayer_menu_context_t :=
  {| current_state := current_state m; previous_state := previous_state m;
     host_game_name := host_game_name m; host_player_name := host_player_name
     m; host_port := host_port m; host_max_players := host_max_players m;
     join_hostname := join_hostname m; join_player_name := v; join_port :=
     join_port m; browser_games := browser_games m; browser_game_count :=
     browser_game_count m; browser_selected_game := browser_selected_game m;
     browser_last_refresh := browser_last_refresh m; browser_auto_refresh :=
     browser_auto_refresh m; lobby_players := lobby_players m;
     lobby_player_count := lobby_player_count m; lobby_ready := lobby_ready m;
     status_message := status_message m; status_timeout := status_timeout m;
     status_color := status_color m; error_message := error_message m;
     error_timeout := error_timeout m; default_player_name :=
     default_player_name m |}.

Definition set_join_port (v : Z) (m : multiplayer_menu_context_t)
    : multiplayer_menu_context_t :=
  {| current_state := current_state m; previous_state := previous_state m;
     host_game_name := host_game_name m; host_player_name := host_player_name
     m; host_port := host_port m; host_max_players := host_max_players m;
     join_hostname := join_hostname m; join_player_name := join_player_name m;
     join_port := v; browser_games := browser_games m; browser_game_count :=
     browser_game_count m; browser_selected_game := browser_selected_game m;
     browser_last_refresh := browser_last_refresh m; browser_auto_refresh :=
     browser_auto_refresh m; lobby_players := lobby_players m;
     lobby_player_count := lobby_player_count m; lobby_ready := lobby_ready m;
     status_message := status_message m; status_timeout := status_timeout m;
     status_color := status_color m; error_message := error_message m;
     error_timeout := error_timeout m; default_player_name :=
     default_player_name m |}.

Definition set_browser_games (v : list game_browser_entry_t) (m : multiplayer_menu_context_t)
    : multiplayer_menu_context_t :=
  {| current_state := current_state m; previous_state := previous_state m;
     host_game_name := host_game_name m; host_player_name := host_player_name
     m; host_port := host_port m; host_max_players := host_max_players m;
     join_hostname := join_hostname m; join_player_name := join_player_name m;
     join_port := join_port m; browser_games := v; browser_game_count :=
     browser_game_count m; browser_selected_game := browser_selected_game m;
     browser_last_refresh := browser_last_refresh m; browser_auto_refresh :=
     browser_auto_refresh m; lobby_players := lobby_players m;
     lobby_player_count := lobby_player_count m; lobby_ready := lobby_ready m;
     status_message := status_message m; status_timeout := status_timeout m;
     status_color := status_color m; error_message := error_message m;
     error_timeout := error_timeout m; default_player_name :=
     default_player_name m |}.

Definition set_browser_game_count (v : Z) (m : multiplayer_menu_context_t)
    : multiplayer_menu_context_t :=
  {| current_state := current_state m; previous_state := previous_state m;
     host_game_name := host_game_name m; host_player_name := host_player_name
     m; host_port := host_port m; host_max_players := host_max_players m;
     join_hostname := join_hostname m; join_player_name := join_player_name m;
     join_port := join_port m; browser_games := browser_games m;
     browser_game_count := v; browser_selected_game := browser_selected_game
     m; browser_last_refresh := browser_last_refresh m; browser_auto_refresh
     := browser_auto_refresh m; lobby_players := lobby_players m;
     lobby_player_count := lobby_player_count m; lobby_ready := lobby_ready m;
     status_message := status_message m; status_timeout := status_timeout m;
     status_color := status_color m; error_message := error_message m;
     error_timeout := error_timeout m; default_player_name :=
     default_player_name m |}.

Definition set_browser_selected_game (v : Z) (m : multiplayer_menu_context_t)
    : multiplayer_menu_context_t :=
  {| current_state := current_state m; previous_state := previous_state m;
     host_game_name := host_game_name m; host_player_name := host_player_name
     m; host_port := host_port m; host_max_players := host_max_players m;
     join_hostname := join_hostname m; join_player_name := join_player_name m;
     join_port := join_port m; browser_games := browser_games m;
     browser_game_count := browser_game_count m; browser_selected_game := v;
     browser_last_refresh := browser_last_refresh m; browser_auto_refresh :=
     browser_auto_refresh m; lobby_players := lobby_players m;
     lobby_player_count := lobby_player_count m; lobby_ready := lobby_ready m;
     status_message := status_message m; status_timeout := status_timeout m;
     status_color := status_color m; error_message := error_message m;
     error_timeout := error_timeout m; default_player_name :=
     default_player_name m |}.

Definition set_browser_last_refresh (v : Z) (m : multiplayer_menu_context_t)
    : multiplayer_menu_context_t :=
  {| current_state := current_state m; previous_state := previous_state m;
     host_game_name := host_game_name m; host_player_name := host_player_name
     m; host_port := host_port m; host_max_players := host_max_players m;
     join_hostname := join_hostname m; join_player_name := join_player_name m;
     join_port := join_port m; browser_games := browser_games m;
     browser_game_count := browser_game_count m; browser_selected_game :=
     browser_selected_game m; browser_last_refresh := v; browser_auto_refresh
     := browser_auto_refresh m; lobby_players := lobby_players m;
     lobby_player_count := lobby_player_count m; lobby_ready := lobby_ready m;
     status_message := status_message m; status_timeout := status_timeout m;
     status_color := status_color m; error_message := error_message m;
     error_timeout := error_timeout m; default_player_name :=
     default_player_name m |}.

Definition set_browser_auto_refresh (v : Z) (m : multiplayer_menu_context_t)
    : multiplayer_menu_context_t :=
  {| current_state := current_state m; previous_state := previous_state m;
     host_game_name := host_game_name m; host_player_name := host_player_name
     m; host_port := host_port m; host_max_players := host_max_players m;
     join_hostname := join_hostname m; join_player_name := join_player_name m;
     join_port := join_port m; browser_games := browser_games m;
     browser_game_count := browser_game_count m; browser_selected_game :=
     browser_selected_game m; browser_last_refresh := browser_last_refresh m;
     browser_auto_refresh := v; lobby_players := lobby_players m;
     lobby_player_count := lobby_player_count m; lobby_ready := lobby_ready m;
     status_message := status_message m; status_timeout := status_timeout m;
     status_color := status_color m; error_message := error_message m;
     error_timeout := error_timeout m; default_player_name :=
     default_player_name m |}.

Definition set_lobby_players (v : list lobby_player_entry_t) (m : multiplayer_menu_context_t)
    : multiplayer_menu_context_t :=
  {| current_state := current_state m; previous_state := previous_state m;
     host_game_name := host_game_name m; host_player_name := host_player_name
     m; host_port := host_port m; host_max_players := host_max_players m;
     join_hostname := join_hostname m; join_player_name := join_player_name m;
     join_port := join_port m; browser_games := browser_games m;
     browser_game_count := browser_game_count m; browser_selected_game :=
     browser_selected_game m; browser_last_refresh := browser_last_refresh m;
     browser_auto_refresh := browser_auto_refresh m; lobby_players := v;
     lobby_player_count := lobby_player_count m; lobby_ready := lobby_ready m;
     status_message := status_message m; status_timeout := status_timeout m;
     status_color := status_color m; error_message := error_message m;
     error_timeout := error_timeout m; default_player_name :=
     default_player_name m |}.

Definition set_lobby_player_count (v : Z) (m : multiplayer_menu_context_t)
    : multiplayer_menu_context_t :=
  {| current_state := current_state m; previous_state := previous_state m;
     host_game_name := host_game_name m; host_player_name := host_player_name
     m; host_port := host_port m; host_max_players := host_max_players m;
     join_hostname := join_hostname m; join_player_name := join_player_name m;
     join_port := join_port m; browser_games := browser_games m;
     browser_game_count := browser_game_count m; browser_selected_game :=
     browser_selected_game m; browser_last_refresh := browser_last_refresh m;
     browser_auto_refresh := browser_auto_refresh m; lobby_players :=
     lobby_players m; lobby_player_count := v; lobby_ready := lobby_ready m;
     status_message := status_message m; status_timeout := status_timeout m;
     status_color := status_color m; error_message := error_message m;
     error_timeout := error_timeout m; default_player_name :=
     default_player_name m |}.

Definition set_lobby_ready (v : Z) (m : multiplayer_menu_context_t)
    : multiplayer_menu_context_t :=
  {| current_state := current_state m; previous_state := previous_state m;
     host_game_name := host_game_name m; host_player_name := host_player_name
     m; host_port := host_port m; host_max_players := host_max_players m;
     join_hostname := join_hostname m; join_player_name := join_player_name m;
     join_port := join_port m; browser_games := browser_games m;
     browser_game_count := browser_game_count m; browser_selected_game :=
     browser_selected_game m; browser_last_refresh := browser_last_refresh m;
     browser_auto_refresh := browser_auto_refresh m; lobby_players :=
     lobby_players m; lobby_player_count := lobby_player_count m; lobby_ready
     := v; status_message := status_message m; status_timeout :=
     status_timeout m; status_color := status_color m; error_message :=
     error_message m; error_timeout := error_timeout m; default_player_name :=
     default_player_name m |}.

Definition set_status_message (v : list byte) (m : multiplayer_menu_context_t)
    : multiplayer_menu_context_t :=
  {| current_state := current_state m; previous_state := previous_state m;
     host_game_name := host_game_name m; host_player_name := host_player_name
     m; host_port := host_port m; host_max_players := host_max_players m;
     join_hostname := join_hostname m; join_player_name := join_player_name m;
     join_port := join_port m; browser_games := browser_games m;
     browser_game_count := browser_game_count m; browser_selected_game :=
     browser_selected_game m; browser_last_refresh := browser_last_refresh m;
     browser_auto_refresh := browser_auto_refresh m; lobby_players :=
     lobby_players m; lobby_player_count := lobby_player_count m; lobby_ready
     := lobby_ready m; status_message := v; status_timeout := status_timeout
     m; status_color := status_color m; error_message := error_message m;
     error_timeout := error_timeout m; default_player_name :=
     default_player_name m |}.

Definition set_status_timeout (v : Z) (m : multiplayer_menu_context_t)
    : multiplayer_menu_context_t :=
  {| current_state := current_state m; previous_state := previous_state m;
     host_game_name := host_game_name m; host_player_name := host_player_name
     m; host_port := host_port m; host_max_players := host_max_players m;
     join_hostname := join_hostname m; join_player_name := join_player_name m;
     join_port := join_port m; browser_games := browser_games m;
     browser_game_count := browser_game_count m; browser_selected_game :=
     browser_selected_game m; browser_last_refresh := browser_last_refresh m;
     browser_auto_refresh := browser_auto_refresh m; lobby_players :=
     lobby_players m; lobby_player_count := lobby_player_count m; lobby_ready
     := lobby_ready m; status_message := status_message m; status_timeout :=
     v; status_color := status_color m; error_message := error_message m;
     error_timeout := error_timeout m; default_player_name :=
     default_player_name m |}.

Definition set_status_color (v : ALLEGRO_COLOR) (m : multiplayer_menu_context_t)
    : multiplayer_menu_context_t :=
  {| current_state := current_state m; previous_state := previous_state m;
     host_game_name := host_game_name m; host_player_name := host_player_name
     m; host_port := host_port m; host_max_players := host_max_players m;
     join_hostname := join_hostname m; join_player_name := join_player_name m;
     join_port := join_port m; browser_games := browser_games m;
     browser_game_count := browser_game_count m; browser_selected_game :=
     browser_selected_game m; browser_last_refresh := browser_last_refresh m;
     browser_auto_refresh := browser_auto_refresh m; lobby_players :=
     lobby_players m; lobby_player_count := lobby_player_count m; lobby_ready
     := lobby_ready m; status_message := status_message m; status_timeout :=
     status_timeout m; status_color := v; error_message := error_message m;
     error_timeout := error_timeout m; default_player_name :=
     default_player_name m |}.

Definition set_error_message (v : list byte) (m : multiplayer_menu_context_t)
    : multiplayer_menu_context_t :=
  {| current_state := current_state m; previous_state := previous_state m;
     host_game_name := host_game_name m; host_player_name := host_player_name
     m; host_port := host_port m; host_max_players := host_max_players m;
     join_hostname := join_hostname m; join_player_name := join_player_name m;
     join_port := join_port m; browser_games := browser_games m;
     browser_game_count := browser_game_count m; browser_selected_game :=
     browser_selected_game m; browser_last_refresh := browser_last_refresh m;
     browser_auto_refresh := browser_auto_refresh m; lobby_players :=
     lobby_players m; lobby_player_count := lobby_player_count m; lobby_ready
     := lobby_ready m; status_message := status_message m; status_timeout :=
     status_timeout m; status_color := status_color m; error_message := v;
     error_timeout := error_timeout m; default_player_name :=
     default_player_name m |}.

Definition set_error_timeout (v : Z) (m : multiplayer_menu_context_t)
    : multiplayer_menu_context_t :=
  {| current_state := current_state m; previous_state := previous_state m;
     host_game_name := host_game_name m; host_player_name := host_player_name
     m; host_port := host_port m; host_max_players := host_max_players m;
     join_hostname := join_hostname m; join_player_name := join_player_name m;
     join_port := join_port m; browser_games := browser_games m;
     browser_game_count := browser_game_count m; browser_selected_game :=
     browser_selected_game m; browser_last_refresh := browser_last_refresh m;
     browser_auto_refresh := browser_auto_refresh m; lobby_players :=
     lobby_players m; lobby_player_count := lobby_player_count m; lobby_ready
     := lobby_ready m; status_message := status_message m; status_timeout :=
     status_timeout m; status_color := status_color m; error_message :=
     error_message m; error_timeout := v; default_player_name :=
     default_player_name m |}.

Definition set_default_player_name (v : list byte) (m : multiplayer_menu_context_t)
    : multiplayer_menu_context_t :=
  {| current_state := current_state m; previous_state := previous_state m;
     host_game_name := host_game_name m; host_player_name := host_player_name
     m; host_port := host_port m; host_max_players := host_max_players m;
     join_hostname := join_hostname m; join_player_name := join_player_name m;
     join_port := join_port m; browser_games := browser_games m;
     browser_game_count := browser_game_count m; browser_selected_game :=
     browser_selected_game m; browser_last_refresh := browser_last_refresh m;
     browser_auto_refresh := browser_auto_refresh m; lobby_players :=
     lobby_players m; lobby_player_count := lobby_player_count m; lobby_ready
     := lobby_ready m; status_message := status_message m; status_timeout :=
     status_timeout m; status_color := status_color m; error_message :=
     error_message m; error_timeout := error_timeout m; default_player_name :=
     v |}.


(** The statics of the five input handlers. *)
Record input_statics := {
  main_last_key_state : list bool;  (* static int last_key_state[4] *)
  host_last_enter : bool;
  host_last_escape : bool;
  join_last_enter : bool;
  join_last_escape : bool;
  browser_last_up : bool;
  browser_last_down : bool;
  browser_last_enter : bool;
  browser_last_r : bool;
  browser_last_escape : bool;
  lobby_last_space : bool;
  lobby_last_escape : bool
}.

Definition set_main_last_key_state (v : list bool) (s : input_statics)
    : input_statics :=
  {| main_last_key_state := v; host_last_enter := host_last_enter s;
     host_last_escape := host_last_escape s; join_last_enter :=
     join_last_enter s; join_last_escape := join_last_escape s;
     browser_last_up := browser_last_up s; browser_last_down :=
     browser_last_down s; browser_last_enter := browser_last_enter s;
     browser_last_r := browser_last_r s; browser_last_escape :=
     browser_last_escape s; lobby_last_space := lobby_last_space s;
     lobby_last_escape := lobby_last_escape s |}.

Definition set_host_last_enter (v : bool) (s : input_statics)
    : input_statics :=
  {| main_last_key_state := main_last_key_state s; host_last_enter := v;
     host_last_escape := host_last_escape s; join_last_enter :=
     join_last_enter s; join_last_escape := join_last_escape s;
     browser_last_up := browser_last_up s; browser_last_down :=
     browser_last_down s; browser_last_enter := browser_last_enter s;
     browser_last_r := browser_last_r s; browser_last_escape :=
     browser_last_escape s; lobby_last_space := lobby_last_space s;
     lobby_last_escape := lobby_last_escape s |}.

Definition set_host_last_escape (v : bool) (s : input_statics)
    : input_statics :=
  {| main_last_key_state := main_last_key_state s; host_last_enter :=
     host_last_enter s; host_last_escape := v; join_last_enter :=
     join_last_enter s; join_last_escape := join_last_escape s;
     browser_last_up := browser_last_up s; browser_last_down :=
     browser_last_down s; browser_last_enter := browser_last_enter s;
     browser_last_r := browser_last_r s; browser_last_escape :=
     browser_last_escape s; lobby_last_space := lobby_last_space s;
     lobby_last_escape := lobby_last_escape s |}.

Definition set_join_last_enter (v : bool) (s : input_statics)
    : input_statics :=
  {| main_last_key_state := main_last_key_state s; host_last_enter :=
     host_last_enter s; host_last_escape := host_last_escape s;
     join_last_enter := v; join_last_escape := join_last_escape s;
     browser_last_up := browser_last_up s; browser_last_down :=
     browser_last_down s; browser_last_enter := browser_last_enter s;
     browser_last_r := browser_last_r s; browser_last_escape :=
     browser_last_escape s; lobby_last_space := lobby_last_space s;
     lobby_last_escape := lobby_last_escape s |}.

Definition set_join_last_escape (v : bool) (s : input_statics)
    : input_statics :=
  {| main_last_key_state := main_last_key_state s; host_last_enter :=
     host_last_enter s; host_last_escape := host_last_escape s;
     join_last_enter := join_last_enter s; join_last_escape := v;
     browser_last_up := browser_last_up s; browser_last_down :=
     browser_last_down s; browser_last_enter := browser_last_enter s;
     browser_last_r := browser_last_r s; browser_last_escape :=
     browser_last_escape s; lobby_last_space := lobby_last_space s;
     lobby_last_escape := lobby_last_escape s |}.

Definition set_browser_last_up (v : bool) (s : input_statics)
    : input_statics :=
  {| main_last_key_state := main_last_key_state s; host_last_enter :=
     host_last_enter s; host_last_escape := host_last_escape s;
     join_last_enter := join_last_enter s; join_last_escape :=
     join_last_escape s; browser_last_up := v; browser_last_down :=
     browser_last_down s; browser_last_enter := browser_last_enter s;
     browser_last_r := browser_last_r s; browser_last_escape :=
     browser_last_escape s; lobby_last_space := lobby_last_space s;
     lobby_last_escape := lobby_last_escape s |}.

Definition set_browser_last_down (v : bool) (s : input_statics)
    : input_statics :=
  {| main_last_key_state := main_last_key_state s; host_last_enter :=
     host_last_enter s; host_last_escape := host_last_escape s;
     join_last_enter := join_last_enter s; join_last_escape :=
     join_last_escape s; browser_last_up := browser_last_up s;
     browser_last_down := v; browser_last_enter := browser_last_enter s;
     browser_last_r := browser_last_r s; browser_last_escape :=
     browser_last_escape s; lobby_last_space := lobby_last_space s;
     lobby_last_escape := lobby_last_escape s |}.

Definition set_browser_last_enter (v : bool) (s : input_statics)
    : input_statics :=
  {| main_last_key_state := main_last_key_state s; host_last_enter :=
     host_last_enter s; host_last_escape := host_last_escape s;
     join_last_enter := join_last_enter s; join_last_escape :=
     join_last_escape s; browser_last_up := browser_last_up s;
     browser_last_down := browser_last_down s; browser_last_enter := v;
     browser_last_r := browser_last_r s; browser_last_escape :=
     browser_last_escape s; lobby_last_space := lobby_last_space s;
     lobby_last_escape := lobby_last_escape s |}.

Definition set_browser_last_r (v : bool) (s : input_statics)
    : input_statics :=
  {| main_last_key_state := main_last_key_state s; host_last_enter :=
     host_last_enter s; host_last_escape := host_last_escape s;
     join_last_enter := join_last_enter s; join_last_escape :=
     join_last_escape s; browser_last_up := browser_last_up s;
     browser_last_down := browser_last_down s; browser_last_enter :=
     browser_last_enter s; browser_last_r := v; browser_last_escape :=
     browser_last_escape s; lobby_last_space := lobby_last_space s;
     lobby_last_escape := lobby_last_escape s |}.

Definition set_browser_last_escape (v : bool) (s : input_statics)
    : input_statics :=
  {| main_last_key_state := main_last_key_state s; host_last_enter :=
     host_last_enter s; host_last_escape := host_last_escape s;
     join_last_enter := join_last_enter s; join_last_escape :=
     join_last_escape s; browser_last_up := browser_last_up s;
     browser_last_down := browser_last_down s; browser_last_enter :=
     browser_last_enter s; browser_last_r := browser_last_r s;
     browser_last_escape := v; lobby_last_space := lobby_last_space s;
     lobby_last_escape := lobby_last_escape s |}.

Definition set_lobby_last_space (v : bool) (s : input_statics)
    : input_statics :=
  {| main_last_key_state := main_last_key_state s; host_last_enter :=
     host_last_enter s; host_last_escape := host_last_escape s;
     join_last_enter := join_last_enter s; join_last_escape :=
     join_last_escape s; browser_last_up := browser_last_up s;
     browser_last_down := browser_last_down s; browser_last_enter :=
     browser_last_enter s; browser_last_r := browser_last_r s;
     browser_last_escape := browser_last_escape s; lobby_last_space := v;
     lobby_last_escape := lobby_last_escape s |}.

Definition set_lobby_last_escape (v : bool) (s : input_statics)
    : input_statics :=
  {| main_last_key_state := main_last_key_state s; host_last_enter :=
     host_last_enter s; host_last_escape := host_last_escape s;
     join_last_enter := join_last_enter s; join_last_escape :=
     join_last_escape s; browser_last_up := browser_last_up s;
     browser_last_down := browser_last_down s; browser_last_enter :=
     browser_last_enter s; browser_last_r := browser_last_r s;
     browser_last_escape := browser_last_escape s; lobby_last_space :=
     lobby_last_space s; lobby_last_escape := v |}.


(** The menu next to the network module: the world of the network module,
    [g_mp_menu], [game.phase], the statics of the input handlers and the
    number of readings of the Allegro clock so far. *)
Record menu_world := {
  net : world;
  g_mp_menu : multiplayer_menu_context_t;
  game_phase : Z;
  statics : input_statics;
  al_reads : nat
}.

Definition put_net (v : world) (mw : menu_world) : menu_world :=
  {| net := v; g_mp_menu := g_mp_menu mw; game_phase := game_phase mw; statics
     := statics mw; al_reads := al_reads mw |}.

Definition put_g_mp_menu (v : multiplayer_menu_context_t) (mw : menu_world)
    : menu_world :=
  {| net := net mw; g_mp_menu := v; game_phase := game_phase mw; statics :=
     statics mw; al_reads := al_reads mw |}.

Definition put_game_phase (v : Z) (mw : menu_world) : menu_world :=
  {| net := net mw; g_mp_menu := g_mp_menu mw; game_phase := v; statics :=
     statics mw; al_reads := al_reads mw |}.

Definition put_statics (v : input_statics) (mw : menu_world) : menu_world :=
  {| net := net mw; g_mp_menu := g_mp_menu mw; game_phase := game_phase mw;
     statics := v; al_reads := al_reads mw |}.

Definition put_al_reads (v : nat) (mw : menu_world) : menu_world :=
  {| net := net mw; g_mp_menu := g_mp_menu mw; game_phase := game_phase mw;
     statics := statics mw; al_reads := v |}.


(** [g_mp_menu] updated in place. *)
Definition updm (f : multiplayer_menu_context_t -> multiplayer_menu_context_t)
    (mw : menu_world) : menu_world :=
  put_g_mp_menu (f (g_mp_menu mw)) mw.

Definition upds (f : input_statics -> input_statics) (mw : menu_world) : menu_world :=
  put_statics (f (statics mw)) mw.

(** Zeroed storage. *)
Definition zero_menu_context : multiplayer_menu_context_t :=
  {| current_state := MP_MENU_MAIN; previous_state := MP_MENU_MAIN;
     host_game_name := replicate 64 x00; host_player_name := replicate 32 x00;
     host_port := 0; host_max_players := 0; join_hostname := replicate 256 x00;
     join_player_name := replicate 32 x00; join_port := 0;
     browser_games := replicate 16 zero_browser_entry; browser_game_count := 0;
     browser_selected_game := 0; browser_last_refresh := 0;
     browser_auto_refresh := 0; lobby_players := replicate 8 zero_lobby_entry;
     lobby_player_count := 0; lobby_ready := 0;
     status_message := replicate 256 x00; status_timeout := 0;
     status_color := color_zero; error_message := replicate 512 x00;
     error_timeout := 0; default_player_name := replicate 32 x00 |}.

Definition zero_statics : input_statics :=
  {| main_last_key_state := replicate 4 false; host_last_enter := false;
     host_last_escape := false; join_last_enter := false;
     join_last_escape := false; browser_last_up := false;
     browser_last_down := false; browser_last_enter := false;
     browser_last_r := false; browser_last_escape := false;
     lobby_last_space := false; lobby_last_escape := false |}.

(** The program at its start: every global zeroed, the network module as
    [initial_world] has it. *)
Definition menu_initial_world : menu_world :=
  {| net := initial_world; g_mp_menu := zero_menu_context; game_phase := 0;
     statics := zero_statics; al_reads := O |}.

(** The table [multiplayer_menu_init] hands to [network_set_callbacks]. *)
Definition menu_callbacks : network_callbacks_t :=
  {| on_player_joined := true; on_player_left := true; on_game_data := true;
     on_chat := true; on_error := true |}.

(** [snprintf (buf, n, ...)] whose output would be [s]: the string that ends
    up in [buf]. *)
Definition snprintf_string (n : nat) (s : list byte) : list byte :=
  take (n - 1) s.

(** [for (j = i; j < lobby_player_count - 1; j++)
       lobby_players[j] = lobby_players[j + 1];] run for [fuel] iterations
    from [j]. *)
Fixpoint shift_lobby (fuel j : nat) (ls : list lobby_player_entry_t)
    : list lobby_player_entry_t :=
  match fuel with
  | O => ls
  | S fuel' =>
      shift_lobby fuel' (S j) (<[j := default zero_lobby_entry (ls !! S j)]> ls)
  end.

(** [for (i = ...; i < count && i < 16; i++)] of [multiplayer_browser_refresh],
    run for [fuel] iterations from [i]. *)
Fixpoint fill_browser (fuel i : nat) (games : list game_info_t)
    (bs : list game_browser_entry_t) : list game_browser_entry_t :=
  match fuel with
  | O => bs
  | S fuel' =>
      fill_browser fuel' (S i) games
        (<[i := {| be_game_info := default zero_game_info (games !! i);
                   be_ping := 0; be_selected := 0;
                   be_last_update :=
                     be_last_update (default zero_browser_entry (bs !! i)) |}]> bs)
  end.

(** [network_get_state_string (network_get_player_count () >= 0
       ? NETWORK_STATE_CONNECTED : NETWORK_STATE_DISCONNECTED)] after
    ["Network: "]: the text [multiplayer_draw_connection_status] draws. *)
Definition connection_status_text (w : world) : string :=
  "Network: "
  +:+ network_get_state_string
        (network_state_code
           (if 0 <=? network_get_player_count w
            then NETWORK_STATE_CONNECTED else NETWORK_STATE_DISCONNECTED)).

Section Menu.

Variable E : sys_env.

(** [al_ms k timeout]: the value of [al_get_time () * 1000 + timeout] at the
    [k]-th reading of the clock. *)
Variable al_ms : nat -> Z -> Z.

Definition al_time_ms (timeout : Z) (mw : menu_world) : Z * menu_world :=
  (u32 (al_ms (al_reads mw) timeout), put_al_reads (S (al_reads mw)) mw).

Definition multiplayer_init_default_settings (m : multiplayer_menu_context_t)
    : multiplayer_menu_context_t :=
  let m := set_host_game_name
             (strcpy (host_game_name m) (bytes_of_string "Liberation Circuit Game")) m in
  let m := set_host_player_name
             (strcpy (host_player_name m) (bytes_of_string "Player")) m in
  let m := set_join_player_name
             (strcpy (join_player_name m) (bytes_of_string "Player")) m in
  let m := set_join_hostname
             (strcpy (join_hostname m) (bytes_of_string "127.0.0.1")) m in
  let m := set_host_port NETWORK_DEFAULT_PORT m in
  let m := set_join_port NETWORK_DEFAULT_PORT m in
  let m := set_host_max_players 4 m in
  let m := set_browser_auto_refresh 1 m in
  set_default_player_name
    (strcpy (default_player_name m) (bytes_of_string "Player")) m.

Definition multiplayer_menu_init (mw : menu_world) : Z * menu_world :=
  let m := set_previous_state MP_MENU_MAIN
             (set_current_state MP_MENU_MAIN zero_menu_context) in
  let mw1 := put_g_mp_menu (multiplayer_init_default_settings m) mw in
  (1, put_net (network_set_callbacks (Some menu_callbacks) (net mw1)) mw1).

Definition multiplayer_menu_shutdown (mw : menu_world) : menu_world :=
  put_g_mp_menu zero_menu_context (put_net (network_disconnect E (net mw)) mw).

Definition multiplayer_menu_set_state (new_state : multiplayer_menu_state_t)
    (m : multiplayer_menu_context_t) : multiplayer_menu_context_t :=
  set_current_state new_state (set_previous_state (current_state m) m).

Definition multiplayer_menu_return_to_previous (m : multiplayer_menu_context_t)
    : multiplayer_menu_context_t :=
  let temp := current_state m in
  set_previous_state temp (set_current_state (previous_state m) m).

Definition multiplayer_show_status (message : list byte) (color : ALLEGRO_COLOR)
    (timeout : Z) (mw : menu_world) : menu_world :=
  let mw1 :=
    updm (fun m => set_status_message
                     (<[255%nat := x00]> (strncpy (status_message m) message 255)) m)
         mw in
  let mw2 := updm (set_status_color color) mw1 in
  let '(t, mw3) := al_time_ms timeout mw2 in
  updm (set_status_timeout t) mw3.

Definition multiplayer_menu_show_error (message : list byte) (timeout : Z)
    (mw : menu_world) : menu_world :=
  let mw1 :=
    updm (fun m => set_error_message
                     (<[511%nat := x00]> (strncpy (error_message m) message 511)) m)
         mw in
  let '(t, mw2) := al_time_ms timeout mw1 in
  updm (set_error_timeout t) mw2.

(** ** The callbacks *)

Definition multiplayer_on_player_joined (id : Z) (player_name : list byte)
    (mw : menu_world) : menu_world :=
  let m := g_mp_menu mw in
  if lobby_player_count m <? NETWORK_MAX_PLAYERS then
    let n := Z.to_nat (lobby_player_count m) in
    let entry := default zero_lobby_entry (lobby_players m !! n) in
    let player := lp_player entry in
    let player1 :=
      {| player_id := id;
         name := <[31%nat := x00]> (strncpy (name player) player_name 31);
         hostname := hostname player; ip_address := ip_address player;
         port := port player; last_ping := last_ping player;
         connected := connected player |} in
    let entry1 :=
      {| lp_player := player1; lp_ready := 0; lp_host := 0;
         lp_name_color := lp_name_color entry |} in
    let mw1 :=
      updm (set_lobby_player_count (lobby_player_count m + 1))
        (updm (set_lobby_players (<[n := entry1]> (lobby_players m))) mw) in
    let message :=
      snprintf_string 128 (cstr player_name ++ bytes_of_string " joined") in
    multiplayer_show_status message MP_COLOR_SUCCESS 3000 mw1
  else mw.

Definition multiplayer_on_player_left (id : Z) (mw : menu_world) : menu_world :=
  let m := g_mp_menu mw in
  match list_find (fun e => player_id (lp_player e) = id)
          (take (Z.to_nat (lobby_player_count m)) (lobby_players m)) with
  | Some (i, e) =>
      let message :=
        snprintf_string 128 (cstr (name (lp_player e)) ++ bytes_of_string " left") in
      let count := lobby_player_count m in
      let mw1 :=
        updm (set_lobby_player_count (count - 1))
          (updm (set_lobby_players
                   (shift_lobby (Z.to_nat (count - 1) - i) i (lobby_players m))) mw) in
      multiplayer_show_status message MP_COLOR_WARNING 3000 mw1
  | None => mw
  end.

Definition multiplayer_on_game_data (id : Z) (data : list byte) (size : Z)
    (mw : menu_world) : menu_world := mw.

Definition multiplayer_on_chat (id : Z) (message : list byte) (mw : menu_world)
    : menu_world := mw.

Definition multiplayer_on_network_error (message : list byte) (mw : menu_world)
    : menu_world :=
  multiplayer_menu_show_error message 5000 mw.

(** One call the network module makes through its table. *)
Definition menu_callback (ev : callback_event) (mw : menu_world) : menu_world :=
  match ev with
  | EvPlayerJoined id player_name => multiplayer_on_player_joined id player_name mw
  | EvPlayerLeft id => multiplayer_on_player_left id mw
  | EvGameData id data size => multiplayer_on_game_data id data size mw
  | EvChat id message => multiplayer_on_chat id message mw
  end.

(** A call of the network module made while the menu is linked in: the calls
    it logs beyond those of [before] are made to the menu. *)
Definition with_callbacks (before : world) (after : world) (mw : menu_world)
    : menu_world :=
  foldl (fun acc ev => menu_callback ev acc) (put_net after mw)
        (drop (length (events before)) (events after)).

(** ** The operations behind the keys *)

Definition multiplayer_host_start_game (mw : menu_world) : menu_world :=
  let m := g_mp_menu mw in
  let '(r, w1) :=
    network_host_game E (Some (host_game_name m)) (u16 (host_port m)) (net mw) in
  let mw1 := put_net w1 mw in
  if negb (r =? 0) then
    let mw2 :=
      multiplayer_show_status (bytes_of_string "Hosting game...") MP_COLOR_SUCCESS
        3000 mw1 in
    let mw3 := updm (multiplayer_menu_set_state MP_MENU_LOBBY) mw2 in
    let mw4 := updm (set_lobby_player_count 1) mw3 in
    let m4 := g_mp_menu mw4 in
    let entry := default zero_lobby_entry (lobby_players m4 !! 0%nat) in
    let player := lp_player entry in
    let player1 :=
      {| player_id := player_id player;
         name := strcpy (name player) (host_player_name m4);
         hostname := hostname player; ip_address := ip_address player;
         port := port player; last_ping := last_ping player;
         connected := connected player |} in
    let entry1 :=
      {| lp_player := player1; lp_ready := 1; lp_host := 1;
         lp_name_color := lp_name_color entry |} in
    updm (set_lobby_players (<[0%nat := entry1]> (lobby_players m4))) mw4
  else
    multiplayer_menu_show_error (bytes_of_string "Failed to host game") 5000 mw1.

Definition multiplayer_join_connect (mw : menu_world) : menu_world :=
  let m := g_mp_menu mw in
  let '(r, w1) :=
    network_join_game E (join_hostname m) (u16 (join_port m))
      (Some (join_player_name m)) (net mw) in
  let mw1 := put_net w1 mw in
  if negb (r =? 0) then
    let mw2 :=
      multiplayer_show_status (bytes_of_string "Connecting...") MP_COLOR_WARNING
        3000 mw1 in
    updm (multiplayer_menu_set_state MP_MENU_CONNECTING) mw2
  else
    multiplayer_menu_show_error (bytes_of_string "Failed to connect") 5000 mw1.

(** [games] is what the local array [games[16]] holds when the function is
    entered.  The result is [None] when [network_get_discovered_games] would
    copy out of bounds. *)
Definition multiplayer_browser_refresh (games : list game_info_t) (mw : menu_world)
    : option menu_world :=
  let '(_, w1) := network_start_discovery E (net mw) in
  let mw1 := put_net w1 mw in
  '(count0, _) ← network_get_discovered_games None 0 (net mw1);
  let mw2 := updm (set_browser_game_count count0) mw1 in
  mw3 ← (if 0 <? browser_game_count (g_mp_menu mw2) then
           '(count, out) ← network_get_discovered_games (Some games) 16 (net mw2);
           let games1 := default games out in
           let fuel := Z.to_nat (Z.min count 16) in
           Some (updm (set_browser_game_count count)
                   (updm (fun m => set_browser_games
                                     (fill_browser fuel 0 games1 (browser_games m)) m)
                         mw2))
         else Some mw2);
  Some (multiplayer_show_status (bytes_of_string "Refreshed game list")
          MP_COLOR_SUCCESS 2000 mw3).

(** ["%u.%u.%u.%u"] of the four bytes of [host_ip], lowest first. *)
Definition dotted_quad (host_ip : Z) : list byte :=
  decimal (Z.land (Z.shiftr host_ip 0) 255) ++ bytes_of_string "."
  ++ decimal (Z.land (Z.shiftr host_ip 8) 255) ++ bytes_of_string "."
  ++ decimal (Z.land (Z.shiftr host_ip 16) 255) ++ bytes_of_string "."
  ++ decimal (Z.land (Z.shiftr host_ip 24) 255).

Definition multiplayer_browser_join_selected (mw : menu_world) : menu_world :=
  let m := g_mp_menu mw in
  if browser_selected_game m <? browser_game_count m then
    let entry :=
      default zero_browser_entry
        (browser_games m !! Z.to_nat (browser_selected_game m)) in
    let text := snprintf_string 256 (dotted_quad (gi_host_ip (be_game_info entry))) in
    let mw1 :=
      updm (fun m => set_join_hostname (memcpy (join_hostname m) (text ++ [x00])) m)
           mw in
    let mw2 := updm (set_join_port (gi_host_port (be_game_info entry))) mw1 in
    multiplayer_join_connect mw2
  else mw.

Definition multiplayer_lobby_toggle_ready (mw : menu_world) : menu_world :=
  updm (fun m => set_lobby_ready (if lobby_ready m =? 0 then 1 else 0) m) mw.

Definition multiplayer_lobby_leave (mw : menu_world) : menu_world :=
  let mw1 := put_net (network_disconnect E (net mw)) mw in
  let mw2 := updm (multiplayer_menu_set_state MP_MENU_MAIN) mw1 in
  multiplayer_show_status (bytes_of_string "Left game") MP_COLOR_WARNING 2000 mw2.

(** ** The input handlers *)

Definition multiplayer_handle_main_input (kb : nat -> allegro_key -> bool)
    (games : list game_info_t) (mw : menu_world) : option menu_world :=
  let key1 := kb 0%nat ALLEGRO_KEY_1 in
  let key2 := kb 1%nat ALLEGRO_KEY_2 in
  let key3 := kb 2%nat ALLEGRO_KEY_3 in
  let keyesc := kb 3%nat ALLEGRO_KEY_ESCAPE in
  let last k := default false (main_last_key_state (statics mw) !! k) in
  mw1 ← (if key1 && negb (last 0%nat) then
           Some (updm (multiplayer_menu_set_state MP_MENU_HOST_SETUP) mw)
         else if key2 && negb (last 1%nat) then
           Some (updm (multiplayer_menu_set_state MP_MENU_JOIN_SETUP) mw)
         else if key3 && negb (last 2%nat) then
           multiplayer_browser_refresh games
             (updm (multiplayer_menu_set_state MP_MENU_GAME_BROWSER) mw)
         else if keyesc && negb (last 3%nat) then
           Some (put_game_phase GAME_PHASE_MENU mw)
         else Some mw);
  Some (upds (fun s =>
                set_main_last_key_state
                  (<[3%nat := keyesc]>
                     (<[2%nat := key3]>
                        (<[1%nat := key2]>
                           (<[0%nat := key1]> (main_last_key_state s))))) s)
             mw1).

Definition multiplayer_handle_host_input (kb : nat -> allegro_key -> bool)
    (mw : menu_world) : menu_world :=
  let enter_key := kb 0%nat ALLEGRO_KEY_ENTER in
  let escape_key := kb 1%nat ALLEGRO_KEY_ESCAPE in
  let mw1 :=
    if enter_key && negb (host_last_enter (statics mw)) then
      multiplayer_host_start_game mw
    else if escape_key && negb (host_last_escape (statics mw)) then
      updm (multiplayer_menu_set_state MP_MENU_MAIN) mw
    else mw in
  upds (set_host_last_escape escape_key) (upds (set_host_last_enter enter_key) mw1).

Definition multiplayer_handle_join_input (kb : nat -> allegro_key -> bool)
    (mw : menu_world) : menu_world :=
  let enter_key := kb 0%nat ALLEGRO_KEY_ENTER in
  let escape_key := kb 1%nat ALLEGRO_KEY_ESCAPE in
  let mw1 :=
    if enter_key && negb (join_last_enter (statics mw)) then
      multiplayer_join_connect mw
    else if escape_key && negb (join_last_escape (statics mw)) then
      updm (multiplayer_menu_set_state MP_MENU_MAIN) mw
    else mw in
  upds (set_join_last_escape escape_key) (upds (set_join_last_enter enter_key) mw1).

Definition multiplayer_handle_browser_input (kb : nat -> allegro_key -> bool)
    (games : list game_info_t) (mw : menu_world) : option menu_world :=
  let up_key := kb 0%nat ALLEGRO_KEY_UP in
  let down_key := kb 1%nat ALLEGRO_KEY_DOWN in
  let enter_key := kb 2%nat ALLEGRO_KEY_ENTER in
  let r_key := kb 3%nat ALLEGRO_KEY_R in
  let escape_key := kb 4%nat ALLEGRO_KEY_ESCAPE in
  let m := g_mp_menu mw in
  let s := statics mw in
  mw1 ← (if up_key && negb (browser_last_up s) && (0 <? browser_selected_game m) then
           Some (updm (set_browser_selected_game (browser_selected_game m - 1)) mw)
         else if down_key && negb (browser_last_down s)
                 && (browser_selected_game m <? browser_game_count m - 1) then
           Some (updm (set_browser_selected_game (browser_selected_game m + 1)) mw)
         else if enter_key && negb (browser_last_enter s) then
           Some (multiplayer_browser_join_selected mw)
         else if r_key && negb (browser_last_r s) then
           multiplayer_browser_refresh games mw
         else if escape_key && negb (browser_last_escape s) then
           Some (updm (multiplayer_menu_set_state MP_MENU_MAIN) mw)
         else Some mw);
  Some (upds (set_browser_last_escape escape_key)
          (upds (set_browser_last_r r_key)
             (upds (set_browser_last_enter enter_key)
                (upds (set_browser_last_down down_key)
                   (upds (set_browser_last_up up_key) mw1))))).

Definition multiplayer_handle_lobby_input (kb : nat -> allegro_key -> bool)
    (mw : menu_world) : menu_world :=
  let space_key := kb 0%nat ALLEGRO_KEY_SPACE in
  let escape_key := kb 1%nat ALLEGRO_KEY_ESCAPE in
  let mw1 :=
    if space_key && negb (lobby_last_space (statics mw)) then
      multiplayer_lobby_toggle_ready mw
    else if escape_key && negb (lobby_last_escape (statics mw)) then
      multiplayer_lobby_leave mw
    else mw in
  upds (set_lobby_last_escape escape_key) (upds (set_lobby_last_space space_key) mw1).

Definition multiplayer_menu_handle_input (kb : nat -> allegro_key -> bool)
    (games : list game_info_t) (mw : menu_world) : option menu_world :=
  match current_state (g_mp_menu mw) with
  | MP_MENU_MAIN => multiplayer_handle_main_input kb games mw
  | MP_MENU_HOST_SETUP => Some (multiplayer_handle_host_input kb mw)
  | MP_MENU_JOIN_SETUP => Some (multiplayer_handle_join_input kb mw)
  | MP_MENU_GAME_BROWSER => multiplayer_handle_browser_input kb games mw
  | MP_MENU_LOBBY => Some (multiplayer_handle_lobby_input kb mw)
  | MP_MENU_CONNECTING => Some (multiplayer_handle_join_input kb mw)
  | MP_MENU_ERROR | MP_MENU_SETTINGS => multiplayer_handle_main_input kb games mw
  end.

(** ** The per-frame update *)

Definition multiplayer_menu_update (rs rb : recv_result) (frame : stack_frame)
    (games : list game_info_t) (mw : menu_world) : option menu_world :=
  let mw1 := with_callbacks (net mw) (network_update E rs rb frame (net mw)) mw in
  mw2 ← (if bool_decide (current_state (g_mp_menu mw1) = MP_MENU_GAME_BROWSER)
            && negb (browser_auto_refresh (g_mp_menu mw1) =? 0) then
           let '(current_time, mw1a) := al_time_ms 0 mw1 in
           if MP_REFRESH_INTERVAL
              <? u32 (current_time - browser_last_refresh (g_mp_menu mw1a)) then
             mw1b ← multiplayer_browser_refresh games mw1a;
             Some (updm (set_browser_last_refresh current_time) mw1b)
           else Some mw1a
         else Some mw1);
  let '(current_time, mw3) := al_time_ms 0 mw2 in
  let mw4 :=
    if (0 <? status_timeout (g_mp_menu mw3))
       && (status_timeout (g_mp_menu mw3) <? current_time) then
      updm (set_status_timeout 0)
        (updm (fun m => set_status_message (<[0%nat := x00]> (status_message m)) m) mw3)
    else mw3 in
  let mw5 :=
    if (0 <? error_timeout (g_mp_menu mw4))
       && (error_timeout (g_mp_menu mw4) <? current_time) then
      updm (set_error_timeout 0)
        (updm (fun m => set_error_message (<[0%nat := x00]> (error_message m)) m) mw4)
    else mw4 in
  Some mw5.

(** ** Runs of the program

    The public functions of the menu, and the public functions of the network
    module called by the rest of the program. *)

Inductive menu_call :=
| Menu_init
| Menu_shutdown
| Menu_update (rs rb : recv_result) (frame : stack_frame) (games : list game_info_t)
| Menu_handle_input (kb : nat -> allegro_key -> bool) (games : list game_info_t)
| Menu_set_state (new_state : multiplayer_menu_state_t)
| Menu_show_error (message : list byte) (timeout : Z)
| Menu_on_player_joined (id : Z) (player_name : list byte)
| Menu_on_player_left (id : Z)
| Menu_on_game_data (id : Z) (data : list byte) (size : Z)
| Menu_on_chat (id : Z) (message : list byte)
| Menu_on_network_error (message : list byte)
| Menu_network (call : api_call).

Definition menu_step (call : menu_call) (mw : menu_world) : option menu_world :=
  match call with
  | Menu_init => Some (snd (multiplayer_menu_init mw))
  | Menu_shutdown => Some (multiplayer_menu_shutdown mw)
  | Menu_update rs rb frame games => multiplayer_menu_update rs rb frame games mw
  | Menu_handle_input kb games => multiplayer_menu_handle_input kb games mw
  | Menu_set_state new_state => Some (updm (multiplayer_menu_set_state new_state) mw)
  | Menu_show_error message timeout =>
      Some (multiplayer_menu_show_error message timeout mw)
  | Menu_on_player_joined id player_name =>
      Some (multiplayer_on_player_joined id player_name mw)
  | Menu_on_player_left id => Some (multiplayer_on_player_left id mw)
  | Menu_on_game_data id data size => Some (multiplayer_on_game_data id data size mw)
  | Menu_on_chat id message => Some (multiplayer_on_chat id message mw)
  | Menu_on_network_error message => Some (multiplayer_on_network_error message mw)
  | Menu_network call => Some (with_callbacks (net mw) (step E call (net mw)) mw)
  end.

Fixpoint menu_run (calls : list menu_call) (mw : menu_world) : option menu_world :=
  match calls with
  | [] => Some mw
  | call :: rest => menu_step call mw ≫= menu_run rest
  end.

Definition menu_reachable (mw : menu_world) : Prop :=
  exists calls, menu_run calls menu_initial_world = Some mw.

End Menu.

(** ** The session invariant

    The part of the world the roster and registry properties depend on, and
    the invariant every reachable world satisfies. *)

Definition session_of (w : world)
    : network_state_t * Z * Z * list network_player_t * Z * list game_info_t :=
  let c := g_network w in
  (state c, is_host c, player_count c, players c, discovered_game_count c,
   discovered_games c).

(** The entries of the discovery registry. *)
Definition registry (w : world) : list game_info_t :=
  take (Z.to_nat (discovered_game_count (g_network w)))
       (discovered_games (g_network w)).

Definition session_inv (w : world) : Prop :=
  let c := g_network w in
  0 <= player_count c <= NETWORK_MAX_PLAYERS
  /\ length (players c) = 8%nat
  /\ (state c <> NETWORK_STATE_HOSTING -> is_host c = 0)
  /\ (is_host c = 0 -> player_count c = 0)
  /\ 0 <= discovered_game_count c <= MAX_DISCOVERED_GAMES
  /\ length (discovered_games c) = 16%nat
  /\ NoDup (gi_game_id <$> registry w).



(** The advertisement a discovery response carries, once the dispatcher has
    written the time of receipt into its [last_seen] field. *)
Definition stamped_info (E : sys_env) (data : list byte) (w : world) : game_info_t :=
  game_info_at (memcpy_at data 108 (store_le 4 (fst (get_timestamp E w)))).

(** The world with the traffic bookkeeping erased: what sending a message may
    change is the sequence number, the clock index, the send statistics, the
    error count and the log of [sendto] calls. *)
Definition sans_traffic (w : world) : world :=
  put_wire []
    (put_clock_reads O
       (upd (set_errors 0)
          (upd (set_messages_sent 0)
             (upd (set_bytes_sent 0) (upd (set_next_sequence 0) w))))).

(** The datagrams handed to [sendto] whose header says discovery request. *)
Definition is_discovery_request (d : sent_datagram) : bool :=
  ntohs (h_type (header_at (dg_bytes d))) =? message_type_code MSG_DISCOVERY_REQUEST.

Definition discovery_requests_sent (w : world) : nat :=
  length (filter (fun d => is_discovery_request d = true) (wire w)).

(** What the periodic re-broadcast of [network_update] looks at, besides the
    clock. *)
Definition gate_of (w : world) : Z * Z * Z * Z :=
  (network_initialized w, broadcast_socket (g_network w), is_host (g_network w),
   last_discovery_time (g_network w)).

(** ** Concrete environments and scenarios

    Used to evaluate the model on explicit inputs. *)

(** An operating system in which every call succeeds: descriptors 3 and 4,
    a clock at a fixed second, [sendto] transmitting every datagram whole. *)
Definition demo_env : sys_env :=
  {| sys_time := fun _ => 1700000000;
     sys_ret := fun k => nth k [3; 2; 0; 0; 4; 2; 0; 0] 0;
     sys_sendto := fun _ bytes => Z.of_nat (length bytes);
     sys_stack := fun _ => [];
     sys_gethostname := Some (bytes_of_string "host");
     sys_gethostbyname := fun _ => Some 0x0100007F |}.

Definition demo_peer : sockaddr_in := {| sin_addr := 0x0A00A8C0; sin_port := 0x3930 |}.

Definition demo_frame : stack_frame :=
  {| sf_from_addr := {| sin_addr := 0; sin_port := 0 |}; sf_type := 0;
     sf_message_data := []; sf_size := 0 |}.

(** A well-formed datagram as a peer's [_network_send_message] frames it
    (sequence number 1, timestamp 0). *)
Definition frame (type : message_type_t) (payload : list byte) : list byte :=
  header_bytes
    {| h_magic := htonl NETWORK_MAGIC;
       h_version := htons NETWORK_PROTOCOL_VERSION;
       h_type := htons (message_type_code type);
       h_size := htonl (Z.of_nat (length payload));
       h_sequence := htonl 1;
       h_timestamp := htonl 0 |}
  ++ payload.

(** A poll on which nothing is pending. *)
Definition nothing : recv_result := RecvFailed SOCKET_WOULD_BLOCK.

(** One tick on which a datagram from [from] is pending on the session socket. *)
Definition tick_from (from : sockaddr_in) (type : message_type_t)
    (payload : list byte) : api_call :=
  Call_update (RecvDatagram from (frame type payload) SOCKET_WOULD_BLOCK) nothing
    demo_frame.

Definition all_callbacks : network_callbacks_t :=
  {| on_player_joined := true; on_player_left := true; on_game_data := true;
     on_chat := true; on_error := true |}.

(** A host ("Arena", port 7777) with every handler registered. *)
Definition host_calls : list api_call :=
  [Call_init; Call_set_callbacks (Some all_callbacks);
   Call_host_game (Some (bytes_of_string "Arena")) 7777].

(** The host before anyone joined. *)
Definition host_world : world := run demo_env host_calls initial_world.

(** The payload of a join request: the player name with its NUL. *)
Definition nova : list byte := bytes_of_string "Nova" ++ [x00].

(** The host after eight join requests from the same peer: a full roster. *)
Definition full_host_world : world :=
  run demo_env
    (host_calls
     ++ replicate 8 (tick_from demo_peer MSG_JOIN_REQUEST nova))
    initial_world.

(** The engine initialised and otherwise idle. *)
Definition idle_world : world := run demo_env [Call_init] initial_world.

(** A client machine: descriptor 3 for the discovery socket and 4 for the
    session socket, every call succeeding, the clock standing still. *)
Definition client_env : sys_env :=
  {| sys_time := fun _ => 1700000000;
     sys_ret := fun k => nth k [3; 2; 0; 4; 2; 0] 0;
     sys_sendto := fun _ bytes => Z.of_nat (length bytes);
     sys_stack := fun _ => [];
     sys_gethostname := Some (bytes_of_string "client");
     sys_gethostbyname := fun _ => Some 0x0100007F |}.

Definition demo_host : sockaddr_in := {| sin_addr := 0x0100A8C0; sin_port := 0x611E |}.

(** The payload of a discovery response advertising session [id] with
    [current] players. *)
Definition advert (id current : Z) : list byte :=
  game_info_bytes
    {| gi_game_name := bytes_of_string "Arena";
       gi_host_name := bytes_of_string "Host";
       gi_host_ip := 0x0100A8C0; gi_host_port := 7777;
       gi_current_players := current; gi_max_players := 8;
       gi_game_id := id; gi_last_seen := 0 |}.

(** One tick on which a discovery response is pending on the discovery socket. *)
Definition tick_advert (id current : Z) : api_call :=
  Call_update nothing
    (RecvDatagram demo_host (frame MSG_DISCOVERY_RESPONSE (advert id current))
       SOCKET_WOULD_BLOCK)
    demo_frame.

(** A client that opened discovery and then asked to join a host: its state is
    Connecting and both sockets are polled. *)
Definition client_calls : list api_call :=
  [Call_init; Call_start_discovery;
   Call_join_game (bytes_of_string "192.168.0.1") 7777 (Some (bytes_of_string "Nova"))].

(** The client after responses from sixteen different sessions, one player
    each. *)
Definition full_registry_world : world :=
  run client_env
    (client_calls ++ map (fun id => tick_advert id 1) [1;2;3;4;5;6;7;8;9;10;11;12;13;14;15;16])
    initial_world.

(** ... and after one more response, from session 1 again, now reporting five
    players. *)
Definition refreshed_full_registry_world : world :=
  step client_env (tick_advert 1 5) full_registry_world.

(** The client after a response from session 7 alone. *)
Definition one_session_world : world :=
  run client_env (client_calls ++ [tick_advert 7 1]) initial_world.

(** A client whose clock moves on by two seconds after its sixth reading. *)
Definition later_env : sys_env :=
  {| sys_time := fun k => if (k <? 6)%nat then 1700000000 else 1700000002;
     sys_ret := sys_ret client_env;
     sys_sendto := sys_sendto client_env;
     sys_stack := sys_stack client_env;
     sys_gethostname := sys_gethostname client_env;
     sys_gethostbyname := sys_gethostbyname client_env |}.

(** The client once the host's join response (assigned id 77) has arrived:
    Connected, the discovery socket still open. *)
Definition connected_client_calls : list api_call :=
  client_calls ++ [tick_from demo_host MSG_JOIN_RESPONSE (store_le 4 77)].

Definition connected_client_world : world :=
  run later_env connected_client_calls initial_world.








(** The caller's variables for a receive: a zeroed 1024-byte payload buffer. *)
Definition short_out : recv_out :=
  {| ro_from_addr := {| sin_addr := 0; sin_port := 0 |}; ro_type := 0;
     ro_data := Some (replicate 1024 x00); ro_size := Some 0 |}.





(** ** Further projections and invariants *)

(** Every pointer argument of [network_get_statistics] given. *)
Definition every_statistic : statistics_out :=
  {| so_bytes_sent := Some 0; so_bytes_received := Some 0;
     so_messages_sent := Some 0; so_messages_received := Some 0;
     so_errors := Some 0 |}.

(** The roster: the first [player_count] slots of [players]. *)
Definition roster (w : world) : list network_player_t :=
  take (Z.to_nat (player_count (g_network w))) (players (g_network w)).

(** The fields of their headers, as the receiver reads them. *)
Definition dg_type (d : sent_datagram) : Z := ntohs (h_type (header_at (dg_bytes d))).
Definition dg_size (d : sent_datagram) : Z := ntohl (h_size (header_at (dg_bytes d))).
Definition dg_sequence (d : sent_datagram) : Z :=
  ntohl (h_sequence (header_at (dg_bytes d))).
Definition dg_timestamp (d : sent_datagram) : Z :=
  ntohl (h_timestamp (header_at (dg_bytes d))).

(** The payload of a datagram: what follows the 20 bytes of the header. *)
Definition dg_payload (d : sent_datagram) : list byte := drop 20 (dg_bytes d).

(** Whether [sendto] took the whole datagram. *)
Definition dg_whole (d : sent_datagram) : bool :=
  dg_ret d =? Z.of_nat (length (dg_bytes d)).

(** What the state machine of the session consists of. *)
Definition mode_of (w : world) : network_state_t * Z * Z :=
  (state (g_network w), is_host (g_network w), server_socket (g_network w)).

(** The state machine of a session: the Error state is never entered,
    [is_host] is a flag that is set exactly while Hosting, and outside
    Disconnected the session socket is a descriptor. *)
Definition mode_inv (w : world) : Prop :=
  let c := g_network w in
  state c <> NETWORK_STATE_ERROR
  /\ (is_host c = 0 \/ is_host c = 1)
  /\ (state c = NETWORK_STATE_HOSTING <-> is_host c = 1)
  /\ (state c <> NETWORK_STATE_DISCONNECTED ->
      server_socket c <> INVALID_SOCKET_VALUE).

(** A C string held in an array of [n] bytes: the array has its size and a
    NUL somewhere in it. *)
Definition c_string_in (n : nat) (buf : list byte) : Prop :=
  length buf = n /\ x00 ∈ buf.

(** A slot of the roster array whose strings are terminated and whose port
    is a 16-bit value. *)
Definition entry_inv (p : network_player_t) : Prop :=
  c_string_in 32 (name p) /\ c_string_in 256 (hostname p) /\ 0 <= port p < 65536.

(** The part of the context the storage invariant is about. *)
Definition storage_of (w : world)
    : list byte * list network_player_t * Z * list byte * Z * Z :=
  let c := g_network w in
  (game_name c, players c, player_count c, receive_buffer c, local_port c, game_id c).

(** The arrays of the context keep their sizes and their strings stay
    terminated; every roster entry is marked connected. *)
Definition storage_inv (w : world) : Prop :=
  let c := g_network w in
  c_string_in 64 (game_name c)
  /\ Forall entry_inv (players c)
  /\ Forall (fun p => connected p = 1) (roster w)
  /\ length (receive_buffer c) = 4096%nat
  /\ 0 <= local_port c < 65536
  /\ 0 <= game_id c < 4294967296.

(** A datagram with [size] payload bytes framed as [_network_send_message]
    frames one of the given type: the header passes the checks of the
    receiver and announces the type and the size. *)
Definition framed (type size : Z) (d : sent_datagram) : Prop :=
  Z.of_nat (length (dg_bytes d)) = sizeof_message_header_t + size
  /\ ntohl (h_magic (header_at (dg_bytes d))) = NETWORK_MAGIC
  /\ ntohs (h_version (header_at (dg_bytes d))) = NETWORK_PROTOCOL_VERSION
  /\ dg_type d = u16 type
  /\ dg_size d = size.

(** The calls that open a session. *)
Definition starts_session (call : api_call) : bool :=
  match call with
  | Call_host_game _ _ | Call_join_game _ _ _ => true
  | _ => false
  end.

(** What an engine that never opened a session has to show for itself. *)
Definition idle_of (w : world) : network_state_t * Z * Z * list callback_event * Z * Z :=
  (state (g_network w), player_count (g_network w),
   discovered_game_count (g_network w), events w,
   messages_received (g_network w), bytes_received (g_network w)).

(** The engine after [network_shutdown] followed by [network_init]. *)
Definition restarted (E : sys_env) (w : world) : world :=
  snd (network_init E (network_shutdown E w)).

(** ** The menu: projections and invariants *)

(** What the game browser of the menu shows. *)
Definition browser_of (mw : menu_world) : list game_browser_entry_t * Z * Z :=
  (browser_games (g_mp_menu mw), browser_game_count (g_mp_menu mw),
   browser_selected_game (g_mp_menu mw)).

(** The menu with its status line, its error line and the index of the
    Allegro clock erased: what showing a message may change. *)
Definition sans_notice (mw : menu_world) : menu_world :=
  put_al_reads O
    (updm (fun m =>
             set_status_message []
               (set_status_color color_zero
                  (set_status_timeout 0
                     (set_error_message [] (set_error_timeout 0 m))))) mw).

(** ... and with the lobby list erased as well: what a callback may change. *)
Definition sans_lobby (mw : menu_world) : menu_world :=
  updm (fun m => set_lobby_players [] (set_lobby_player_count 0 m)) (sans_notice mw).

(** The part of the menu the storage invariant is about. *)
Definition menu_storage_of (mw : menu_world)
    : Z * list lobby_player_entry_t * list byte * list byte * list byte * list byte
      * list byte * list byte * list byte * list bool :=
  let m := g_mp_menu mw in
  (lobby_player_count m, lobby_players m, status_message m, error_message m,
   host_game_name m, host_player_name m, join_hostname m, join_player_name m,
   default_player_name m, main_last_key_state (statics mw)).

(** The arrays of [g_mp_menu] keep their sizes, its strings stay terminated
    and the lobby count stays within the lobby array. *)
Definition menu_storage_inv (mw : menu_world) : Prop :=
  let m := g_mp_menu mw in
  0 <= lobby_player_count m <= 8
  /\ length (lobby_players m) = 8%nat
  /\ Forall (fun e => c_string_in 32 (name (lp_player e))) (lobby_players m)
  /\ c_string_in 256 (status_message m)
  /\ c_string_in 512 (error_message m)
  /\ c_string_in 64 (host_game_name m)
  /\ c_string_in 32 (host_player_name m)
  /\ c_string_in 256 (join_hostname m)
  /\ c_string_in 32 (join_player_name m)
  /\ c_string_in 32 (default_player_name m)
  /\ length (main_last_key_state (statics mw)) = 4%nat.

(** The game browser as zeroed storage has it: no entry, none listed, the
    first selected. *)
Definition browser_blank (mw : menu_world) : Prop :=
  browser_of mw = (replicate 16 zero_browser_entry, 0, 0).

(** The remembered state of Escape that the input handler of the current
    screen looks at. *)
Definition screen_last_escape (mw : menu_world) : bool :=
  match current_state (g_mp_menu mw) with
  | MP_MENU_HOST_SETUP => host_last_escape (statics mw)
  | MP_MENU_JOIN_SETUP | MP_MENU_CONNECTING => join_last_escape (statics mw)
  | MP_MENU_GAME_BROWSER => browser_last_escape (statics mw)
  | MP_MENU_LOBBY => lobby_last_escape (statics mw)
  | _ => default false (main_last_key_state (statics mw) !! 3%nat)
  end.

(** A keyboard on which Escape alone is held down. *)
Definition escape_held (k : nat) (key : allegro_key) : bool :=
  match key with
  | ALLEGRO_KEY_ESCAPE => true
  | _ => false
  end.

(** ** Scenarios of the menu *)

(** An Allegro clock that advances one second per reading. *)
Definition demo_al_ms (k : nat) (timeout : Z) : Z := 1000 * Z.of_nat k + timeout.

(** A keyboard on which Enter alone is held down. *)
Definition enter_held (k : nat) (key : allegro_key) : bool :=
  match key with
  | ALLEGRO_KEY_ENTER => true
  | _ => false
  end.

(** The program initialises the network module and the menu, goes to the
    host screen and Enter is pressed. *)
Definition menu_host_calls : list menu_call :=
  [Menu_network Call_init; Menu_init; Menu_set_state MP_MENU_HOST_SETUP;
   Menu_handle_input enter_held []].

Definition menu_host_world : menu_world :=
  default menu_initial_world
    (menu_run demo_env demo_al_ms menu_host_calls menu_initial_world).

(** The same on the join screen of a client machine. *)
Definition menu_client_calls : list menu_call :=
  [Menu_network Call_init; Menu_init; Menu_set_state MP_MENU_JOIN_SETUP;
   Menu_handle_input enter_held []].

Definition menu_client_world : menu_world :=
  default menu_initial_world
    (menu_run client_env demo_al_ms menu_client_calls menu_initial_world).

(** The join request of a peer called Nova, as its engine sent it. *)
Definition join_datagram : sent_datagram :=
  {| dg_sock := 4; dg_addr := demo_host; dg_bytes := frame MSG_JOIN_REQUEST nova;
     dg_ret := 25 |}.

(** The menu after [multiplayer_menu_init] and the arrival of player 5. *)
Definition lobby_world : menu_world :=
  multiplayer_on_player_joined demo_al_ms 5 nova
    (snd (multiplayer_menu_init menu_initial_world)).

(** The calls of an engine that only browses: discovery is started and an
    advertisement arrives on the discovery socket. *)
Definition browse_calls : list api_call :=
  [Call_init; Call_start_discovery; tick_advert 7 1].

(** The menu on the host screen, right after it was initialised. *)
Definition host_screen_calls : list menu_call :=
  [Menu_init; Menu_set_state MP_MENU_HOST_SETUP].

Definition host_screen_world : menu_world :=
  updm (multiplayer_menu_set_state MP_MENU_HOST_SETUP)
    (snd (multiplayer_menu_init menu_initial_world)).

(** * Properties *)

(** Projections of updated worlds, reduced without touching anything else. *)
Ltac world_simpl :=
  cbn [
       fst snd upd log_send log_close log_event close_socket bump_errors
       state server_socket broadcast_socket local_port players
       player_count local_player_id game_name game_id is_host
       discovered_games discovered_game_count last_discovery_time
       next_sequence receive_buffer bytes_sent bytes_received
       messages_sent messages_received errors set_state set_server_socket
       set_broadcast_socket set_local_port set_players set_player_count
       set_local_player_id set_game_name set_game_id set_is_host
       set_discovered_games set_discovered_game_count
       set_last_discovery_time set_next_sequence set_receive_buffer
       set_bytes_sent set_bytes_received set_messages_sent
       set_messages_received set_errors g_network g_network_callbacks
       network_initialized counter clock_reads os_calls wire closed events
       put_g_network put_g_network_callbacks put_network_initialized
       put_counter put_clock_reads put_os_calls put_wire put_closed
       put_events].

Tactic Notation "world_simpl" "in" hyp(H) :=
  cbn [
       fst snd upd log_send log_close log_event close_socket bump_errors
       state server_socket broadcast_socket local_port players
       player_count local_player_id game_name game_id is_host
       discovered_games discovered_game_count last_discovery_time
       next_sequence receive_buffer bytes_sent bytes_received
       messages_sent messages_received errors set_state set_server_socket
       set_broadcast_socket set_local_port set_players set_player_count
       set_local_player_id set_game_name set_game_id set_is_host
       set_discovered_games set_discovered_game_count
       set_last_discovery_time set_next_sequence set_receive_buffer
       set_bytes_sent set_bytes_received set_messages_sent
       set_messages_received set_errors g_network g_network_callbacks
       network_initialized counter clock_reads os_calls wire closed events
       put_g_network put_g_network_callbacks put_network_initialized
       put_counter put_clock_reads put_os_calls put_wire put_closed
       put_events] in H.

(** ** Bytes and scalars *)

Lemma Z_of_byte_range (b : byte) : 0 <= Z_of_byte b < 256.
Proof.
  unfold Z_of_byte. pose proof (Strings.Byte.to_N_bounded b). lia.
Qed.

Lemma Z_of_byte_of_Z (z : Z) : Z_of_byte (byte_of_Z z) = z mod 256.
Proof.
  unfold Z_of_byte, byte_of_Z.
  assert (Hr : 0 <= z mod 256 < 256) by (apply Z.mod_pos_bound; lia).
  destruct (Strings.Byte.of_N (Z.to_N (z mod 256))) as [b|] eqn:Hb.
  - apply Strings.Byte.to_of_N in Hb. rewrite Hb. lia.
  - apply Strings.Byte.of_N_None_iff in Hb. lia.
Qed.

Lemma byte_of_Z_of_byte (b : byte) : byte_of_Z (Z_of_byte b) = b.
Proof.
  unfold byte_of_Z. pose proof (Z_of_byte_range b) as Hr.
  rewrite Z.mod_small by lia. unfold Z_of_byte. rewrite N2Z.id.
  now rewrite Strings.Byte.of_to_N.
Qed.

Lemma length_store_le (n : nat) (v : Z) : length (store_le n v) = n.
Proof. revert v. induction n as [|n IH]; intros v; simpl; [|rewrite IH]; reflexivity. Qed.

Lemma load_le_range (bs : list byte) : 0 <= load_le bs < 256 ^ Z.of_nat (length bs).
Proof.
  induction bs as [|b bs IH]; simpl load_le; simpl length.
  - simpl. lia.
  - pose proof (Z_of_byte_range b).
    rewrite Nat2Z.inj_succ, Z.pow_succ_r by lia. lia.
Qed.

Lemma load_store_le (n : nat) (v : Z) :
  load_le (store_le n v) = v mod 256 ^ Z.of_nat n.
Proof.
  revert v. induction n as [|n IH]; intros v.
  - simpl. now rewrite Z.mod_1_r.
  - simpl store_le. simpl load_le. rewrite Z_of_byte_of_Z, IH.
    rewrite Nat2Z.inj_succ, Z.pow_succ_r by lia.
    assert (Hp : 0 < 256 ^ Z.of_nat n) by (apply Z.pow_pos_nonneg; lia).
    rewrite (Z.rem_mul_r v 256 (256 ^ Z.of_nat n)) by lia. reflexivity.
Qed.

Lemma byte_of_Z_add_mul (a b : Z) : byte_of_Z (a + 256 * b) = byte_of_Z a.
Proof.
  unfold byte_of_Z.
  replace ((a + 256 * b) mod 256) with (a mod 256); [reflexivity|].
  rewrite (Z.mul_comm 256 b), Z.mod_add by lia. reflexivity.
Qed.

Lemma store_load_le (bs : list byte) : store_le (length bs) (load_le bs) = bs.
Proof.
  induction bs as [|b bs IH]; simpl; [reflexivity|].
  pose proof (Z_of_byte_range b) as Hb.
  f_equal.
  - rewrite byte_of_Z_add_mul. apply byte_of_Z_of_byte.
  - replace ((Z_of_byte b + 256 * load_le bs) / 256) with (load_le bs); [exact IH|].
    rewrite (Z.mul_comm 256), Z.div_add by lia.
    rewrite (Z.div_small (Z_of_byte b)) by lia. lia.
Qed.

(** The representation of [htonl x] is the reversed representation of [x]. *)
Lemma store_le_swap (n : nat) (x : Z) :
  store_le n (load_le (rev (store_le n x))) = rev (store_le n x).
Proof.
  rewrite <- (store_load_le (rev (store_le n x))) at 2.
  now rewrite length_rev, length_store_le.
Qed.

Lemma ntohl_htonl (x : Z) : ntohl (htonl x) = u32 x.
Proof.
  unfold ntohl, htonl. rewrite store_le_swap, rev_involutive, load_store_le.
  reflexivity.
Qed.

Lemma ntohs_htons (x : Z) : ntohs (htons x) = u16 x.
Proof.
  unfold ntohs, htons. rewrite store_le_swap, rev_involutive, load_store_le.
  reflexivity.
Qed.

Lemma load_store_htonl (x : Z) : load_le (store_le 4 (htonl x)) = htonl x.
Proof. unfold htonl. now rewrite store_le_swap. Qed.

Lemma load_store_htons (x : Z) : load_le (store_le 2 (htons x)) = htons x.
Proof. unfold htons. now rewrite store_le_swap. Qed.

(** ** The codec *)

Lemma length_header_bytes (h : message_header_t) : length (header_bytes h) = 20%nat.
Proof. reflexivity. Qed.

(** Reading a header back from the front of a buffer gives the stored fields. *)
Lemma header_at_header_bytes (h : message_header_t) (rest : list byte) :
  header_at (header_bytes h ++ rest)
  = {| h_magic := load_le (store_le 4 (h_magic h));
       h_version := load_le (store_le 2 (h_version h));
       h_type := load_le (store_le 2 (h_type h));
       h_size := load_le (store_le 4 (h_size h));
       h_sequence := load_le (store_le 4 (h_sequence h));
       h_timestamp := load_le (store_le 4 (h_timestamp h)) |}.
Proof. reflexivity. Qed.

Lemma length_pad (n : nat) (bs : list byte) : length (pad n bs) = n.
Proof. apply length_resize. Qed.


(** The bytes handed to [sendto]: the header followed by the payload. *)
Lemma build_message_payload (h : message_header_t) (payload stack : list byte) :
  Z.of_nat (length payload) <= NETWORK_MAX_MESSAGE_SIZE ->
  take (Z.to_nat (sizeof_message_header_t + Z.of_nat (length payload)))
       (build_message h (Some payload) (Z.of_nat (length payload)) stack)
  = header_bytes h ++ payload.
Proof.
  intros Hlen. unfold build_message, memcpy_at, sizeof_message_header_t in *.
  unfold NETWORK_MAX_MESSAGE_SIZE in *.
  pose proof (length_header_bytes h) as Hhb.
  generalize dependent (header_bytes h). intros hb Hhb.
  replace (Z.to_nat (20 + Z.of_nat (length payload))) with (length hb + length payload)%nat by lia.
  rewrite Nat2Z.id, firstn_all, take_0. rewrite app_nil_l.
  change (Z.to_nat 20) with 20%nat. rewrite <- Hhb.
  destruct (0 <? Z.of_nat (length payload)) eqn:Hpos.
  - rewrite take_app_length, app_assoc, <- length_app.
    now rewrite take_app_length.
  - apply Z.ltb_ge in Hpos. destruct payload; [|simpl in Hpos; lia].
    rewrite app_nil_r. simpl length. rewrite Nat.add_0_r.
    now rewrite take_app_length.
Qed.
Lemma recv_bytes_short (from : sockaddr_in) (bs : list byte) (e : Z) :
  (length bs <= 4096)%nat -> recv_bytes (RecvDatagram from bs e) = bs.
Proof. intros H. simpl. apply take_ge. exact H. Qed.

Lemma receive_valid (from : sockaddr_in) (errno : Z) (h : message_header_t)
    (payload : list byte) (type0 : Z) (from0 : sockaddr_in) (data0 : list byte) (size0 : Z) (w : world) :
  ntohl (load_le (store_le 4 (h_magic h))) = NETWORK_MAGIC ->
  ntohs (load_le (store_le 2 (h_version h))) = NETWORK_PROTOCOL_VERSION ->
  ntohl (load_le (store_le 4 (h_size h))) = Z.of_nat (length payload) ->
  Z.of_nat (length payload) <= NETWORK_MAX_MESSAGE_SIZE ->
  _network_receive_message (RecvDatagram from (header_bytes h ++ payload) errno)
    {| ro_from_addr := from0; ro_type := type0; ro_data := Some data0; ro_size := Some size0 |} w
  = (1,
     {| ro_from_addr := from; ro_type := ntohs (load_le (store_le 2 (h_type h)));
        ro_data := Some (memcpy_at data0 0 payload);
        ro_size := Some (Z.of_nat (length payload)) |},
     upd (set_messages_received (u32 (messages_received (g_network w) + 1)))
       (upd (set_bytes_received
               (u32 (bytes_received (g_network w) + (20 + Z.of_nat (length payload)))))
          (upd (set_receive_buffer
                  (memcpy_at (receive_buffer (g_network w)) 0 (header_bytes h ++ payload))) w))).
Proof.
  intros Hmagic Hversion Hsize Hlen.
  unfold NETWORK_MAX_MESSAGE_SIZE in Hlen.
  unfold _network_receive_message.
  assert (Hl : length (header_bytes h ++ payload) = (20 + length payload)%nat)
    by (rewrite length_app; reflexivity).
  unfold recv_return. rewrite recv_bytes_short by lia. rewrite Hl.
  cbn [upd put_g_network g_network set_receive_buffer receive_buffer recv_errno].
  rewrite (proj2 (Z.leb_gt _ _)) by lia.
  rewrite (proj2 (Z.ltb_ge _ _)) by (unfold sizeof_message_header_t; lia).
  cbn [ro_type ro_data ro_size ro_from_addr].
  assert (HB : memcpy_at (receive_buffer (g_network w)) 0 (header_bytes h ++ payload)
               = header_bytes h ++ (payload ++ drop (20 + length payload) (receive_buffer (g_network w)))).
  { unfold memcpy_at. rewrite take_0, app_nil_l, Hl, <- app_assoc. reflexivity. }
  rewrite HB. rewrite header_at_header_bytes.
  cbn [h_magic h_version h_type h_size].
  rewrite Hmagic, Hversion, Hsize.
  rewrite !Z.eqb_refl. cbn [negb].
  rewrite (proj2 (Z.ltb_ge _ _)) by (unfold NETWORK_MAX_MESSAGE_SIZE; lia).
  replace (Z.of_nat (20 + length payload) =? sizeof_message_header_t + Z.of_nat (length payload))
    with true by (symmetry; apply Z.eqb_eq; unfold sizeof_message_header_t; lia).
  cbn [negb orb].
  assert (Hpl : (if 0 <? Z.of_nat (length payload)
                 then memcpy_at data0 0
                        (slice (Z.to_nat sizeof_message_header_t) (Z.to_nat (Z.of_nat (length payload)))
                           (header_bytes h ++ payload ++ drop (20 + length payload) (receive_buffer (g_network w))))
                 else data0) = memcpy_at data0 0 payload).
  { unfold slice. change (Z.to_nat sizeof_message_header_t) with (length (header_bytes h)).
    rewrite drop_app_length, Nat2Z.id, take_app_length.
    destruct (0 <? Z.of_nat (length payload)) eqn:Hpos; [reflexivity|].
    apply Z.ltb_ge in Hpos. destruct payload; [reflexivity|simpl in Hpos; lia]. }
  rewrite Hpl. f_equal.
  replace (Z.of_nat (20 + length payload)) with (20 + Z.of_nat (length payload)) by lia.
  reflexivity.
Qed.
Lemma message_type_of_code_code (t : message_type_t) :
  message_type_of_code (message_type_code t) = Some t.
Proof. destruct t; reflexivity. Qed.

Lemma message_type_code_range (t : message_type_t) : 1 <= message_type_code t <= 14.
Proof. destruct t; simpl; lia. Qed.

(** C1. Codec round trip: a message of any type with a payload of at most
    [NETWORK_MAX_MESSAGE_SIZE] bytes, framed by [_network_send_message] and
    handed to [_network_receive_message] as one datagram, is accepted
    (result 1) and gives back the same type and the same payload bytes, with
    the payload size reported and no error counted. *)
Theorem codec_round_trip (E : sys_env) (t : message_type_t) (payload : list byte)
    (sock : Z) (addr : sockaddr_in) (w : world) :
  Z.of_nat (length payload) <= NETWORK_MAX_MESSAGE_SIZE ->
  exists datagram,
    wire (snd (_network_send_message E sock addr (message_type_code t)
                 (Some payload) (Z.of_nat (length payload)) w))
    = wire w ++ [datagram]
    /\ forall (from from0 : sockaddr_in) (errno type0 size0 : Z) (data0 : list byte)
              (w' : world),
         let '(result, out, w'') :=
           _network_receive_message (RecvDatagram from (dg_bytes datagram) errno)
             {| ro_from_addr := from0; ro_type := type0; ro_data := Some data0;
                ro_size := Some size0 |} w' in
         result = 1
         /\ ro_type out = message_type_code t
         /\ message_type_of_code (ro_type out) = Some t
         /\ ro_size out = Some (Z.of_nat (length payload))
         /\ ro_data out = Some (memcpy_at data0 0 payload)
         /\ take (length payload) (memcpy_at data0 0 payload) = payload
         /\ errors (g_network w'') = errors (g_network w').
Proof.
  intros Hlen.
  unfold _network_send_message.
  rewrite (proj2 (Z.ltb_ge _ _)) by exact Hlen.
  cbv zeta. unfold get_timestamp.
  rewrite build_message_payload by exact Hlen.
  match goal with
  | |- context [header_bytes ?h ++ payload] => set (hdr := h)
  end.
  exists {| dg_sock := sock; dg_addr := addr; dg_bytes := header_bytes hdr ++ payload;
            dg_ret := sys_sendto E (length (wire w)) (header_bytes hdr ++ payload) |}.
  split.
  - destruct (_ =? _); reflexivity.
  - intros from from0 errno type0 size0 data0 w'. cbn [dg_bytes].
    assert (Hn : 0 <= Z.of_nat (length payload) < 4294967296)
      by (unfold NETWORK_MAX_MESSAGE_SIZE in Hlen; lia).
    rewrite receive_valid.
    + cbn [ro_type ro_size ro_data h_type hdr].
      rewrite load_store_htons, ntohs_htons.
      pose proof (message_type_code_range t) as Ht.
      assert (Hu : u16 (message_type_code t) = message_type_code t)
        by (unfold u16; apply Z.mod_small; lia).
      rewrite !Hu. repeat split.
      * apply message_type_of_code_code.
      * unfold memcpy_at. rewrite take_0, app_nil_l. apply take_app_length.
    + cbn [hdr h_magic]. rewrite load_store_htonl, ntohl_htonl. reflexivity.
    + cbn [hdr h_version]. rewrite load_store_htons, ntohs_htons. reflexivity.
    + cbn [hdr h_size]. rewrite load_store_htonl, ntohl_htonl.
      assert (Hu : u32 (Z.of_nat (length payload)) = Z.of_nat (length payload))
        by (unfold u32; apply Z.mod_small; lia).
      rewrite !Hu. reflexivity.
    + exact Hlen.
Qed.
Lemma codec_round_trip_witness :
  exists datagram,
    wire (snd (_network_send_message demo_env 3 demo_peer (message_type_code MSG_CHAT)
                 (Some (bytes_of_string "hello")) 5 initial_world)) = [datagram]
    /\ fst (fst (_network_receive_message
                   (RecvDatagram demo_peer (dg_bytes datagram) SOCKET_WOULD_BLOCK)
                   {| ro_from_addr := demo_peer; ro_type := 0;
                      ro_data := Some (replicate 1024 x00); ro_size := Some 0 |}
                   initial_world)) = 1.
Proof.
  destruct (codec_round_trip demo_env MSG_CHAT (bytes_of_string "hello") 3 demo_peer
              initial_world) as [datagram [Hw Hr]].
  - vm_compute. discriminate.
  - exists datagram. split; [exact Hw|].
    specialize (Hr demo_peer demo_peer SOCKET_WOULD_BLOCK 0 0 (replicate 1024 x00)
                  initial_world).
    destruct (_network_receive_message _ _ _) as [[result out] w''].
    exact (proj1 Hr).
Defined.

(** Decode rejection of a datagram [recvfrom] reports with a length above 0:
    when it is shorter than the header, or its magic field is not the
    protocol magic, or its version field is not the protocol version, or its
    size field exceeds [NETWORK_MAX_MESSAGE_SIZE] or differs from the received
    length minus the header size, the call answers -1 (the would-block answer
    is 0), counts one more error, and leaves the caller's payload buffer and
    size untouched. *)
Theorem decode_rejection (r : recv_result) (out : recv_out) (w : world) :
  let received := recv_return r in
  let header :=
    header_at (memcpy_at (receive_buffer (g_network w)) 0 (recv_bytes r)) in
  let res := _network_receive_message r out w in
  0 < received ->
  received < sizeof_message_header_t
  \/ ntohl (h_magic header) <> NETWORK_MAGIC
  \/ ntohs (h_version header) <> NETWORK_PROTOCOL_VERSION
  \/ NETWORK_MAX_MESSAGE_SIZE < ntohl (h_size header)
  \/ received <> sizeof_message_header_t + ntohl (h_size header) ->
  fst (fst res) = -1
  /\ errors (g_network (snd res)) = u32 (errors (g_network w) + 1)
  /\ ro_data (snd (fst res)) = ro_data out
  /\ ro_size (snd (fst res)) = ro_size out.
Proof.
  intros received header res Hpos Hbad.
  unfold res, _network_receive_message. fold received.
  cbn [upd put_g_network g_network set_receive_buffer receive_buffer]. fold header.
  rewrite (proj2 (Z.leb_gt _ _)) by exact Hpos.
  destruct (received <? sizeof_message_header_t) eqn:H1.
  { destruct r; repeat split. }
  destruct (ntohl (h_magic header) =? NETWORK_MAGIC) eqn:H2; cbn [negb];
    [|destruct r; repeat split].
  destruct (ntohs (h_version header) =? NETWORK_PROTOCOL_VERSION) eqn:H3; cbn [negb];
    [|destruct r; repeat split].
  destruct (NETWORK_MAX_MESSAGE_SIZE <? ntohl (h_size header)) eqn:H4; cbn [orb];
    [destruct r; repeat split|].
  destruct (received =? sizeof_message_header_t + ntohl (h_size header)) eqn:H5;
    cbn [negb]; [|destruct r; repeat split].
  exfalso. apply Z.ltb_ge in H1, H4. apply Z.eqb_eq in H2, H3, H5.
  destruct Hbad as [H|[H|[H|[H|H]]]]; lia.
Qed.

(** ** Operations that leave the session part of the world alone *)

Section Properties.

Variable E : sys_env.

Lemma session_inv_ext (w w' : world) :
  session_of w' = session_of w -> session_inv w -> session_inv w'.
Proof.
  unfold session_of, session_inv, registry. intros Heq.
  injection Heq as -> -> -> -> -> ->. trivial.
Qed.

Lemma session_get_timestamp (w : world) :
  session_of (snd (get_timestamp E w)) = session_of w.
Proof. reflexivity. Qed.

Lemma session_generate_player_id (w : world) :
  session_of (snd (_network_generate_player_id E w)) = session_of w.
Proof. reflexivity. Qed.

Lemma session_send_message sock addr type data size (w : world) :
  session_of (snd (_network_send_message E sock addr type data size w)) = session_of w.
Proof.
  unfold _network_send_message.
  destruct (_ <? _); [reflexivity|]. cbv zeta. unfold get_timestamp.
  destruct (_ =? _); reflexivity.
Qed.

Lemma session_send_to_each ps sock type data size acc (w : world) :
  session_of (snd (send_to_each E ps sock type data size acc w)) = session_of w.
Proof.
  revert acc w. induction ps as [|p ps IH]; intros acc w; simpl; [reflexivity|].
  destruct (negb _); [|apply IH].
  pose proof (session_send_message sock (player_addr p) type data size w) as Hs.
  destruct (_network_send_message _ _ _ _ _ _ _) as [r w1]. simpl in Hs.
  rewrite IH. exact Hs.
Qed.

Lemma session_send_to_all type data size (w : world) :
  session_of (snd (network_send_to_all E type data size w)) = session_of w.
Proof.
  unfold network_send_to_all. destruct (_ =? _); [reflexivity|].
  apply session_send_to_each.
Qed.

Lemma session_send_to_player id type data size (w : world) :
  session_of (snd (network_send_to_player E id type data size w)) = session_of w.
Proof.
  unfold network_send_to_player. destruct (_ =? _); [reflexivity|].
  destruct (list_find _ _) as [[i p]|]; [|reflexivity].
  apply session_send_message.
Qed.

Lemma session_broadcast_discovery (w : world) :
  session_of (snd (network_broadcast_discovery E w)) = session_of w.
Proof.
  unfold network_broadcast_discovery. destruct (_ =? _); [reflexivity|].
  apply session_send_message.
Qed.

Lemma session_create_socket (w : world) :
  session_of (snd (_network_create_socket E w)) = session_of w.
Proof.
  unfold _network_create_socket, _network_set_nonblocking, os_call.
  repeat (destruct (_ =? _); try reflexivity).
Qed.

Lemma session_receive_message r out (w : world) :
  session_of (snd (_network_receive_message r out w)) = session_of w.
Proof.
  unfold _network_receive_message.
  repeat (match goal with |- context [if ?b then _ else _] => destruct b end;
          try reflexivity).
Qed.

Lemma length_shift_players (fuel j : nat) (ps : list network_player_t) :
  length (shift_players fuel j ps) = length ps.
Proof.
  revert j ps. induction fuel as [|fuel IH]; intros j ps; simpl; [reflexivity|].
  rewrite IH. apply length_insert.
Qed.

(** A roster scan that finds an entry finds it below [player_count]. *)
Lemma find_player_by_addr_bound from (c : network_context_t) i p :
  find_player_by_addr from c = Some (i, p) ->
  (i < Z.to_nat (player_count c))%nat
  /\ players c !! i = Some p
  /\ ip_address p = sin_addr from /\ port p = ntohs (sin_port from).
Proof.
  unfold find_player_by_addr. intros H.
  apply list_find_Some in H as (Hl & Hp & _).
  pose proof (lookup_lt_Some _ _ _ Hl) as Hlt.
  rewrite length_take in Hlt.
  rewrite lookup_take_lt in Hl by lia.
  split; [lia|]. split; [exact Hl|exact Hp].
Qed.

(** Overwriting the first entry that carries an id with one of the same id
    keeps the ids of the registry. *)
Lemma ids_overwrite (n i : nat) (g g0 : game_info_t) (l : list game_info_t) :
  list_find (fun x => gi_game_id x = gi_game_id g) (take n l) = Some (i, g0) ->
  take n (<[i := g]> l) = <[i := g]> (take n l)
  /\ gi_game_id <$> take n (<[i := g]> l) = gi_game_id <$> take n l.
Proof.
  intros Hf. apply list_find_Some in Hf as (Hl & Hid & _).
  pose proof (lookup_lt_Some _ _ _ Hl) as Hlt. rewrite length_take in Hlt.
  rewrite take_insert_lt by lia. split; [reflexivity|].
  rewrite list_fmap_insert. apply list_insert_id.
  rewrite list_lookup_fmap, Hl. simpl. now rewrite Hid.
Qed.

(** Appending an entry whose id no entry carries keeps the ids distinct. *)
Lemma ids_append (n : nat) (g : game_info_t) (l : list game_info_t) :
  list_find (fun x => gi_game_id x = gi_game_id g) (take n l) = None ->
  (n < length l)%nat ->
  take (S n) (<[n := g]> l) = take n l ++ [g]
  /\ (NoDup (gi_game_id <$> take n l) ->
      NoDup (gi_game_id <$> take (S n) (<[n := g]> l))).
Proof.
  intros Hf Hn.
  assert (Ht : take (S n) (<[n := g]> l) = take n l ++ [g]).
  { rewrite (take_S_r _ n g) by (apply list_lookup_insert_eq; exact Hn).
    rewrite take_insert_ge by lia. reflexivity. }
  split; [exact Ht|]. intros Hnd. rewrite Ht, fmap_app. apply NoDup_app.
  split; [exact Hnd|]. split; [|apply NoDup_singleton].
  intros x Hx Hx'. apply list_elem_of_singleton in Hx'. subst x.
  apply list_elem_of_fmap in Hx as (g1 & Hid & Hin).
  apply list_find_None in Hf. rewrite Forall_forall in Hf.
  apply (Hf g1); [exact Hin|]. now symmetry.
Qed.

Lemma session_inv_handle_message from type data size (w : world) :
  session_inv w -> session_inv (snd (_network_handle_message E from type data size w)).
Proof.
  intros Hinv. unfold _network_handle_message.
  destruct (message_type_of_code type) as [[]|]; try exact Hinv.
  - (* discovery request *)
    destruct (_ && _); [|exact Hinv].
    pose proof (session_send_message (broadcast_socket (g_network w)) from
                  (message_type_code MSG_DISCOVERY_RESPONSE)) as Hs.
    match goal with
    | |- context [_network_send_message E ?s ?a ?t ?d ?n w] =>
        specialize (Hs d n w); destruct (_network_send_message E s a t d n w) as [r w1]
    end.
    simpl in *. eapply session_inv_ext; eauto.
  - (* discovery response *)
    destruct (_ && _) eqn:Hc; [|exact Hinv].
    apply andb_prop in Hc as [_ Hlt]. apply Z.ltb_lt in Hlt.
    unfold get_timestamp. cbv zeta.
    destruct Hinv as (H1 & H2 & H3 & H4 & H5 & H6 & H7).
    unfold MAX_DISCOVERED_GAMES in *.
    destruct (list_find _ _) as [[i g]|] eqn:Hf; unfold session_inv, registry;
      world_simpl; rewrite length_insert; unfold MAX_DISCOVERED_GAMES;
      (split; [assumption|]); (split; [assumption|]); (split; [assumption|]);
      (split; [assumption|]); (split; [lia|]); (split; [assumption|]).
    + apply ids_overwrite in Hf as [_ Hids]. rewrite Hids. exact H7.
    + replace (Z.to_nat (discovered_game_count (g_network w) + 1))
        with (S (Z.to_nat (discovered_game_count (g_network w)))) by lia.
      apply ids_append; [exact Hf|lia|exact H7].
  - (* join request *)
    destruct (_ && _) eqn:Hc; [|exact Hinv].
    apply andb_prop in Hc as [Hh Hlt]. apply Z.ltb_lt in Hlt.
    apply negb_true_iff, Z.eqb_neq in Hh.
    destruct Hinv as (H1 & H2 & H3 & H4 & H5 & H6 & H7).
    unfold _network_generate_player_id, get_timestamp. cbv zeta.
    match goal with
    | |- context [_network_send_message E ?s ?a ?t ?d ?n ?w0] =>
        pose proof (session_send_message s a t d n w0) as Hs;
        destruct (_network_send_message E s a t d n w0) as [r w1]
    end.
    assert (Hinv1 : session_inv w1).
    { eapply session_inv_ext; [exact Hs|].
      unfold session_inv; simpl. rewrite length_insert.
      unfold NETWORK_MAX_PLAYERS in *.
      repeat split; try assumption; try lia. }
    simpl. destruct (on_player_joined _); exact Hinv1.
  - (* join response *)
    destruct (_ && _) eqn:Hc; [|exact Hinv].
    apply andb_prop in Hc as [Hst _]. apply bool_decide_eq_true in Hst.
    destruct Hinv as (H1 & H2 & H3 & H4 & H5 & H6 & H7).
    unfold session_inv; simpl. repeat split; try assumption; try lia.
    intros _. apply H3. rewrite Hst. discriminate.
  - (* game data *)
    destruct (on_game_data _); exact Hinv.
  - (* player disconnect *)
    destruct (find_player_by_addr from (g_network w)) as [[i p]|] eqn:Hf; [|exact Hinv].
    apply find_player_by_addr_bound in Hf as (Hi & _).
    destruct Hinv as (H1 & H2 & H3 & H4 & H5 & H6 & H7).
    unfold session_inv; destruct (on_player_left _); simpl;
      rewrite length_shift_players; repeat split; try assumption; try lia.
  - (* chat *)
    destruct (_ && _); exact Hinv.
Qed.


Lemma session_inv_poll_socket r out (w : world) :
  session_inv w -> session_inv (snd (poll_socket E r out w)).
Proof.
  intros Hinv. unfold poll_socket.
  pose proof (session_receive_message r out w) as Hr.
  destruct (_network_receive_message r out w) as [[result out1] w1]. simpl in Hr.
  assert (Hinv1 : session_inv w1) by (eapply session_inv_ext; eauto).
  destruct (0 <? result); [|exact Hinv1].
  pose proof (session_inv_handle_message (ro_from_addr out1) (ro_type out1)
                (default [] (ro_data out1)) (default 0 (ro_size out1)) w1 Hinv1) as Hh.
  destruct (_network_handle_message _ _ _ _ _ _) as [data1 w2]. exact Hh.
Qed.

Lemma session_inv_update_receive rs rb frame (w : world) :
  session_inv w -> session_inv (update_receive E rs rb frame w).
Proof.
  intros Hinv. unfold update_receive.
  match goal with
  | |- context [poll_socket E rs ?o w] =>
      pose proof (session_inv_poll_socket rs o w Hinv) as H1;
      destruct (poll_socket E rs o w) as [out1 w1] eqn:Hp1; simpl in H1
  end.
  destruct (negb (server_socket (g_network w) =? INVALID_SOCKET_VALUE)).
  - pose proof (session_inv_poll_socket rb out1 w1 H1) as H2.
    destruct (negb (broadcast_socket (g_network w1) =? INVALID_SOCKET_VALUE)).
    + destruct (poll_socket E rb out1 w1). exact H2.
    + exact H1.
  - match goal with
    | |- context [poll_socket E rb ?o w] =>
        pose proof (session_inv_poll_socket rb o w Hinv) as H2;
        destruct (poll_socket E rb o w) as [out2 w2]; simpl in H2
    end.
    destruct (negb (broadcast_socket (g_network w) =? INVALID_SOCKET_VALUE));
      assumption.
Qed.

Lemma session_update_discovery (w : world) :
  session_of (update_discovery E w) = session_of w.
Proof.
  unfold update_discovery. destruct (_ && _); [|reflexivity].
  unfold get_timestamp at 1. cbv zeta.
  destruct (_ <? _); [|reflexivity].
  match goal with
  | |- context [network_broadcast_discovery E ?w0] =>
      pose proof (session_broadcast_discovery w0) as Hb;
      destruct (network_broadcast_discovery E w0) as [r w2]
  end.
  simpl in Hb. unfold get_timestamp. exact Hb.
Qed.

Lemma session_inv_update rs rb frame (w : world) :
  session_inv w -> session_inv (network_update E rs rb frame w).
Proof.
  intros Hinv. unfold network_update. destruct (_ || _); [exact Hinv|].
  eapply session_inv_ext; [apply session_update_discovery|].
  apply session_inv_update_receive. exact Hinv.
Qed.

(** After a disconnect from a live session the session part is reset and the
    registry is kept. *)
Lemma session_disconnect (w : world) :
  state (g_network w) <> NETWORK_STATE_DISCONNECTED ->
  session_of (network_disconnect E w)
  = (NETWORK_STATE_DISCONNECTED, 0, 0, replicate 8 zero_player,
     discovered_game_count (g_network w), discovered_games (g_network w)).
Proof.
  intros Hst. unfold network_disconnect, state_is at 1.
  rewrite bool_decide_eq_false_2 by exact Hst.
  set (w1 := if state_is NETWORK_STATE_CONNECTED w || state_is NETWORK_STATE_HOSTING w
             then snd (network_send_to_all E (message_type_code MSG_PLAYER_DISCONNECT) None 0 w)
             else w).
  assert (Hw1 : session_of w1 = session_of w).
  { unfold w1. destruct (_ || _); [apply session_send_to_all|reflexivity]. }
  cbv zeta.
  set (w2 := if negb (server_socket (g_network w1) =? INVALID_SOCKET_VALUE)
             then upd (set_server_socket INVALID_SOCKET_VALUE)
                    (close_socket (server_socket (g_network w1)) w1)
             else w1).
  assert (Hw2 : session_of w2 = session_of w1)
    by (unfold w2; destruct (negb (server_socket (g_network w1) =? _)); reflexivity).
  set (w3 := if negb (broadcast_socket (g_network w2) =? INVALID_SOCKET_VALUE)
             then upd (set_broadcast_socket INVALID_SOCKET_VALUE)
                    (close_socket (broadcast_socket (g_network w2)) w2)
             else w2).
  assert (Hw3 : session_of w3 = session_of w2)
    by (unfold w3; destruct (negb (broadcast_socket (g_network w2) =? _)); reflexivity).
  rewrite Hw2, Hw1 in Hw3. unfold session_of in Hw3 |- *.
  injection Hw3 as _ _ _ _ Hc Hg. simpl. now rewrite Hc, Hg.
Qed.

Lemma session_inv_disconnect (w : world) :
  session_inv w -> session_inv (network_disconnect E w).
Proof.
  intros Hinv.
  destruct (decide (state (g_network w) = NETWORK_STATE_DISCONNECTED)) as [Hst|Hst].
  - unfold network_disconnect, state_is. now rewrite bool_decide_eq_true_2.
  - pose proof (session_disconnect w Hst) as Hs.
    destruct Hinv as (H1 & H2 & H3 & H4 & H5 & H6 & H7).
    unfold session_of in Hs. injection Hs as Hs1 Hs2 Hs3 Hs4 Hs5 Hs6.
    unfold session_inv, registry in *. rewrite Hs1, Hs2, Hs3, Hs4, Hs5, Hs6.
    unfold NETWORK_MAX_PLAYERS. repeat split; try assumption; try lia.
Qed.

Lemma session_inv_host_game n p (w : world) :
  session_inv w -> session_inv (snd (network_host_game E n p w)).
Proof.
  intros Hinv. unfold network_host_game.
  destruct (negb _); [exact Hinv|].
  unfold _network_create_socket, _network_set_nonblocking, _network_bind_socket, os_call.
  destruct Hinv as (H1 & H2 & H3 & H4 & H5 & H6 & H7).
  repeat (match goal with |- context [if ?b then _ else _] => destruct b end;
          try (unfold session_inv; simpl; repeat split; assumption)).
  all: destruct n; unfold session_inv; simpl;
    unfold NETWORK_MAX_PLAYERS; repeat split; try assumption; try lia;
    try (intros Hs; now contradict Hs).
Qed.

Lemma session_inv_join_game h p n (w : world) :
  session_inv w -> session_inv (snd (network_join_game E h p n w)).
Proof.
  intros Hinv. unfold network_join_game.
  destruct (negb (state_is _ _)) eqn:Hst; [exact Hinv|].
  apply negb_false_iff, bool_decide_eq_true in Hst.
  pose proof (session_create_socket w) as Hc.
  destruct (_network_create_socket E w) as [[r1 fd1] wc]. simpl in Hc.
  assert (Hinvc : session_inv (upd (set_server_socket fd1) wc))
    by (eapply session_inv_ext; [|exact Hinv]; rewrite <- Hc; reflexivity).
  cbv zeta. destruct (r1 =? 0); [exact Hinvc|].
  destruct (sys_gethostbyname E (cstr h)) as [a|];
    [|eapply session_inv_ext; [|exact Hinvc]; reflexivity].
  match goal with
  | |- context [_network_send_message E ?s ?a ?t ?d ?n ?w0] =>
      pose proof (session_send_message s a t d n w0) as Hs;
      destruct (_network_send_message E s a t d n w0) as [r2 w2]
  end.
  simpl in Hs.
  assert (Hinv2 : session_inv w2) by (eapply session_inv_ext; eauto).
  destruct (r2 =? 0); [eapply session_inv_ext; [|exact Hinv2]; reflexivity|].
  assert (Hst2 : state (g_network w2) = NETWORK_STATE_DISCONNECTED).
  { unfold session_of in Hs, Hc. simpl in Hs. congruence. }
  destruct Hinv2 as (H1 & H2 & H3 & H4 & H5 & H6 & H7).
  assert (Hh : is_host (g_network w2) = 0) by (apply H3; rewrite Hst2; discriminate).
  specialize (H4 Hh).
  unfold session_inv; simpl. repeat split; try assumption; try lia.
Qed.

Lemma session_inv_start_discovery (w : world) :
  session_inv w -> session_inv (snd (network_start_discovery E w)).
Proof.
  intros Hinv. unfold network_start_discovery.
  pose proof (session_create_socket w) as Hc.
  destruct (_network_create_socket E w) as [[r fd] wc]. simpl in Hc.
  assert (Hinvc : session_inv wc) by (eapply session_inv_ext; eauto).
  cbv zeta. destruct (r =? 0); [exact Hinvc|].
  unfold get_timestamp.
  match goal with
  | |- context [network_broadcast_discovery E ?w0] =>
      eapply session_inv_ext; [apply (session_broadcast_discovery w0)|]
  end.
  destruct Hinvc as (H1 & H2 & H3 & H4 & H5 & H6 & H7).
  unfold session_inv, registry, MAX_DISCOVERED_GAMES; simpl.
  repeat split; try assumption; try lia. apply NoDup_nil_2.
Qed.

Lemma session_stop_discovery (w : world) :
  session_of (network_stop_discovery w) = session_of w.
Proof. unfold network_stop_discovery. destruct (negb _); reflexivity. Qed.

Lemma session_inv_init (w : world) :
  session_inv w -> session_inv (snd (network_init E w)).
Proof.
  intros Hinv. unfold network_init. destruct (negb _); [exact Hinv|].
  unfold session_inv, registry, NETWORK_MAX_PLAYERS, MAX_DISCOVERED_GAMES; simpl.
  repeat split; try reflexivity; try lia. apply NoDup_nil_2.
Qed.

Lemma session_inv_shutdown (w : world) :
  session_inv w -> session_inv (network_shutdown E w).
Proof.
  intros Hinv. unfold network_shutdown. destruct (_ =? _); [exact Hinv|].
  eapply session_inv_ext; [|apply session_inv_disconnect; exact Hinv]. reflexivity.
Qed.

Lemma session_send_chat m (w : world) :
  session_of (snd (network_send_chat E m w)) = session_of w.
Proof.
  unfold network_send_chat. destruct m; [apply session_send_to_all|reflexivity].
Qed.

Lemma session_inv_initial : session_inv initial_world.
Proof.
  unfold session_inv, registry, NETWORK_MAX_PLAYERS, MAX_DISCOVERED_GAMES; simpl.
  repeat split; try reflexivity; try lia. apply NoDup_nil_2.
Qed.

Lemma session_inv_step (call : api_call) (w : world) :
  session_inv w -> session_inv (step E call w).
Proof.
  intros Hinv. destruct call; simpl.
  - now apply session_inv_init.
  - now apply session_inv_shutdown.
  - now apply session_inv_update.
  - now apply session_inv_host_game.
  - now apply session_inv_join_game.
  - now apply session_inv_disconnect.
  - now apply session_inv_start_discovery.
  - eapply session_inv_ext; [apply session_stop_discovery|exact Hinv].
  - eapply session_inv_ext; [apply session_broadcast_discovery|exact Hinv].
  - eapply session_inv_ext; [apply session_send_to_player|exact Hinv].
  - eapply session_inv_ext; [apply session_send_to_all|exact Hinv].
  - eapply session_inv_ext; [apply session_send_chat|exact Hinv].
  - eapply session_inv_ext; [apply session_send_to_all|exact Hinv].
  - eapply session_inv_ext; [apply session_send_to_all|exact Hinv].
  - destruct callbacks; exact Hinv.
Qed.

Lemma session_inv_run (calls : list api_call) (w : world) :
  session_inv w -> session_inv (run E calls w).
Proof.
  revert w. induction calls as [|call calls IH]; intros w Hinv; simpl.
  - exact Hinv.
  - apply IH, session_inv_step, Hinv.
Qed.

(** Every reachable world satisfies the session invariant. *)
Lemma reachable_session_inv (w : world) : reachable E w -> session_inv w.
Proof.
  intros [calls ->]. apply session_inv_run, session_inv_initial.
Qed.

Lemma take_roster_empty (w : world) :
  session_inv w ->
  state (g_network w) <> NETWORK_STATE_HOSTING ->
  take (Z.to_nat (player_count (g_network w))) (players (g_network w)) = [].
Proof.
  intros (H1 & H2 & H3 & H4 & H5 & H6 & H7) Hst.
  rewrite (H4 (H3 Hst)). reflexivity.
Qed.

(** C3. Roster capacity: in every reachable world [player_count] is at most
    [NETWORK_MAX_PLAYERS] (8), and when the roster holds 8 peers the dispatcher
    leaves the world exactly as it was on a join request from any sender: no
    entry is added, nothing is sent, no callback is fired and [player_count]
    stays 8. *)
Theorem roster_capacity (w : world) :
  reachable E w ->
  player_count (g_network w) <= NETWORK_MAX_PLAYERS
  /\ (player_count (g_network w) = NETWORK_MAX_PLAYERS ->
      forall (from : sockaddr_in) (data : list byte) (size : Z),
        let w' :=
          snd (_network_handle_message E from (message_type_code MSG_JOIN_REQUEST)
                 data size w) in
        w' = w
        /\ player_count (g_network w') = 8
        /\ players (g_network w') = players (g_network w)
        /\ wire w' = wire w
        /\ events w' = events w).
Proof.
  intros Hr. pose proof (reachable_session_inv w Hr) as (H1 & _).
  split; [lia|].
  intros Hfull from data size.
  assert (Hw : snd (_network_handle_message E from (message_type_code MSG_JOIN_REQUEST)
                      data size w) = w).
  { unfold _network_handle_message. simpl message_type_of_code. cbv iota beta.
    rewrite Hfull, Z.ltb_irrefl, andb_false_r. reflexivity. }
  cbv zeta. rewrite Hw. repeat split. exact Hfull.
Qed.

(** C6. State gating of sends: in a reachable world whose state is neither
    Hosting nor Connected (so in particular Disconnected),
    [network_send_game_state] and every other send operation of the public
    interface returns 0 and leaves the world as it was: nothing is handed to
    [sendto] and no counter moves. *)
Theorem send_game_state_gated (w : world) :
  reachable E w ->
  state (g_network w) <> NETWORK_STATE_HOSTING ->
  state (g_network w) <> NETWORK_STATE_CONNECTED ->
  (forall data size, network_send_game_state E data size w = (0, w))
  /\ (forall data size, network_send_turn_data E data size w = (0, w))
  /\ (forall type data size, network_send_to_all E type data size w = (0, w))
  /\ (forall id type data size, network_send_to_player E id type data size w = (0, w))
  /\ (forall message, network_send_chat E message w = (0, w)).
Proof.
  intros Hr Hh _. pose proof (reachable_session_inv w Hr) as Hinv.
  pose proof (take_roster_empty w Hinv Hh) as Hemp.
  assert (Hall : forall type data size, network_send_to_all E type data size w = (0, w)).
  { intros type data size. unfold network_send_to_all.
    destruct (_ =? _); [reflexivity|]. rewrite Hemp. reflexivity. }
  repeat split; intros.
  - apply Hall.
  - apply Hall.
  - apply Hall.
  - unfold network_send_to_player. destruct (_ =? _); [reflexivity|].
    rewrite Hemp. reflexivity.
  - unfold network_send_chat. destruct message; [apply Hall|reflexivity].
Qed.

(** ** Roster operations *)

(** Sending touches the traffic bookkeeping only. *)
Lemma sans_traffic_send_message sock addr type data size (w : world) :
  sans_traffic (snd (_network_send_message E sock addr type data size w))
  = sans_traffic w.
Proof.
  unfold _network_send_message.
  destruct (_ <? _); [reflexivity|]. cbv zeta. unfold get_timestamp.
  destruct (_ =? _); reflexivity.
Qed.

(** A payload within the bound is handed to [sendto] once, framed. *)
Lemma wire_send_message sock addr type (payload : list byte) (w : world) :
  Z.of_nat (length payload) <= NETWORK_MAX_MESSAGE_SIZE ->
  exists response,
    wire (snd (_network_send_message E sock addr type (Some payload)
                 (Z.of_nat (length payload)) w)) = wire w ++ [response]
    /\ dg_sock response = sock
    /\ dg_addr response = addr
    /\ drop 20 (dg_bytes response) = payload
    /\ ntohs (h_type (header_at (dg_bytes response))) = u16 type.
Proof.
  intros Hlen. unfold _network_send_message.
  rewrite (proj2 (Z.ltb_ge _ _)) by exact Hlen.
  cbv zeta. unfold get_timestamp. rewrite build_message_payload by exact Hlen.
  eexists. split; [destruct (_ =? _); reflexivity|].
  cbn [dg_sock dg_addr dg_bytes]. repeat split.
  rewrite header_at_header_bytes. cbn [h_type].
  rewrite load_store_htons, ntohs_htons. unfold u16. apply Z.mod_mod. lia.
Qed.

(** What the dispatcher does with a join request it admits. *)
Lemma join_request_admitted (w : world) (from : sockaddr_in) (data : list byte)
    (size : Z) :
  session_inv w ->
  is_host (g_network w) <> 0 ->
  player_count (g_network w) < NETWORK_MAX_PLAYERS ->
  let n := Z.to_nat (player_count (g_network w)) in
  let id := fst (_network_generate_player_id E w) in
  let w' :=
    snd (_network_handle_message E from (message_type_code MSG_JOIN_REQUEST)
           data size w) in
  player_count (g_network w') = player_count (g_network w) + 1
  /\ take n (players (g_network w')) = take n (players (g_network w))
  /\ (exists p,
        players (g_network w') !! n = Some p
        /\ player_id p = id
        /\ ip_address p = sin_addr from
        /\ port p = ntohs (sin_port from)
        /\ connected p = 1
        /\ events w'
           = events w
             ++ (if on_player_joined (g_network_callbacks w)
                 then [EvPlayerJoined id (name p)] else []))
  /\ (exists response,
        wire w' = wire w ++ [response]
        /\ dg_sock response = server_socket (g_network w)
        /\ dg_addr response = from
        /\ drop 20 (dg_bytes response) = store_le 4 id
        /\ ntohs (h_type (header_at (dg_bytes response)))
           = message_type_code MSG_JOIN_RESPONSE)
  /\ counter w' = u32 (counter w + 1)
  /\ is_host (g_network w') = is_host (g_network w)
  /\ g_network_callbacks w' = g_network_callbacks w
  /\ session_inv w'.
Proof.
  intros Hinv Hh Hlt n id w'.
  assert (Hinv' : session_inv w') by apply session_inv_handle_message, Hinv.
  destruct Hinv as (H1 & H2 & H3 & H4 & H5 & H6 & H7).
  revert Hinv'. unfold w', _network_handle_message.
  simpl message_type_of_code. cbv iota beta zeta.
  replace (negb (is_host (g_network w) =? 0)) with true
    by (symmetry; apply negb_true_iff, Z.eqb_neq, Hh).
  rewrite (proj2 (Z.ltb_lt _ _)) by exact Hlt. cbn [andb].
  unfold _network_generate_player_id, get_timestamp. cbv iota beta zeta.
  match goal with
  | |- context [<[_ := ?p]> (players (g_network w))] => set (p1 := p)
  end.
  match goal with
  | |- context [_network_send_message E ?s ?a ?t (Some ?d) ?sz ?w0] =>
      set (w3 := w0);
      pose proof (sans_traffic_send_message s a t (Some d) sz w3) as Hq;
      destruct (wire_send_message s a t d w3) as (response & Hw & Hr1 & Hr2 & Hr3 & Hr4);
        [vm_compute; discriminate|];
      change (Z.of_nat (length d)) with sz in Hw;
      destruct (_network_send_message E s a t (Some d) sz w3) as [r w4]
  end.
  cbn [snd] in *. intros Hinv'.
  assert (Hplayers : players (g_network w4)
                     = <[n := p1]> (players (g_network w)))
    by exact (f_equal (fun x => players (g_network x)) Hq).
  assert (Hcount : player_count (g_network w4) = player_count (g_network w) + 1)
    by exact (f_equal (fun x => player_count (g_network x)) Hq).
  assert (Hhost : is_host (g_network w4) = is_host (g_network w))
    by exact (f_equal (fun x => is_host (g_network x)) Hq).
  assert (Hcounter : counter w4 = u32 (counter w + 1))
    by exact (f_equal counter Hq).
  assert (Hevents : events w4 = events w) by exact (f_equal events Hq).
  assert (Hcb : g_network_callbacks w4 = g_network_callbacks w)
    by exact (f_equal g_network_callbacks Hq).
  change (wire w3) with (wire w) in Hw.
  change (dg_sock response = server_socket (g_network w)) in Hr1.
  change (drop 20 (dg_bytes response) = store_le 4 id) in Hr3.
  change (u16 (message_type_code MSG_JOIN_RESPONSE))
    with (message_type_code MSG_JOIN_RESPONSE) in Hr4.
  clearbody w3. clear Hq.
  assert (Hn : (n < length (players (g_network w)))%nat)
    by (unfold n, NETWORK_MAX_PLAYERS in *; lia).
  rewrite Hcb in Hinv' |- *.
  assert (Hgoal : forall w5,
             w5 = w4 \/ w5 = log_event (EvPlayerJoined (player_id p1) (name p1)) w4 ->
             events w5 = events w
                         ++ (if on_player_joined (g_network_callbacks w)
                             then [EvPlayerJoined (player_id p1) (name p1)] else []) ->
             session_inv w5 ->
             player_count (g_network w5) = player_count (g_network w) + 1
             /\ take n (players (g_network w5)) = take n (players (g_network w))
             /\ (exists p,
                   players (g_network w5) !! n = Some p
                   /\ player_id p = id
                   /\ ip_address p = sin_addr from
                   /\ port p = ntohs (sin_port from)
                   /\ connected p = 1
                   /\ events w5
                      = events w
                        ++ (if on_player_joined (g_network_callbacks w)
                            then [EvPlayerJoined id (name p)] else []))
             /\ (exists response,
                   wire w5 = wire w ++ [response]
                   /\ dg_sock response = server_socket (g_network w)
                   /\ dg_addr response = from
                   /\ drop 20 (dg_bytes response) = store_le 4 id
                   /\ ntohs (h_type (header_at (dg_bytes response)))
                      = message_type_code MSG_JOIN_RESPONSE)
             /\ counter w5 = u32 (counter w + 1)
             /\ is_host (g_network w5) = is_host (g_network w)
             /\ g_network_callbacks w5 = g_network_callbacks w
             /\ session_inv w5).
  { intros w5 Hw5 Hev Hinv5.
    assert (Hsame : players (g_network w5) = players (g_network w4)
                    /\ player_count (g_network w5) = player_count (g_network w4)
                    /\ wire w5 = wire w4 /\ counter w5 = counter w4
                    /\ is_host (g_network w5) = is_host (g_network w4)
                    /\ g_network_callbacks w5 = g_network_callbacks w4)
      by (destruct Hw5 as [->| ->]; repeat split).
    destruct Hsame as (-> & -> & -> & -> & -> & ->).
    rewrite Hplayers, Hcount, Hcounter, Hhost, Hcb, Hw.
    split; [reflexivity|].
    split; [apply take_insert_ge; lia|].
    split.
    { exists p1. rewrite list_lookup_insert_eq by exact Hn.
      repeat split. exact Hev. }
    split.
    { exists response. repeat split; assumption. }
    split; [reflexivity|]. split; [reflexivity|]. split; [reflexivity|].
    exact Hinv5. }
  destruct (on_player_joined (g_network_callbacks w)); apply Hgoal;
    auto; cbn [events log_event put_events]; rewrite Hevents;
    rewrite ?app_nil_r; reflexivity.
Qed.

(** The low byte of a generated id is the low byte of the static counter. *)
Lemma generated_id_low_byte (w : world) :
  Z.land (fst (_network_generate_player_id E w)) 255 = Z.land (counter w) 255.
Proof.
  unfold _network_generate_player_id, get_timestamp. simpl.
  rewrite Z.land_lor_distr_l, <- !Z.land_assoc. simpl Z.land at 2 4.
  rewrite Z.land_0_r. reflexivity.
Qed.

Lemma low_byte_succ (c : Z) : Z.land (u32 (c + 1)) 255 <> Z.land c 255.
Proof.
  change 255 with (Z.ones 8). rewrite !Z.land_ones by lia. unfold u32.
  change (2 ^ 8) with 256.
  pose proof (Z.mod_pos_bound c 256). pose proof (Z.mod_pos_bound (c + 1) 4294967296).
  pose proof (Z.mod_pos_bound ((c + 1) mod 4294967296) 256).
  pose proof (Z.div_mod c 256). pose proof (Z.div_mod (c + 1) 4294967296).
  pose proof (Z.div_mod ((c + 1) mod 4294967296) 256).
  lia.
Qed.

(** C10. No admission dedup by address: a join request is admitted whenever
    [is_host] is set and the roster has room, whatever the sender's address
    and whatever the roster already holds.  Two requests in a row from the
    same address and port therefore add two roster entries carrying that
    address, each with an id freshly drawn from [_network_generate_player_id]
    (the two ids differ), and fire [on_player_joined] twice. *)
Theorem join_request_not_deduplicated (w : world) (from : sockaddr_in)
    (data1 data2 : list byte) (size1 size2 : Z) :
  session_inv w ->
  is_host (g_network w) <> 0 ->
  player_count (g_network w) + 2 <= NETWORK_MAX_PLAYERS ->
  let n := Z.to_nat (player_count (g_network w)) in
  let w1 :=
    snd (_network_handle_message E from (message_type_code MSG_JOIN_REQUEST)
           data1 size1 w) in
  let w2 :=
    snd (_network_handle_message E from (message_type_code MSG_JOIN_REQUEST)
           data2 size2 w1) in
  player_count (g_network w1) = player_count (g_network w) + 1
  /\ player_count (g_network w2) = player_count (g_network w) + 2
  /\ take n (players (g_network w2)) = take n (players (g_network w))
  /\ exists p1 p2,
       players (g_network w2) !! n = Some p1
       /\ players (g_network w2) !! S n = Some p2
       /\ ip_address p1 = sin_addr from /\ port p1 = ntohs (sin_port from)
       /\ ip_address p2 = sin_addr from /\ port p2 = ntohs (sin_port from)
       /\ player_id p1 = fst (_network_generate_player_id E w)
       /\ player_id p2 = fst (_network_generate_player_id E w1)
       /\ player_id p1 <> player_id p2
       /\ events w2
          = events w
            ++ (if on_player_joined (g_network_callbacks w)
                then [EvPlayerJoined (player_id p1) (name p1);
                      EvPlayerJoined (player_id p2) (name p2)]
                else []).
Proof.
  intros Hinv Hh Hroom n w1 w2.
  pose proof Hinv as (Hc & _).
  destruct (join_request_admitted w from data1 size1 Hinv Hh ltac:(lia))
    as (Hc1 & Ht1 & (p1 & Hl1 & Hid1 & Hip1 & Hport1 & _ & Hev1) & _ & Hctr1 & Hh1 & Hcb1 & Hinv1).
  fold w1 in Hc1, Ht1, Hl1, Hev1, Hctr1, Hh1, Hcb1, Hinv1. fold n in Ht1, Hl1.
  destruct (join_request_admitted w1 from data2 size2 Hinv1 ltac:(congruence) ltac:(lia))
    as (Hc2 & Ht2 & (p2 & Hl2 & Hid2 & Hip2 & Hport2 & _ & Hev2) & _).
  fold w2 in Hc2, Ht2, Hl2, Hev2.
  assert (Hn1 : Z.to_nat (player_count (g_network w1)) = S n) by (unfold n; lia).
  rewrite Hn1 in Ht2, Hl2.
  split; [exact Hc1|]. split; [lia|].
  split.
  { assert (Htt : forall l : list network_player_t, take n l = take n (take (S n) l))
      by (intros l; rewrite take_take; f_equal; lia).
    rewrite (Htt (players (g_network w2))), Ht2, <- Htt. exact Ht1. }
  exists p1, p2.
  assert (Hl1' : players (g_network w2) !! n = Some p1).
  { rewrite <- (lookup_take_lt _ (S n) n) by lia. rewrite Ht2.
    rewrite lookup_take_lt by lia. exact Hl1. }
  repeat split; try assumption.
  - intros Heq.
    pose proof (generated_id_low_byte w) as Hb1.
    pose proof (generated_id_low_byte w1) as Hb2.
    rewrite <- Hid1 in Hb1. rewrite <- Hid2 in Hb2.
    rewrite Hctr1, <- Heq, Hb1 in Hb2.
    exact (low_byte_succ (counter w) (eq_sym Hb2)).
  - rewrite Hev2, Hev1, Hcb1, Hid1, Hid2.
    destruct (on_player_joined (g_network_callbacks w));
      rewrite <- app_assoc; reflexivity.
Qed.

(** The compaction loop: after [fuel] iterations from slot [i], the first
    [i + fuel] slots hold the old entries without the one at [i], in order. *)
Lemma take_shift_players (fuel i : nat) (ps : list network_player_t) :
  (i + fuel < length ps)%nat ->
  take (i + fuel) (shift_players fuel i ps) = take i ps ++ take fuel (drop (S i) ps).
Proof.
  revert i ps. induction fuel as [|fuel IH]; intros i ps Hlen; simpl shift_players.
  - rewrite Nat.add_0_r, take_0, app_nil_r. reflexivity.
  - destruct (lookup_lt_is_Some_2 ps (S i) ltac:(lia)) as [x Hx].
    destruct (lookup_lt_is_Some_2 ps i ltac:(lia)) as [y Hy].
    rewrite Hx. simpl default.
    replace (i + S fuel)%nat with (S i + fuel)%nat by lia.
    rewrite IH by (rewrite length_insert; lia).
    rewrite take_insert_lt by lia.
    rewrite drop_insert_lt by lia.
    rewrite (take_S_r ps i y Hy).
    rewrite insert_app_r_alt by (rewrite length_take; lia).
    rewrite length_take. replace (i - i `min` length ps)%nat with 0%nat by lia.
    rewrite (drop_S ps x (S i) Hx). simpl. rewrite <- app_assoc. reflexivity.
Qed.

(** The same, as the removal of slot [i] from the first [count] entries. *)
Lemma shift_players_delete (count i : nat) (ps : list network_player_t) :
  (i < count <= length ps)%nat ->
  take (count - 1) (shift_players (count - 1 - i) i ps) = delete i (take count ps).
Proof.
  intros Hi.
  replace (count - 1)%nat with (i + (count - 1 - i))%nat at 1 by lia.
  rewrite take_shift_players by lia.
  rewrite delete_take_drop, take_take, skipn_firstn_comm.
  f_equal; f_equal; lia.
Qed.




(** ** The discovery registry *)

(** An entry with a given id sits at one index only. *)
Lemma registry_id_unique (w : world) (i j : nat) (g1 g2 : game_info_t) :
  session_inv w ->
  registry w !! i = Some g1 -> registry w !! j = Some g2 ->
  gi_game_id g1 = gi_game_id g2 -> i = j.
Proof.
  intros (_ & _ & _ & _ & _ & _ & Hnd) H1 H2 Hid.
  apply (NoDup_lookup _ i j (gi_game_id g1) Hnd);
    rewrite list_lookup_fmap; [rewrite H1|rewrite H2]; simpl; congruence.
Qed.

(** A discovery response of the right size handled while the registry holds
    fewer than 16 entries. *)
Lemma discovery_response_accepted (w : world) (from : sockaddr_in) (data : list byte) :
  session_inv w ->
  discovered_game_count (g_network w) < MAX_DISCOVERED_GAMES ->
  let info := stamped_info E data w in
  let w' :=
    snd (_network_handle_message E from (message_type_code MSG_DISCOVERY_RESPONSE)
           data sizeof_game_info_t w) in
  match list_find (fun g => gi_game_id g = gi_game_id info) (registry w) with
  | Some (i, _) => registry w' = <[i := info]> (registry w)
  | None => registry w' = registry w ++ [info]
  end
  /\ exists i,
       registry w' !! i = Some info
       /\ forall j g,
            registry w' !! j = Some g -> gi_game_id g = gi_game_id info -> j = i.
Proof.
  intros Hinv Hlt info w'.
  assert (Hinv' : session_inv w') by apply session_inv_handle_message, Hinv.
  assert (Hreg : match list_find (fun g => gi_game_id g = gi_game_id info) (registry w) with
                 | Some (i, _) => registry w' = <[i := info]> (registry w)
                 | None => registry w' = registry w ++ [info]
                 end).
  { destruct Hinv as (_ & _ & _ & _ & H5 & H6 & _).
    unfold w', _network_handle_message. simpl message_type_of_code.
    cbv iota beta zeta. rewrite Z.eqb_refl, (proj2 (Z.ltb_lt _ _)) by exact Hlt.
    cbn [andb]. unfold get_timestamp. cbv iota beta zeta.
    fold (get_timestamp E w). fold (stamped_info E data w). fold info.
    fold (registry w).
    destruct (list_find _ (registry w)) as [[i g]|] eqn:Hf; unfold registry; world_simpl.
    - apply ids_overwrite in Hf as [Ht _]. exact Ht.
    - replace (Z.to_nat (discovered_game_count (g_network w) + 1))
        with (S (Z.to_nat (discovered_game_count (g_network w)))) by lia.
      apply ids_append in Hf as [Ht _]; [exact Ht|].
      unfold MAX_DISCOVERED_GAMES in *. lia. }
  split; [exact Hreg|].
  assert (Hex : exists i, registry w' !! i = Some info).
  { destruct (list_find _ (registry w)) as [[i g]|] eqn:Hf.
    - exists i. rewrite Hreg. apply list_lookup_insert_eq.
      apply list_find_Some in Hf as (Hl & _). exact (lookup_lt_Some _ _ _ Hl).
    - exists (length (registry w)). rewrite Hreg.
      rewrite lookup_app_r, Nat.sub_diag by lia. reflexivity. }
  destruct Hex as [i Hi]. exists i. split; [exact Hi|].
  intros j g Hj Hid. exact (registry_id_unique w' j i g info Hinv' Hj Hi Hid).
Qed.

(** C4 (as the code has it). A discovery response of the size of
    [game_info_t]:
    - while the registry holds fewer than 16 entries, overwrites in place the
      first entry with the same session id (the count is unchanged), or is
      appended when no entry has that id; either way the registry then holds
      exactly one entry with that id, and it carries the received values;
    - once the registry holds 16 entries is dropped, whether or not its
      session id matches an entry (a response of any other size is dropped
      too).
    So two responses with the same session id, both handled while the
    registry holds fewer than 16 entries, leave exactly one entry with that
    id, carrying the values of the second. *)
Theorem discovery_response_registry (w : world) (from : sockaddr_in)
    (data data2 : list byte) :
  session_inv w ->
  let handle d x :=
    snd (_network_handle_message E from (message_type_code MSG_DISCOVERY_RESPONSE)
           d sizeof_game_info_t x) in
  let info := stamped_info E data w in
  let w1 := handle data w in
  let info2 := stamped_info E data2 w1 in
  let w2 := handle data2 w1 in
  (discovered_game_count (g_network w) < MAX_DISCOVERED_GAMES ->
   match list_find (fun g => gi_game_id g = gi_game_id info) (registry w) with
   | Some (i, _) => registry w1 = <[i := info]> (registry w)
   | None => registry w1 = registry w ++ [info]
   end
   /\ (exists i,
         registry w1 !! i = Some info
         /\ forall j g,
              registry w1 !! j = Some g -> gi_game_id g = gi_game_id info -> j = i)
   /\ (discovered_game_count (g_network w1) < MAX_DISCOVERED_GAMES ->
       gi_game_id info2 = gi_game_id info ->
       length (registry w2) = length (registry w1)
       /\ exists i,
            registry w2 !! i = Some info2
            /\ forall j g,
                 registry w2 !! j = Some g -> gi_game_id g = gi_game_id info -> j = i))
  /\ (discovered_game_count (g_network w) = MAX_DISCOVERED_GAMES -> w1 = w)
  /\ (forall size,
        size <> sizeof_game_info_t ->
        snd (_network_handle_message E from (message_type_code MSG_DISCOVERY_RESPONSE)
               data size w) = w).
Proof.
  intros Hinv handle info w1 info2 w2.
  assert (Hinv1 : session_inv w1) by apply session_inv_handle_message, Hinv.
  split.
  - intros Hlt.
    destruct (discovery_response_accepted w from data Hinv Hlt) as [Hreg Hex].
    fold info in Hreg, Hex. fold (handle data w) in Hreg, Hex. fold w1 in Hreg, Hex.
    split; [exact Hreg|]. split; [exact Hex|].
    intros Hlt1 Hid.
    destruct (discovery_response_accepted w1 from data2 Hinv1 Hlt1) as [Hreg2 Hex2].
    fold info2 in Hreg2, Hex2. fold (handle data2 w1) in Hreg2, Hex2.
    fold w2 in Hreg2, Hex2.
    rewrite <- Hid. split; [|exact Hex2].
    destruct Hex as (i & Hi & _).
    destruct (list_find _ (registry w1)) as [[k g]|] eqn:Hf.
    + rewrite Hreg2. apply length_insert.
    + apply list_find_None in Hf. rewrite Forall_forall in Hf.
      exfalso. apply (Hf info); [|now symmetry].
      apply list_elem_of_lookup. exists i. exact Hi.
  - split.
    + intros Hfull. unfold w1, handle, _network_handle_message.
      simpl message_type_of_code. cbv iota beta.
      rewrite Hfull, Z.ltb_irrefl, andb_false_r. reflexivity.
    + intros size Hsize. unfold _network_handle_message.
      simpl message_type_of_code. cbv iota beta.
      rewrite (proj2 (Z.eqb_neq _ _) Hsize). reflexivity.
Qed.

(** ** The periodic discovery request *)

Lemma slice_take (off k n : nat) (l : list byte) :
  (off + k <= n)%nat -> slice off k (take n l) = slice off k l.
Proof.
  intros H. unfold slice. rewrite skipn_firstn_comm, take_take. f_equal. lia.
Qed.

Lemma header_at_take (n : nat) (l : list byte) :
  (20 <= n)%nat -> header_at (take n l) = header_at l.
Proof.
  intros H. unfold header_at. rewrite !slice_take by lia. reflexivity.
Qed.

(** Whatever the payload, the buffer starts with the header. *)
Lemma build_message_header (h : message_header_t) data size stack :
  exists rest, build_message h data size stack = header_bytes h ++ rest.
Proof.
  unfold build_message, memcpy_at. rewrite take_0, app_nil_l.
  generalize (length_header_bytes h). generalize (header_bytes h). intros hb Hhb.
  destruct data as [d|]; [destruct (0 <? size)|]; try (eexists; reflexivity).
  change (Z.to_nat sizeof_message_header_t) with 20%nat. rewrite <- Hhb.
  rewrite take_app_length. eexists. reflexivity.
Qed.

(** A send within the size bound hands exactly one datagram to [sendto], and
    its header carries the type. *)
Lemma wire_send_message_any sock addr type data size (w : world) :
  0 <= size <= NETWORK_MAX_MESSAGE_SIZE ->
  exists d,
    wire (snd (_network_send_message E sock addr type data size w)) = wire w ++ [d]
    /\ dg_sock d = sock /\ dg_addr d = addr
    /\ ntohs (h_type (header_at (dg_bytes d))) = u16 type.
Proof.
  intros Hsize. unfold _network_send_message.
  rewrite (proj2 (Z.ltb_ge _ _)) by lia. cbv zeta. unfold get_timestamp.
  eexists. split; [destruct (_ =? _); reflexivity|].
  cbn [dg_sock dg_addr dg_bytes]. split; [reflexivity|]. split; [reflexivity|].
  rewrite header_at_take by (unfold sizeof_message_header_t; lia).
  match goal with
  | |- context [build_message ?h data size ?st] =>
      destruct (build_message_header h data size st) as [rest ->]
  end.
  rewrite header_at_header_bytes. cbn [h_type].
  rewrite load_store_htons, ntohs_htons. unfold u16. apply Z.mod_mod. lia.
Qed.

Lemma send_message_too_big sock addr type data size (w : world) :
  NETWORK_MAX_MESSAGE_SIZE < size ->
  _network_send_message E sock addr type data size w = (0, w).
Proof.
  intros H. unfold _network_send_message. now rewrite (proj2 (Z.ltb_lt _ _)).
Qed.

Lemma discovery_requests_app (w w' : world) (d : sent_datagram) :
  wire w' = wire w ++ [d] ->
  discovery_requests_sent w'
  = (discovery_requests_sent w + if is_discovery_request d then 1 else 0)%nat.
Proof.
  intros Hw. unfold discovery_requests_sent. rewrite Hw, filter_app, length_app.
  f_equal. rewrite filter_cons, filter_nil.
  destruct (is_discovery_request d); [rewrite decide_True|rewrite decide_False]; 
    simpl; congruence.
Qed.

(** A message of another type does not add to the discovery requests sent. *)
Lemma discovery_requests_send_other sock addr (t : message_type_t) data size (w : world) :
  0 <= size ->
  t <> MSG_DISCOVERY_REQUEST ->
  discovery_requests_sent (snd (_network_send_message E sock addr (message_type_code t) data size w))
  = discovery_requests_sent w.
Proof.
  intros Hsize Ht.
  destruct (Z.le_gt_cases size NETWORK_MAX_MESSAGE_SIZE) as [Hle|Hgt].
  - destruct (wire_send_message_any sock addr (message_type_code t) data size w
                ltac:(lia)) as (d & Hw & _ & _ & Hty).
    rewrite (discovery_requests_app _ _ d Hw).
    unfold is_discovery_request. rewrite Hty.
    replace (u16 (message_type_code t) =? message_type_code MSG_DISCOVERY_REQUEST)
      with false; [lia|].
    symmetry. apply Z.eqb_neq. destruct t; try discriminate. congruence.
  - rewrite send_message_too_big by lia. reflexivity.
Qed.

Lemma gate_send_message sock addr type data size (w : world) :
  gate_of (snd (_network_send_message E sock addr type data size w)) = gate_of w.
Proof.
  exact (f_equal gate_of (sans_traffic_send_message sock addr type data size w)).
Qed.

Lemma gate_receive_message r out (w : world) :
  gate_of (snd (_network_receive_message r out w)) = gate_of w.
Proof.
  unfold _network_receive_message.
  repeat (match goal with |- context [if ?b then _ else _] => destruct b end;
          try reflexivity).
Qed.

Lemma wire_receive_message r out (w : world) :
  wire (snd (_network_receive_message r out w)) = wire w.
Proof.
  unfold _network_receive_message.
  repeat (match goal with |- context [if ?b then _ else _] => destruct b end;
          try reflexivity).
Qed.

(** The dispatcher never sends a discovery request and never touches what the
    re-broadcast looks at. *)
Lemma handle_message_discovery_quiet from type data size (w : world) :
  let w' := snd (_network_handle_message E from type data size w) in
  gate_of w' = gate_of w /\ discovery_requests_sent w' = discovery_requests_sent w.
Proof.
  cbv zeta. unfold _network_handle_message.
  destruct (message_type_of_code type) as [[]|]; try (split; reflexivity).
  - destruct (_ && _); [|split; reflexivity].
    match goal with
    | |- context [_network_send_message E ?s ?a (message_type_code ?t) ?d ?n ?w0] =>
        pose proof (gate_send_message s a (message_type_code t) d n w0) as Hg;
        pose proof (discovery_requests_send_other s a t d n w0
                      ltac:(unfold sizeof_game_info_t; lia) ltac:(discriminate)) as Hd;
        destruct (_network_send_message E s a (message_type_code t) d n w0) as [r w1]
    end.
    split; assumption.
  - destruct (_ && _); [|split; reflexivity].
    unfold get_timestamp. cbv zeta.
    destruct (list_find _ _) as [[i g]|]; split; reflexivity.
  - destruct (_ && _); [|split; reflexivity].
    unfold _network_generate_player_id, get_timestamp. cbv zeta.
    match goal with
    | |- context [_network_send_message E ?s ?a (message_type_code ?t) ?d ?n ?w0] =>
        pose proof (gate_send_message s a (message_type_code t) d n w0) as Hg;
        pose proof (discovery_requests_send_other s a t d n w0
                      ltac:(lia) ltac:(discriminate)) as Hd;
        destruct (_network_send_message E s a (message_type_code t) d n w0) as [r w1]
    end.
    cbn [snd] in *. destruct (on_player_joined _); split; assumption.
  - destruct (_ && _); split; reflexivity.
  - destruct (on_game_data _); split; reflexivity.
  - destruct (find_player_by_addr _ _) as [[i p]|]; [|split; reflexivity].
    destruct (on_player_left _); split; reflexivity.
  - destruct (_ && _); split; reflexivity.
Qed.

Lemma poll_socket_discovery_quiet r out (w : world) :
  let w' := snd (poll_socket E r out w) in
  gate_of w' = gate_of w /\ discovery_requests_sent w' = discovery_requests_sent w.
Proof.
  cbv zeta. unfold poll_socket.
  pose proof (gate_receive_message r out w) as Hg.
  pose proof (wire_receive_message r out w) as Hw.
  destruct (_network_receive_message r out w) as [[result out1] w1].
  cbn [snd] in Hg, Hw.
  assert (Hd : discovery_requests_sent w1 = discovery_requests_sent w)
    by (unfold discovery_requests_sent; now rewrite Hw).
  destruct (0 <? result); [|split; assumption].
  pose proof (handle_message_discovery_quiet (ro_from_addr out1) (ro_type out1)
                (default [] (ro_data out1)) (default 0 (ro_size out1)) w1) as [Hg2 Hd2].
  destruct (_network_handle_message _ _ _ _ _ _) as [data1 w2].
  cbn [snd] in *. split; congruence.
Qed.

Lemma update_receive_discovery_quiet rs rb frame (w : world) :
  let w' := update_receive E rs rb frame w in
  gate_of w' = gate_of w /\ discovery_requests_sent w' = discovery_requests_sent w.
Proof.
  cbv zeta. unfold update_receive.
  match goal with
  | |- context [poll_socket E rs ?o w] =>
      pose proof (poll_socket_discovery_quiet rs o w) as [Hg1 Hd1];
      destruct (poll_socket E rs o w) as [out1 w1]; cbn [snd] in Hg1, Hd1
  end.
  destruct (negb (server_socket (g_network w) =? INVALID_SOCKET_VALUE)).
  - pose proof (poll_socket_discovery_quiet rb out1 w1) as [Hg2 Hd2].
    destruct (negb (broadcast_socket (g_network w1) =? INVALID_SOCKET_VALUE)).
    + destruct (poll_socket E rb out1 w1). cbn [snd] in *. split; congruence.
    + split; assumption.
  - match goal with
    | |- context [poll_socket E rb ?o w] =>
        pose proof (poll_socket_discovery_quiet rb o w) as [Hg2 Hd2];
        destruct (poll_socket E rb o w) as [out2 w2]; cbn [snd] in Hg2, Hd2
    end.
    destruct (negb (broadcast_socket (g_network w) =? INVALID_SOCKET_VALUE));
      split; (assumption || reflexivity).
Qed.


(** ** Join completion *)





(** ** Disconnect *)

Lemma disconnect_when_disconnected (w : world) :
  state (g_network w) = NETWORK_STATE_DISCONNECTED -> network_disconnect E w = w.
Proof.
  intros Hst. unfold network_disconnect, state_is.
  now rewrite bool_decide_eq_true_2.
Qed.




(** ** A hosting session holds its socket *)


Lemma sans_traffic_send_to_each ps sock type data size acc (w : world) :
  sans_traffic (snd (send_to_each E ps sock type data size acc w)) = sans_traffic w.
Proof.
  revert acc w. induction ps as [|p ps IH]; intros acc w; simpl; [reflexivity|].
  destruct (negb _); [|apply IH].
  pose proof (sans_traffic_send_message sock (player_addr p) type data size w) as Hs.
  destruct (_network_send_message _ _ _ _ _ _ _) as [r w1]. simpl in Hs.
  rewrite IH. exact Hs.
Qed.

Lemma sans_traffic_send_to_all type data size (w : world) :
  sans_traffic (snd (network_send_to_all E type data size w)) = sans_traffic w.
Proof.
  unfold network_send_to_all. destruct (_ =? _); [reflexivity|].
  apply sans_traffic_send_to_each.
Qed.

Lemma sans_traffic_send_to_player id type data size (w : world) :
  sans_traffic (snd (network_send_to_player E id type data size w)) = sans_traffic w.
Proof.
  unfold network_send_to_player. destruct (_ =? _); [reflexivity|].
  destruct (list_find _ _) as [[i p]|]; [|reflexivity].
  apply sans_traffic_send_message.
Qed.

Lemma sans_traffic_broadcast_discovery (w : world) :
  sans_traffic (snd (network_broadcast_discovery E w)) = sans_traffic w.
Proof.
  unfold network_broadcast_discovery. destruct (_ =? _); [reflexivity|].
  apply sans_traffic_send_message.
Qed.












(** The sockets [network_disconnect] closes: the session socket, then the
    discovery socket, each if it is valid. *)
Lemma closed_disconnect (w : world) :
  state (g_network w) <> NETWORK_STATE_DISCONNECTED ->
  closed (network_disconnect E w)
  = closed w
    ++ filter (fun s => s <> INVALID_SOCKET_VALUE)
         [server_socket (g_network w); broadcast_socket (g_network w)].
Proof.
  intros Hst. unfold network_disconnect, state_is at 1.
  rewrite bool_decide_eq_false_2 by exact Hst.
  set (w1 := if state_is NETWORK_STATE_CONNECTED w || state_is NETWORK_STATE_HOSTING w
             then snd (network_send_to_all E (message_type_code MSG_PLAYER_DISCONNECT) None 0 w)
             else w).
  assert (Hq : sans_traffic w1 = sans_traffic w).
  { unfold w1. destruct (_ || _); [apply sans_traffic_send_to_all|reflexivity]. }
  assert (Hs : server_socket (g_network w1) = server_socket (g_network w))
    by exact (f_equal (fun x => server_socket (g_network x)) Hq).
  assert (Hb : broadcast_socket (g_network w1) = broadcast_socket (g_network w))
    by exact (f_equal (fun x => broadcast_socket (g_network x)) Hq).
  assert (Hc : closed w1 = closed w) by exact (f_equal closed Hq).
  clearbody w1. cbv zeta. rewrite !filter_cons, filter_nil.
  destruct (server_socket (g_network w1) =? INVALID_SOCKET_VALUE) eqn:H1;
    cbn [negb]; world_simpl;
    destruct (broadcast_socket (g_network w1) =? INVALID_SOCKET_VALUE) eqn:H2;
    cbn [negb]; world_simpl; rewrite ?Hc, <- ?Hs, <- ?Hb;
    [apply Z.eqb_eq in H1, H2|apply Z.eqb_eq in H1; apply Z.eqb_neq in H2
    |apply Z.eqb_neq in H1; apply Z.eqb_eq in H2|apply Z.eqb_neq in H1, H2];
    repeat (first [rewrite decide_True by assumption
                  |rewrite decide_False by (intros Hn; apply Hn; assumption)]);
    rewrite <- ?app_assoc, ?app_nil_r; reflexivity.
Qed.


End Properties.

(** ** The properties on concrete runs *)

Lemma full_host_world_reachable : reachable demo_env full_host_world.
Proof. eexists. reflexivity. Qed.

Lemma host_world_reachable : reachable demo_env host_world.
Proof. exists host_calls. reflexivity. Qed.

Lemma one_session_world_reachable : reachable client_env one_session_world.
Proof. eexists. reflexivity. Qed.

Lemma roster_capacity_witness :
  player_count (g_network full_host_world) = 8
  /\ snd (_network_handle_message demo_env demo_peer
            (message_type_code MSG_JOIN_REQUEST) nova 5 full_host_world)
     = full_host_world.
Proof.
  assert (Hc : player_count (g_network full_host_world) = NETWORK_MAX_PLAYERS)
    by (vm_compute; reflexivity).
  split; [exact Hc|].
  exact (proj1 (proj2 (roster_capacity demo_env full_host_world
                         full_host_world_reachable) Hc demo_peer nova 5)).
Defined.

Lemma send_game_state_gated_witness :
  state (g_network idle_world) = NETWORK_STATE_DISCONNECTED
  /\ network_send_game_state demo_env (Some (bytes_of_string "state")) 5 idle_world
     = (0, idle_world).
Proof.
  split; [vm_compute; reflexivity|].
  apply (send_game_state_gated demo_env idle_world).
  - exists [Call_init]. reflexivity.
  - vm_compute. discriminate.
  - vm_compute. discriminate.
Defined.

Lemma join_request_not_deduplicated_witness :
  player_count (g_network host_world) = 0
  /\ player_count
       (g_network
          (snd (_network_handle_message demo_env demo_peer
                  (message_type_code MSG_JOIN_REQUEST) nova 5
                  (snd (_network_handle_message demo_env demo_peer
                          (message_type_code MSG_JOIN_REQUEST) nova 5 host_world)))))
     = player_count (g_network host_world) + 2.
Proof.
  split; [vm_compute; reflexivity|].
  refine (proj1 (proj2 (join_request_not_deduplicated demo_env host_world demo_peer
                          nova nova 5 5 _ _ _))).
  - exact (reachable_session_inv demo_env _ host_world_reachable).
  - vm_compute. discriminate.
  - vm_compute. discriminate.
Defined.



(** C4 (counterexample). The registry holds sixteen sessions, the first with
    id 1 and one player; a response from session 1 reporting five players
    arrives and is dropped: the entry still says one player. *)
Lemma discovery_refresh_dropped_when_full :
  discovered_game_count (g_network full_registry_world) = 16
  /\ (gi_game_id <$> registry full_registry_world) !! 0%nat = Some 1
  /\ (gi_current_players <$> registry full_registry_world) !! 0%nat = Some 1
  /\ gi_game_id (game_info_at (advert 1 5)) = 1
  /\ gi_current_players (game_info_at (advert 1 5)) = 5
  /\ registry refreshed_full_registry_world = registry full_registry_world
  /\ (gi_current_players <$> registry refreshed_full_registry_world) !! 0%nat = Some 1.
Proof. vm_compute. repeat split. Qed.

Lemma discovery_response_registry_witness :
  discovered_game_count (g_network one_session_world) < MAX_DISCOVERED_GAMES
  /\ exists i,
       registry
         (snd (_network_handle_message client_env demo_host
                 (message_type_code MSG_DISCOVERY_RESPONSE) (advert 7 5)
                 sizeof_game_info_t one_session_world)) !! i
       = Some (stamped_info client_env (advert 7 5) one_session_world)
       /\ forall j g,
            registry
              (snd (_network_handle_message client_env demo_host
                      (message_type_code MSG_DISCOVERY_RESPONSE) (advert 7 5)
                      sizeof_game_info_t one_session_world)) !! j = Some g ->
            gi_game_id g
            = gi_game_id (stamped_info client_env (advert 7 5) one_session_world) ->
            j = i.
Proof.
  assert (Hlt : discovered_game_count (g_network one_session_world) < MAX_DISCOVERED_GAMES)
    by (vm_compute; reflexivity).
  split; [exact Hlt|].
  exact (proj1 (proj2 (proj1 (discovery_response_registry client_env one_session_world
                                demo_host (advert 7 5) []
                                (reachable_session_inv client_env _
                                   one_session_world_reachable)) Hlt))).
Defined.




(** C2 (the code at the failing input). An empty datagram delivered to the
    idle engine while [errno] still holds [EWOULDBLOCK] from an earlier poll:
    [recvfrom] returns 0 and leaves [errno] alone, the test [received <= 0]
    sends control to the error-code branch, and the call answers 0 ("no
    data") and counts no error, although the datagram is shorter than the
    header.  The same datagram met with [errno] 0 is answered with -1 and
    counted as an error, as every other short datagram is. *)
Lemma empty_datagram_reported_as_no_data :
  recv_return (RecvDatagram demo_peer [] SOCKET_WOULD_BLOCK) = 0
  /\ fst (fst (_network_receive_message (RecvDatagram demo_peer [] SOCKET_WOULD_BLOCK)
                 short_out idle_world)) = 0
  /\ errors (g_network (snd (_network_receive_message
                              (RecvDatagram demo_peer [] SOCKET_WOULD_BLOCK)
                              short_out idle_world)))
     = errors (g_network idle_world)
  /\ fst (fst (_network_receive_message (RecvDatagram demo_peer [] 0)
                 short_out idle_world)) = -1
  /\ errors (g_network (snd (_network_receive_message (RecvDatagram demo_peer [] 0)
                              short_out idle_world)))
     = errors (g_network idle_world) + 1.
Proof. vm_compute. repeat split. Qed.

(** A five-byte datagram is rejected. *)
Lemma decode_rejection_witness :
  recv_return (RecvDatagram demo_peer (bytes_of_string "hello") 0) = 5
  /\ fst (fst (_network_receive_message (RecvDatagram demo_peer (bytes_of_string "hello") 0)
                 short_out idle_world)) = -1.
Proof.
  split; [vm_compute; reflexivity|].
  refine (proj1 (decode_rejection (RecvDatagram demo_peer (bytes_of_string "hello") 0)
                   short_out idle_world _ _)).
  - vm_compute. reflexivity.
  - left. vm_compute. reflexivity.
Defined.

Lemma connected_client_world_reachable : reachable later_env connected_client_world.
Proof. exists connected_client_calls. reflexivity. Qed.



(** * Further properties of the module *)

(** ** Sending *)

Section Sending.

Variable E : sys_env.

Lemma build_message_length (h : message_header_t) data size stack :
  size <= NETWORK_MAX_MESSAGE_SIZE ->
  length (build_message h data size stack) = 1044%nat.
Proof.
  intros Hsize. unfold build_message, memcpy_at, NETWORK_MAX_MESSAGE_SIZE in *.
  pose proof (length_header_bytes h) as Hhb.
  generalize dependent (header_bytes h). intros hb Hhb.
  change (Z.to_nat (sizeof_message_header_t + 1024)) with 1044%nat.
  change (Z.to_nat sizeof_message_header_t) with 20%nat.
  assert (Hm : length (take 0 (pad 1044 stack) ++ hb ++ drop (0 + length hb) (pad 1044 stack))
               = 1044%nat).
  { rewrite take_0, app_nil_l, length_app, length_drop, length_pad. lia. }
  destruct data as [d|]; [destruct (0 <? size)|]; try exact Hm.
  rewrite !length_app, length_take, length_drop, Hm, !length_take. lia.
Qed.

(** The bytes [_network_send_message] hands to [sendto]: the header, then
    [size] bytes of the local buffer [message]. *)
Lemma send_datagram_bytes (h : message_header_t) data size stack :
  0 <= size <= NETWORK_MAX_MESSAGE_SIZE ->
  exists body,
    take (Z.to_nat (sizeof_message_header_t + size)) (build_message h data size stack)
    = header_bytes h ++ body
    /\ Z.of_nat (length body) = size
    /\ (forall payload, data = Some payload -> size <= Z.of_nat (length payload) ->
        body = take (Z.to_nat size) payload)
    /\ (data = None -> body = take (Z.to_nat size) (drop 20 (pad 1044 stack))).
Proof.
  intros Hsize.
  pose proof (build_message_length h data size stack ltac:(lia)) as Hlen.
  destruct (build_message_header h data size stack) as [rest Hrest].
  rewrite Hrest in Hlen |- *. rewrite length_app, length_header_bytes in Hlen.
  exists (take (Z.to_nat size) rest).
  assert (Ht : take (Z.to_nat (sizeof_message_header_t + size)) (header_bytes h ++ rest)
               = header_bytes h ++ take (Z.to_nat size) rest).
  { replace (Z.to_nat (sizeof_message_header_t + size))
      with (length (header_bytes h) + Z.to_nat size)%nat
      by (rewrite length_header_bytes; unfold sizeof_message_header_t; lia).
    apply take_app_add. }
  split; [exact Ht|].
  split; [rewrite length_take; unfold NETWORK_MAX_MESSAGE_SIZE in *; lia|].
  assert (Hr : rest = drop 20 (build_message h data size stack)).
  { rewrite Hrest. change 20%nat with (length (header_bytes h)).
    now rewrite drop_app_length. }
  split.
  - intros payload -> Hp. rewrite Hr. unfold build_message, memcpy_at.
    change (Z.to_nat sizeof_message_header_t) with 20%nat.
    destruct (0 <? size) eqn:Hpos.
    + rewrite take_0, app_nil_l.
      generalize (length_header_bytes h). generalize (header_bytes h). intros hb Hhb.
      rewrite (take_app_length' hb _ 20) by (symmetry; exact Hhb).
      rewrite (drop_app_length' hb _ 20) by (symmetry; exact Hhb).
      rewrite take_app_le by (rewrite length_take; lia).
      apply take_ge. rewrite length_take. lia.
    + apply Z.ltb_ge in Hpos. replace size with 0 by lia. reflexivity.
  - intros ->. rewrite Hr. unfold build_message, memcpy_at.
    rewrite take_0, app_nil_l.
    change 20%nat with (length (header_bytes h)) at 1. rewrite drop_app_length.
    reflexivity.
Qed.

(** One call of [_network_send_message] within the size bound, written out. *)
Lemma send_message_spec sock addr type data size (w : world) :
  0 <= size <= NETWORK_MAX_MESSAGE_SIZE ->
  exists h body,
    let d :=
      {| dg_sock := sock; dg_addr := addr; dg_bytes := header_bytes h ++ body;
         dg_ret := sys_sendto E (length (wire w)) (header_bytes h ++ body) |} in
    let w2 :=
      log_send d
        (put_clock_reads (S (clock_reads w))
           (upd (set_next_sequence (u32 (next_sequence (g_network w) + 1))) w)) in
    h = {| h_magic := htonl NETWORK_MAGIC;
           h_version := htons NETWORK_PROTOCOL_VERSION;
           h_type := htons (u16 type);
           h_size := htonl (u32 size);
           h_sequence := htonl (next_sequence (g_network w));
           h_timestamp := htonl (fst (get_timestamp E w)) |}
    /\ Z.of_nat (length body) = size
    /\ (forall payload, data = Some payload -> size <= Z.of_nat (length payload) ->
        body = take (Z.to_nat size) payload)
    /\ (data = None ->
        body = take (Z.to_nat size) (drop 20 (pad 1044 (sys_stack E (length (wire w))))))
    /\ _network_send_message E sock addr type data size w
       = if dg_ret d =? sizeof_message_header_t + size
         then (1,
               upd (set_messages_sent (u32 (messages_sent (g_network w) + 1)))
                 (upd (set_bytes_sent
                         (u32 (bytes_sent (g_network w) + (sizeof_message_header_t + size))))
                    w2))
         else (0, bump_errors w2).
Proof.
  intros Hsize. unfold _network_send_message.
  rewrite (proj2 (Z.ltb_ge _ _)) by lia. cbv zeta. unfold get_timestamp.
  world_simpl.
  match goal with
  | |- context [build_message ?h0 data size ?st] =>
      destruct (send_datagram_bytes h0 data size st Hsize) as (body & Hb & Hl & Hp & Hn);
      exists h0, body
  end.
  rewrite Hb.
  split; [reflexivity|]. split; [exact Hl|]. split; [exact Hp|]. split; [exact Hn|].
  cbn [dg_ret].
  destruct (_ =? _) eqn:Hret; [|reflexivity].
  apply Z.eqb_eq in Hret. rewrite Hret. reflexivity.
Qed.

Lemma u32_u32 (x : Z) : u32 (u32 x) = u32 x.
Proof. unfold u32. apply Z.mod_mod. lia. Qed.

Lemma u16_u16 (x : Z) : u16 (u16 x) = u16 x.
Proof. unfold u16. apply Z.mod_mod. lia. Qed.

(** X1. Wire format of a send.  A call of [_network_send_message] with a
    size of at most [NETWORK_MAX_MESSAGE_SIZE] hands exactly one datagram to
    [sendto], on the given socket and to the given address, whatever [sendto]
    then answers.  The datagram is 20 + size bytes long and its header reads
    back, in the receiver's byte order, as the protocol magic, the protocol
    version, the type (16 bits), the size, the sequence number the context
    held before the call and the millisecond timestamp of the call.  The
    sequence number of the context has moved on by one (32 bits). *)
Theorem send_message_header (sock : Z) (addr : sockaddr_in) (type : Z)
    (data : option (list byte)) (size : Z) (w : world) :
  0 <= size <= NETWORK_MAX_MESSAGE_SIZE ->
  exists d,
    wire (snd (_network_send_message E sock addr type data size w)) = wire w ++ [d]
    /\ dg_sock d = sock
    /\ dg_addr d = addr
    /\ dg_ret d = sys_sendto E (length (wire w)) (dg_bytes d)
    /\ Z.of_nat (length (dg_bytes d)) = sizeof_message_header_t + size
    /\ ntohl (h_magic (header_at (dg_bytes d))) = NETWORK_MAGIC
    /\ ntohs (h_version (header_at (dg_bytes d))) = NETWORK_PROTOCOL_VERSION
    /\ dg_type d = u16 type
    /\ dg_size d = size
    /\ dg_sequence d = u32 (next_sequence (g_network w))
    /\ dg_timestamp d = fst (get_timestamp E w)
    /\ next_sequence (g_network (snd (_network_send_message E sock addr type data size w)))
       = u32 (next_sequence (g_network w) + 1).
Proof.
  intros Hsize.
  destruct (send_message_spec sock addr type data size w Hsize)
    as (h & body & Hh & Hl & _ & _ & Heq).
  cbv zeta in Heq. rewrite Heq. clear Heq.
  eexists. split; [destruct (_ =? _); world_simpl; reflexivity|].
  cbn [dg_sock dg_addr dg_ret dg_bytes].
  unfold dg_type, dg_size, dg_sequence, dg_timestamp. cbn [dg_bytes].
  rewrite header_at_header_bytes, Hh.
  cbn [h_magic h_version h_type h_size h_sequence h_timestamp].
  rewrite !load_store_htonl, !load_store_htons, !ntohl_htonl, !ntohs_htons.
  rewrite u16_u16.
  assert (Hu : u32 size = size)
    by (unfold u32, NETWORK_MAX_MESSAGE_SIZE in *; apply Z.mod_small; lia).
  rewrite !Hu.
  split; [reflexivity|]. split; [reflexivity|]. split; [reflexivity|].
  split; [rewrite length_app, length_header_bytes; unfold sizeof_message_header_t; lia|].
  split; [reflexivity|]. split; [reflexivity|]. split; [reflexivity|].
  split; [reflexivity|]. split; [reflexivity|].
  split; [unfold get_timestamp; cbn [fst]; apply u32_u32|].
  destruct (_ =? _); reflexivity.
Qed.

(** X2. Accounting of a send.  A size above [NETWORK_MAX_MESSAGE_SIZE] is
    refused before anything happens: the call returns 0 and the world is
    unchanged (no error is counted, no sequence number is used).  Otherwise
    one datagram goes to [sendto]; when [sendto] returns its length the call
    returns 1 and [network_get_statistics] reports that length added to
    [bytes_sent] and one more message sent; when [sendto] returns anything
    else the call returns 0, the two send counters are as before and
    [errors] is one higher.  The receive counters never move. *)
Theorem send_message_accounting (sock : Z) (addr : sockaddr_in) (type : Z)
    (data : option (list byte)) (size : Z) (w : world) :
  (NETWORK_MAX_MESSAGE_SIZE < size ->
   _network_send_message E sock addr type data size w = (0, w))
  /\ (0 <= size <= NETWORK_MAX_MESSAGE_SIZE ->
      exists d,
        wire (snd (_network_send_message E sock addr type data size w)) = wire w ++ [d]
        /\ (dg_ret d = sizeof_message_header_t + size ->
            fst (_network_send_message E sock addr type data size w) = 1
            /\ network_get_statistics every_statistic
                 (snd (_network_send_message E sock addr type data size w))
               = {| so_bytes_sent :=
                      Some (u32 (bytes_sent (g_network w)
                                 + (sizeof_message_header_t + size)));
                    so_bytes_received := Some (bytes_received (g_network w));
                    so_messages_sent := Some (u32 (messages_sent (g_network w) + 1));
                    so_messages_received := Some (messages_received (g_network w));
                    so_errors := Some (errors (g_network w)) |})
        /\ (dg_ret d <> sizeof_message_header_t + size ->
            fst (_network_send_message E sock addr type data size w) = 0
            /\ network_get_statistics every_statistic
                 (snd (_network_send_message E sock addr type data size w))
               = {| so_bytes_sent := Some (bytes_sent (g_network w));
                    so_bytes_received := Some (bytes_received (g_network w));
                    so_messages_sent := Some (messages_sent (g_network w));
                    so_messages_received := Some (messages_received (g_network w));
                    so_errors := Some (u32 (errors (g_network w) + 1)) |})).
Proof.
  split; [apply send_message_too_big|].
  intros Hsize.
  destruct (send_message_spec sock addr type data size w Hsize)
    as (h & body & _ & _ & _ & _ & Heq).
  cbv zeta in Heq. rewrite Heq. clear Heq.
  eexists. split; [destruct (_ =? _); world_simpl; reflexivity|].
  cbn [dg_ret]. split.
  - intros Hret. rewrite Hret, Z.eqb_refl. split; reflexivity.
  - intros Hret. rewrite (proj2 (Z.eqb_neq _ _) Hret). split; reflexivity.
Qed.

(** X3. Payload of a send.  The bytes that follow the header on the wire are
    the first [size] bytes of [data].  When [data] is NULL nothing is copied,
    yet [size] bytes are sent all the same: they are the bytes the local
    array [message] happened to hold after its first 20 (uninitialised
    memory of the sender). *)
Theorem send_message_payload (sock : Z) (addr : sockaddr_in) (type : Z)
    (data : option (list byte)) (size : Z) (w : world) :
  0 <= size <= NETWORK_MAX_MESSAGE_SIZE ->
  exists d,
    wire (snd (_network_send_message E sock addr type data size w)) = wire w ++ [d]
    /\ Z.of_nat (length (dg_payload d)) = size
    /\ (forall payload,
          data = Some payload -> size <= Z.of_nat (length payload) ->
          dg_payload d = take (Z.to_nat size) payload)
    /\ (data = None ->
        dg_payload d
        = take (Z.to_nat size) (drop 20 (pad 1044 (sys_stack E (length (wire w)))))).
Proof.
  intros Hsize.
  destruct (send_message_spec sock addr type data size w Hsize)
    as (h & body & _ & Hl & Hp & Hn & Heq).
  cbv zeta in Heq. rewrite Heq. clear Heq.
  eexists. split; [destruct (_ =? _); world_simpl; reflexivity|].
  unfold dg_payload. cbn [dg_bytes].
  change 20%nat with (length (header_bytes h)). rewrite drop_app_length.
  split; [exact Hl|]. split; [exact Hp|exact Hn].
Qed.

Lemma send_to_each_too_big ps sock type data size acc (w : world) :
  NETWORK_MAX_MESSAGE_SIZE < size ->
  send_to_each E ps sock type data size acc w = (acc, w).
Proof.
  intros Hsize. revert acc. induction ps as [|p ps IH]; intros acc; simpl; [reflexivity|].
  destruct (negb _); [|apply IH].
  rewrite send_message_too_big by exact Hsize. cbn [Z.eqb negb]. apply IH.
Qed.

(** X4. Oversize payloads.  Every send operation of the public interface
    called with a size above [NETWORK_MAX_MESSAGE_SIZE] (1024) returns 0 and
    leaves the world exactly as it was: nothing is truncated, nothing is handed
    to [sendto], no error is counted.  For [network_send_chat] this is the
    case of a message of 1024 characters or more (the terminating NUL is sent
    too); a NULL message returns 0 as well. *)
Theorem oversize_send_dropped (w : world) :
  (forall type data size,
     NETWORK_MAX_MESSAGE_SIZE < size ->
     network_send_to_all E type data size w = (0, w))
  /\ (forall id type data size,
        NETWORK_MAX_MESSAGE_SIZE < size ->
        network_send_to_player E id type data size w = (0, w))
  /\ (forall data size,
        NETWORK_MAX_MESSAGE_SIZE < size ->
        network_send_game_state E data size w = (0, w))
  /\ (forall data size,
        NETWORK_MAX_MESSAGE_SIZE < size ->
        network_send_turn_data E data size w = (0, w))
  /\ (forall message,
        NETWORK_MAX_MESSAGE_SIZE <= Z.of_nat (length (cstr message)) ->
        network_send_chat E (Some message) w = (0, w))
  /\ network_send_chat E None w = (0, w).
Proof.
  assert (Hall : forall type data size,
             NETWORK_MAX_MESSAGE_SIZE < size ->
             network_send_to_all E type data size w = (0, w)).
  { intros type data size Hsize. unfold network_send_to_all.
    destruct (_ =? _); [reflexivity|]. now apply send_to_each_too_big. }
  split; [exact Hall|]. split.
  { intros id type data size Hsize. unfold network_send_to_player.
    destruct (_ =? _); [reflexivity|].
    destruct (list_find _ _) as [[i p]|]; [|reflexivity].
    now apply send_message_too_big. }
  split; [intros; now apply Hall|]. split; [intros; now apply Hall|].
  split; [|reflexivity].
  intros message Hlen. unfold network_send_chat. apply Hall. lia.
Qed.

(** X5. Unicast.  [network_send_to_player] returns 0 and does nothing when
    the session socket is invalid or when none of the [player_count] roster
    entries carries the id.  Otherwise (with a size within the bound) it
    hands exactly one datagram of the given type to [sendto], through the
    session socket, addressed to the first roster entry that carries the id
    (its address, its port converted back to network order), and it returns 1
    exactly when [sendto] took the whole datagram. *)
Theorem send_to_player_unicast (id type : Z) (data : option (list byte)) (size : Z)
    (w : world) :
  (server_socket (g_network w) = INVALID_SOCKET_VALUE ->
   network_send_to_player E id type data size w = (0, w))
  /\ (Forall (fun p => player_id p <> id) (roster w) ->
      network_send_to_player E id type data size w = (0, w))
  /\ (server_socket (g_network w) <> INVALID_SOCKET_VALUE ->
      0 <= size <= NETWORK_MAX_MESSAGE_SIZE ->
      forall i p,
        roster w !! i = Some p ->
        player_id p = id ->
        (forall j q, (j < i)%nat -> roster w !! j = Some q -> player_id q <> id) ->
        exists d,
          wire (snd (network_send_to_player E id type data size w)) = wire w ++ [d]
          /\ dg_sock d = server_socket (g_network w)
          /\ dg_addr d = {| sin_addr := ip_address p; sin_port := htons (port p) |}
          /\ dg_type d = u16 type
          /\ (fst (network_send_to_player E id type data size w) = 1
              <-> dg_ret d = sizeof_message_header_t + size)
          /\ (fst (network_send_to_player E id type data size w) = 0
              <-> dg_ret d <> sizeof_message_header_t + size)).
Proof.
  unfold network_send_to_player, roster. split; [|split].
  - intros Hs. now rewrite Hs.
  - intros Hnone. destruct (_ =? _); [reflexivity|].
    rewrite (proj2 (list_find_None (fun p => player_id p = id) _) Hnone). reflexivity.
  - intros Hs Hsize i p Hl Hid Hfirst.
    rewrite (proj2 (Z.eqb_neq _ _) Hs).
    assert (Hf : list_find (fun p => player_id p = id)
                   (take (Z.to_nat (player_count (g_network w))) (players (g_network w)))
                 = Some (i, p)).
    { apply list_find_Some. split; [exact Hl|]. split; [exact Hid|].
      intros j q Hq Hj. exact (Hfirst j q Hj Hq). }
    rewrite Hf.
    destruct (send_message_spec (server_socket (g_network w)) (player_addr p) type data
                size w Hsize) as (h & body & Hh & _ & _ & _ & Heq).
    cbv zeta in Heq. rewrite Heq. clear Heq.
    eexists. split; [destruct (_ =? _); world_simpl; reflexivity|].
    cbn [dg_sock dg_addr dg_ret]. unfold dg_type. cbn [dg_bytes].
    split; [reflexivity|]. split; [reflexivity|].
    split.
    { rewrite header_at_header_bytes, Hh. cbn [h_type].
      rewrite load_store_htons, ntohs_htons. apply u16_u16. }
    destruct (_ =? _) eqn:Hret; cbn [fst];
      [apply Z.eqb_eq in Hret|apply Z.eqb_neq in Hret]; split; split; intros; 
      try assumption; try reflexivity; try discriminate; try contradiction.
Qed.

End Sending.

(** ** The state machine of a session *)

Section Mode.

Variable E : sys_env.

Lemma mode_inv_ext (w w' : world) : mode_of w' = mode_of w -> mode_inv w -> mode_inv w'.
Proof.
  unfold mode_of, mode_inv. intros Heq. injection Heq as -> -> ->. trivial.
Qed.

Lemma mode_of_sans_traffic (w w' : world) :
  sans_traffic w' = sans_traffic w -> mode_of w' = mode_of w.
Proof. intros H. exact (f_equal mode_of H). Qed.

Lemma mode_receive_message r out (w : world) :
  mode_of (snd (_network_receive_message r out w)) = mode_of w.
Proof.
  unfold _network_receive_message.
  repeat (match goal with |- context [if ?b then _ else _] => destruct b end;
          try reflexivity).
Qed.

(** The dispatcher keeps [is_host] and the session socket, and moves the
    state only from Connecting to Connected. *)
Lemma mode_handle_message from type data size (w : world) :
  let w' := snd (_network_handle_message E from type data size w) in
  mode_of w' = mode_of w
  \/ (state (g_network w) = NETWORK_STATE_CONNECTING
      /\ mode_of w'
         = (NETWORK_STATE_CONNECTED, is_host (g_network w), server_socket (g_network w))).
Proof.
  cbv zeta. unfold _network_handle_message.
  destruct (message_type_of_code type) as [[]|]; try (left; reflexivity).
  - destruct (_ && _); [|left; reflexivity].
    match goal with
    | |- context [_network_send_message E ?s ?a ?t ?d ?n ?w0] =>
        pose proof (mode_of_sans_traffic _ _ (sans_traffic_send_message E s a t d n w0)) as Hl;
        destruct (_network_send_message E s a t d n w0) as [r w1]
    end.
    left. exact Hl.
  - destruct (_ && _); [|left; reflexivity].
    unfold get_timestamp. cbv zeta.
    destruct (list_find _ _) as [[i g]|]; left; reflexivity.
  - destruct (_ && _); [|left; reflexivity].
    unfold _network_generate_player_id, get_timestamp. cbv zeta.
    match goal with
    | |- context [_network_send_message E ?s ?a ?t ?d ?n ?w0] =>
        pose proof (mode_of_sans_traffic _ _ (sans_traffic_send_message E s a t d n w0)) as Hl;
        destruct (_network_send_message E s a t d n w0) as [r w1]
    end.
    cbn [snd]. left. destruct (on_player_joined _); exact Hl.
  - destruct (_ && _) eqn:Hc; [|left; reflexivity].
    apply andb_prop in Hc as [Hst _]. apply bool_decide_eq_true in Hst.
    right. split; [exact Hst|reflexivity].
  - destruct (on_game_data _); left; reflexivity.
  - destruct (find_player_by_addr _ _) as [[i p]|]; [|left; reflexivity].
    destruct (on_player_left _); left; reflexivity.
  - destruct (_ && _); left; reflexivity.
Qed.

Lemma mode_inv_poll_socket r out (w : world) :
  mode_inv w -> mode_inv (snd (poll_socket E r out w)).
Proof.
  intros Hinv. unfold poll_socket.
  pose proof (mode_receive_message r out w) as Hr.
  destruct (_network_receive_message r out w) as [[result out1] w1]. cbn [snd] in Hr.
  assert (Hinv1 : mode_inv w1) by (eapply mode_inv_ext; eauto).
  destruct (0 <? result); [|exact Hinv1].
  pose proof (mode_handle_message (ro_from_addr out1) (ro_type out1)
                (default [] (ro_data out1)) (default 0 (ro_size out1)) w1) as Hh.
  destruct (_network_handle_message _ _ _ _ _ _) as [data1 w2]. cbn [snd] in *.
  destruct Hh as [Hh|[Hst Hh]]; [eapply mode_inv_ext; eauto|].
  destruct Hinv1 as (H1 & H2 & H3 & H4).
  unfold mode_of in Hh. injection Hh as Hs Hi Hk.
  unfold mode_inv. rewrite Hs, Hi, Hk.
  split; [discriminate|]. split; [exact H2|]. split.
  - split; [discriminate|]. intros Hone. apply H3 in Hone. congruence.
  - intros _. apply H4. rewrite Hst. discriminate.
Qed.

Lemma mode_update_discovery (w : world) : mode_of (update_discovery E w) = mode_of w.
Proof.
  unfold update_discovery. destruct (_ && _); [|reflexivity].
  unfold get_timestamp at 1. cbv zeta. destruct (_ <? _); [|reflexivity].
  match goal with
  | |- context [network_broadcast_discovery E ?w0] =>
      pose proof (mode_of_sans_traffic _ _ (sans_traffic_broadcast_discovery E w0)) as Hb;
      destruct (network_broadcast_discovery E w0) as [r w2]
  end.
  exact Hb.
Qed.

Lemma mode_inv_update rs rb frame (w : world) :
  mode_inv w -> mode_inv (network_update E rs rb frame w).
Proof.
  intros Hinv. unfold network_update. destruct (_ || _); [exact Hinv|].
  eapply mode_inv_ext; [apply mode_update_discovery|].
  unfold update_receive.
  match goal with
  | |- context [poll_socket E rs ?o w] =>
      pose proof (mode_inv_poll_socket rs o w Hinv) as H1;
      destruct (poll_socket E rs o w) as [out1 w1]; cbn [snd] in H1
  end.
  destruct (negb (server_socket (g_network w) =? INVALID_SOCKET_VALUE)).
  - pose proof (mode_inv_poll_socket rb out1 w1 H1) as H2.
    destruct (negb (broadcast_socket (g_network w1) =? INVALID_SOCKET_VALUE)).
    + destruct (poll_socket E rb out1 w1). exact H2.
    + exact H1.
  - match goal with
    | |- context [poll_socket E rb ?o w] =>
        pose proof (mode_inv_poll_socket rb o w Hinv) as H2;
        destruct (poll_socket E rb o w) as [out2 w2]; cbn [snd] in H2
    end.
    destruct (negb (broadcast_socket (g_network w) =? INVALID_SOCKET_VALUE));
      assumption.
Qed.

Lemma mode_inv_disconnect (w : world) : mode_inv w -> mode_inv (network_disconnect E w).
Proof.
  intros Hinv.
  destruct (decide (state (g_network w) = NETWORK_STATE_DISCONNECTED)) as [Hst|Hst].
  - now rewrite disconnect_when_disconnected.
  - pose proof (session_disconnect E w Hst) as Hs. unfold session_of in Hs.
    injection Hs as Hs1 Hs2 _. unfold mode_inv. rewrite Hs1, Hs2.
    split; [discriminate|]. split; [now left|]. split; [|intros Hx; now contradict Hx].
    split; discriminate.
Qed.

(** A socket that [_network_create_socket] reports as created is a
    descriptor. *)
Lemma create_socket_valid (w : world) :
  fst (fst (_network_create_socket E w)) <> 0 ->
  snd (fst (_network_create_socket E w)) <> INVALID_SOCKET_VALUE.
Proof.
  unfold _network_create_socket, _network_set_nonblocking, os_call.
  destruct (sys_ret E (os_calls w) =? INVALID_SOCKET_VALUE) eqn:Hfd; cbn [fst snd].
  - intros Hx. now contradict Hx.
  - intros _. apply Z.eqb_neq in Hfd.
    repeat (match goal with |- context [if ?b then _ else _] => destruct b end);
      exact Hfd.
Qed.

Lemma mode_create_socket (w : world) :
  mode_of (snd (_network_create_socket E w)) = mode_of w.
Proof.
  unfold _network_create_socket, _network_set_nonblocking, os_call.
  repeat (destruct (_ =? _); try reflexivity).
Qed.

Lemma mode_inv_host_game n p (w : world) :
  mode_inv w -> mode_inv (snd (network_host_game E n p w)).
Proof.
  intros Hinv. unfold network_host_game.
  destruct (negb (state_is _ _)) eqn:Hst; [exact Hinv|].
  apply negb_false_iff, bool_decide_eq_true in Hst.
  destruct Hinv as (H1 & H2 & H3 & H4).
  assert (Hh : is_host (g_network w) = 0).
  { destruct H2 as [H2|H2]; [exact H2|]. apply H3 in H2. congruence. }
  pose proof (create_socket_valid w) as Hv.
  unfold _network_create_socket, _network_set_nonblocking, _network_bind_socket, os_call
    in Hv |- *.
  assert (Hfail : forall w', state (g_network w') = NETWORK_STATE_DISCONNECTED ->
                             is_host (g_network w') = 0 -> mode_inv w').
  { intros w' Hs Hi. unfold mode_inv. rewrite Hs, Hi.
    split; [discriminate|]. split; [now left|]. split; [|intros Hx; now contradict Hx].
    split; discriminate. }
  destruct (sys_ret E (os_calls w) =? INVALID_SOCKET_VALUE) eqn:Hfd.
  { apply Hfail; assumption. }
  cbn [fst snd] in Hv.
  repeat (match goal with
          | |- context [if ?b =? ?c then _ else _] => destruct (b =? c) eqn:?
          end;
          try (apply Hfail; assumption)).
  all: destruct n; unfold mode_inv; world_simpl;
    (split; [discriminate|]); (split; [now right|]);
    (split; [split; reflexivity|]); intros _; apply Hv;
    repeat (match goal with
            | |- context [if ?b =? ?c then _ else _] => destruct (b =? c) eqn:?
            end); cbn [fst]; try discriminate; congruence.
Qed.

Lemma mode_inv_join_game h p n (w : world) :
  mode_inv w -> mode_inv (snd (network_join_game E h p n w)).
Proof.
  intros Hinv. unfold network_join_game.
  destruct (negb (state_is _ _)) eqn:Hst; [exact Hinv|].
  apply negb_false_iff, bool_decide_eq_true in Hst.
  destruct Hinv as (H1 & H2 & H3 & H4).
  assert (Hh : is_host (g_network w) = 0).
  { destruct H2 as [H2|H2]; [exact H2|]. apply H3 in H2. congruence. }
  assert (Hfail : forall w', state (g_network w') = NETWORK_STATE_DISCONNECTED ->
                             is_host (g_network w') = 0 -> mode_inv w').
  { intros w' Hs Hi. unfold mode_inv. rewrite Hs, Hi.
    split; [discriminate|]. split; [now left|]. split; [|intros Hx; now contradict Hx].
    split; discriminate. }
  pose proof (create_socket_valid w) as Hv.
  pose proof (mode_create_socket w) as Hc.
  destruct (_network_create_socket E w) as [[r1 fd1] wc]. cbn [fst snd] in Hv, Hc.
  unfold mode_of in Hc. injection Hc as Hc1 Hc2 _.
  cbv zeta. destruct (r1 =? 0) eqn:Hr1.
  { apply Hfail; world_simpl; congruence. }
  apply Z.eqb_neq in Hr1. specialize (Hv Hr1).
  destruct (sys_gethostbyname E (cstr h)) as [a|];
    [|apply Hfail; world_simpl; congruence].
  match goal with
  | |- context [_network_send_message E ?s ?a ?t ?d ?n ?w0] =>
      pose proof (mode_of_sans_traffic _ _ (sans_traffic_send_message E s a t d n w0)) as Hs;
      destruct (_network_send_message E s a t d n w0) as [r2 w2]
  end.
  unfold mode_of in Hs. cbn [snd] in Hs. world_simpl in Hs. injection Hs as Hs1 Hs2 Hs3.
  destruct (r2 =? 0); [apply Hfail; world_simpl; congruence|].
  unfold mode_inv. world_simpl.
  split; [discriminate|]. split; [now left|]. split; [split; discriminate|].
  intros _. rewrite Hs3. exact Hv.
Qed.

Lemma mode_start_discovery (w : world) :
  mode_of (snd (network_start_discovery E w)) = mode_of w.
Proof.
  unfold network_start_discovery.
  pose proof (mode_create_socket w) as Hc.
  destruct (_network_create_socket E w) as [[r fd] wc]. cbn [snd] in Hc.
  cbv zeta. destruct (r =? 0); [exact Hc|].
  unfold get_timestamp. cbv zeta.
  match goal with
  | |- context [network_broadcast_discovery E ?w0] =>
      rewrite (mode_of_sans_traffic _ _ (sans_traffic_broadcast_discovery E w0))
  end.
  exact Hc.
Qed.

Lemma mode_inv_init (w : world) : mode_inv w -> mode_inv (snd (network_init E w)).
Proof.
  intros Hinv. unfold network_init. destruct (negb _); [exact Hinv|].
  unfold mode_inv. cbn.
  split; [discriminate|]. split; [now left|]. split; [split; discriminate|].
  intros Hx. now contradict Hx.
Qed.

Lemma mode_inv_step (call : api_call) (w : world) :
  mode_inv w -> mode_inv (step E call w).
Proof.
  intros Hinv. destruct call; simpl.
  - now apply mode_inv_init.
  - unfold network_shutdown. destruct (_ =? _); [exact Hinv|].
    eapply mode_inv_ext; [|apply mode_inv_disconnect; exact Hinv]. reflexivity.
  - now apply mode_inv_update.
  - now apply mode_inv_host_game.
  - now apply mode_inv_join_game.
  - now apply mode_inv_disconnect.
  - eapply mode_inv_ext; [apply mode_start_discovery|exact Hinv].
  - eapply mode_inv_ext; [|exact Hinv]. unfold network_stop_discovery.
    destruct (negb _); reflexivity.
  - eapply mode_inv_ext; [|exact Hinv].
    exact (mode_of_sans_traffic _ _ (sans_traffic_broadcast_discovery E w)).
  - eapply mode_inv_ext; [|exact Hinv].
    exact (mode_of_sans_traffic _ _ (sans_traffic_send_to_player E id type data size w)).
  - eapply mode_inv_ext; [|exact Hinv].
    exact (mode_of_sans_traffic _ _ (sans_traffic_send_to_all E type data size w)).
  - eapply mode_inv_ext; [|exact Hinv]. unfold network_send_chat.
    destruct message; [|reflexivity].
    match goal with
    | |- context [network_send_to_all E ?t ?d ?n w] =>
        exact (mode_of_sans_traffic _ _ (sans_traffic_send_to_all E t d n w))
    end.
  - eapply mode_inv_ext; [|exact Hinv].
    exact (mode_of_sans_traffic _ _ (sans_traffic_send_to_all E _ data size w)).
  - eapply mode_inv_ext; [|exact Hinv].
    exact (mode_of_sans_traffic _ _ (sans_traffic_send_to_all E _ data size w)).
  - destruct callbacks; exact Hinv.
Qed.

Lemma mode_inv_run (calls : list api_call) (w : world) :
  mode_inv w -> mode_inv (run E calls w).
Proof.
  revert w. induction calls as [|call calls IH]; intros w Hinv; simpl.
  - exact Hinv.
  - apply IH, mode_inv_step, Hinv.
Qed.

Lemma mode_inv_initial : mode_inv initial_world.
Proof.
  unfold mode_inv. cbn.
  split; [discriminate|]. split; [now left|]. split; [split; discriminate|].
  intros Hx. now contradict Hx.
Qed.

Lemma reachable_mode_inv (w : world) : reachable E w -> mode_inv w.
Proof. intros [calls ->]. apply mode_inv_run, mode_inv_initial. Qed.

(** X6. The state machine of a session.  In every world the public
    interface can reach: the state is Disconnected, Hosting, Connecting or
    Connected (nothing ever sets the Error state); [is_host] is 0 or 1 and is
    1 exactly while the state is Hosting; the roster is empty unless the
    state is Hosting; and whenever the state is not Disconnected the session
    socket is a descriptor, not [INVALID_SOCKET_VALUE]. *)
Theorem session_state_machine (w : world) :
  reachable E w ->
  (state (g_network w) = NETWORK_STATE_DISCONNECTED
   \/ state (g_network w) = NETWORK_STATE_HOSTING
   \/ state (g_network w) = NETWORK_STATE_CONNECTING
   \/ state (g_network w) = NETWORK_STATE_CONNECTED)
  /\ (is_host (g_network w) = 0 \/ is_host (g_network w) = 1)
  /\ (state (g_network w) = NETWORK_STATE_HOSTING <-> is_host (g_network w) = 1)
  /\ (state (g_network w) <> NETWORK_STATE_HOSTING -> network_get_player_count w = 0)
  /\ (state (g_network w) <> NETWORK_STATE_DISCONNECTED ->
      server_socket (g_network w) <> INVALID_SOCKET_VALUE).
Proof.
  intros Hr. destruct (reachable_mode_inv w Hr) as (H1 & H2 & H3 & H4).
  destruct (reachable_session_inv E w Hr) as (_ & _ & S3 & S4 & _).
  split.
  { destruct (state (g_network w)); auto. now contradict H1. }
  split; [exact H2|]. split; [exact H3|]. split; [|exact H4].
  intros Hst. exact (S4 (S3 Hst)).
Qed.

End Mode.

(** ** Strings and arrays *)

Lemma cstr_no_nul (buf : list byte) : x00 ∉ cstr buf.
Proof.
  induction buf as [|b r IH]; simpl; [apply not_elem_of_nil|].
  destruct (Byte.eqb b x00) eqn:Hb; [apply not_elem_of_nil|].
  apply Byte.eqb_false in Hb. apply not_elem_of_cons. split; [congruence|exact IH].
Qed.

Lemma cstr_app_nul (s rest : list byte) : x00 ∉ s -> cstr (s ++ x00 :: rest) = s.
Proof.
  induction s as [|b s IH]; simpl; intros Hs; [reflexivity|].
  apply not_elem_of_cons in Hs as [Hb Hs].
  destruct (Byte.eqb b x00) eqn:Heq.
  - apply Byte.byte_dec_bl in Heq. congruence.
  - now rewrite IH.
Qed.

Lemma cstr_id (s : list byte) : x00 ∉ s -> cstr s = s.
Proof.
  induction s as [|b s IH]; simpl; intros Hs; [reflexivity|].
  apply not_elem_of_cons in Hs as [Hb Hs].
  destruct (Byte.eqb b x00) eqn:Heq.
  - apply Byte.byte_dec_bl in Heq. congruence.
  - now rewrite IH.
Qed.

Lemma length_cstr (buf : list byte) : (length (cstr buf) <= length buf)%nat.
Proof.
  induction buf as [|b r IH]; simpl; [lia|].
  destruct (Byte.eqb b x00); simpl; lia.
Qed.

(** A buffer that holds a NUL holds a string shorter than itself. *)
Lemma length_cstr_nul (buf : list byte) :
  x00 ∈ buf -> (length (cstr buf) < length buf)%nat.
Proof.
  induction buf as [|b r IH]; simpl; intros Hin; [now apply elem_of_nil in Hin|].
  destruct (Byte.eqb b x00) eqn:Heq; simpl; [lia|].
  apply Byte.eqb_false in Heq. apply elem_of_cons in Hin as [Hin|Hin]; [congruence|].
  specialize (IH Hin). lia.
Qed.

(** A buffer is its string, a NUL and what follows. *)
Lemma cstr_split (buf : list byte) :
  x00 ∈ buf -> buf = cstr buf ++ x00 :: drop (S (length (cstr buf))) buf.
Proof.
  induction buf as [|b r IH]; simpl; intros Hin; [now apply elem_of_nil in Hin|].
  destruct (Byte.eqb b x00) eqn:Heq.
  - apply Byte.byte_dec_bl in Heq. subst b. reflexivity.
  - apply Byte.eqb_false in Heq. apply elem_of_cons in Hin as [Hin|Hin]; [congruence|].
    simpl. f_equal. exact (IH Hin).
Qed.

Lemma not_elem_of_take_cstr (n : nat) (buf : list byte) : x00 ∉ take n (cstr buf).
Proof.
  intros Hin. apply (cstr_no_nul buf).
  apply elem_of_take in Hin as (i & Hi & _). eapply list_elem_of_lookup_2. exact Hi.
Qed.

Lemma length_memcpy (dst src : list byte) :
  (length src <= length dst)%nat -> length (memcpy dst src) = length dst.
Proof. intros H. unfold memcpy. rewrite length_app, length_drop. lia. Qed.

Lemma length_strncpy (dst src : list byte) (n : nat) :
  (n <= length dst)%nat -> length (strncpy dst src n) = length dst.
Proof. intros H. unfold strncpy. apply length_memcpy. now rewrite length_pad. Qed.

Lemma length_strcpy (dst src : list byte) :
  (length (cstr src) < length dst)%nat -> length (strcpy dst src) = length dst.
Proof.
  intros H. unfold strcpy. apply length_memcpy. rewrite length_app. simpl. lia.
Qed.

(** [strncpy (dst, src, n); dst[n] = 0] into an array of [n + 1] bytes or
    more: the string the array then holds is the first [n] characters of the
    source. *)
Lemma cstr_strncpy_terminated (dst src : list byte) (n : nat) :
  (n < length dst)%nat ->
  cstr (<[n := x00]> (strncpy dst src n)) = take n (cstr src).
Proof.
  intros Hn. unfold strncpy, memcpy, pad.
  rewrite length_resize.
  rewrite insert_app_r_alt by (rewrite length_resize; lia).
  rewrite length_resize, Nat.sub_diag.
  destruct (drop n dst) as [|b rest] eqn:Hd.
  { apply (f_equal length) in Hd. rewrite length_drop in Hd. simpl in Hd. lia. }
  simpl insert. rewrite resize_spec, take_take, Nat.min_id.
  rewrite <- app_assoc.
  destruct (n - length (take n (cstr src)))%nat as [|k] eqn:Hk.
  - simpl replicate. rewrite app_nil_l. apply cstr_app_nul, not_elem_of_take_cstr.
  - simpl replicate. rewrite <- app_comm_cons.
    apply cstr_app_nul, not_elem_of_take_cstr.
Qed.

Lemma c_string_strncpy_terminated (dst src : list byte) (n : nat) :
  length dst = S n -> c_string_in (S n) (<[n := x00]> (strncpy dst src n)).
Proof.
  intros Hl. split.
  - rewrite length_insert, length_strncpy; lia.
  - apply list_elem_of_lookup. exists n. apply list_lookup_insert_eq.
    rewrite length_strncpy; lia.
Qed.

(** [strcpy] of a string that fits, terminator included. *)
Lemma c_string_strcpy (dst src : list byte) :
  (length (cstr src) < length dst)%nat ->
  c_string_in (length dst) (strcpy dst src) /\ cstr (strcpy dst src) = cstr src.
Proof.
  intros H. split; [split|].
  - now apply length_strcpy.
  - unfold strcpy, memcpy. rewrite <- app_assoc. apply elem_of_app. right.
    apply elem_of_cons. now left.
  - unfold strcpy, memcpy. rewrite <- app_assoc. simpl. apply cstr_app_nul, cstr_no_nul.
Qed.

Lemma c_string_memcpy_nul (dst s : list byte) :
  (length s < length dst)%nat -> c_string_in (length dst) (memcpy dst (s ++ [x00])).
Proof.
  intros H. split.
  - apply length_memcpy. rewrite length_app. simpl. lia.
  - unfold memcpy. rewrite <- app_assoc. apply elem_of_app. right.
    apply elem_of_cons. now left.
Qed.

(** ** The arrays of the context *)

Lemma decimal_digit (n : Z) : 0 <= n < 10 -> decimal n = [byte_of_Z (48 + n)].
Proof.
  intros Hn.
  assert (Hk : exists k, (k < 10)%nat /\ n = Z.of_nat k) by (exists (Z.to_nat n); lia).
  destruct Hk as (k & Hk & ->).
  do 10 (destruct k as [|k]; [reflexivity|]). lia.
Qed.

Lemma length_decimal_byte (b : byte) : (length (decimal (Z_of_byte b)) <= 3)%nat.
Proof. destruct b; vm_compute; lia. Qed.

(** A dotted quad is at most 15 characters long. *)
Lemma length_inet_ntop (s_addr : Z) : (length (inet_ntop s_addr) <= 15)%nat.
Proof.
  unfold inet_ntop. cbn [store_le].
  rewrite !length_app.
  pose proof (length_decimal_byte (byte_of_Z s_addr)).
  pose proof (length_decimal_byte (byte_of_Z (s_addr / 256))).
  pose proof (length_decimal_byte (byte_of_Z (s_addr / 256 / 256))).
  pose proof (length_decimal_byte (byte_of_Z (s_addr / 256 / 256 / 256))).
  change (length (bytes_of_string ".")) with 1%nat. lia.
Qed.

Lemma ntohs_range (x : Z) : 0 <= ntohs x < 65536.
Proof.
  unfold ntohs. pose proof (load_le_range (rev (store_le 2 x))) as H.
  rewrite length_rev, length_store_le in H. exact H.
Qed.

Lemma entry_inv_zero : entry_inv zero_player.
Proof.
  unfold entry_inv, c_string_in. cbn [name hostname port zero_player].
  rewrite !length_replicate.
  split; [split; [reflexivity|]|split; [split; [reflexivity|]|lia]];
    apply elem_of_replicate; split; [reflexivity|lia| reflexivity|lia].
Qed.

Lemma Forall_shift_players (P : network_player_t -> Prop) (fuel j : nat)
    (ps : list network_player_t) :
  P zero_player -> Forall P ps -> Forall P (shift_players fuel j ps).
Proof.
  intros Hz. revert j ps. induction fuel as [|fuel IH]; intros j ps Hps; simpl; [exact Hps|].
  apply IH. apply Forall_insert; [exact Hps|].
  destruct (ps !! S j) as [q|] eqn:Hq; simpl; [|exact Hz].
  rewrite Forall_forall in Hps. apply Hps. eapply list_elem_of_lookup_2. exact Hq.
Qed.

Section Storage.

Variable E : sys_env.

Lemma storage_inv_ext (w w' : world) :
  storage_of w' = storage_of w -> storage_inv w -> storage_inv w'.
Proof.
  unfold storage_of, storage_inv, roster. intros Heq.
  injection Heq as -> -> -> -> -> ->. trivial.
Qed.

Lemma storage_of_sans_traffic (w w' : world) :
  sans_traffic w' = sans_traffic w -> storage_of w' = storage_of w.
Proof. intros H. exact (f_equal storage_of H). Qed.

Lemma length_recv_bytes (r : recv_result) : (length (recv_bytes r) <= 4096)%nat.
Proof.
  destruct r as [e|from bytes e]; simpl; [lia|].
  rewrite length_take. change (Z.to_nat NETWORK_BUFFER_SIZE) with 4096%nat. lia.
Qed.

Lemma length_memcpy_at (dst : list byte) (off : nat) (src : list byte) :
  (off + length src <= length dst)%nat -> length (memcpy_at dst off src) = length dst.
Proof.
  intros H. unfold memcpy_at. rewrite !length_app, length_take, length_drop. lia.
Qed.

(** Receiving changes the receive buffer and the statistics only, and the
    buffer keeps its size. *)
Lemma storage_inv_receive_message r out (w : world) :
  storage_inv w -> storage_inv (snd (_network_receive_message r out w)).
Proof.
  intros (H1 & H2 & H3 & H4 & H5 & H6).
  assert (Hb : length (memcpy_at (receive_buffer (g_network w)) 0 (recv_bytes r)) = 4096%nat).
  { rewrite length_memcpy_at; [exact H4|]. pose proof (length_recv_bytes r). lia. }
  unfold _network_receive_message.
  repeat (match goal with |- context [if ?b then _ else _] => destruct b end);
    unfold storage_inv, roster; world_simpl;
    exact (conj H1 (conj H2 (conj H3 (conj Hb (conj H5 H6))))).
Qed.

Lemma entry_inv_default (ps : list network_player_t) (n : nat) :
  Forall entry_inv ps -> entry_inv (default zero_player (ps !! n)).
Proof.
  intros Hps. destruct (ps !! n) as [q|] eqn:Hq; simpl; [|exact entry_inv_zero].
  rewrite Forall_forall in Hps. apply Hps. eapply list_elem_of_lookup_2. exact Hq.
Qed.

(** The roster entry a join request creates, from the slot it overwrites. *)
Lemma entry_inv_joined (old : network_player_t) (id ts size count : Z)
    (from : sockaddr_in) (data : list byte) :
  entry_inv old -> 0 <= count < 8 ->
  entry_inv
    {| player_id := id;
       name := if 0 <? size
               then <[31%nat := x00]> (strncpy (name old) data 31)
               else memcpy (name old)
                      (bytes_of_string "Player" ++ decimal (count + 1) ++ [x00]);
       hostname := memcpy (hostname old) (inet_ntop (sin_addr from) ++ [x00]);
       ip_address := sin_addr from;
       port := ntohs (sin_port from);
       last_ping := ts; connected := 1 |}.
Proof.
  intros ((Hn1 & Hn2) & (Hh1 & Hh2) & Hp) Hc.
  unfold entry_inv. cbn [name hostname port].
  split; [|split; [|apply ntohs_range]].
  - destruct (0 <? size).
    + apply c_string_strncpy_terminated. exact Hn1.
    + rewrite app_assoc. rewrite <- Hn1. apply c_string_memcpy_nul.
      rewrite length_app, decimal_digit by lia. rewrite Hn1. simpl. lia.
  - rewrite <- Hh1. apply c_string_memcpy_nul.
    pose proof (length_inet_ntop (sin_addr from)). lia.
Qed.

Lemma storage_inv_handle_message from type data size (w : world) :
  session_inv w -> storage_inv w ->
  storage_inv (snd (_network_handle_message E from type data size w)).
Proof.
  intros Hsess Hinv. unfold _network_handle_message.
  destruct (message_type_of_code type) as [[]|]; try exact Hinv.
  - (* discovery request *)
    destruct (_ && _); [|exact Hinv].
    match goal with
    | |- context [_network_send_message E ?s ?a ?t ?d ?n ?w0] =>
        pose proof (storage_of_sans_traffic _ _ (sans_traffic_send_message E s a t d n w0)) as Hs;
        destruct (_network_send_message E s a t d n w0) as [r w1]
    end.
    eapply storage_inv_ext; [exact Hs|exact Hinv].
  - (* discovery response *)
    destruct (_ && _); [|exact Hinv].
    unfold get_timestamp. cbv zeta.
    destruct (list_find _ _) as [[i g]|];
      (eapply storage_inv_ext; [|exact Hinv]); reflexivity.
  - (* join request *)
    destruct (_ && _) eqn:Hc; [|exact Hinv].
    apply andb_prop in Hc as [_ Hlt]. apply Z.ltb_lt in Hlt.
    destruct Hsess as (S1 & S2 & _).
    destruct Hinv as (H1 & H2 & H3 & H4 & H5 & H6).
    unfold NETWORK_MAX_PLAYERS in *.
    unfold _network_generate_player_id, get_timestamp. cbv zeta.
    match goal with
    | |- context [<[_ := ?p]> (players (g_network w))] =>
        assert (Hp1 : entry_inv p)
          by (apply entry_inv_joined; [apply entry_inv_default; exact H2|lia]);
        assert (Hc1 : connected p = 1) by reflexivity;
        generalize dependent p; intros p1 Hp1 Hc1
    end.
    match goal with
    | |- context [_network_send_message E ?s ?a ?t ?d ?n ?w0] =>
        pose proof (storage_of_sans_traffic _ _ (sans_traffic_send_message E s a t d n w0)) as Hs;
        destruct (_network_send_message E s a t d n w0) as [r w4]
    end.
    cbn [snd] in Hs |- *.
    assert (Hinv4 : storage_inv w4).
    { eapply storage_inv_ext; [exact Hs|].
      unfold storage_inv, roster. world_simpl.
      split; [exact H1|]. split; [apply Forall_insert; assumption|].
      split; [|repeat split; assumption || lia].
      replace (Z.to_nat (player_count (g_network w) + 1))
        with (S (Z.to_nat (player_count (g_network w)))) by lia.
      rewrite (take_S_r _ _ p1) by (apply list_lookup_insert_eq; lia).
      rewrite take_insert_ge by lia.
      apply Forall_app. split; [exact H3|]. constructor; [exact Hc1|constructor]. }
    destruct (on_player_joined _); [|exact Hinv4].
    eapply storage_inv_ext; [|exact Hinv4]. reflexivity.
  - (* join response *)
    destruct (_ && _); [|exact Hinv].
    eapply storage_inv_ext; [|exact Hinv]. reflexivity.
  - (* game data *)
    destruct (on_game_data _); [|exact Hinv].
    eapply storage_inv_ext; [|exact Hinv]. reflexivity.
  - (* player disconnect *)
    destruct (find_player_by_addr from (g_network w)) as [[i p]|] eqn:Hf; [|exact Hinv].
    apply find_player_by_addr_bound in Hf as (Hi & _).
    destruct Hsess as (S1 & S2 & _).
    destruct Hinv as (H1 & H2 & H3 & H4 & H5 & H6).
    unfold NETWORK_MAX_PLAYERS in *.
    assert (Hgoal : storage_inv
              (upd (set_player_count (player_count (g_network w) - 1))
                 (upd (set_players
                         (shift_players (Z.to_nat (player_count (g_network w) - 1) - i) i
                            (players (g_network w)))) w))).
    { unfold storage_inv, roster. world_simpl.
      split; [exact H1|].
      split; [apply Forall_shift_players; [exact entry_inv_zero|exact H2]|].
      split; [|repeat split; assumption || lia].
      replace (Z.to_nat (player_count (g_network w) - 1))
        with (Z.to_nat (player_count (g_network w)) - 1)%nat by lia.
      rewrite shift_players_delete by lia.
      apply Forall_delete. exact H3. }
    cbn [snd]. destruct (on_player_left _); [|exact Hgoal].
    eapply storage_inv_ext; [|exact Hgoal]. reflexivity.
  - (* chat *)
    destruct (_ && _); [|exact Hinv].
    eapply storage_inv_ext; [|exact Hinv]. reflexivity.
Qed.

Lemma storage_inv_poll_socket r out (w : world) :
  session_inv w -> storage_inv w -> storage_inv (snd (poll_socket E r out w)).
Proof.
  intros Hsess Hinv. unfold poll_socket.
  pose proof (storage_inv_receive_message r out w Hinv) as Hi.
  pose proof (session_receive_message r out w) as Hr.
  destruct (_network_receive_message r out w) as [[result out1] w1]. cbn [snd] in Hi, Hr.
  assert (Hsess1 : session_inv w1) by (eapply session_inv_ext; eauto).
  destruct (0 <? result); [|exact Hi].
  pose proof (storage_inv_handle_message (ro_from_addr out1) (ro_type out1)
                (default [] (ro_data out1)) (default 0 (ro_size out1)) w1 Hsess1 Hi) as Hh.
  destruct (_network_handle_message _ _ _ _ _ _) as [data1 w2]. exact Hh.
Qed.

Lemma storage_update_discovery (w : world) :
  storage_of (update_discovery E w) = storage_of w.
Proof.
  unfold update_discovery. destruct (_ && _); [|reflexivity].
  unfold get_timestamp at 1. cbv zeta. destruct (_ <? _); [|reflexivity].
  match goal with
  | |- context [network_broadcast_discovery E ?w0] =>
      pose proof (storage_of_sans_traffic _ _ (sans_traffic_broadcast_discovery E w0)) as Hb;
      destruct (network_broadcast_discovery E w0) as [r w2]
  end.
  exact Hb.
Qed.

Lemma storage_inv_update rs rb frame (w : world) :
  session_inv w -> storage_inv w -> storage_inv (network_update E rs rb frame w).
Proof.
  intros Hsess Hinv. unfold network_update. destruct (_ || _); [exact Hinv|].
  eapply storage_inv_ext; [apply storage_update_discovery|].
  unfold update_receive.
  match goal with
  | |- context [poll_socket E rs ?o w] =>
      pose proof (storage_inv_poll_socket rs o w Hsess Hinv) as H1;
      pose proof (session_inv_poll_socket E rs o w Hsess) as S1;
      destruct (poll_socket E rs o w) as [out1 w1]; cbn [snd] in H1, S1
  end.
  destruct (negb (server_socket (g_network w) =? INVALID_SOCKET_VALUE)).
  - pose proof (storage_inv_poll_socket rb out1 w1 S1 H1) as H2.
    destruct (negb (broadcast_socket (g_network w1) =? INVALID_SOCKET_VALUE)).
    + destruct (poll_socket E rb out1 w1). exact H2.
    + exact H1.
  - match goal with
    | |- context [poll_socket E rb ?o w] =>
        pose proof (storage_inv_poll_socket rb o w Hsess Hinv) as H2;
        destruct (poll_socket E rb o w) as [out2 w2]; cbn [snd] in H2
    end.
    destruct (negb (broadcast_socket (g_network w) =? INVALID_SOCKET_VALUE));
      assumption.
Qed.

Lemma Forall_entry_inv_zero : Forall entry_inv (replicate 8 zero_player).
Proof. apply Forall_replicate. exact entry_inv_zero. Qed.

(** What [network_disconnect] leaves of the storage after a live session. *)
Lemma storage_disconnect (w : world) :
  state (g_network w) <> NETWORK_STATE_DISCONNECTED ->
  storage_of (network_disconnect E w)
  = (game_name (g_network w), replicate 8 zero_player, 0,
     receive_buffer (g_network w), local_port (g_network w), game_id (g_network w)).
Proof.
  intros Hst. unfold network_disconnect, state_is at 1.
  rewrite bool_decide_eq_false_2 by exact Hst.
  set (w1 := if state_is NETWORK_STATE_CONNECTED w || state_is NETWORK_STATE_HOSTING w
             then snd (network_send_to_all E (message_type_code MSG_PLAYER_DISCONNECT) None 0 w)
             else w).
  assert (Hw1 : storage_of w1 = storage_of w).
  { unfold w1. destruct (_ || _); [|reflexivity].
    apply storage_of_sans_traffic, sans_traffic_send_to_all. }
  cbv zeta.
  set (w2 := if negb (server_socket (g_network w1) =? INVALID_SOCKET_VALUE)
             then upd (set_server_socket INVALID_SOCKET_VALUE)
                    (close_socket (server_socket (g_network w1)) w1)
             else w1).
  assert (Hw2 : storage_of w2 = storage_of w1)
    by (unfold w2; destruct (negb (server_socket (g_network w1) =? _)); reflexivity).
  set (w3 := if negb (broadcast_socket (g_network w2) =? INVALID_SOCKET_VALUE)
             then upd (set_broadcast_socket INVALID_SOCKET_VALUE)
                    (close_socket (broadcast_socket (g_network w2)) w2)
             else w2).
  assert (Hw3 : storage_of w3 = storage_of w2)
    by (unfold w3; destruct (negb (broadcast_socket (g_network w2) =? _)); reflexivity).
  rewrite Hw2, Hw1 in Hw3. unfold storage_of in Hw3 |- *.
  injection Hw3 as Hg _ _ Hb Hl Hi. world_simpl. now rewrite Hg, Hb, Hl, Hi.
Qed.

Lemma storage_inv_disconnect (w : world) :
  storage_inv w -> storage_inv (network_disconnect E w).
Proof.
  intros Hinv.
  destruct (decide (state (g_network w) = NETWORK_STATE_DISCONNECTED)) as [Hst|Hst].
  - now rewrite disconnect_when_disconnected.
  - pose proof (storage_disconnect w Hst) as Hs.
    destruct Hinv as (H1 & H2 & H3 & H4 & H5 & H6).
    unfold storage_of in Hs. injection Hs as Hs1 Hs2 Hs3 Hs4 Hs5 Hs6.
    unfold storage_inv, roster. rewrite Hs1, Hs2, Hs3, Hs4, Hs5, Hs6.
    split; [exact H1|]. split; [exact Forall_entry_inv_zero|].
    split; [constructor|]. repeat split; assumption || lia.
Qed.

Lemma storage_create_socket (w : world) :
  storage_of (snd (_network_create_socket E w)) = storage_of w.
Proof.
  unfold _network_create_socket, _network_set_nonblocking, os_call.
  repeat (destruct (_ =? _); try reflexivity).
Qed.

Lemma u16_range (x : Z) : 0 <= u16 x < 65536.
Proof. unfold u16. apply Z.mod_pos_bound. lia. Qed.

Lemma u32_range (x : Z) : 0 <= u32 x < 4294967296.
Proof. unfold u32. apply Z.mod_pos_bound. lia. Qed.

Lemma storage_inv_host_game n p (w : world) :
  storage_inv w -> storage_inv (snd (network_host_game E n p w)).
Proof.
  intros Hinv. unfold network_host_game.
  destruct (negb (state_is _ _)); [exact Hinv|].
  unfold _network_create_socket, _network_set_nonblocking, _network_bind_socket, os_call.
  repeat (match goal with
          | |- context [if ?b =? ?c then _ else _] => destruct (b =? c)
          end;
          try (eapply storage_inv_ext; [|exact Hinv]; reflexivity)).
  all: destruct Hinv as ((H1a & H1b) & H2 & H3 & H4 & H5 & H6);
    pose proof (u16_range p);
    destruct n; unfold storage_inv, roster; world_simpl;
    (split; [first [apply c_string_strncpy_terminated; exact H1a|split; assumption]|]);
    (split; [exact H2|]); (split; [constructor|]); repeat split; assumption || lia.
Qed.

Lemma storage_inv_join_game h p n (w : world) :
  storage_inv w -> storage_inv (snd (network_join_game E h p n w)).
Proof.
  intros Hinv. unfold network_join_game.
  destruct (negb (state_is _ _)); [exact Hinv|].
  pose proof (storage_create_socket w) as Hc.
  destruct (_network_create_socket E w) as [[r1 fd1] wc]. cbn [snd] in Hc.
  cbv zeta. destruct (r1 =? 0); [eapply storage_inv_ext; [|exact Hinv]; exact Hc|].
  destruct (sys_gethostbyname E (cstr h)) as [a|];
    [|eapply storage_inv_ext; [|exact Hinv]; exact Hc].
  match goal with
  | |- context [_network_send_message E ?s ?a ?t ?d ?n ?w0] =>
      pose proof (storage_of_sans_traffic _ _ (sans_traffic_send_message E s a t d n w0)) as Hs;
      destruct (_network_send_message E s a t d n w0) as [r2 w2]
  end.
  cbn [snd] in Hs.
  destruct (r2 =? 0); (eapply storage_inv_ext; [|exact Hinv]);
    (etransitivity; [|exact Hc]); (etransitivity; [|exact Hs]); reflexivity.
Qed.

Lemma storage_start_discovery (w : world) :
  storage_of (snd (network_start_discovery E w)) = storage_of w.
Proof.
  unfold network_start_discovery.
  pose proof (storage_create_socket w) as Hc.
  destruct (_network_create_socket E w) as [[r fd] wc]. cbn [snd] in Hc.
  cbv zeta. destruct (r =? 0); [exact Hc|].
  unfold get_timestamp. cbv zeta.
  match goal with
  | |- context [network_broadcast_discovery E ?w0] =>
      rewrite (storage_of_sans_traffic _ _ (sans_traffic_broadcast_discovery E w0))
  end.
  exact Hc.
Qed.

Lemma storage_inv_init (w : world) : storage_inv w -> storage_inv (snd (network_init E w)).
Proof.
  intros Hinv. unfold network_init. destruct (negb _); [exact Hinv|].
  unfold _network_generate_game_id, _network_generate_player_id, get_timestamp.
  cbv zeta. unfold storage_inv, roster. world_simpl.
  split; [split; [reflexivity|]|].
  { apply list_elem_of_lookup. exists 23%nat. reflexivity. }
  split; [exact Forall_entry_inv_zero|]. split; [constructor|].
  split; [reflexivity|]. split; [unfold NETWORK_DEFAULT_PORT; lia|].
  apply u32_range.
Qed.

Lemma storage_inv_step (call : api_call) (w : world) :
  session_inv w -> storage_inv w -> storage_inv (step E call w).
Proof.
  intros Hsess Hinv. destruct call; simpl.
  - now apply storage_inv_init.
  - unfold network_shutdown. destruct (_ =? _); [exact Hinv|].
    eapply storage_inv_ext; [|apply storage_inv_disconnect; exact Hinv]. reflexivity.
  - now apply storage_inv_update.
  - now apply storage_inv_host_game.
  - now apply storage_inv_join_game.
  - now apply storage_inv_disconnect.
  - eapply storage_inv_ext; [apply storage_start_discovery|exact Hinv].
  - eapply storage_inv_ext; [|exact Hinv]. unfold network_stop_discovery.
    destruct (negb _); reflexivity.
  - eapply storage_inv_ext; [|exact Hinv].
    exact (storage_of_sans_traffic _ _ (sans_traffic_broadcast_discovery E w)).
  - eapply storage_inv_ext; [|exact Hinv].
    exact (storage_of_sans_traffic _ _ (sans_traffic_send_to_player E id type data size w)).
  - eapply storage_inv_ext; [|exact Hinv].
    exact (storage_of_sans_traffic _ _ (sans_traffic_send_to_all E type data size w)).
  - eapply storage_inv_ext; [|exact Hinv]. unfold network_send_chat.
    destruct message; [|reflexivity].
    match goal with
    | |- context [network_send_to_all E ?t ?d ?n w] =>
        exact (storage_of_sans_traffic _ _ (sans_traffic_send_to_all E t d n w))
    end.
  - eapply storage_inv_ext; [|exact Hinv].
    exact (storage_of_sans_traffic _ _ (sans_traffic_send_to_all E _ data size w)).
  - eapply storage_inv_ext; [|exact Hinv].
    exact (storage_of_sans_traffic _ _ (sans_traffic_send_to_all E _ data size w)).
  - destruct callbacks; exact Hinv.
Qed.

Lemma storage_inv_run (calls : list api_call) (w : world) :
  session_inv w -> storage_inv w -> storage_inv (run E calls w).
Proof.
  revert w. induction calls as [|call calls IH]; intros w Hsess Hinv; simpl.
  - exact Hinv.
  - apply IH; [apply session_inv_step; exact Hsess|apply storage_inv_step; assumption].
Qed.

Lemma storage_inv_initial : storage_inv initial_world.
Proof.
  unfold storage_inv, roster. cbn.
  split; [split; [reflexivity|]|].
  { apply list_elem_of_lookup. exists 0%nat. reflexivity. }
  split; [exact Forall_entry_inv_zero|]. split; [constructor|].
  split; [reflexivity|]. lia.
Qed.

Lemma reachable_storage_inv (w : world) : reachable E w -> storage_inv w.
Proof.
  intros [calls ->].
  apply storage_inv_run; [apply session_inv_initial|apply storage_inv_initial].
Qed.

(** X7. Strings and arrays.  In every world the public interface can reach
    the arrays of the context have the sizes the header declares and the
    strings in them are NUL-terminated inside their arrays: [game_name] (64
    bytes), and the [name] (32 bytes) and [hostname] (256 bytes) of each of
    the eight roster slots; the receive buffer has its 4096 bytes; each of the
    [player_count] roster entries has [connected] equal to 1 and a port of 16
    bits; [local_port] and [game_id] are in range.  (A copy that ran past the
    end of an array would lengthen it: none of [strcpy], [strncpy],
    [sprintf], [inet_ntop] and [recvfrom] does.) *)
Theorem storage_stays_in_bounds (w : world) :
  reachable E w ->
  length (game_name (g_network w)) = 64%nat
  /\ (length (cstr (game_name (g_network w))) <= 63)%nat
  /\ length (network_get_all_players w) = 8%nat
  /\ Forall (fun p => length (name p) = 32%nat
                      /\ (length (cstr (name p)) <= 31)%nat
                      /\ length (hostname p) = 256%nat
                      /\ (length (cstr (hostname p)) <= 255)%nat)
            (network_get_all_players w)
  /\ Forall (fun p => connected p = 1 /\ 0 <= port p < 65536) (roster w)
  /\ length (receive_buffer (g_network w)) = 4096%nat
  /\ 0 <= local_port (g_network w) < 65536
  /\ 0 <= game_id (g_network w) < 4294967296.
Proof.
  intros Hr.
  destruct (reachable_storage_inv w Hr) as ((H1a & H1b) & H2 & H3 & H4 & H5 & H6).
  destruct (reachable_session_inv E w Hr) as (_ & S2 & _).
  split; [exact H1a|].
  split; [pose proof (length_cstr_nul _ H1b); lia|].
  split; [exact S2|].
  split.
  { unfold network_get_all_players. eapply Forall_impl; [exact H2|].
    intros p ((Hn1 & Hn2) & (Hh1 & Hh2) & _).
    pose proof (length_cstr_nul _ Hn2). pose proof (length_cstr_nul _ Hh2).
    repeat split; assumption || lia. }
  split; [|repeat split; assumption || lia].
  unfold roster in *. rewrite Forall_forall in H2, H3. apply Forall_forall.
  intros p Hp. split; [exact (H3 p Hp)|].
  assert (Hin : p ∈ players (g_network w)).
  { apply elem_of_take in Hp as (i & Hi & _). eapply list_elem_of_lookup_2. exact Hi. }
  destruct (H2 p Hin) as (_ & _ & Hport). exact Hport.
Qed.

End Storage.

(** ** Sending to the roster *)

Section Delivery.

Variable E : sys_env.

(** Everything one send within the size bound does, in one place. *)
Lemma send_message_facts sock addr type data size (w : world) :
  0 <= size <= NETWORK_MAX_MESSAGE_SIZE ->
  exists d,
    wire (snd (_network_send_message E sock addr type data size w)) = wire w ++ [d]
    /\ fst (_network_send_message E sock addr type data size w)
       = (if dg_whole d then 1 else 0)
    /\ dg_sock d = sock /\ dg_addr d = addr
    /\ framed type size d
    /\ dg_sequence d = u32 (next_sequence (g_network w))
    /\ next_sequence (g_network (snd (_network_send_message E sock addr type data size w)))
       = u32 (next_sequence (g_network w) + 1)
    /\ (forall payload,
          data = Some payload -> size <= Z.of_nat (length payload) ->
          dg_payload d = take (Z.to_nat size) payload).
Proof.
  intros Hsize.
  destruct (send_message_spec E sock addr type data size w Hsize)
    as (h & body & Hh & Hl & Hp & _ & Heq).
  cbv zeta in Heq. rewrite Heq. clear Heq.
  eexists. split; [destruct (_ =? _); world_simpl; reflexivity|].
  unfold framed, dg_whole, dg_type, dg_size, dg_sequence, dg_payload.
  cbn [dg_sock dg_addr dg_ret dg_bytes].
  assert (Hlen : Z.of_nat (length (header_bytes h ++ body)) = sizeof_message_header_t + size).
  { rewrite length_app, length_header_bytes. unfold sizeof_message_header_t. lia. }
  rewrite Hlen.
  assert (Hpay : drop 20 (header_bytes h ++ body) = body).
  { change 20%nat with (length (header_bytes h)). apply drop_app_length. }
  rewrite Hpay. clear Hpay.
  split; [destruct (_ =? _); reflexivity|].
  split; [reflexivity|]. split; [reflexivity|].
  rewrite header_at_header_bytes, Hh.
  cbn [h_magic h_version h_type h_size h_sequence h_timestamp].
  rewrite !load_store_htonl, !load_store_htons, !ntohl_htonl, !ntohs_htons.
  rewrite u16_u16.
  assert (Hu : u32 size = size)
    by (unfold u32, NETWORK_MAX_MESSAGE_SIZE in *; apply Z.mod_small; lia).
  rewrite !Hu.
  split; [repeat split|]. split; [reflexivity|].
  split; [destruct (_ =? _); reflexivity|].
  exact Hp.
Qed.

Lemma u32_add_l (a b : Z) : u32 (u32 a + b) = u32 (a + b).
Proof. unfold u32. apply Z.add_mod_idemp_l. lia. Qed.

(** The loop of [network_send_to_all] over entries that are all marked
    connected: one datagram each, in order, with consecutive sequence numbers;
    the count returned is the number of datagrams [sendto] took whole. *)
Lemma send_to_each_spec ps sock type data size acc (w : world) :
  0 <= size <= NETWORK_MAX_MESSAGE_SIZE ->
  Forall (fun p => connected p = 1) ps ->
  exists ds,
    wire (snd (send_to_each E ps sock type data size acc w)) = wire w ++ ds
    /\ dg_addr <$> ds = player_addr <$> ps
    /\ Forall (fun d => dg_sock d = sock /\ framed type size d) ds
    /\ dg_sequence <$> ds
       = (fun k => u32 (next_sequence (g_network w) + Z.of_nat k)) <$> seq 0 (length ps)
    /\ fst (send_to_each E ps sock type data size acc w)
       = acc + Z.of_nat (length (filter (fun d => dg_whole d = true) ds))
    /\ (forall payload,
          data = Some payload -> size <= Z.of_nat (length payload) ->
          Forall (fun d => dg_payload d = take (Z.to_nat size) payload) ds).
Proof.
  intros Hsize. revert acc w.
  induction ps as [|p ps IH]; intros acc w Hps; simpl send_to_each.
  - exists []. rewrite app_nil_r. simpl.
    repeat split; try constructor. lia.
  - apply Forall_cons in Hps as [Hp Hps]. rewrite Hp. cbn [Z.eqb negb].
    destruct (send_message_facts sock (player_addr p) type data size w Hsize)
      as (d & Hw & Hr & Hs & Ha & Hf & Hq & Hn & Hpl).
    destruct (_network_send_message E sock (player_addr p) type data size w)
      as [r w1]. cbn [fst snd] in Hw, Hr, Hn.
    destruct (IH (if negb (r =? 0) then acc + 1 else acc) w1 Hps)
      as (ds & Hws & Has & Hfs & Hqs & Hrs & Hpls).
    exists (d :: ds). rewrite Hws, Hw, <- app_assoc.
    split; [reflexivity|].
    split; [rewrite !fmap_cons, Has, Ha; reflexivity|].
    split; [constructor; [split; assumption|exact Hfs]|].
    split.
    { rewrite fmap_cons, Hqs, Hq, Hn. simpl length. cbn [seq fmap list_fmap].
      rewrite Z.add_0_r. f_equal.
      rewrite <- (fmap_S_seq 0), <- list_fmap_compose.
      apply list_fmap_ext. intros i k _. cbn.
      rewrite u32_add_l. f_equal. lia. }
    split.
    { rewrite Hrs, Hr, filter_cons.
      destruct (dg_whole d); cbn [Z.eqb negb].
      - rewrite decide_True by reflexivity. simpl length. lia.
      - rewrite decide_False by discriminate. lia. }
    intros payload Hd Hlen. constructor; [exact (Hpl payload Hd Hlen)|].
    exact (Hpls payload Hd Hlen).
Qed.

Lemma length_roster (w : world) :
  session_inv w -> Z.of_nat (length (roster w)) = player_count (g_network w).
Proof.
  intros (H1 & H2 & _). unfold roster, NETWORK_MAX_PLAYERS in *.
  rewrite length_take, H2. lia.
Qed.

(** X8. Delivery to the roster.  In a reachable world,
    [network_send_to_all] with a size within the bound hands exactly
    [player_count] datagrams to [sendto]: one per roster entry, in roster
    order, each through the session socket to the address and port of its
    entry, each a well-formed frame of the given type and size, and carrying
    consecutive sequence numbers starting at the context's.  The value
    returned is the number of them [sendto] took whole, so it lies between 0
    and [player_count]. *)
Theorem send_to_all_delivery (type : Z) (data : option (list byte)) (size : Z)
    (w : world) :
  reachable E w ->
  0 <= size <= NETWORK_MAX_MESSAGE_SIZE ->
  exists ds,
    wire (snd (network_send_to_all E type data size w)) = wire w ++ ds
    /\ Z.of_nat (length ds) = network_get_player_count w
    /\ dg_addr <$> ds
       = (fun p => {| sin_addr := ip_address p; sin_port := htons (port p) |}) <$> roster w
    /\ Forall (fun d => dg_sock d = server_socket (g_network w) /\ framed type size d) ds
    /\ dg_sequence <$> ds
       = (fun k => u32 (next_sequence (g_network w) + Z.of_nat k)) <$> seq 0 (length ds)
    /\ fst (network_send_to_all E type data size w)
       = Z.of_nat (length (filter (fun d => dg_whole d = true) ds))
    /\ 0 <= fst (network_send_to_all E type data size w) <= network_get_player_count w.
Proof.
  intros Hr Hsize.
  pose proof (reachable_session_inv E w Hr) as Hsess.
  pose proof (reachable_mode_inv E w Hr) as (_ & _ & _ & M4).
  pose proof (reachable_storage_inv E w Hr) as (_ & _ & H3 & _).
  pose proof (length_roster w Hsess) as Hlen.
  unfold network_get_player_count, network_send_to_all.
  destruct (server_socket (g_network w) =? INVALID_SOCKET_VALUE) eqn:Hs.
  - apply Z.eqb_eq in Hs.
    assert (Hst : state (g_network w) = NETWORK_STATE_DISCONNECTED).
    { destruct (decide (state (g_network w) = NETWORK_STATE_DISCONNECTED)) as [Hd|Hd];
        [exact Hd|]. now apply M4 in Hd. }
    assert (Hemp : roster w = []).
    { apply take_roster_empty; [exact Hsess|]. rewrite Hst. discriminate. }
    rewrite Hemp in *. simpl in Hlen.
    exists []. rewrite app_nil_r. cbn [fst snd]. simpl.
    repeat split; try constructor; lia.
  - fold (roster w).
    destruct (send_to_each_spec (roster w) (server_socket (g_network w)) type data size 0 w
                Hsize H3) as (ds & Hw & Ha & Hf & Hq & Hres & _).
    assert (Hl : length ds = length (roster w)).
    { apply (f_equal length) in Ha. now rewrite !length_fmap in Ha. }
    exists ds. rewrite Hl.
    split; [exact Hw|]. split; [exact Hlen|]. split; [exact Ha|].
    split; [exact Hf|]. split; [exact Hq|].
    split; [rewrite Hres; lia|].
    rewrite Hres, <- Hlen, <- Hl.
    pose proof (length_filter (fun d => dg_whole d = true) ds). lia.
Qed.

End Delivery.

(** ** Receiving *)

Lemma take_take_drop (n m : nat) (k : list byte) :
  take n k ++ take m (drop n k) = take (n + m) k.
Proof.
  revert k. induction n as [|n IH]; intros k; [reflexivity|].
  destruct k as [|b k]; simpl; [now rewrite take_nil|]. now rewrite IH.
Qed.

Lemma slice_app_next (off n m : nat) (l : list byte) :
  slice off n l ++ slice (off + n) m l = slice off (n + m) l.
Proof. unfold slice. rewrite <- drop_drop. apply take_take_drop. Qed.

Lemma length_slice (off n : nat) (l : list byte) :
  (off + n <= length l)%nat -> length (slice off n l) = n.
Proof. intros H. unfold slice. rewrite length_take, length_drop. lia. Qed.

Lemma store_load_slice (off n : nat) (buf : list byte) :
  (off + n <= length buf)%nat -> store_le n (load_le (slice off n buf)) = slice off n buf.
Proof.
  intros H. rewrite <- (length_slice off n buf H) at 1. apply store_load_le.
Qed.

(** The header read from a buffer is the first 20 bytes of the buffer. *)
Lemma header_bytes_header_at (buf : list byte) :
  (20 <= length buf)%nat -> header_bytes (header_at buf) = take 20 buf.
Proof.
  intros H. unfold header_bytes, header_at.
  cbn [h_magic h_version h_type h_size h_sequence h_timestamp].
  rewrite !store_load_slice by lia.
  change (slice 16 4 buf) with (slice (12 + 4) 4 buf). rewrite slice_app_next.
  change (slice 12 (4 + 4) buf) with (slice (8 + 4) 8 buf). rewrite slice_app_next.
  change (slice 8 (4 + 8) buf) with (slice (6 + 2) 12 buf). rewrite slice_app_next.
  change (slice 6 (2 + 12) buf) with (slice (4 + 2) 14 buf). rewrite slice_app_next.
  change (slice 4 (2 + 14) buf) with (slice (0 + 4) 16 buf). rewrite slice_app_next.
  reflexivity.
Qed.

Lemma load_store_load (n : nat) (s : list byte) :
  length s = n -> load_le (store_le n (load_le s)) = load_le s.
Proof. intros <-. now rewrite store_load_le. Qed.

(** A datagram of at least 20 and at most 1044 bytes whose header passes the
    checks is accepted: the answer is 1, the sender, the type and the size
    are reported, the payload is copied to the front of the caller's buffer
    and the receive statistics move. *)
Lemma receive_accepts (from : sockaddr_in) (bytes : list byte) (errno : Z)
    (from0 : sockaddr_in) (type0 : Z) (data0 : list byte) (size0 : Z) (w : world) :
  (20 <= length bytes)%nat ->
  ntohl (h_magic (header_at bytes)) = NETWORK_MAGIC ->
  ntohs (h_version (header_at bytes)) = NETWORK_PROTOCOL_VERSION ->
  ntohl (h_size (header_at bytes)) = Z.of_nat (length bytes) - 20 ->
  Z.of_nat (length bytes) - 20 <= NETWORK_MAX_MESSAGE_SIZE ->
  _network_receive_message (RecvDatagram from bytes errno)
    {| ro_from_addr := from0; ro_type := type0; ro_data := Some data0;
       ro_size := Some size0 |} w
  = (1,
     {| ro_from_addr := from; ro_type := ntohs (h_type (header_at bytes));
        ro_data := Some (memcpy_at data0 0 (drop 20 bytes));
        ro_size := Some (Z.of_nat (length bytes) - 20) |},
     upd (set_messages_received (u32 (messages_received (g_network w) + 1)))
       (upd (set_bytes_received
               (u32 (bytes_received (g_network w) + Z.of_nat (length bytes))))
          (upd (set_receive_buffer (memcpy_at (receive_buffer (g_network w)) 0 bytes))
             w))).
Proof.
  intros Hlen Hmagic Hversion Hsize Hmax.
  assert (Hb : bytes = header_bytes (header_at bytes) ++ drop 20 bytes).
  { rewrite header_bytes_header_at by exact Hlen. symmetry. apply take_drop. }
  assert (Hp : Z.of_nat (length (drop 20 bytes)) = Z.of_nat (length bytes) - 20)
    by (rewrite length_drop; lia).
  rewrite Hb at 1.
  rewrite (receive_valid from errno (header_at bytes) (drop 20 bytes) type0 from0 data0
             size0 w).
  - rewrite <- Hb, Hp. unfold header_at at 1. cbn [h_type].
    rewrite load_store_load by (apply length_slice; lia).
    replace (20 + (Z.of_nat (length bytes) - 20)) with (Z.of_nat (length bytes)) by lia.
    reflexivity.
  - unfold header_at at 1. cbn [h_magic].
    rewrite load_store_load by (apply length_slice; lia). exact Hmagic.
  - unfold header_at at 1. cbn [h_version].
    rewrite load_store_load by (apply length_slice; lia). exact Hversion.
  - unfold header_at at 1. cbn [h_size].
    rewrite load_store_load by (apply length_slice; lia). now rewrite Hp.
  - now rewrite Hp.
Qed.

(** A frame of [_network_send_message] is accepted as it is. *)
Lemma receive_framed (type size : Z) (d : sent_datagram) (from : sockaddr_in) (errno : Z)
    (from0 : sockaddr_in) (type0 : Z) (data0 : list byte) (size0 : Z) (w : world) :
  0 <= size <= NETWORK_MAX_MESSAGE_SIZE ->
  framed type size d ->
  _network_receive_message (RecvDatagram from (dg_bytes d) errno)
    {| ro_from_addr := from0; ro_type := type0; ro_data := Some data0;
       ro_size := Some size0 |} w
  = (1,
     {| ro_from_addr := from; ro_type := u16 type;
        ro_data := Some (memcpy_at data0 0 (dg_payload d));
        ro_size := Some size |},
     upd (set_messages_received (u32 (messages_received (g_network w) + 1)))
       (upd (set_bytes_received
               (u32 (bytes_received (g_network w) + (sizeof_message_header_t + size))))
          (upd (set_receive_buffer
                  (memcpy_at (receive_buffer (g_network w)) 0 (dg_bytes d))) w))).
Proof.
  intros Hsize (Hl & Hm & Hv & Ht & Hs).
  unfold dg_type, dg_size, dg_payload, sizeof_message_header_t in *.
  rewrite receive_accepts; try assumption; try lia.
  rewrite Ht. replace (Z.of_nat (length (dg_bytes d)) - 20) with size by lia.
  rewrite Hl. reflexivity.
Qed.

(** X9. Bounds of a receive.  Whatever [recvfrom] produced (any datagram
    from any sender, or a failure) [_network_receive_message] answers -1, 0
    or 1; the receive buffer keeps its 4096 bytes; a caller's payload buffer
    of at least [NETWORK_MAX_MESSAGE_SIZE] bytes keeps its length, that is,
    the copy of the payload never runs past its end; and when the answer is 1
    the datagram was between 20 and 1044 bytes long and the size reported is
    its length minus 20. *)
Theorem receive_message_bounds (r : recv_result) (out : recv_out) (w : world) :
  length (receive_buffer (g_network w)) = 4096%nat ->
  (forall d, ro_data out = Some d -> (1024 <= length d)%nat) ->
  (fst (fst (_network_receive_message r out w)) = -1
   \/ fst (fst (_network_receive_message r out w)) = 0
   \/ fst (fst (_network_receive_message r out w)) = 1)
  /\ length (receive_buffer (g_network (snd (_network_receive_message r out w))))
     = 4096%nat
  /\ length <$> ro_data (snd (fst (_network_receive_message r out w)))
     = length <$> ro_data out
  /\ (fst (fst (_network_receive_message r out w)) = 1 ->
      20 <= recv_return r <= 1044
      /\ (ro_data out <> None -> ro_size out <> None ->
          ro_size (snd (fst (_network_receive_message r out w)))
          = Some (recv_return r - 20))).
Proof.
  intros Hbuf Hdata.
  assert (Hb : length (memcpy_at (receive_buffer (g_network w)) 0 (recv_bytes r)) = 4096%nat).
  { rewrite length_memcpy_at; [exact Hbuf|]. pose proof (length_recv_bytes r). lia. }
  assert (Hout0 : forall o, ro_data
                    match r with
                    | RecvFailed _ => o
                    | RecvDatagram from _ _ =>
                        {| ro_from_addr := from; ro_type := ro_type o;
                           ro_data := ro_data o; ro_size := ro_size o |}
                    end = ro_data o
                  /\ ro_size
                    match r with
                    | RecvFailed _ => o
                    | RecvDatagram from _ _ =>
                        {| ro_from_addr := from; ro_type := ro_type o;
                           ro_data := ro_data o; ro_size := ro_size o |}
                    end = ro_size o)
    by (intros o; destruct r; split; reflexivity).
  unfold _network_receive_message.
  set (out0 := match r with RecvFailed _ => out | RecvDatagram _ _ _ => _ end).
  destruct (Hout0 out) as [Hd0 Hs0]. fold out0 in Hd0, Hs0. clearbody out0.
  set (buf := memcpy_at (receive_buffer (g_network w)) 0 (recv_bytes r)) in *.
  world_simpl.
  destruct (recv_return r <=? 0) eqn:H0.
  { destruct (_ =? _); world_simpl; rewrite Hd0;
      (split; [auto|]); (split; [exact Hb|]); (split; [reflexivity|]); discriminate. }
  destruct (recv_return r <? sizeof_message_header_t) eqn:H1.
  { world_simpl. rewrite Hd0.
    (split; [auto|]); (split; [exact Hb|]); (split; [reflexivity|]); discriminate. }
  destruct (negb (ntohl (h_magic (header_at buf)) =? NETWORK_MAGIC)).
  { world_simpl. rewrite Hd0.
    (split; [auto|]); (split; [exact Hb|]); (split; [reflexivity|]); discriminate. }
  destruct (negb (ntohs (h_version (header_at buf)) =? NETWORK_PROTOCOL_VERSION)).
  { world_simpl. rewrite Hd0.
    (split; [auto|]); (split; [exact Hb|]); (split; [reflexivity|]); discriminate. }
  cbn [ro_data ro_size ro_type ro_from_addr].
  destruct (_ || _) eqn:H4.
  { world_simpl. cbn [ro_data]. rewrite Hd0.
    (split; [auto|]); (split; [exact Hb|]); (split; [reflexivity|]); discriminate. }
  apply orb_false_elim in H4 as [H4 H5].
  apply Z.ltb_ge in H4, H1. apply Z.leb_gt in H0.
  apply negb_false_iff, Z.eqb_eq in H5.
  unfold sizeof_message_header_t, NETWORK_MAX_MESSAGE_SIZE in *.
  set (psize := ntohl (h_size (header_at buf))) in *.
  assert (Hps : 0 <= psize).
  { unfold psize, ntohl. pose proof (load_le_range (rev (store_le 4 (h_size (header_at buf))))).
    lia. }
  world_simpl.
  split; [auto|]. split; [exact Hb|].
  split.
  - rewrite <- Hd0. destruct (ro_data out0) as [d|] eqn:Hd; [|reflexivity].
    destruct (ro_size out0) as [n|]; cbn [ro_data]; [|reflexivity].
    simpl fmap. f_equal.
    destruct (0 <? psize); [|reflexivity].
    specialize (Hdata d (eq_sym Hd0)).
    apply length_memcpy_at. unfold slice. rewrite length_take. lia.
  - intros _. split; [lia|]. intros Hdn Hsn. rewrite <- Hd0 in Hdn. rewrite <- Hs0 in Hsn.
    destruct (ro_data out0) as [d|]; [|now contradict Hdn].
    destruct (ro_size out0) as [n|]; [|now contradict Hsn].
    cbn [ro_size]. f_equal. lia.
Qed.

Section Receiving.

Variable E : sys_env.

(** A frame of [_network_send_message] polled by [network_update]: it is
    accepted and handed to the dispatcher with the sender's address, the type
    and size of its header and its payload at the front of [message_data]. *)
Lemma poll_socket_framed (type size : Z) (d : sent_datagram) (from : sockaddr_in)
    (errno : Z) (from0 : sockaddr_in) (type0 : Z) (data0 : list byte) (size0 : Z)
    (w : world) :
  0 <= size <= NETWORK_MAX_MESSAGE_SIZE ->
  framed type size d ->
  snd (poll_socket E (RecvDatagram from (dg_bytes d) errno)
         {| ro_from_addr := from0; ro_type := type0; ro_data := Some data0;
            ro_size := Some size0 |} w)
  = snd (_network_handle_message E from (u16 type) (memcpy_at data0 0 (dg_payload d)) size
           (snd (_network_receive_message (RecvDatagram from (dg_bytes d) errno)
                   {| ro_from_addr := from0; ro_type := type0; ro_data := Some data0;
                      ro_size := Some size0 |} w))).
Proof.
  intros Hsize Hf. unfold poll_socket.
  rewrite (receive_framed type size d from errno from0 type0 data0 size0 w Hsize Hf).
  cbn [Z.ltb Z.compare fst snd ro_from_addr ro_type ro_data ro_size default].
  destruct (_network_handle_message _ _ _ _ _ _) as [data1 w2]. reflexivity.
Qed.




End Receiving.

Section Dispatch.

Variable E : sys_env.

(** The datagrams [network_send_to_all] adds to the wire are frames of the
    type and size it was given. *)
Lemma send_to_all_framed (Es : sys_env) (type : Z) (data : option (list byte)) (size : Z)
    (ws : world) :
  reachable Es ws ->
  0 <= size <= NETWORK_MAX_MESSAGE_SIZE ->
  exists ds,
    wire (snd (network_send_to_all Es type data size ws)) = wire ws ++ ds
    /\ Forall (framed type size) ds.
Proof.
  intros Hr Hsize. unfold network_send_to_all.
  destruct (_ =? _); [exists []; rewrite app_nil_r; split; [reflexivity|constructor]|].
  pose proof (reachable_storage_inv Es ws Hr) as (_ & _ & H3 & _).
  destruct (send_to_each_spec Es (roster ws) (server_socket (g_network ws)) type data size
              0 ws Hsize H3) as (ds & Hw & _ & Hf & _).
  exists ds. split; [exact Hw|].
  eapply Forall_impl; [exact Hf|]. intros d [_ H]. exact H.
Qed.

Lemma receive_keeps_events r out (w : world) :
  events (snd (_network_receive_message r out w)) = events w.
Proof.
  unfold _network_receive_message.
  repeat (match goal with |- context [if ?b then _ else _] => destruct b end);
    reflexivity.
Qed.

(** X11. Game state and turn data are not dispatched.  The datagrams
    [network_send_game_state] and [network_send_turn_data] put on the wire
    carry the types [MSG_GAME_STATE_SYNC] and [MSG_TURN_DATA].  A peer whose
    [network_update] polls one of them accepts it (the answer of the receive
    is 1 and it is counted as received), but the dispatcher has no case for
    these types: after the poll the world is exactly what the receive left,
    no callback is called ([on_game_data] included) and the session is
    unchanged. *)
Theorem state_sync_not_dispatched (Es : sys_env) (data : option (list byte)) (size : Z)
    (ws : world) :
  reachable Es ws ->
  0 <= size <= NETWORK_MAX_MESSAGE_SIZE ->
  exists ds1 ds2,
    wire (snd (network_send_game_state Es data size ws)) = wire ws ++ ds1
    /\ wire (snd (network_send_turn_data Es data size ws)) = wire ws ++ ds2
    /\ Forall (fun d => dg_type d = message_type_code MSG_GAME_STATE_SYNC) ds1
    /\ Forall (fun d => dg_type d = message_type_code MSG_TURN_DATA) ds2
    /\ forall d, d ∈ ds1 ++ ds2 ->
       forall (from : sockaddr_in) (errno : Z) (from0 : sockaddr_in) (type0 size0 : Z)
              (data0 : list byte) (w : world),
         fst (fst (_network_receive_message (RecvDatagram from (dg_bytes d) errno)
                     {| ro_from_addr := from0; ro_type := type0;
                        ro_data := Some data0; ro_size := Some size0 |} w)) = 1
         /\ snd (poll_socket E (RecvDatagram from (dg_bytes d) errno)
                   {| ro_from_addr := from0; ro_type := type0;
                      ro_data := Some data0; ro_size := Some size0 |} w)
            = snd (_network_receive_message (RecvDatagram from (dg_bytes d) errno)
                     {| ro_from_addr := from0; ro_type := type0;
                        ro_data := Some data0; ro_size := Some size0 |} w)
         /\ events (snd (poll_socket E (RecvDatagram from (dg_bytes d) errno)
                           {| ro_from_addr := from0; ro_type := type0;
                              ro_data := Some data0; ro_size := Some size0 |} w))
            = events w
         /\ session_of (snd (poll_socket E (RecvDatagram from (dg_bytes d) errno)
                               {| ro_from_addr := from0; ro_type := type0;
                                  ro_data := Some data0; ro_size := Some size0 |} w))
            = session_of w.
Proof.
  intros Hr Hsize. unfold network_send_game_state, network_send_turn_data.
  destruct (send_to_all_framed Es (message_type_code MSG_GAME_STATE_SYNC) data size ws
              Hr Hsize) as (ds1 & Hw1 & Hf1).
  destruct (send_to_all_framed Es (message_type_code MSG_TURN_DATA) data size ws
              Hr Hsize) as (ds2 & Hw2 & Hf2).
  exists ds1, ds2. split; [exact Hw1|]. split; [exact Hw2|].
  split; [eapply Forall_impl; [exact Hf1|]; intros d (_ & _ & _ & Ht & _); exact Ht|].
  split; [eapply Forall_impl; [exact Hf2|]; intros d (_ & _ & _ & Ht & _); exact Ht|].
  intros d Hd from errno from0 type0 size0 data0 w.
  assert (Hcase : exists t, (t = MSG_GAME_STATE_SYNC \/ t = MSG_TURN_DATA)
                            /\ framed (message_type_code t) size d).
  { rewrite Forall_forall in Hf1, Hf2. apply elem_of_app in Hd as [Hd|Hd].
    - exists MSG_GAME_STATE_SYNC. split; [now left|exact (Hf1 d Hd)].
    - exists MSG_TURN_DATA. split; [now right|exact (Hf2 d Hd)]. }
  destruct Hcase as (t & Ht & Hfr).
  rewrite (poll_socket_framed E (message_type_code t) size d from errno from0 type0 data0
             size0 w Hsize Hfr).
  rewrite (receive_framed (message_type_code t) size d from errno from0 type0 data0 size0 w
             Hsize Hfr).
  cbn [fst snd]. split; [reflexivity|].
  assert (Hh : forall x y z, snd (_network_handle_message E from
                                    (u16 (message_type_code t)) x y z) = z)
    by (intros; destruct Ht as [-> | ->]; reflexivity).
  rewrite Hh. split; [reflexivity|]. split; reflexivity.
Qed.

(** X12. What a session that is not hosting does with the messages meant
    for a host.  In a reachable world whose state is not Hosting (a client,
    or an idle engine) the dispatcher leaves the world exactly as it was on a
    discovery request, on a join request and on a player-disconnect message,
    whoever sent them.  Its roster being empty, it attributes every chat
    message and every game-data message to sender id 0. *)
Theorem client_dispatch (w : world) (from : sockaddr_in) (data : list byte) (size : Z) :
  reachable E w ->
  state (g_network w) <> NETWORK_STATE_HOSTING ->
  _network_handle_message E from (message_type_code MSG_DISCOVERY_REQUEST) data size w
  = (data, w)
  /\ _network_handle_message E from (message_type_code MSG_JOIN_REQUEST) data size w
     = (data, w)
  /\ _network_handle_message E from (message_type_code MSG_PLAYER_DISCONNECT) data size w
     = (data, w)
  /\ (on_chat (g_network_callbacks w) = true -> 0 < size ->
      _network_handle_message E from (message_type_code MSG_CHAT) data size w
      = (data, log_event (EvChat 0 (cstr data)) w))
  /\ (on_game_data (g_network_callbacks w) = true ->
      _network_handle_message E from (message_type_code MSG_GAME_DATA) data size w
      = (data, log_event (EvGameData 0 (take (Z.to_nat size) data) size) w)).
Proof.
  intros Hr Hst.
  pose proof (reachable_session_inv E w Hr) as Hsess.
  pose proof (take_roster_empty w Hsess Hst) as Hemp.
  destruct Hsess as (_ & _ & S3 & _). specialize (S3 Hst).
  assert (Hfind : find_player_by_addr from (g_network w) = None)
    by (unfold find_player_by_addr; rewrite Hemp; reflexivity).
  assert (Hid : sender_id_of from (g_network w) = 0)
    by (unfold sender_id_of; now rewrite Hfind).
  unfold _network_handle_message. simpl message_type_of_code. cbv iota beta zeta.
  rewrite S3, Hfind, Hid. cbn [Z.eqb negb andb].
  split; [reflexivity|]. split; [reflexivity|]. split; [reflexivity|].
  split.
  - intros -> Hpos. rewrite (proj2 (Z.ltb_lt 0 size) Hpos). reflexivity.
  - intros ->. reflexivity.
Qed.

End Dispatch.

(** ** Discovery, end to end *)

Lemma slice_app_l (off len : nat) (a b : list byte) :
  (off + len <= length a)%nat -> slice off len (a ++ b) = slice off len a.
Proof.
  intros H. unfold slice. rewrite drop_app_le by lia.
  apply take_app_le. rewrite length_drop. lia.
Qed.

Lemma slice_app_r (off len k : nat) (a b : list byte) :
  length a = k -> (k <= off)%nat -> slice off len (a ++ b) = slice (off - k) len b.
Proof.
  intros Ha H. unfold slice. rewrite drop_app_ge by lia. now rewrite Ha.
Qed.

Lemma slice_all (len : nat) (a b : list byte) :
  length a = len -> slice 0 len (a ++ b) = a.
Proof. intros H. unfold slice. rewrite drop_0. now apply take_app_length'. Qed.

(** The layout of [game_info_t]: the eight fields read back from a buffer
    that starts with them, after four bytes were stored at offset 108. *)
Lemma game_info_layout (n h a p c m i l t rest : list byte) :
  length n = 64%nat -> length h = 32%nat -> length a = 4%nat -> length p = 2%nat ->
  length c = 1%nat -> length m = 1%nat -> length i = 4%nat -> length l = 4%nat ->
  length t = 4%nat ->
  game_info_at (memcpy_at ((n ++ h ++ a ++ p ++ c ++ m ++ i ++ l) ++ rest) 108 t)
  = {| gi_game_name := n; gi_host_name := h; gi_host_ip := load_le a;
       gi_host_port := load_le p; gi_current_players := load_le c;
       gi_max_players := load_le m; gi_game_id := load_le i; gi_last_seen := load_le t |}.
Proof.
  intros Hn Hh Ha Hp Hc Hm Hi Hl Ht.
  assert (Hcopy : memcpy_at ((n ++ h ++ a ++ p ++ c ++ m ++ i ++ l) ++ rest) 108 t
                  = n ++ h ++ a ++ p ++ c ++ m ++ i ++ t ++ rest).
  { unfold memcpy_at. rewrite Ht.
    replace ((n ++ h ++ a ++ p ++ c ++ m ++ i ++ l) ++ rest)
      with ((n ++ h ++ a ++ p ++ c ++ m ++ i) ++ l ++ rest)
      by (rewrite <- !app_assoc; reflexivity).
    rewrite take_app_length' by (rewrite !length_app; lia).
    rewrite drop_app_ge by (rewrite !length_app; lia).
    rewrite !length_app, Hn, Hh, Ha, Hp, Hc, Hm, Hi. simpl Nat.sub.
    rewrite drop_app_length' by lia. rewrite <- !app_assoc. reflexivity. }
  rewrite Hcopy. unfold game_info_at. f_equal.
  - now apply slice_all.
  - rewrite (slice_app_r 64 32 64) by (assumption || lia). now apply slice_all.
  - f_equal. rewrite (slice_app_r 96 4 64) by (assumption || lia).
    rewrite (slice_app_r _ 4 32) by (assumption || (simpl; lia)). now apply slice_all.
  - f_equal. rewrite (slice_app_r 100 2 64) by (assumption || lia).
    rewrite (slice_app_r _ 2 32) by (assumption || (simpl; lia)).
    rewrite (slice_app_r _ 2 4) by (assumption || (simpl; lia)). now apply slice_all.
  - f_equal. rewrite (slice_app_r 102 1 64) by (assumption || lia).
    rewrite (slice_app_r _ 1 32) by (assumption || (simpl; lia)).
    rewrite (slice_app_r _ 1 4) by (assumption || (simpl; lia)).
    rewrite (slice_app_r _ 1 2) by (assumption || (simpl; lia)). now apply slice_all.
  - f_equal. rewrite (slice_app_r 103 1 64) by (assumption || lia).
    rewrite (slice_app_r _ 1 32) by (assumption || (simpl; lia)).
    rewrite (slice_app_r _ 1 4) by (assumption || (simpl; lia)).
    rewrite (slice_app_r _ 1 2) by (assumption || (simpl; lia)).
    rewrite (slice_app_r _ 1 1) by (assumption || (simpl; lia)). now apply slice_all.
  - f_equal. rewrite (slice_app_r 104 4 64) by (assumption || lia).
    rewrite (slice_app_r _ 4 32) by (assumption || (simpl; lia)).
    rewrite (slice_app_r _ 4 4) by (assumption || (simpl; lia)).
    rewrite (slice_app_r _ 4 2) by (assumption || (simpl; lia)).
    rewrite (slice_app_r _ 4 1) by (assumption || (simpl; lia)).
    rewrite (slice_app_r _ 4 1) by (assumption || (simpl; lia)). now apply slice_all.
  - f_equal. rewrite (slice_app_r 108 4 64) by (assumption || lia).
    rewrite (slice_app_r _ 4 32) by (assumption || (simpl; lia)).
    rewrite (slice_app_r _ 4 4) by (assumption || (simpl; lia)).
    rewrite (slice_app_r _ 4 2) by (assumption || (simpl; lia)).
    rewrite (slice_app_r _ 4 1) by (assumption || (simpl; lia)).
    rewrite (slice_app_r _ 4 1) by (assumption || (simpl; lia)).
    rewrite (slice_app_r _ 4 4) by (assumption || (simpl; lia)). now apply slice_all.
Qed.

(** The advertisement read back from a buffer that starts with its bytes,
    after the dispatcher stored the time of receipt in [last_seen]. *)
Lemma game_info_at_bytes (g : game_info_t) (rest : list byte) (ts : Z) :
  length (gi_game_name g) = 64%nat ->
  length (gi_host_name g) = 32%nat ->
  0 <= gi_host_ip g < 4294967296 ->
  0 <= gi_host_port g < 65536 ->
  0 <= gi_current_players g < 256 ->
  0 <= gi_max_players g < 256 ->
  0 <= gi_game_id g < 4294967296 ->
  0 <= ts < 4294967296 ->
  game_info_at (memcpy_at (game_info_bytes g ++ rest) 108 (store_le 4 ts))
  = {| gi_game_name := gi_game_name g; gi_host_name := gi_host_name g;
       gi_host_ip := gi_host_ip g; gi_host_port := gi_host_port g;
       gi_current_players := gi_current_players g;
       gi_max_players := gi_max_players g; gi_game_id := gi_game_id g;
       gi_last_seen := ts |}.
Proof.
  intros Hn Hh Hip Hport Hcur Hmax Hid Hts.
  unfold game_info_bytes, pad. rewrite (resize_all_alt (gi_game_name g)) by now symmetry.
  rewrite (resize_all_alt (gi_host_name g)) by now symmetry.
  rewrite game_info_layout by (assumption || apply length_store_le).
  rewrite !load_store_le.
  change (256 ^ Z.of_nat 4) with 4294967296. change (256 ^ Z.of_nat 2) with 65536.
  change (256 ^ Z.of_nat 1) with 256.
  rewrite !Z.mod_small by assumption. reflexivity.
Qed.

Lemma length_game_info_bytes (g : game_info_t) : length (game_info_bytes g) = 112%nat.
Proof.
  unfold game_info_bytes. rewrite !length_app, !length_pad, !length_store_le. reflexivity.
Qed.

Section Discovery.

Variable E : sys_env.

Lemma receive_keeps_clock r out (w : world) :
  clock_reads (snd (_network_receive_message r out w)) = clock_reads w.
Proof.
  unfold _network_receive_message.
  repeat (match goal with |- context [if ?b then _ else _] => destruct b end);
    reflexivity.
Qed.

(** X13. Discovery, end to end.  A reachable host that is Hosting answers a
    discovery request with exactly one datagram: a discovery response of 112
    bytes, sent through its discovery socket to the address the request came
    from.  When that datagram is what a client's [network_update] polls while
    the client's registry holds fewer than 16 entries, the registry then
    holds exactly one entry with the host's session id, and that entry says
    what the host said: its game name, the host name "Host", the address
    [network_get_local_ip] gave, the host's port, [player_count] and 8 as the
    numbers of players, and as [last_seen] the client's clock at the moment
    of receipt. *)
Theorem discovery_round_trip (Eh : sys_env) (wh : world) (requester : sockaddr_in)
    (data : list byte) (size : Z) :
  reachable Eh wh ->
  state (g_network wh) = NETWORK_STATE_HOSTING ->
  0 <= network_get_local_ip Eh < 4294967296 ->
  exists d,
    wire (snd (_network_handle_message Eh requester
                 (message_type_code MSG_DISCOVERY_REQUEST) data size wh))
    = wire wh ++ [d]
    /\ dg_sock d = broadcast_socket (g_network wh)
    /\ dg_addr d = requester
    /\ dg_type d = message_type_code MSG_DISCOVERY_RESPONSE
    /\ dg_size d = sizeof_game_info_t
    /\ forall (from : sockaddr_in) (errno : Z) (from0 : sockaddr_in) (type0 size0 : Z)
              (data0 : list byte) (w : world),
         reachable E w ->
         discovered_game_count (g_network w) < MAX_DISCOVERED_GAMES ->
         exists i info,
           registry (snd (poll_socket E (RecvDatagram from (dg_bytes d) errno)
                            {| ro_from_addr := from0; ro_type := type0;
                               ro_data := Some data0; ro_size := Some size0 |} w))
             !! i = Some info
           /\ (forall j g,
                 registry (snd (poll_socket E (RecvDatagram from (dg_bytes d) errno)
                                  {| ro_from_addr := from0; ro_type := type0;
                                     ro_data := Some data0; ro_size := Some size0 |} w))
                   !! j = Some g ->
                 gi_game_id g = game_id (g_network wh) -> j = i)
           /\ length (gi_game_name info) = 64%nat
           /\ cstr (gi_game_name info) = cstr (game_name (g_network wh))
           /\ cstr (gi_host_name info) = bytes_of_string "Host"
           /\ gi_host_ip info = network_get_local_ip Eh
           /\ gi_host_port info = local_port (g_network wh)
           /\ gi_current_players info = network_get_player_count wh
           /\ gi_max_players info = NETWORK_MAX_PLAYERS
           /\ gi_game_id info = game_id (g_network wh)
           /\ gi_last_seen info = fst (get_timestamp E w).
Proof.
  intros Hr Hst Hip.
  pose proof (reachable_session_inv Eh wh Hr) as (S1 & _).
  pose proof (reachable_mode_inv Eh wh Hr) as (_ & _ & M3 & _).
  pose proof (reachable_storage_inv Eh wh Hr) as ((G1 & G2) & _ & _ & _ & G5 & G6).
  apply M3 in Hst as Hhost.
  unfold _network_handle_message. simpl message_type_of_code. cbv iota beta zeta.
  unfold state_is. rewrite Hhost, bool_decide_eq_true_2 by exact Hst. cbn [Z.eqb negb andb].
  set (gi := {| gi_game_name := strcpy (replicate 64 x00) (game_name (g_network wh));
                gi_host_name := strcpy (replicate 32 x00) (bytes_of_string "Host");
                gi_host_ip := network_get_local_ip Eh;
                gi_host_port := local_port (g_network wh);
                gi_current_players := u8 (player_count (g_network wh));
                gi_max_players := u8 NETWORK_MAX_PLAYERS;
                gi_game_id := game_id (g_network wh);
                gi_last_seen := 0 |}).
  assert (Hsize : 0 <= sizeof_game_info_t <= NETWORK_MAX_MESSAGE_SIZE)
    by (unfold sizeof_game_info_t, NETWORK_MAX_MESSAGE_SIZE; lia).
  destruct (send_message_facts Eh (broadcast_socket (g_network wh)) requester
              (message_type_code MSG_DISCOVERY_RESPONSE) (Some (game_info_bytes gi))
              sizeof_game_info_t wh Hsize)
    as (d & Hw & _ & Hs & Ha & Hf & _ & _ & Hpl).
  destruct (_network_send_message Eh _ _ _ _ _ wh) as [r w1]. cbn [snd] in Hw |- *.
  specialize (Hpl _ eq_refl ltac:(rewrite length_game_info_bytes; unfold sizeof_game_info_t; lia)).
  rewrite take_ge in Hpl by (rewrite length_game_info_bytes; unfold sizeof_game_info_t; lia).
  exists d. split; [exact Hw|]. split; [exact Hs|]. split; [exact Ha|].
  pose proof Hf as (_ & _ & _ & Ht & Hz).
  split; [exact Ht|]. split; [exact Hz|].
  intros from errno from0 type0 size0 data0 w Hrw Hlt.
  pose proof (reachable_session_inv E w Hrw) as Hsess.
  rewrite (poll_socket_framed E (message_type_code MSG_DISCOVERY_RESPONSE)
             sizeof_game_info_t d from errno from0 type0 data0 size0 w Hsize Hf).
  set (w1' := snd (_network_receive_message _ _ w)).
  assert (Hs1 : session_of w1' = session_of w) by apply session_receive_message.
  assert (Hsess1 : session_inv w1') by (eapply session_inv_ext; eauto).
  assert (Hlt1 : discovered_game_count (g_network w1') < MAX_DISCOVERED_GAMES).
  { unfold session_of in Hs1. injection Hs1 as _ _ _ _ Hc _. now rewrite Hc. }
  assert (Hclock : clock_reads w1' = clock_reads w) by apply receive_keeps_clock.
  destruct (discovery_response_accepted E w1' from (memcpy_at data0 0 (dg_payload d))
              Hsess1 Hlt1) as [_ (i & Hi & Huniq)].
  cbv zeta in Hi, Huniq.
  change (u16 (message_type_code MSG_DISCOVERY_RESPONSE))
    with (message_type_code MSG_DISCOVERY_RESPONSE).
  assert (Hgn : c_string_in 64 (gi_game_name gi)
                /\ cstr (gi_game_name gi) = cstr (game_name (g_network wh))).
  { cbn [gi gi_game_name].
    change 64%nat with (length (replicate 64 x00)) at 1.
    apply c_string_strcpy. rewrite length_replicate.
    pose proof (length_cstr_nul _ G2). lia. }
  destruct Hgn as [[Hgn1 _] Hgn2].
  assert (Hinfo : stamped_info E (memcpy_at data0 0 (dg_payload d)) w1'
                  = {| gi_game_name := gi_game_name gi; gi_host_name := gi_host_name gi;
                       gi_host_ip := gi_host_ip gi; gi_host_port := gi_host_port gi;
                       gi_current_players := gi_current_players gi;
                       gi_max_players := gi_max_players gi; gi_game_id := gi_game_id gi;
                       gi_last_seen := fst (get_timestamp E w) |}).
  { unfold stamped_info. rewrite Hpl.
    unfold memcpy_at at 2. rewrite take_0, app_nil_l.
    assert (Hts : fst (get_timestamp E w1') = fst (get_timestamp E w))
      by (unfold get_timestamp; cbn [fst]; now rewrite Hclock).
    rewrite Hts. apply game_info_at_bytes.
    - exact Hgn1.
    - reflexivity.
    - exact Hip.
    - exact G5.
    - cbn [gi gi_current_players]. apply Z.mod_pos_bound. lia.
    - cbn [gi gi_max_players]. apply Z.mod_pos_bound. lia.
    - exact G6.
    - unfold get_timestamp. cbn [fst]. apply u32_range. }
  rewrite Hinfo in Hi, Huniq.
  eexists i, _. split; [exact Hi|].
  split; [intros j g Hj Hg; apply (Huniq j g Hj); cbn [gi_game_id gi]; exact Hg|].
  cbn [gi_game_name gi_host_name gi_host_ip gi_host_port gi_current_players
       gi_max_players gi_game_id gi_last_seen gi].
  split; [exact Hgn1|]. split; [exact Hgn2|]. split; [reflexivity|].
  split; [reflexivity|]. split; [reflexivity|].
  split.
  { unfold network_get_player_count, u8, NETWORK_MAX_PLAYERS in *.
    apply Z.mod_small. lia. }
  repeat split.
Qed.

End Discovery.

(** ** Joining, end to end *)

Section JoinRequest.

Variable E : sys_env.

(** [_network_create_socket] written out: the descriptor [socket] returned,
    and success when it is valid and both [fcntl] calls succeeded. *)
Lemma create_socket_spec (w : world) :
  exists k,
    _network_create_socket E w
    = (fst (fst (_network_create_socket E w)), sys_ret E (os_calls w),
       put_os_calls k w)
    /\ (fst (fst (_network_create_socket E w)) = 0
        \/ fst (fst (_network_create_socket E w)) = 1)
    /\ (fst (fst (_network_create_socket E w)) = 1 ->
        sys_ret E (os_calls w) <> INVALID_SOCKET_VALUE).
Proof.
  unfold _network_create_socket, _network_set_nonblocking, os_call.
  destruct (sys_ret E (os_calls w) =? INVALID_SOCKET_VALUE) eqn:Hfd.
  { eexists. cbn [fst snd]. split; [reflexivity|]. split; [now left|discriminate]. }
  apply Z.eqb_neq in Hfd. world_simpl.
  destruct (_ =? -1).
  { eexists. cbn [fst snd]. split; [reflexivity|]. split; [now left|discriminate]. }
  world_simpl. eexists. cbn [fst snd]. split; [reflexivity|].
  split; [destruct (_ =? 0); auto|]. intros _. exact Hfd.
Qed.

(** The payload of the join request [network_join_game] sends: the player
    name cut to 63 characters ("Player" when none is given), and its NUL. *)
Lemma join_data_payload (player_name : option (list byte)) :
  let join_data :=
    match player_name with
    | Some n => <[63%nat := x00]> (strncpy (replicate 64 x00) n 63)
    | None => strcpy (replicate 64 x00) (bytes_of_string "Player")
    end in
  let shown := take 63 (cstr (default (bytes_of_string "Player") player_name)) in
  cstr join_data = shown
  /\ take (Z.to_nat (Z.of_nat (length (cstr join_data)) + 1)) join_data = shown ++ [x00]
  /\ 0 <= Z.of_nat (length (cstr join_data)) + 1 <= 64
  /\ length join_data = 64%nat.
Proof.
  cbv zeta.
  set (jd := match player_name with Some n => _ | None => _ end).
  assert (Hjd : c_string_in 64 jd
                /\ cstr jd = take 63 (cstr (default (bytes_of_string "Player") player_name))).
  { unfold jd. destruct player_name as [n|]; cbn [default].
    - split; [apply c_string_strncpy_terminated; reflexivity|].
      apply cstr_strncpy_terminated. rewrite length_replicate. lia.
    - split; [|reflexivity]. split; [reflexivity|].
      apply list_elem_of_lookup. exists 6%nat. reflexivity. }
  destruct Hjd as [[Hl Hnul] Hc]. clearbody jd.
  pose proof (length_cstr_nul jd Hnul) as Hlt.
  split; [exact Hc|]. split; [|split; [lia|exact Hl]].
  rewrite <- Hc.
  rewrite (cstr_split jd Hnul) at 2.
  replace (Z.to_nat (Z.of_nat (length (cstr jd)) + 1)) with (length (cstr jd) + 1)%nat by lia.
  rewrite take_app_add. reflexivity.
Qed.

(** What a successful [network_join_game] did. *)
Lemma join_game_success (hostname_arg : list byte) (port_arg : Z)
    (player_name : option (list byte)) (w : world) :
  fst (network_join_game E hostname_arg port_arg player_name w) = 1 ->
  let w' := snd (network_join_game E hostname_arg port_arg player_name w) in
  let shown := take 63 (cstr (default (bytes_of_string "Player") player_name)) in
  state (g_network w) = NETWORK_STATE_DISCONNECTED
  /\ exists a d,
       sys_gethostbyname E (cstr hostname_arg) = Some a
       /\ wire w' = wire w ++ [d]
       /\ dg_sock d = sys_ret E (os_calls w)
       /\ dg_addr d = {| sin_addr := a; sin_port := htons (u16 port_arg) |}
       /\ framed (message_type_code MSG_JOIN_REQUEST) (Z.of_nat (length shown) + 1) d
       /\ dg_payload d = shown ++ [x00]
       /\ dg_whole d = true
       /\ state (g_network w') = NETWORK_STATE_CONNECTING
       /\ is_host (g_network w') = 0
       /\ server_socket (g_network w') = sys_ret E (os_calls w)
       /\ server_socket (g_network w') <> INVALID_SOCKET_VALUE
       /\ closed w' = closed w
       /\ players (g_network w') = players (g_network w)
       /\ player_count (g_network w') = player_count (g_network w).
Proof.
  cbv zeta. unfold network_join_game.
  destruct (state_is NETWORK_STATE_DISCONNECTED w) eqn:Hst; cbn [negb];
    [|discriminate].
  apply bool_decide_eq_true in Hst.
  destruct (create_socket_spec w) as (k & Hc & Hr01 & Hvalid).
  rewrite Hc. cbv iota beta zeta.
  set (r1 := fst (fst (_network_create_socket E w))) in *. clearbody r1.
  destruct (r1 =? 0) eqn:Hr1; [discriminate|].
  apply Z.eqb_neq in Hr1. assert (Hone : r1 = 1) by (destruct Hr01; congruence).
  specialize (Hvalid Hone).
  destruct (sys_gethostbyname E (cstr hostname_arg)) as [a|]; [|discriminate].
  destruct (join_data_payload player_name) as (Hcs & Hpay & Hsz & Hjl).
  set (jd := match player_name with Some n => _ | None => _ end) in *.
  set (size := Z.of_nat (length (cstr jd)) + 1) in *.
  assert (Hsize : 0 <= size <= NETWORK_MAX_MESSAGE_SIZE)
    by (unfold NETWORK_MAX_MESSAGE_SIZE; lia).
  match goal with
  | |- context [_network_send_message E ?s ?ad ?t ?dd ?n ?w0] =>
      destruct (send_message_facts E s ad t dd n w0 Hsize)
        as (d & Hw & Hres & Hs & Ha & Hf & _ & _ & Hpl);
      pose proof (sans_traffic_send_message E s ad t dd n w0) as Hq;
      destruct (_network_send_message E s ad t dd n w0) as [r2 w2]
  end.
  cbn [fst snd] in Hw, Hres, Hq.
  destruct (r2 =? 0) eqn:Hr2; [discriminate|]. intros _.
  split; [exact Hst|]. exists a, d. split; [reflexivity|].
  cbn [snd]. world_simpl.
  split; [exact Hw|]. split; [exact Hs|]. split; [exact Ha|].
  rewrite <- Hcs. fold size.
  split; [exact Hf|].
  split; [rewrite (Hpl jd eq_refl ltac:(lia)), Hcs; exact Hpay|].
  split.
  { destruct (dg_whole d); [reflexivity|]. subst r2. discriminate. }
  split; [reflexivity|]. split; [reflexivity|].
  assert (Hsock : server_socket (g_network w2) = sys_ret E (os_calls w))
    by exact (f_equal (fun x => server_socket (g_network x)) Hq).
  split; [exact Hsock|]. split; [rewrite Hsock; exact Hvalid|].
  split; [exact (f_equal closed Hq)|].
  split; [exact (f_equal (fun x => players (g_network x)) Hq)|].
  exact (f_equal (fun x => player_count (g_network x)) Hq).
Qed.

End JoinRequest.

Section Joining.

Variable E : sys_env.

Lemma receive_keeps_statics r out (w : world) :
  g_network_callbacks (snd (_network_receive_message r out w)) = g_network_callbacks w
  /\ counter (snd (_network_receive_message r out w)) = counter w.
Proof.
  unfold _network_receive_message.
  repeat (match goal with |- context [if ?b then _ else _] => destruct b end);
    split; reflexivity.
Qed.

(** The roster entry the dispatcher writes for a join request it admits. *)
Lemma join_request_entry (w : world) (from : sockaddr_in) (data : list byte) (size : Z) :
  session_inv w ->
  is_host (g_network w) <> 0 ->
  player_count (g_network w) < NETWORK_MAX_PLAYERS ->
  let n := Z.to_nat (player_count (g_network w)) in
  let old := default zero_player (players (g_network w) !! n) in
  players (g_network (snd (_network_handle_message E from
                             (message_type_code MSG_JOIN_REQUEST) data size w))) !! n
  = Some {| player_id := fst (_network_generate_player_id E w);
            name := if 0 <? size
                    then <[31%nat := x00]> (strncpy (name old) data 31)
                    else memcpy (name old)
                           (bytes_of_string "Player"
                            ++ decimal (player_count (g_network w) + 1) ++ [x00]);
            hostname := memcpy (hostname old) (inet_ntop (sin_addr from) ++ [x00]);
            ip_address := sin_addr from;
            port := ntohs (sin_port from);
            last_ping := fst (get_timestamp E (snd (_network_generate_player_id E w)));
            connected := 1 |}.
Proof.
  intros (S1 & S2 & _) Hh Hlt n old.
  unfold _network_handle_message. simpl message_type_of_code. cbv iota beta zeta.
  replace (negb (is_host (g_network w) =? 0)) with true
    by (symmetry; apply negb_true_iff, Z.eqb_neq, Hh).
  rewrite (proj2 (Z.ltb_lt _ _)) by exact Hlt. cbn [andb].
  unfold _network_generate_player_id, get_timestamp. cbv iota beta zeta.
  fold n. fold old.
  match goal with
  | |- context [_network_send_message E ?s ?a ?t ?d ?sz ?w0] =>
      pose proof (f_equal (fun x => players (g_network x))
                    (sans_traffic_send_message E s a t d sz w0)) as Hq;
      destruct (_network_send_message E s a t d sz w0) as [r w4]
  end.
  cbn [snd] in Hq |- *. cbn beta in Hq. unfold sans_traffic in Hq. world_simpl in Hq.
  destruct (on_player_joined _); world_simpl; rewrite Hq; apply list_lookup_insert_eq;
    unfold n, NETWORK_MAX_PLAYERS in *; lia.
Qed.

(** A join request polled by a reachable host with room in its roster. *)
Lemma poll_join_request (d : sent_datagram) (shown : list byte) (from : sockaddr_in)
    (errno : Z) (from0 : sockaddr_in) (type0 size0 : Z) (data0 : list byte) (w : world) :
  framed (message_type_code MSG_JOIN_REQUEST) (Z.of_nat (length shown) + 1) d ->
  dg_payload d = shown ++ [x00] ->
  x00 ∉ shown ->
  (length shown <= 63)%nat ->
  reachable E w ->
  state (g_network w) = NETWORK_STATE_HOSTING ->
  player_count (g_network w) < NETWORK_MAX_PLAYERS ->
  exists p,
    roster (snd (poll_socket E (RecvDatagram from (dg_bytes d) errno)
                   {| ro_from_addr := from0; ro_type := type0;
                      ro_data := Some data0; ro_size := Some size0 |} w))
    = roster w ++ [p]
    /\ cstr (name p) = take 31 shown
    /\ ip_address p = sin_addr from
    /\ port p = ntohs (sin_port from)
    /\ connected p = 1
    /\ player_id p = fst (_network_generate_player_id E w)
    /\ events (snd (poll_socket E (RecvDatagram from (dg_bytes d) errno)
                      {| ro_from_addr := from0; ro_type := type0;
                         ro_data := Some data0; ro_size := Some size0 |} w))
       = events w
         ++ (if on_player_joined (g_network_callbacks w)
             then [EvPlayerJoined (player_id p) (name p)] else []).
Proof.
  intros Hf Hpl Hnul Hshort Hr Hhost Hlt.
  pose proof (reachable_session_inv E w Hr) as Hsess.
  pose proof (reachable_mode_inv E w Hr) as (_ & _ & M3 & _).
  pose proof (reachable_storage_inv E w Hr) as (_ & G2 & _).
  apply M3 in Hhost as Hone.
  assert (Hsize : 0 <= Z.of_nat (length shown) + 1 <= NETWORK_MAX_MESSAGE_SIZE)
    by (unfold NETWORK_MAX_MESSAGE_SIZE; lia).
  rewrite (poll_socket_framed E (message_type_code MSG_JOIN_REQUEST)
             (Z.of_nat (length shown) + 1) d from errno from0
             type0 data0 size0 w Hsize Hf).
  change (u16 (message_type_code MSG_JOIN_REQUEST)) with (message_type_code MSG_JOIN_REQUEST).
  generalize (session_receive_message (RecvDatagram from (dg_bytes d) errno)
                {| ro_from_addr := from0; ro_type := type0;
                   ro_data := Some data0; ro_size := Some size0 |} w).
  generalize (receive_keeps_events (RecvDatagram from (dg_bytes d) errno)
                {| ro_from_addr := from0; ro_type := type0;
                   ro_data := Some data0; ro_size := Some size0 |} w).
  generalize (receive_keeps_clock (RecvDatagram from (dg_bytes d) errno)
                {| ro_from_addr := from0; ro_type := type0;
                   ro_data := Some data0; ro_size := Some size0 |} w).
  generalize (receive_keeps_statics (RecvDatagram from (dg_bytes d) errno)
                {| ro_from_addr := from0; ro_type := type0;
                   ro_data := Some data0; ro_size := Some size0 |} w).
  generalize (snd (_network_receive_message (RecvDatagram from (dg_bytes d) errno)
                     {| ro_from_addr := from0; ro_type := type0;
                        ro_data := Some data0; ro_size := Some size0 |} w)).
  intros w1 [Hcb1 Hctr1] Hclk1 Hev1 Hs1.
  assert (Hsess1 : session_inv w1) by (eapply session_inv_ext; eauto).
  unfold session_of in Hs1. injection Hs1 as _ Hi1 Hc1 Hp1 _ _.
  assert (Hh1 : is_host (g_network w1) <> 0) by (rewrite Hi1, Hone; lia).
  assert (Hlt1 : player_count (g_network w1) < NETWORK_MAX_PLAYERS) by now rewrite Hc1.
  destruct (join_request_admitted E w1 from (memcpy_at data0 0 (dg_payload d))
              (Z.of_nat (length shown) + 1) Hsess1 Hh1 Hlt1)
    as (Hcnt & Htake & (p & Hlk & Hid & Hip & Hport & Hconn & Hev) & _).
  pose proof (join_request_entry w1 from (memcpy_at data0 0 (dg_payload d))
                (Z.of_nat (length shown) + 1) Hsess1 Hh1 Hlt1) as Hentry.
  cbv zeta in Hcnt, Htake, Hlk, Hid, Hev, Hentry.
  revert Hcnt Htake Hlk Hid Hev Hentry.
  generalize (snd (_network_handle_message E from (message_type_code MSG_JOIN_REQUEST)
                     (memcpy_at data0 0 (dg_payload d)) (Z.of_nat (length shown) + 1) w1)).
  intros w2 Hcnt Htake Hlk Hid Hev Hentry.
  rewrite Hlk in Hentry. injection Hentry as Hentry.
  apply (f_equal name) in Hentry. cbn [name] in Hentry.
  rewrite (proj2 (Z.ltb_lt 0 _)) in Hentry by lia.
  exists p.
  split.
  { unfold roster. rewrite Hcnt.
    replace (Z.to_nat (player_count (g_network w1) + 1))
      with (S (Z.to_nat (player_count (g_network w1))))
      by (destruct Hsess1 as (S1 & _); lia).
    rewrite (take_S_r _ _ p Hlk), Htake, Hp1, Hc1. reflexivity. }
  split.
  { rewrite Hentry. clear Hentry.
    rewrite cstr_strncpy_terminated.
    - rewrite Hpl. unfold memcpy_at. rewrite take_0, app_nil_l, <- app_assoc.
      simpl app. now rewrite cstr_app_nul.
    - rewrite Hp1.
      destruct (entry_inv_default (players (g_network w))
                  (Z.to_nat (player_count (g_network w1))) G2) as ((Hl & _) & _).
      rewrite Hl. lia. }
  split; [exact Hip|]. split; [exact Hport|]. split; [exact Hconn|].
  split.
  { rewrite Hid. unfold _network_generate_player_id, get_timestamp. cbn [fst].
    world_simpl. now rewrite Hctr1, Hclk1. }
  rewrite Hev, Hev1, Hcb1, Hid. reflexivity.
Qed.

(** X14. Joining, end to end.  When [network_join_game] returns 1 it has
    sent exactly one datagram: a join request to the address the host name
    resolved to, at the given port, whose payload is the player name cut to
    63 characters ("Player" when no name was given) and its NUL; the state is
    Connecting.  When that datagram is what the [network_update] of a
    reachable host with room in its roster polls, the host adds one roster
    entry: its name is the first 31 characters of the name the client gave,
    its address and port are the ones the datagram came from, its id is
    freshly generated, and [on_player_joined] (if registered) is called once
    with that id and name. *)
Theorem join_end_to_end (Ec : sys_env) (hostname_arg : list byte) (port_arg : Z)
    (player_name : option (list byte)) (wc : world) :
  fst (network_join_game Ec hostname_arg port_arg player_name wc) = 1 ->
  exists d,
    wire (snd (network_join_game Ec hostname_arg port_arg player_name wc)) = wire wc ++ [d]
    /\ dg_type d = message_type_code MSG_JOIN_REQUEST
    /\ sys_gethostbyname Ec (cstr hostname_arg) = Some (sin_addr (dg_addr d))
    /\ sin_port (dg_addr d) = htons (u16 port_arg)
    /\ dg_payload d
       = take 63 (cstr (default (bytes_of_string "Player") player_name)) ++ [x00]
    /\ state (g_network (snd (network_join_game Ec hostname_arg port_arg player_name wc)))
       = NETWORK_STATE_CONNECTING
    /\ forall (from : sockaddr_in) (errno : Z) (from0 : sockaddr_in) (type0 size0 : Z)
              (data0 : list byte) (w : world),
         reachable E w ->
         state (g_network w) = NETWORK_STATE_HOSTING ->
         player_count (g_network w) < NETWORK_MAX_PLAYERS ->
         exists p,
           roster (snd (poll_socket E (RecvDatagram from (dg_bytes d) errno)
                          {| ro_from_addr := from0; ro_type := type0;
                             ro_data := Some data0; ro_size := Some size0 |} w))
           = roster w ++ [p]
           /\ cstr (name p)
              = take 31 (cstr (default (bytes_of_string "Player") player_name))
           /\ ip_address p = sin_addr from
           /\ port p = ntohs (sin_port from)
           /\ connected p = 1
           /\ player_id p = fst (_network_generate_player_id E w)
           /\ events (snd (poll_socket E (RecvDatagram from (dg_bytes d) errno)
                             {| ro_from_addr := from0; ro_type := type0;
                                ro_data := Some data0; ro_size := Some size0 |} w))
              = events w
                ++ (if on_player_joined (g_network_callbacks w)
                    then [EvPlayerJoined (player_id p) (name p)] else []).
Proof.
  intros Hok.
  destruct (join_game_success Ec hostname_arg port_arg player_name wc Hok)
    as (_ & a & d & Ha & Hw & _ & Haddr & Hf & Hpl & _ & Hst & _).
  cbv zeta in Hw, Hf, Hpl, Hst.
  exists d. split; [exact Hw|].
  pose proof Hf as (_ & _ & _ & Ht & _).
  split; [exact Ht|]. split; [rewrite Haddr; exact Ha|]. split; [now rewrite Haddr|].
  split; [exact Hpl|]. split; [exact Hst|].
  intros from errno from0 type0 size0 data0 w Hr Hhost Hlt.
  destruct (poll_join_request d
              (take 63 (cstr (default (bytes_of_string "Player") player_name)))
              from errno from0 type0 size0 data0 w Hf Hpl
              (not_elem_of_take_cstr _ _) ltac:(rewrite length_take; lia) Hr Hhost Hlt)
    as (p & H1 & H2 & H3 & H4 & H5 & H6 & H7).
  exists p. split; [exact H1|].
  split; [rewrite H2, take_take; f_equal|].
  repeat split; assumption.
Qed.

End Joining.

(** ** Hosting and joining: the contracts *)

Section Contracts.

Variable E : sys_env.

Lemma bind_socket_spec (sock port_arg : Z) (w : world) :
  _network_bind_socket E sock port_arg w
  = (if sys_ret E (os_calls w) =? 0 then 1 else 0, put_os_calls (S (os_calls w)) w).
Proof. reflexivity. Qed.

(** X15. Contract of [network_host_game].  Called in a state other than
    Disconnected it returns 0 and changes nothing.  Otherwise it returns 0 or
    1 and sends nothing.  When it returns 1 the state is Hosting, [is_host]
    is 1, the roster is empty, [local_port] is the port, both sockets are
    descriptors, no socket was closed and the game name is the first 63
    characters of the name given (or the name held before, for a NULL name).
    When it returns 0 the state, [is_host], the roster, the game name and
    [local_port] are as before, and the session socket is invalid again
    unless making it non-blocking was what failed, in which case its
    descriptor stays in [server_socket], not closed. *)
Theorem host_game_contract (game_name_arg : option (list byte)) (port_arg : Z) (w : world) :
  (state (g_network w) <> NETWORK_STATE_DISCONNECTED ->
   network_host_game E game_name_arg port_arg w = (0, w))
  /\ (fst (network_host_game E game_name_arg port_arg w) = 0
      \/ fst (network_host_game E game_name_arg port_arg w) = 1)
  /\ wire (snd (network_host_game E game_name_arg port_arg w)) = wire w
  /\ (fst (network_host_game E game_name_arg port_arg w) = 1 ->
      state (g_network (snd (network_host_game E game_name_arg port_arg w)))
      = NETWORK_STATE_HOSTING
      /\ is_host (g_network (snd (network_host_game E game_name_arg port_arg w))) = 1
      /\ player_count (g_network (snd (network_host_game E game_name_arg port_arg w))) = 0
      /\ local_port (g_network (snd (network_host_game E game_name_arg port_arg w)))
         = u16 port_arg
      /\ server_socket (g_network (snd (network_host_game E game_name_arg port_arg w)))
         <> INVALID_SOCKET_VALUE
      /\ broadcast_socket (g_network (snd (network_host_game E game_name_arg port_arg w)))
         <> INVALID_SOCKET_VALUE
      /\ closed (snd (network_host_game E game_name_arg port_arg w)) = closed w
      /\ (length (game_name (g_network w)) = 64%nat ->
          cstr (game_name (g_network (snd (network_host_game E game_name_arg port_arg w))))
          = match game_name_arg with
            | Some n => take 63 (cstr n)
            | None => cstr (game_name (g_network w))
            end))
  /\ (fst (network_host_game E game_name_arg port_arg w) = 0 ->
      session_of (snd (network_host_game E game_name_arg port_arg w)) = session_of w
      /\ game_name (g_network (snd (network_host_game E game_name_arg port_arg w)))
         = game_name (g_network w)
      /\ local_port (g_network (snd (network_host_game E game_name_arg port_arg w)))
         = local_port (g_network w)
      /\ (state (g_network w) = NETWORK_STATE_DISCONNECTED ->
          (fst (fst (_network_create_socket E w)) = 1 ->
           server_socket (g_network (snd (network_host_game E game_name_arg port_arg w)))
           = INVALID_SOCKET_VALUE
           /\ sys_ret E (os_calls w)
              ∈ closed (snd (network_host_game E game_name_arg port_arg w)))
          /\ (fst (fst (_network_create_socket E w)) = 0 ->
              server_socket (g_network (snd (network_host_game E game_name_arg port_arg w)))
              = sys_ret E (os_calls w)
              /\ closed (snd (network_host_game E game_name_arg port_arg w)) = closed w))).
Proof.
  unfold network_host_game, state_is.
  destruct (decide (state (g_network w) = NETWORK_STATE_DISCONNECTED)) as [Hst|Hst].
  2:{ rewrite bool_decide_eq_false_2 by exact Hst. cbn [negb fst snd].
      split; [reflexivity|]. split; [now left|]. split; [reflexivity|].
      split; [discriminate|]. intros _.
      split; [reflexivity|]. split; [reflexivity|]. split; [reflexivity|].
      intros Hx. contradiction. }
  rewrite bool_decide_eq_true_2 by exact Hst. cbn [negb].
  split; [intros Hx; now contradict Hx|].
  destruct (create_socket_spec E w) as (k1 & Hc1 & Hr1 & Hv1).
  rewrite Hc1. cbv iota beta zeta.
  set (r1 := fst (fst (_network_create_socket E w))) in *. clearbody r1.
  set (fd1 := sys_ret E (os_calls w)) in *.
  destruct (r1 =? 0) eqn:Hr1z.
  { apply Z.eqb_eq in Hr1z. subst r1. cbn [fst snd]. world_simpl.
    split; [now left|]. split; [reflexivity|]. split; [discriminate|].
    intros _. repeat split; try reflexivity; congruence. }
  apply Z.eqb_neq in Hr1z. assert (Hone : r1 = 1) by (destruct Hr1; congruence).
  specialize (Hv1 Hone). subst r1.
  rewrite bind_socket_spec. cbv iota beta zeta.
  match goal with
  | |- context [if (if ?b then 1 else 0) =? 0 then _ else _] => destruct b eqn:Hb1
  end; cbn [Z.eqb].
  2:{ cbn [fst snd]. world_simpl.
      split; [now left|]. split; [reflexivity|]. split; [discriminate|].
      intros _. repeat split; try reflexivity; try congruence.
      apply elem_of_app. right. apply list_elem_of_singleton. reflexivity. }
  match goal with
  | |- context [_network_create_socket E ?w0] =>
      destruct (create_socket_spec E w0) as (k2 & Hc2 & Hr2 & Hv2); rewrite Hc2;
      set (r2 := fst (fst (_network_create_socket E w0))) in *; clearbody r2;
      set (fd2 := sys_ret E (os_calls w0)) in *
  end.
  cbv iota beta zeta.
  destruct (r2 =? 0) eqn:Hr2z.
  { cbn [fst snd]. world_simpl.
    split; [now left|]. split; [reflexivity|]. split; [discriminate|].
    intros _. repeat split; try reflexivity; try congruence.
    apply elem_of_app. right. apply list_elem_of_singleton. reflexivity. }
  apply Z.eqb_neq in Hr2z. assert (Htwo : r2 = 1) by (destruct Hr2; congruence).
  specialize (Hv2 Htwo). subst r2.
  rewrite bind_socket_spec. cbv iota beta zeta.
  match goal with
  | |- context [if (if ?b then 1 else 0) =? 0 then _ else _] => destruct b eqn:Hb2
  end; cbn [Z.eqb].
  2:{ cbn [fst snd]. world_simpl.
      split; [now left|]. split; [reflexivity|]. split; [discriminate|].
      intros _. repeat split; try reflexivity; try congruence.
      apply elem_of_app. left. apply elem_of_app. right.
      apply list_elem_of_singleton. reflexivity. }
  cbn [fst snd].
  split; [now right|].
  split; [destruct game_name_arg; reflexivity|].
  split; [|discriminate]. intros _.
  destruct game_name_arg as [n|]; world_simpl;
    (split; [reflexivity|]); (split; [reflexivity|]); (split; [reflexivity|]);
    (split; [reflexivity|]); (split; [exact Hv1|]); (split; [exact Hv2|]);
    (split; [reflexivity|]).
  - intros Hlen. apply cstr_strncpy_terminated. lia.
  - reflexivity.
Qed.


End Contracts.

(** ** Discovery: starting, stopping, and an engine with no session *)

Section DiscoveryControl.

Variable E : sys_env.


Lemma stop_discovery_spec (w : world) :
  broadcast_socket (g_network (network_stop_discovery w)) = INVALID_SOCKET_VALUE
  /\ closed (network_stop_discovery w)
     = closed w
       ++ filter (fun s => s <> INVALID_SOCKET_VALUE) [broadcast_socket (g_network w)]
  /\ gate_of (network_stop_discovery w)
     = (network_initialized w, INVALID_SOCKET_VALUE, is_host (g_network w),
        last_discovery_time (g_network w))
  /\ wire (network_stop_discovery w) = wire w
  /\ session_of (network_stop_discovery w) = session_of w
  /\ mode_of (network_stop_discovery w) = mode_of w.
Proof.
  unfold network_stop_discovery, gate_of. rewrite filter_cons, filter_nil.
  destruct (broadcast_socket (g_network w) =? INVALID_SOCKET_VALUE) eqn:Hb; cbn [negb].
  - apply Z.eqb_eq in Hb. rewrite decide_False by (intros Hn; now apply Hn).
    rewrite app_nil_r, Hb. repeat split.
  - apply Z.eqb_neq in Hb. rewrite decide_True by exact Hb. repeat split.
Qed.

(** X18. Stopping discovery.  [network_stop_discovery] closes the discovery
    socket if there is one and marks it invalid; a second call changes
    nothing more.  After it [network_broadcast_discovery] returns 0 without
    sending, and a call of [network_update], whatever arrives on the session
    socket, sends no discovery request and leaves the discovery socket
    invalid (so the same holds for the call after it). *)
Theorem stop_discovery_quiesces (w : world) :
  broadcast_socket (g_network (network_stop_discovery w)) = INVALID_SOCKET_VALUE
  /\ closed (network_stop_discovery w)
     = closed w
       ++ filter (fun s => s <> INVALID_SOCKET_VALUE) [broadcast_socket (g_network w)]
  /\ network_stop_discovery (network_stop_discovery w) = network_stop_discovery w
  /\ network_broadcast_discovery E (network_stop_discovery w)
     = (0, network_stop_discovery w)
  /\ forall rs rb frame,
       discovery_requests_sent (network_update E rs rb frame (network_stop_discovery w))
       = discovery_requests_sent w
       /\ broadcast_socket
            (g_network (network_update E rs rb frame (network_stop_discovery w)))
          = INVALID_SOCKET_VALUE.
Proof.
  destruct (stop_discovery_spec w) as (Hb & Hc & Hg & Hw & _).
  split; [exact Hb|]. split; [exact Hc|].
  split.
  { unfold network_stop_discovery at 1. now rewrite Hb. }
  split.
  { unfold network_broadcast_discovery. now rewrite Hb. }
  intros rs rb frame.
  assert (Hd0 : discovery_requests_sent (network_stop_discovery w)
                = discovery_requests_sent w)
    by (unfold discovery_requests_sent; now rewrite Hw).
  revert Hb Hd0. generalize (network_stop_discovery w). intros w' Hb Hd0.
  unfold network_update. destruct (_ || _); [split; assumption|].
  destruct (update_receive_discovery_quiet E rs rb frame w') as [Hg1 Hd1].
  cbv zeta in Hg1, Hd1. unfold gate_of in Hg1. injection Hg1 as _ Hb1 _ _.
  revert Hb1 Hd1. generalize (update_receive E rs rb frame w'). intros w1 Hb1 Hd1.
  unfold update_discovery. rewrite Hb1, Hb, Z.eqb_refl. cbn [negb andb].
  split; [congruence|]. rewrite Hb1. exact Hb.
Qed.

Lemma idle_of_sans_traffic (w w' : world) :
  sans_traffic w' = sans_traffic w -> idle_of w' = idle_of w.
Proof. intros H. exact (f_equal idle_of H). Qed.

(** One call that does not open a session, made by an engine that never had
    one. *)
Lemma idle_step (call : api_call) (w : world) :
  starts_session call = false ->
  idle_of w = (NETWORK_STATE_DISCONNECTED, 0, 0, [], 0, 0) ->
  idle_of (step E call w) = (NETWORK_STATE_DISCONNECTED, 0, 0, [], 0, 0).
Proof.
  intros Hcall Hidle.
  assert (Hst : state (g_network w) = NETWORK_STATE_DISCONNECTED)
    by (unfold idle_of in Hidle; congruence).
  destruct call; try discriminate; simpl step.
  - unfold network_init. destruct (negb _); [exact Hidle|].
    unfold _network_generate_game_id, _network_generate_player_id, get_timestamp.
    cbv zeta. unfold idle_of in *. world_simpl.
    injection Hidle as _ _ _ Hev _ _. now rewrite Hev.
  - unfold network_shutdown. destruct (_ =? _); [exact Hidle|].
    rewrite disconnect_when_disconnected by exact Hst. exact Hidle.
  - unfold network_update, state_is. rewrite bool_decide_eq_true_2 by exact Hst.
    rewrite orb_true_r. exact Hidle.
  - rewrite disconnect_when_disconnected by exact Hst. exact Hidle.
  - unfold network_start_discovery.
    destruct (create_socket_spec E w) as (k & Hc & _). rewrite Hc. cbv iota beta zeta.
    destruct (_ =? 0); [exact Hidle|].
    unfold get_timestamp. cbv zeta.
    match goal with
    | |- context [network_broadcast_discovery E ?w0] =>
        rewrite (idle_of_sans_traffic _ _ (sans_traffic_broadcast_discovery E w0))
    end.
    unfold idle_of in *. world_simpl. congruence.
  - unfold network_stop_discovery. destruct (negb _); exact Hidle.
  - now rewrite (idle_of_sans_traffic _ _ (sans_traffic_broadcast_discovery E w)).
  - now rewrite (idle_of_sans_traffic _ _
                   (sans_traffic_send_to_player E id type data size w)).
  - now rewrite (idle_of_sans_traffic _ _ (sans_traffic_send_to_all E type data size w)).
  - unfold network_send_chat. destruct message; [|exact Hidle].
    match goal with
    | |- context [network_send_to_all E ?t ?d ?n w] =>
        now rewrite (idle_of_sans_traffic _ _ (sans_traffic_send_to_all E t d n w))
    end.
  - unfold network_send_game_state.
    now rewrite (idle_of_sans_traffic _ _ (sans_traffic_send_to_all E _ data size w)).
  - unfold network_send_turn_data.
    now rewrite (idle_of_sans_traffic _ _ (sans_traffic_send_to_all E _ data size w)).
  - destruct callbacks; exact Hidle.
Qed.

(** X19. An engine with no session hears nothing.  As long as neither
    [network_host_game] nor [network_join_game] has been called, whatever
    else is called and whatever arrives on the sockets: the state stays
    Disconnected, so [network_update] returns before it polls anything;
    nothing is ever counted as received, no callback is ever called, the
    roster stays empty and the registry of discovered games stays empty.  In
    particular the answers to the requests of [network_start_discovery] are
    never read, and [network_get_discovered_games] reports 0 games. *)
Theorem idle_engine_hears_nothing (calls : list api_call) :
  Forall (fun call => starts_session call = false) calls ->
  state (g_network (run E calls initial_world)) = NETWORK_STATE_DISCONNECTED
  /\ network_get_player_count (run E calls initial_world) = 0
  /\ registry (run E calls initial_world) = []
  /\ events (run E calls initial_world) = []
  /\ so_messages_received
       (network_get_statistics every_statistic (run E calls initial_world)) = Some 0
  /\ so_bytes_received
       (network_get_statistics every_statistic (run E calls initial_world)) = Some 0
  /\ (forall rs rb frame,
        network_update E rs rb frame (run E calls initial_world)
        = run E calls initial_world)
  /\ forall max_games,
       0 <= max_games ->
       network_get_discovered_games None max_games (run E calls initial_world)
       = Some (0, None).
Proof.
  intros Hcalls.
  assert (Hrun : forall w, idle_of w = (NETWORK_STATE_DISCONNECTED, 0, 0, [], 0, 0) ->
                           idle_of (run E calls w)
                           = (NETWORK_STATE_DISCONNECTED, 0, 0, [], 0, 0)).
  { induction Hcalls as [|call calls Hcall _ IH]; intros w Hw; simpl; [exact Hw|].
    apply IH, idle_step; assumption. }
  specialize (Hrun initial_world eq_refl).
  revert Hrun. generalize (run E calls initial_world). intros w Hw.
  unfold idle_of in Hw. injection Hw as Hst Hpc Hdc Hev Hmr Hbr.
  split; [exact Hst|]. split; [exact Hpc|].
  split; [unfold registry; now rewrite Hdc|]. split; [exact Hev|].
  split; [cbn; now rewrite Hmr|]. split; [cbn; now rewrite Hbr|].
  split.
  { intros rs rb frame. unfold network_update, state_is.
    rewrite bool_decide_eq_true_2 by exact Hst. now rewrite orb_true_r. }
  intros max_games Hmax. unfold network_get_discovered_games. rewrite Hdc.
  destruct (max_games <? 0) eqn:Hlt; [apply Z.ltb_lt in Hlt; lia|reflexivity].
Qed.

End DiscoveryControl.

Section Queries.

Variable E : sys_env.

(** X20. Reading the registry.  In every reachable world, for an array of at
    least [max_games] entries and [max_games] not negative,
    [network_get_discovered_games] returns the smaller of [max_games] and the
    number of sessions discovered, which is at most 16; the first that many
    entries of the array are the first that many of the registry, with
    distinct game ids, and the rest of the array is left alone.  With NULL
    for the array it returns the same number, and with 0 for [max_games] it
    returns 0 whatever has been discovered. *)
Theorem get_discovered_games_contract (w : world) (games : list game_info_t)
    (max_games : Z) :
  reachable E w ->
  0 <= max_games <= Z.of_nat (length games) ->
  exists out,
    network_get_discovered_games (Some games) max_games w
    = Some (Z.min (discovered_game_count (g_network w)) max_games, Some out)
    /\ 0 <= Z.min (discovered_game_count (g_network w)) max_games <= 16
    /\ length out = length games
    /\ take (Z.to_nat (Z.min (discovered_game_count (g_network w)) max_games)) out
       = take (Z.to_nat max_games) (registry w)
    /\ drop (Z.to_nat (Z.min (discovered_game_count (g_network w)) max_games)) out
       = drop (Z.to_nat (Z.min (discovered_game_count (g_network w)) max_games)) games
    /\ NoDup (gi_game_id
                <$> take (Z.to_nat (Z.min (discovered_game_count (g_network w))
                                      max_games)) out)
    /\ network_get_discovered_games None max_games w
       = Some (Z.min (discovered_game_count (g_network w)) max_games, None)
    /\ network_get_discovered_games None 0 w = Some (0, None).
Proof.
  intros Hr [Hmax Hcap].
  destruct (reachable_session_inv E w Hr) as (_ & _ & _ & _ & Hcount & Hlen & Hnd).
  unfold MAX_DISCOVERED_GAMES in Hcount.
  set (n := Z.min (discovered_game_count (g_network w)) max_games).
  assert (Hn : (if max_games <? discovered_game_count (g_network w)
                then max_games else discovered_game_count (g_network w)) = n).
  { unfold n. destruct (max_games <? _) eqn:Hlt;
      [apply Z.ltb_lt in Hlt|apply Z.ltb_ge in Hlt]; lia. }
  assert (Hn0 : 0 <= n <= 16) by (unfold n; lia).
  assert (Hnr : take (Z.to_nat n) (discovered_games (g_network w))
                = take (Z.to_nat max_games) (registry w)).
  { unfold registry. rewrite take_take. f_equal. unfold n. lia. }
  exists (copy_entries games (discovered_games (g_network w)) (Z.to_nat n)).
  assert (Htake : take (Z.to_nat n)
                    (copy_entries games (discovered_games (g_network w)) (Z.to_nat n))
                  = take (Z.to_nat n) (discovered_games (g_network w))).
  { unfold copy_entries. rewrite take_app_length'; [reflexivity|].
    rewrite length_take. lia. }
  split.
  { unfold network_get_discovered_games. cbv zeta. rewrite Hn.
    replace (0 <=? n) with true by (symmetry; apply Z.leb_le; lia).
    replace (n <=? Z.of_nat (length games)) with true
      by (symmetry; apply Z.leb_le; unfold n; lia).
    replace (n <=? Z.of_nat (length (discovered_games (g_network w)))) with true
      by (symmetry; apply Z.leb_le; lia).
    reflexivity. }
  split; [exact Hn0|].
  split.
  { unfold copy_entries. rewrite length_app, length_take, length_drop.
    unfold n. lia. }
  split; [now rewrite Htake|].
  split.
  { unfold copy_entries. rewrite drop_app_length'; [reflexivity|].
    rewrite length_take. lia. }
  split.
  { rewrite Htake, Hnr. unfold registry in *. rewrite fmap_take.
    rewrite <- (take_drop (Z.to_nat max_games)) in Hnd.
    apply NoDup_app in Hnd as (Hnd & _). rewrite <- fmap_take. rewrite fmap_take.
    exact Hnd. }
  split.
  { unfold network_get_discovered_games. cbv zeta. now rewrite Hn. }
  unfold network_get_discovered_games. cbv zeta.
  destruct (0 <? discovered_game_count (g_network w)) eqn:Hlt; [reflexivity|].
  apply Z.ltb_ge in Hlt. f_equal. f_equal. lia.
Qed.

(** What [network_disconnect] leaves alone. *)
Lemma disconnect_keeps_events (w : world) :
  events (network_disconnect E w) = events w
  /\ g_network_callbacks (network_disconnect E w) = g_network_callbacks w
  /\ network_initialized (network_disconnect E w) = network_initialized w.
Proof.
  unfold network_disconnect.
  destruct (state_is NETWORK_STATE_DISCONNECTED w); [repeat split|].
  cbv zeta.
  match goal with
  | |- context [if ?b then snd (network_send_to_all E ?t ?d ?n w) else w] =>
      assert (Hs : sans_traffic (if b then snd (network_send_to_all E t d n w) else w)
                   = sans_traffic w)
        by (destruct b; [apply sans_traffic_send_to_all|reflexivity]);
      generalize dependent (if b then snd (network_send_to_all E t d n w) else w)
  end.
  intros w1 Hs.
  pose proof (f_equal events Hs) as He.
  pose proof (f_equal g_network_callbacks Hs) as Hc.
  pose proof (f_equal network_initialized Hs) as Hi.
  unfold sans_traffic in He, Hc, Hi. cbn in He, Hc, Hi.
  repeat match goal with |- context [if ?b then _ else _] => destruct b end;
    world_simpl; cbn; repeat split; assumption.
Qed.

(** X21. Restarting the engine.  [network_shutdown] followed by
    [network_init], for an engine that was initialised: the first call clears
    the initialised flag, the second returns 1 and sets it, and one more
    [network_init] changes nothing.  The engine is then Disconnected with
    both socket fields invalid, an empty roster and registry, all statistics
    0, sequence number 1, port 7777 and the default game name; the callbacks
    are cleared, so nothing is reported until [network_set_callbacks] is
    called again.  The restart sends what [network_disconnect] sends and
    closes what it closes: from a session, the session socket and the
    discovery socket; from the Disconnected state nothing, so the discovery
    socket of an engine that was only browsing is forgotten without being
    closed. *)
Theorem restart_contract (w : world) :
  network_initialized w <> 0 ->
  network_initialized (network_shutdown E w) = 0
  /\ fst (network_init E (network_shutdown E w)) = 1
  /\ network_initialized (restarted E w) = 1
  /\ network_init E (restarted E w) = (1, restarted E w)
  /\ mode_of (restarted E w) = (NETWORK_STATE_DISCONNECTED, 0, INVALID_SOCKET_VALUE)
  /\ broadcast_socket (g_network (restarted E w)) = INVALID_SOCKET_VALUE
  /\ roster (restarted E w) = []
  /\ registry (restarted E w) = []
  /\ network_get_statistics every_statistic (restarted E w) = every_statistic
  /\ next_sequence (g_network (restarted E w)) = 1
  /\ local_port (g_network (restarted E w)) = NETWORK_DEFAULT_PORT
  /\ cstr (game_name (g_network (restarted E w)))
     = bytes_of_string "Liberation Circuit Game"
  /\ g_network_callbacks (restarted E w) = zero_callbacks
  /\ events (restarted E w) = events w
  /\ wire (restarted E w) = wire (network_disconnect E w)
  /\ closed (restarted E w) = closed (network_disconnect E w)
  /\ (state (g_network w) = NETWORK_STATE_DISCONNECTED ->
      wire (restarted E w) = wire w /\ closed (restarted E w) = closed w)
  /\ (state (g_network w) <> NETWORK_STATE_DISCONNECTED ->
      closed (restarted E w)
      = closed w
        ++ filter (fun s => s <> INVALID_SOCKET_VALUE)
             [server_socket (g_network w); broadcast_socket (g_network w)]).
Proof.
  intros Hinit.
  assert (Hsh : network_shutdown E w = put_network_initialized 0 (network_disconnect E w)).
  { unfold network_shutdown. destruct (network_initialized w =? 0) eqn:Hz;
      [apply Z.eqb_eq in Hz; contradiction|reflexivity]. }
  destruct (disconnect_keeps_events w) as (Hev & _ & _).
  assert (Hwire : wire (restarted E w) = wire (network_disconnect E w)
                  /\ closed (restarted E w) = closed (network_disconnect E w)
                  /\ events (restarted E w) = events (network_disconnect E w)).
  { unfold restarted. rewrite Hsh. generalize (network_disconnect E w). intros w1.
    repeat split. }
  destruct Hwire as (Hw & Hc & He).
  split; [now rewrite Hsh|].
  split; [unfold network_init; now destruct (negb _)|].
  split; [unfold restarted; now rewrite Hsh|].
  split; [unfold restarted; now rewrite Hsh|].
  split; [unfold restarted; now rewrite Hsh|].
  split; [unfold restarted; now rewrite Hsh|].
  split; [unfold restarted; now rewrite Hsh|].
  split; [unfold restarted; now rewrite Hsh|].
  split; [unfold restarted; now rewrite Hsh|].
  split; [unfold restarted; now rewrite Hsh|].
  split; [unfold restarted; now rewrite Hsh|].
  split; [unfold restarted; rewrite Hsh; vm_compute; reflexivity|].
  split; [unfold restarted; now rewrite Hsh|].
  split; [now rewrite He|].
  split; [exact Hw|]. split; [exact Hc|].
  split.
  - intros Hst. rewrite Hw, Hc, (disconnect_when_disconnected E w Hst). now split.
  - intros Hst. rewrite Hc. now apply closed_disconnect.
Qed.

End Queries.
(** Projections of updated menu worlds, reduced without touching anything
    else. *)
Ltac menu_simpl :=
  cbn [
       current_state previous_state host_game_name host_player_name
       host_port host_max_players join_hostname join_player_name
       join_port browser_games browser_game_count browser_selected_game
       browser_last_refresh browser_auto_refresh lobby_players
       lobby_player_count lobby_ready status_message status_timeout
       status_color error_message error_timeout default_player_name
       main_last_key_state host_last_enter host_last_escape
       join_last_enter join_last_escape browser_last_up
       browser_last_down browser_last_enter browser_last_r
       browser_last_escape lobby_last_space lobby_last_escape net
       g_mp_menu game_phase statics al_reads be_game_info be_ping
       be_selected be_last_update lp_player lp_ready lp_host
       lp_name_color set_current_state set_previous_state
       set_host_game_name set_host_player_name set_host_port
       set_host_max_players set_join_hostname set_join_player_name
       set_join_port set_browser_games set_browser_game_count
       set_browser_selected_game set_browser_last_refresh
       set_browser_auto_refresh set_lobby_players set_lobby_player_count
       set_lobby_ready set_status_message set_status_timeout
       set_status_color set_error_message set_error_timeout
       set_default_player_name set_main_last_key_state
       set_host_last_enter set_host_last_escape set_join_last_enter
       set_join_last_escape set_browser_last_up set_browser_last_down
       set_browser_last_enter set_browser_last_r set_browser_last_escape
       set_lobby_last_space set_lobby_last_escape put_net put_g_mp_menu
       put_game_phase put_statics put_al_reads updm upds fst snd ].

Tactic Notation "menu_simpl" "in" hyp(H) :=
  cbn [
       current_state previous_state host_game_name host_player_name
       host_port host_max_players join_hostname join_player_name
       join_port browser_games browser_game_count browser_selected_game
       browser_last_refresh browser_auto_refresh lobby_players
       lobby_player_count lobby_ready status_message status_timeout
       status_color error_message error_timeout default_player_name
       main_last_key_state host_last_enter host_last_escape
       join_last_enter join_last_escape browser_last_up
       browser_last_down browser_last_enter browser_last_r
       browser_last_escape lobby_last_space lobby_last_escape net
       g_mp_menu game_phase statics al_reads be_game_info be_ping
       be_selected be_last_update lp_player lp_ready lp_host
       lp_name_color set_current_state set_previous_state
       set_host_game_name set_host_player_name set_host_port
       set_host_max_players set_join_hostname set_join_player_name
       set_join_port set_browser_games set_browser_game_count
       set_browser_selected_game set_browser_last_refresh
       set_browser_auto_refresh set_lobby_players set_lobby_player_count
       set_lobby_ready set_status_message set_status_timeout
       set_status_color set_error_message set_error_timeout
       set_default_player_name set_main_last_key_state
       set_host_last_enter set_host_last_escape set_join_last_enter
       set_join_last_escape set_browser_last_up set_browser_last_down
       set_browser_last_enter set_browser_last_r set_browser_last_escape
       set_lobby_last_space set_lobby_last_escape put_net put_g_mp_menu
       put_game_phase put_statics put_al_reads updm upds fst snd ] in H.

Section MenuFrames.

Variable E : sys_env.
Variable al_ms : nat -> Z -> Z.

Lemma sans_notice_show_status message color timeout (mw : menu_world) :
  sans_notice (multiplayer_show_status al_ms message color timeout mw) = sans_notice mw.
Proof. reflexivity. Qed.

Lemma sans_notice_show_error message timeout (mw : menu_world) :
  sans_notice (multiplayer_menu_show_error al_ms message timeout mw) = sans_notice mw.
Proof. reflexivity. Qed.

Lemma sans_lobby_notice (mw mw' : menu_world) :
  sans_notice mw' = sans_notice mw -> sans_lobby mw' = sans_lobby mw.
Proof. unfold sans_lobby. now intros ->. Qed.

Lemma sans_lobby_callback (ev : callback_event) (mw : menu_world) :
  sans_lobby (menu_callback al_ms ev mw) = sans_lobby mw.
Proof.
  destruct ev; simpl; try reflexivity.
  - unfold multiplayer_on_player_joined. destruct (_ <? _); reflexivity.
  - unfold multiplayer_on_player_left. destruct (list_find _ _) as [[i e]|]; reflexivity.
Qed.

Lemma sans_lobby_callbacks (evs : list callback_event) (mw : menu_world) :
  sans_lobby (foldl (fun acc ev => menu_callback al_ms ev acc) mw evs) = sans_lobby mw.
Proof.
  revert mw. induction evs as [|ev evs IH]; intros mw; simpl; [reflexivity|].
  now rewrite IH, sans_lobby_callback.
Qed.

Lemma sans_lobby_with_callbacks (before after : world) (mw : menu_world) :
  sans_lobby (with_callbacks al_ms before after mw) = sans_lobby (put_net after mw).
Proof. apply sans_lobby_callbacks. Qed.

Lemma browser_of_sans_lobby (mw mw' : menu_world) :
  sans_lobby mw' = sans_lobby mw -> browser_of mw' = browser_of mw.
Proof. intros H. exact (f_equal browser_of H). Qed.

Lemma net_sans_lobby (mw mw' : menu_world) :
  sans_lobby mw' = sans_lobby mw -> net mw' = net mw.
Proof. intros H. exact (f_equal net H). Qed.

Lemma current_state_sans_lobby (mw mw' : menu_world) :
  sans_lobby mw' = sans_lobby mw ->
  current_state (g_mp_menu mw') = current_state (g_mp_menu mw).
Proof. intros H. exact (f_equal (fun x => current_state (g_mp_menu x)) H). Qed.

(** [multiplayer_host_start_game] and [multiplayer_join_connect]: one call of
    the network module, and nothing of the browser. *)
Lemma host_start_game_frame (mw : menu_world) :
  net (multiplayer_host_start_game E al_ms mw)
  = step E (Call_host_game (Some (host_game_name (g_mp_menu mw)))
              (u16 (host_port (g_mp_menu mw)))) (net mw)
  /\ browser_of (multiplayer_host_start_game E al_ms mw) = browser_of mw.
Proof.
  unfold multiplayer_host_start_game. simpl step.
  destruct (network_host_game E _ _ (net mw)) as [r w1]. cbn [snd].
  destruct (negb (r =? 0)); split; reflexivity.
Qed.

Lemma join_connect_frame (mw : menu_world) :
  net (multiplayer_join_connect E al_ms mw)
  = step E (Call_join_game (join_hostname (g_mp_menu mw))
              (u16 (join_port (g_mp_menu mw)))
              (Some (join_player_name (g_mp_menu mw)))) (net mw)
  /\ browser_of (multiplayer_join_connect E al_ms mw) = browser_of mw.
Proof.
  unfold multiplayer_join_connect. simpl step.
  destruct (network_join_game E _ _ _ (net mw)) as [r w1]. cbn [snd].
  destruct (negb (r =? 0)); split; reflexivity.
Qed.

(** [network_get_discovered_games (NULL, 0)] never returns a positive
    number, and returns 0 when the registry count is not negative. *)
Lemma get_discovered_games_null (w : world) :
  exists n, network_get_discovered_games None 0 w = Some (n, None)
            /\ n <= 0 /\ (0 <= discovered_game_count (g_network w) -> n = 0).
Proof.
  unfold network_get_discovered_games. cbv zeta.
  destruct (0 <? discovered_game_count (g_network w)) eqn:Hlt;
    [apply Z.ltb_lt in Hlt|apply Z.ltb_ge in Hlt];
    eexists; (split; [reflexivity|]); split; lia.
Qed.

(** One refresh of the browser: a call of [network_start_discovery], a
    status line, and a game count that is not positive. *)
Lemma browser_refresh_spec (games : list game_info_t) (mw : menu_world) :
  exists n,
    multiplayer_browser_refresh E al_ms games mw
    = Some (multiplayer_show_status al_ms (bytes_of_string "Refreshed game list")
              MP_COLOR_SUCCESS 2000
              (updm (set_browser_game_count n)
                 (put_net (snd (network_start_discovery E (net mw))) mw)))
    /\ n <= 0
    /\ (0 <= discovered_game_count
               (g_network (snd (network_start_discovery E (net mw)))) -> n = 0).
Proof.
  unfold multiplayer_browser_refresh.
  destruct (network_start_discovery E (net mw)) as [r w1]. cbn [snd].
  menu_simpl.
  destruct (get_discovered_games_null w1) as (n & Hn & Hle & Hz).
  rewrite Hn. cbn [mbind option_bind]. menu_simpl.
  exists n. replace (0 <? n) with false by (symmetry; apply Z.ltb_ge; lia).
  cbn [mbind option_bind]. repeat split; assumption.
Qed.

End MenuFrames.

Section MenuBrowser.

Variable E : sys_env.
Variable al_ms : nat -> Z -> Z.

Lemma run_snoc (calls : list api_call) (call : api_call) (w : world) :
  run E (calls ++ [call]) w = step E call (run E calls w).
Proof.
  revert w. induction calls as [|c calls IH]; intros w; simpl; [reflexivity|apply IH].
Qed.

Lemma reachable_step (call : api_call) (w : world) :
  reachable E w -> reachable E (step E call w).
Proof. intros [calls ->]. exists (calls ++ [call]). symmetry. apply run_snoc. Qed.

Lemma reachable_initial : reachable E initial_world.
Proof. now exists []. Qed.

(** [network_start_discovery] closes nothing and overwrites the discovery
    socket with what [socket] returns. *)
Lemma start_discovery_spec (w : world) :
  closed (snd (network_start_discovery E w)) = closed w
  /\ broadcast_socket (g_network (snd (network_start_discovery E w)))
     = sys_ret E (os_calls w).
Proof.
  unfold network_start_discovery.
  destruct (create_socket_spec E w) as (k & Hc & _). rewrite Hc. cbv iota beta zeta.
  destruct (_ =? 0); [now split|].
  unfold get_timestamp. cbv iota beta zeta.
  match goal with
  | |- context [network_broadcast_discovery E ?w0] =>
      pose proof (sans_traffic_broadcast_discovery E w0) as Hq;
      generalize dependent (snd (network_broadcast_discovery E w0))
  end.
  intros w1 Hq.
  split.
  - exact (f_equal closed Hq).
  - exact (f_equal (fun x => broadcast_socket (g_network x)) Hq).
Qed.

Lemma blank_ext (mw mw' : menu_world) :
  net mw' = net mw -> browser_of mw' = browser_of mw ->
  reachable E (net mw) -> browser_blank mw ->
  reachable E (net mw') /\ browser_blank mw'.
Proof. unfold browser_blank. intros -> ->. now split. Qed.

Lemma blank_sans_lobby (mw mw' : menu_world) :
  sans_lobby mw' = sans_lobby mw ->
  reachable E (net mw) -> browser_blank mw ->
  reachable E (net mw') /\ browser_blank mw'.
Proof.
  intros H. apply blank_ext; [exact (net_sans_lobby _ _ H)|exact (browser_of_sans_lobby _ _ H)].
Qed.

Lemma blank_host_start_game (mw : menu_world) :
  reachable E (net mw) -> browser_blank mw ->
  reachable E (net (multiplayer_host_start_game E al_ms mw))
  /\ browser_blank (multiplayer_host_start_game E al_ms mw).
Proof.
  revert mw.
  intros mw Hs Hb. destruct (host_start_game_frame E al_ms mw) as (Hn & Hbr).
  unfold browser_blank. rewrite Hn, Hbr. split; [now apply reachable_step|exact Hb].
Qed.

Lemma blank_join_connect (mw : menu_world) :
  reachable E (net mw) -> browser_blank mw ->
  reachable E (net (multiplayer_join_connect E al_ms mw))
  /\ browser_blank (multiplayer_join_connect E al_ms mw).
Proof.
  revert mw.
  intros mw Hs Hb. destruct (join_connect_frame E al_ms mw) as (Hn & Hbr).
  unfold browser_blank. rewrite Hn, Hbr. split; [now apply reachable_step|exact Hb].
Qed.

Lemma blank_lobby_leave (mw : menu_world) :
  reachable E (net mw) -> browser_blank mw ->
  reachable E (net (multiplayer_lobby_leave E al_ms mw))
  /\ browser_blank (multiplayer_lobby_leave E al_ms mw).
Proof.
  revert mw.
  intros mw Hs Hb. unfold multiplayer_lobby_leave. split; [|exact Hb].
  exact (reachable_step Call_disconnect _ Hs).
Qed.

(** With a blank browser nothing is selected that could be joined. *)
Lemma browser_join_selected_blank (mw : menu_world) :
  browser_blank mw -> multiplayer_browser_join_selected E al_ms mw = mw.
Proof.
  unfold browser_blank, browser_of, multiplayer_browser_join_selected.
  intros H. injection H as _ Hc Hsel. now rewrite Hc, Hsel.
Qed.

Lemma blank_with_callbacks (call : api_call) (mw : menu_world) :
  reachable E (net mw) -> browser_blank mw ->
  reachable E (net (with_callbacks al_ms (net mw) (step E call (net mw)) mw))
  /\ browser_blank (with_callbacks al_ms (net mw) (step E call (net mw)) mw).
Proof.
  revert mw.
  intros mw Hs Hb.
  pose proof (sans_lobby_with_callbacks al_ms (net mw) (step E call (net mw)) mw) as H.
  unfold browser_blank. rewrite (net_sans_lobby _ _ H), (browser_of_sans_lobby _ _ H).
  split; [now apply reachable_step|exact Hb].
Qed.

Lemma blank_browser_refresh (games : list game_info_t) (mw : menu_world) :
  reachable E (net mw) -> browser_blank mw ->
  exists mw',
    multiplayer_browser_refresh E al_ms games mw = Some mw'
    /\ reachable E (net mw') /\ browser_blank mw'
    /\ net mw' = snd (network_start_discovery E (net mw))
    /\ current_state (g_mp_menu mw') = current_state (g_mp_menu mw)
    /\ statics mw' = statics mw.
Proof.
  intros Hs Hb.
  destruct (browser_refresh_spec E al_ms games mw) as (n & Hr & _ & Hz).
  pose proof (reachable_step Call_start_discovery _ Hs) as Hs1. simpl step in Hs1.
  assert (Hn : n = 0)
    by (apply Hz; destruct (reachable_session_inv E _ Hs1) as (_ & _ & _ & _ & H & _); lia).
  subst n. eexists. split; [exact Hr|].
  split; [exact Hs1|]. split; [|repeat split].
  unfold browser_blank, browser_of in *.
  unfold multiplayer_show_status, al_time_ms. cbv zeta. menu_simpl.
  injection Hb as Hg _ Hsel. now rewrite Hg, Hsel.
Qed.

Lemma blank_handle_main_input kb games (mw : menu_world) :
  reachable E (net mw) -> browser_blank mw ->
  exists mw',
    multiplayer_handle_main_input E al_ms kb games mw = Some mw'
    /\ reachable E (net mw') /\ browser_blank mw'.
Proof.
  intros Hs Hb. unfold multiplayer_handle_main_input. cbv zeta.
  repeat match goal with
         | |- context [if ?b && negb ?c then _ else _] => destruct (b && negb c)
         end; cbn [mbind option_bind]; try (eexists; split; [reflexivity|now split]).
  destruct (blank_browser_refresh games
              (updm (multiplayer_menu_set_state MP_MENU_GAME_BROWSER) mw) Hs Hb)
    as (mw' & Hr & Hs' & Hb' & _).
  rewrite Hr. cbn [mbind option_bind]. eexists. split; [reflexivity|now split].
Qed.

Lemma blank_handle_browser_input kb games (mw : menu_world) :
  reachable E (net mw) -> browser_blank mw ->
  exists mw',
    multiplayer_handle_browser_input E al_ms kb games mw = Some mw'
    /\ reachable E (net mw') /\ browser_blank mw'.
Proof.
  intros Hs Hb. unfold multiplayer_handle_browser_input. cbv zeta.
  assert (Hc : browser_game_count (g_mp_menu mw) = 0
               /\ browser_selected_game (g_mp_menu mw) = 0).
  { unfold browser_blank, browser_of in Hb. injection Hb as _ H1 H2. now split. }
  destruct Hc as (Hc & Hsel). rewrite Hc, Hsel.
  replace (0 <? 0) with false by reflexivity.
  replace (0 <? 0 - 1) with false by reflexivity.
  rewrite !andb_false_r.
  rewrite (browser_join_selected_blank mw Hb).
  repeat match goal with
         | |- context [if ?b && negb ?c then _ else _] => destruct (b && negb c)
         end; cbn [mbind option_bind]; try (eexists; split; [reflexivity|now split]).
  destruct (blank_browser_refresh games mw Hs Hb) as (mw' & Hr & Hs' & Hb' & _).
  rewrite Hr. cbn [mbind option_bind]. eexists. split; [reflexivity|now split].
Qed.

Lemma blank_handle_input kb games (mw : menu_world) :
  reachable E (net mw) -> browser_blank mw ->
  exists mw',
    multiplayer_menu_handle_input E al_ms kb games mw = Some mw'
    /\ reachable E (net mw') /\ browser_blank mw'.
Proof.
  intros Hs Hb. unfold multiplayer_menu_handle_input.
  destruct (current_state (g_mp_menu mw));
    try (now apply blank_handle_main_input);
    try (now apply blank_handle_browser_input);
    (eexists; split; [reflexivity|]).
  - unfold multiplayer_handle_host_input. cbv zeta.
    repeat match goal with
           | |- context [if ?b && negb ?c then _ else _] => destruct (b && negb c)
           end; try (now split).
    exact (blank_host_start_game mw Hs Hb).
  - unfold multiplayer_handle_join_input. cbv zeta.
    repeat match goal with
           | |- context [if ?b && negb ?c then _ else _] => destruct (b && negb c)
           end; try (now split).
    exact (blank_join_connect mw Hs Hb).
  - unfold multiplayer_handle_lobby_input. cbv zeta.
    repeat match goal with
           | |- context [if ?b && negb ?c then _ else _] => destruct (b && negb c)
           end; try (now split).
    exact (blank_lobby_leave mw Hs Hb).
  - unfold multiplayer_handle_join_input. cbv zeta.
    repeat match goal with
           | |- context [if ?b && negb ?c then _ else _] => destruct (b && negb c)
           end; try (now split).
    exact (blank_join_connect mw Hs Hb).
Qed.

Lemma blank_menu_update rs rb frame games (mw : menu_world) :
  reachable E (net mw) -> browser_blank mw ->
  exists mw',
    multiplayer_menu_update E al_ms rs rb frame games mw = Some mw'
    /\ reachable E (net mw') /\ browser_blank mw'.
Proof.
  intros Hs Hb. unfold multiplayer_menu_update. cbv zeta.
  destruct (blank_with_callbacks (Call_update rs rb frame) mw Hs Hb) as (Hs1 & Hb1).
  simpl step in Hs1, Hb1.
  generalize dependent (with_callbacks al_ms (net mw)
                          (network_update E rs rb frame (net mw)) mw).
  intros mw1 Hs1 Hb1.
  assert (Hmid : exists mw2,
             (if bool_decide (current_state (g_mp_menu mw1) = MP_MENU_GAME_BROWSER)
                 && negb (browser_auto_refresh (g_mp_menu mw1) =? 0)
              then
                let '(current_time, mw1a) := al_time_ms al_ms 0 mw1 in
                if MP_REFRESH_INTERVAL
                   <? u32 (current_time - browser_last_refresh (g_mp_menu mw1a))
                then
                  multiplayer_browser_refresh E al_ms games mw1a
                  ≫= (fun mw1b =>
                        Some (updm (set_browser_last_refresh current_time) mw1b))
                else Some mw1a
              else Some mw1) = Some mw2
             /\ reachable E (net mw2) /\ browser_blank mw2).
  { destruct (_ && _); [|eexists; split; [reflexivity|now split]].
    unfold al_time_ms. cbv zeta.
    destruct (_ <? _); [|eexists; split; [reflexivity|now split]].
    destruct (blank_browser_refresh games (put_al_reads (S (al_reads mw1)) mw1) Hs1 Hb1)
      as (mw' & Hr & Hs' & Hb' & _).
    rewrite Hr. cbn [mbind option_bind]. eexists. split; [reflexivity|now split]. }
  destruct Hmid as (mw2 & Hmid & Hs2 & Hb2).
  rewrite Hmid. cbn [mbind option_bind]. unfold al_time_ms. cbv zeta.
  eexists. split; [reflexivity|].
  repeat match goal with |- context [if ?b then _ else _] => destruct b end;
    now split.
Qed.

Lemma blank_menu_step (call : menu_call) (mw : menu_world) :
  reachable E (net mw) -> browser_blank mw ->
  exists mw',
    menu_step E al_ms call mw = Some mw'
    /\ reachable E (net mw') /\ browser_blank mw'.
Proof.
  intros Hs Hb. destruct call; simpl menu_step;
    try (now apply blank_menu_update); try (now apply blank_handle_input);
    (eexists; split; [reflexivity|]).
  - split; [|reflexivity].
    exact (reachable_step (Call_set_callbacks (Some menu_callbacks)) _ Hs).
  - split; [|reflexivity]. exact (reachable_step Call_disconnect _ Hs).
  - now split.
  - now split.
  - apply (blank_sans_lobby mw); [|exact Hs|exact Hb].
    exact (sans_lobby_callback al_ms (EvPlayerJoined id player_name) mw).
  - apply (blank_sans_lobby mw); [|exact Hs|exact Hb].
    exact (sans_lobby_callback al_ms (EvPlayerLeft id) mw).
  - now split.
  - now split.
  - now split.
  - exact (blank_with_callbacks call mw Hs Hb).
Qed.

Lemma blank_menu_run (calls : list menu_call) (mw : menu_world) :
  reachable E (net mw) -> browser_blank mw ->
  exists mw',
    menu_run E al_ms calls mw = Some mw'
    /\ reachable E (net mw') /\ browser_blank mw'.
Proof.
  revert mw. induction calls as [|call calls IH]; intros mw Hs Hb; simpl.
  - eexists. split; [reflexivity|now split].
  - destruct (blank_menu_step call mw Hs Hb) as (mw1 & H1 & Hs1 & Hb1).
    rewrite H1. cbn [mbind option_bind]. now apply IH.
Qed.

(** X22. The game browser never lists a game.  Whatever sequence of public
    calls of the menu and of the network module is made from the start of the
    program, and whatever arrives on the sockets, the run is defined (the
    copy of the registry never runs out of bounds) and afterwards
    [browser_game_count] is 0, [browser_selected_game] is 0 and no entry of
    [browser_games] has been written: [multiplayer_browser_refresh] asks
    [network_get_discovered_games (NULL, 0)] for the count, and that is 0.
    So Enter in the browser ([multiplayer_browser_join_selected]) does
    nothing, and every refresh leaves the count at 0, closes no socket and
    overwrites the discovery socket with a new one. *)
Theorem browser_never_lists (calls : list menu_call) :
  exists mw,
    menu_run E al_ms calls menu_initial_world = Some mw
    /\ browser_game_count (g_mp_menu mw) = 0
    /\ browser_selected_game (g_mp_menu mw) = 0
    /\ browser_games (g_mp_menu mw) = replicate 16 zero_browser_entry
    /\ multiplayer_browser_join_selected E al_ms mw = mw
    /\ forall games,
         exists mw',
           multiplayer_browser_refresh E al_ms games mw = Some mw'
           /\ browser_game_count (g_mp_menu mw') = 0
           /\ net mw' = snd (network_start_discovery E (net mw))
           /\ closed (net mw') = closed (net mw)
           /\ broadcast_socket (g_network (net mw')) = sys_ret E (os_calls (net mw)).
Proof.
  destruct (blank_menu_run calls menu_initial_world reachable_initial eq_refl)
    as (mw & Hrun & Hs & Hb).
  exists mw. split; [exact Hrun|].
  pose proof Hb as Hb0. unfold browser_blank, browser_of in Hb0.
  injection Hb0 as Hg Hc Hsel.
  split; [exact Hc|]. split; [exact Hsel|]. split; [exact Hg|].
  split; [now apply browser_join_selected_blank|].
  intros games.
  destruct (blank_browser_refresh games mw Hs Hb) as (mw' & Hr & _ & Hb' & Hn & _).
  exists mw'. split; [exact Hr|].
  unfold browser_blank, browser_of in Hb'. injection Hb' as _ Hc' _.
  split; [exact Hc'|]. split; [exact Hn|]. rewrite Hn.
  destruct (start_discovery_spec (net mw)) as (Hcl & Hbs).
  now split.
Qed.

End MenuBrowser.

Section MenuStorage.

Variable E : sys_env.
Variable al_ms : nat -> Z -> Z.

Lemma menu_storage_inv_ext (mw mw' : menu_world) :
  menu_storage_of mw' = menu_storage_of mw -> menu_storage_inv mw -> menu_storage_inv mw'.
Proof.
  unfold menu_storage_of, menu_storage_inv. cbv zeta. intros Heq.
  injection Heq as -> -> -> -> -> -> -> -> -> ->. trivial.
Qed.

Lemma c_string_in_nul_first (n : nat) (buf : list byte) :
  c_string_in n buf -> c_string_in n (<[0%nat := x00]> buf).
Proof.
  intros (Hl & Hin). split; [now rewrite length_insert|].
  destruct buf as [|b r]; [now apply elem_of_nil in Hin|].
  simpl. apply elem_of_cons. now left.
Qed.

Lemma storage_show_status message color timeout (mw : menu_world) :
  menu_storage_inv mw ->
  menu_storage_inv (multiplayer_show_status al_ms message color timeout mw).
Proof.
  unfold menu_storage_inv, multiplayer_show_status, al_time_ms. cbv zeta. menu_simpl.
  intros (H1 & H2 & H3 & (H4 & H4') & H5).
  repeat (split; [tauto|]). split; [|exact H5].
  now apply (c_string_strncpy_terminated _ _ 255).
Qed.

Lemma storage_show_error message timeout (mw : menu_world) :
  menu_storage_inv mw ->
  menu_storage_inv (multiplayer_menu_show_error al_ms message timeout mw).
Proof.
  unfold menu_storage_inv, multiplayer_menu_show_error, al_time_ms. cbv zeta. menu_simpl.
  intros (H1 & H2 & H3 & H4 & (H5 & H5') & H6).
  repeat (split; [tauto|]). split; [|exact H6].
  now apply (c_string_strncpy_terminated _ _ 511).
Qed.

Lemma lobby_entry_zero : c_string_in 32 (name (lp_player zero_lobby_entry)).
Proof.
  split; [reflexivity|]. apply elem_of_replicate. split; [reflexivity|lia].
Qed.

Lemma Forall_shift_lobby (P : lobby_player_entry_t -> Prop) (fuel j : nat)
    (ls : list lobby_player_entry_t) :
  P zero_lobby_entry -> Forall P ls -> Forall P (shift_lobby fuel j ls).
Proof.
  intros Hz. revert j ls. induction fuel as [|fuel IH]; intros j ls Hls; simpl; [exact Hls|].
  apply IH. apply Forall_insert; [exact Hls|].
  destruct (ls !! S j) as [q|] eqn:Hq; simpl; [|exact Hz].
  rewrite Forall_forall in Hls. apply Hls. eapply list_elem_of_lookup_2. exact Hq.
Qed.

Lemma length_shift_lobby (fuel j : nat) (ls : list lobby_player_entry_t) :
  length (shift_lobby fuel j ls) = length ls.
Proof.
  revert j ls. induction fuel as [|fuel IH]; intros j ls; simpl; [reflexivity|].
  now rewrite IH, length_insert.
Qed.

Lemma lobby_entry_lookup (ls : list lobby_player_entry_t) (n : nat) :
  Forall (fun e => c_string_in 32 (name (lp_player e))) ls ->
  c_string_in 32 (name (lp_player (default zero_lobby_entry (ls !! n)))).
Proof.
  intros H. destruct (ls !! n) as [e|] eqn:He; simpl; [|exact lobby_entry_zero].
  rewrite Forall_forall in H. apply H. eapply list_elem_of_lookup_2. exact He.
Qed.

Lemma storage_on_player_joined id player_name (mw : menu_world) :
  menu_storage_inv mw ->
  menu_storage_inv (multiplayer_on_player_joined al_ms id player_name mw).
Proof.
  intros Hinv. unfold multiplayer_on_player_joined. cbv zeta.
  destruct (_ <? _) eqn:Hlt; [|exact Hinv].
  apply Z.ltb_lt in Hlt. unfold NETWORK_MAX_PLAYERS in Hlt.
  apply storage_show_status.
  destruct Hinv as (H1 & H2 & H3 & H4).
  unfold menu_storage_inv. menu_simpl.
  split; [lia|]. split; [now rewrite length_insert|]. split; [|exact H4].
  apply Forall_insert; [exact H3|]. cbn [lp_player name].
  apply (c_string_strncpy_terminated _ _ 31).
  exact (proj1 (lobby_entry_lookup _ _ H3)).
Qed.

Lemma storage_on_player_left id (mw : menu_world) :
  menu_storage_inv mw ->
  menu_storage_inv (multiplayer_on_player_left al_ms id mw).
Proof.
  intros Hinv. unfold multiplayer_on_player_left. cbv zeta.
  destruct (list_find _ _) as [[i e]|] eqn:Hf; [|exact Hinv].
  apply list_find_Some in Hf as (Hi & _).
  apply lookup_lt_Some in Hi. rewrite length_take in Hi.
  apply storage_show_status.
  destruct Hinv as (H1 & H2 & H3 & H4).
  unfold menu_storage_inv. menu_simpl.
  split; [lia|]. split; [now rewrite length_shift_lobby|]. split; [|exact H4].
  apply Forall_shift_lobby; [exact lobby_entry_zero|exact H3].
Qed.

Lemma storage_callback (ev : callback_event) (mw : menu_world) :
  menu_storage_inv mw -> menu_storage_inv (menu_callback al_ms ev mw).
Proof.
  destruct ev; simpl; trivial.
  - apply storage_on_player_joined.
  - apply storage_on_player_left.
Qed.

Lemma storage_with_callbacks (before after : world) (mw : menu_world) :
  menu_storage_inv mw -> menu_storage_inv (with_callbacks al_ms before after mw).
Proof.
  unfold with_callbacks. intros Hinv.
  assert (H0 : menu_storage_inv (put_net after mw)) by exact Hinv.
  revert H0. generalize (put_net after mw).
  induction (drop (length (events before)) (events after)) as [|ev evs IH];
    intros mw0 H0; simpl; [exact H0|].
  apply IH, storage_callback, H0.
Qed.

Lemma storage_set_state (new_state : multiplayer_menu_state_t) (mw : menu_world) :
  menu_storage_inv mw ->
  menu_storage_inv (updm (multiplayer_menu_set_state new_state) mw).
Proof. intros H. exact H. Qed.

Lemma storage_host_start_game (mw : menu_world) :
  menu_storage_inv mw -> menu_storage_inv (multiplayer_host_start_game E al_ms mw).
Proof.
  intros Hinv. unfold multiplayer_host_start_game. cbv zeta.
  destruct (network_host_game E _ _ (net mw)) as [r w1].
  destruct (negb (r =? 0)); [|apply storage_show_error; exact Hinv].
  assert (H0 : menu_storage_inv
                 (multiplayer_show_status al_ms (bytes_of_string "Hosting game...")
                    MP_COLOR_SUCCESS 3000 (put_net w1 mw)))
    by (apply storage_show_status; exact Hinv).
  revert H0. generalize (multiplayer_show_status al_ms (bytes_of_string "Hosting game...")
                           MP_COLOR_SUCCESS 3000 (put_net w1 mw)).
  intros mw2 (H1 & H2 & H3 & H4 & H5 & H6 & H7 & H8).
  unfold menu_storage_inv. menu_simpl.
  split; [lia|]. split; [now rewrite length_insert|].
  split; [|unfold multiplayer_menu_set_state; menu_simpl; tauto].
  apply Forall_insert; [exact H3|]. cbn [lp_player name].
  unfold multiplayer_menu_set_state. menu_simpl.
  pose proof (lobby_entry_lookup _ 0%nat H3) as (Hl & _).
  rewrite <- Hl. apply c_string_strcpy. rewrite Hl.
  destruct H7 as (Hl7 & Hn7). pose proof (length_cstr_nul _ Hn7). lia.
Qed.

Lemma storage_join_connect (mw : menu_world) :
  menu_storage_inv mw -> menu_storage_inv (multiplayer_join_connect E al_ms mw).
Proof.
  intros Hinv. unfold multiplayer_join_connect. cbv zeta.
  destruct (network_join_game E _ _ _ (net mw)) as [r w1].
  destruct (negb (r =? 0)); [|apply storage_show_error; exact Hinv].
  apply storage_set_state, storage_show_status. exact Hinv.
Qed.

Lemma storage_lobby_leave (mw : menu_world) :
  menu_storage_inv mw -> menu_storage_inv (multiplayer_lobby_leave E al_ms mw).
Proof.
  intros Hinv. unfold multiplayer_lobby_leave. cbv zeta.
  apply storage_show_status. exact Hinv.
Qed.

Lemma storage_browser_refresh games (mw mw' : menu_world) :
  multiplayer_browser_refresh E al_ms games mw = Some mw' ->
  menu_storage_inv mw -> menu_storage_inv mw'.
Proof.
  destruct (browser_refresh_spec E al_ms games mw) as (n & Hr & _).
  rewrite Hr. intros [= <-] Hinv. apply storage_show_status. exact Hinv.
Qed.

Lemma storage_key_state (k1 k2 k3 k4 : bool) (mw1 : menu_world) :
  menu_storage_inv mw1 ->
  length (main_last_key_state (statics mw1)) = 4%nat ->
  menu_storage_inv
    (upds (fun s =>
             set_main_last_key_state
               (<[3%nat := k4]> (<[2%nat := k3]> (<[1%nat := k2]>
                  (<[0%nat := k1]> (main_last_key_state s))))) s) mw1).
Proof.
  intros Hinv Hl. unfold menu_storage_inv in *. menu_simpl.
  rewrite !length_insert. tauto.
Qed.

Lemma storage_handle_main_input kb games (mw mw' : menu_world) :
  multiplayer_handle_main_input E al_ms kb games mw = Some mw' ->
  menu_storage_inv mw -> menu_storage_inv mw'.
Proof.
  unfold multiplayer_handle_main_input. cbv zeta. intros Hrun Hinv.
  match type of Hrun with
  | (?m ≫= _) = _ => destruct m as [mw1|] eqn:H1; [|discriminate]
  end.
  cbn [mbind option_bind] in Hrun. injection Hrun as <-.
  assert (Hinv1 : menu_storage_inv mw1).
  { repeat match type of H1 with
           | (if ?b && negb ?c then _ else _) = _ => destruct (b && negb c)
           end; try (injection H1 as <-; exact Hinv).
    eapply storage_browser_refresh; [exact H1|exact Hinv]. }
  apply storage_key_state; [exact Hinv1|].
  unfold menu_storage_inv in Hinv1. tauto.
Qed.

Lemma storage_handle_input kb games (mw mw' : menu_world) :
  browser_blank mw ->
  multiplayer_menu_handle_input E al_ms kb games mw = Some mw' ->
  menu_storage_inv mw -> menu_storage_inv mw'.
Proof.
  intros Hb. unfold multiplayer_menu_handle_input.
  destruct (current_state (g_mp_menu mw));
    try (apply storage_handle_main_input).
  - intros [= <-] Hinv. unfold multiplayer_handle_host_input. cbv zeta.
    repeat match goal with
           | |- context [if ?b && negb ?c then _ else _] => destruct (b && negb c)
           end; try exact Hinv.
    exact (storage_host_start_game mw Hinv).
  - unfold multiplayer_handle_browser_input. cbv zeta.
    rewrite (browser_join_selected_blank E al_ms mw Hb).
    intros Hrun Hinv.
    match type of Hrun with
    | (?m ≫= _) = _ => destruct m as [mw1|] eqn:H1; [|discriminate]
    end.
    cbn [mbind option_bind] in Hrun. injection Hrun as <-.
    assert (Hinv1 : menu_storage_inv mw1).
    { repeat match type of H1 with
             | (if ?b then _ else _) = _ => destruct b
             end; try (injection H1 as <-; exact Hinv).
      eapply storage_browser_refresh; [exact H1|exact Hinv]. }
    exact Hinv1.
  - intros [= <-] Hinv. unfold multiplayer_handle_join_input. cbv zeta.
    repeat match goal with
           | |- context [if ?b && negb ?c then _ else _] => destruct (b && negb c)
           end; try exact Hinv.
    exact (storage_join_connect mw Hinv).
  - intros [= <-] Hinv. unfold multiplayer_handle_lobby_input. cbv zeta.
    repeat match goal with
           | |- context [if ?b && negb ?c then _ else _] => destruct (b && negb c)
           end; try exact Hinv.
    exact (storage_lobby_leave mw Hinv).
  - intros [= <-] Hinv. unfold multiplayer_handle_join_input. cbv zeta.
    repeat match goal with
           | |- context [if ?b && negb ?c then _ else _] => destruct (b && negb c)
           end; try exact Hinv.
    exact (storage_join_connect mw Hinv).
Qed.

Lemma storage_clear_notices (current_time : Z) (mw3 : menu_world) :
  menu_storage_inv mw3 ->
  menu_storage_inv
    (let mw4 :=
       if (0 <? status_timeout (g_mp_menu mw3))
          && (status_timeout (g_mp_menu mw3) <? current_time)
       then
         updm (set_status_timeout 0)
           (updm (fun m => set_status_message (<[0%nat := x00]> (status_message m)) m)
                 mw3)
       else mw3 in
     if (0 <? error_timeout (g_mp_menu mw4))
        && (error_timeout (g_mp_menu mw4) <? current_time)
     then
       updm (set_error_timeout 0)
         (updm (fun m => set_error_message (<[0%nat := x00]> (error_message m)) m) mw4)
     else mw4).
Proof.
  intros Hinv. cbv zeta.
  assert (H4 : menu_storage_inv
                 (if (0 <? status_timeout (g_mp_menu mw3))
                     && (status_timeout (g_mp_menu mw3) <? current_time)
                  then
                    updm (set_status_timeout 0)
                      (updm (fun m => set_status_message
                                        (<[0%nat := x00]> (status_message m)) m) mw3)
                  else mw3)).
  { destruct (_ && _); [|exact Hinv].
    unfold menu_storage_inv in *. menu_simpl.
    destruct Hinv as (H1 & H2 & H3 & H4 & H5).
    repeat (split; [tauto|]). split; [|exact H5]. now apply c_string_in_nul_first. }
  revert H4.
  generalize (if (0 <? status_timeout (g_mp_menu mw3))
                 && (status_timeout (g_mp_menu mw3) <? current_time)
              then
                updm (set_status_timeout 0)
                  (updm (fun m => set_status_message
                                    (<[0%nat := x00]> (status_message m)) m) mw3)
              else mw3).
  intros mw4 H4. destruct (_ && _); [|exact H4].
  unfold menu_storage_inv in *. menu_simpl.
  destruct H4 as (H1 & H2 & H3 & H4 & H5 & H6).
  repeat (split; [tauto|]). split; [|exact H6]. now apply c_string_in_nul_first.
Qed.

Lemma storage_menu_update rs rb frame games (mw mw' : menu_world) :
  multiplayer_menu_update E al_ms rs rb frame games mw = Some mw' ->
  menu_storage_inv mw -> menu_storage_inv mw'.
Proof.
  unfold multiplayer_menu_update. cbv zeta. intros Hrun Hinv.
  pose proof (storage_with_callbacks (net mw) (network_update E rs rb frame (net mw))
                mw Hinv) as Hinv1.
  revert Hrun Hinv1.
  generalize (with_callbacks al_ms (net mw) (network_update E rs rb frame (net mw)) mw).
  intros mw1 Hrun Hinv1.
  match type of Hrun with
  | (?m ≫= _) = _ => destruct m as [mw2|] eqn:H2; [|discriminate]
  end.
  cbn [mbind option_bind] in Hrun. unfold al_time_ms in Hrun. cbv zeta in Hrun.
  injection Hrun as <-.
  assert (Hinv2 : menu_storage_inv mw2).
  { destruct (_ && _); [|injection H2 as <-; exact Hinv1].
    unfold al_time_ms in H2. cbv zeta in H2.
    destruct (_ <? _); [|injection H2 as <-; exact Hinv1].
    match type of H2 with
    | (?m ≫= _) = _ => destruct m as [mw1b|] eqn:H1b; [|discriminate]
    end.
    cbn [mbind option_bind] in H2. injection H2 as <-.
    eapply menu_storage_inv_ext;
      [|eapply storage_browser_refresh; [exact H1b|exact Hinv1]].
    reflexivity. }
  apply (storage_clear_notices _ (put_al_reads (S (al_reads mw2)) mw2)). exact Hinv2.
Qed.

Lemma storage_menu_init (mw : menu_world) :
  menu_storage_inv mw -> menu_storage_inv (snd (multiplayer_menu_init mw)).
Proof.
  intros (_ & _ & _ & _ & _ & _ & _ & _ & _ & _ & Hk).
  unfold menu_storage_inv, multiplayer_menu_init, multiplayer_init_default_settings.
  cbv zeta. menu_simpl. unfold zero_menu_context. menu_simpl.
  split; [lia|]. split; [reflexivity|].
  split; [apply Forall_replicate, lobby_entry_zero|].
  split; [split; [reflexivity|apply elem_of_replicate; split; [reflexivity|lia]]|].
  split; [split; [reflexivity|apply elem_of_replicate; split; [reflexivity|lia]]|].
  split; [apply (c_string_strcpy (replicate 64 x00)); apply Nat.ltb_lt; vm_compute; reflexivity|].
  split; [apply (c_string_strcpy (replicate 32 x00)); apply Nat.ltb_lt; vm_compute; reflexivity|].
  split; [apply (c_string_strcpy (replicate 256 x00)); apply Nat.ltb_lt; vm_compute; reflexivity|].
  split; [apply (c_string_strcpy (replicate 32 x00)); apply Nat.ltb_lt; vm_compute; reflexivity|].
  split; [apply (c_string_strcpy (replicate 32 x00)); apply Nat.ltb_lt; vm_compute; reflexivity|].
  exact Hk.
Qed.

Lemma storage_zero_context (mw : menu_world) :
  menu_storage_inv mw -> menu_storage_inv (put_g_mp_menu zero_menu_context mw).
Proof.
  intros (_ & _ & _ & _ & _ & _ & _ & _ & _ & _ & Hk).
  unfold menu_storage_inv. menu_simpl. unfold zero_menu_context. menu_simpl.
  split; [lia|]. split; [reflexivity|].
  split; [apply Forall_replicate, lobby_entry_zero|].
  repeat (split; [split; [reflexivity|apply elem_of_replicate; split; [reflexivity|lia]]|]).
  exact Hk.
Qed.

Lemma storage_menu_step (call : menu_call) (mw mw' : menu_world) :
  browser_blank mw ->
  menu_step E al_ms call mw = Some mw' ->
  menu_storage_inv mw -> menu_storage_inv mw'.
Proof.
  intros Hb. destruct call; simpl menu_step;
    try (now apply storage_menu_update); try (now apply storage_handle_input);
    intros [= <-] Hinv.
  - now apply storage_menu_init.
  - unfold multiplayer_menu_shutdown. now apply storage_zero_context.
  - exact Hinv.
  - now apply storage_show_error.
  - now apply storage_on_player_joined.
  - now apply storage_on_player_left.
  - exact Hinv.
  - exact Hinv.
  - now apply storage_show_error.
  - now apply storage_with_callbacks.
Qed.

Lemma storage_menu_initial : menu_storage_inv menu_initial_world.
Proof.
  unfold menu_storage_inv, menu_initial_world, zero_statics. menu_simpl.
  unfold zero_menu_context. menu_simpl.
  split; [lia|]. split; [reflexivity|].
  split; [apply Forall_replicate, lobby_entry_zero|].
  repeat (split; [split; [reflexivity|apply elem_of_replicate; split; [reflexivity|lia]]|]).
  reflexivity.
Qed.

Lemma menu_invariants (calls : list menu_call) (mw : menu_world) :
  reachable E (net mw) -> browser_blank mw -> menu_storage_inv mw ->
  exists mw',
    menu_run E al_ms calls mw = Some mw'
    /\ reachable E (net mw') /\ browser_blank mw' /\ menu_storage_inv mw'.
Proof.
  revert mw. induction calls as [|call calls IH]; intros mw Hs Hb Hm; simpl.
  - eexists. split; [reflexivity|]. exact (conj Hs (conj Hb Hm)).
  - destruct (blank_menu_step E al_ms call mw Hs Hb) as (mw1 & H1 & Hs1 & Hb1).
    rewrite H1. cbn [mbind option_bind]. apply IH; [exact Hs1|exact Hb1|].
    exact (storage_menu_step call mw mw1 Hb H1 Hm).
Qed.

(** X23. Strings and arrays of the menu.  Whatever sequence of public calls
    of the menu and of the network module is made from the start of the
    program, with whatever names, messages and datagrams: the lobby count
    stays between 0 and 8, the lobby and browser arrays keep their 8 and 16
    entries, and every string of [g_mp_menu] stays NUL-terminated inside its
    array: the names of the lobby entries (32 bytes), the status line (256),
    the error line (512), the game name (64), the player names (32) and the
    host name (256).  The four remembered key states stay four. *)
Theorem menu_stays_in_bounds (calls : list menu_call) :
  exists mw,
    menu_run E al_ms calls menu_initial_world = Some mw
    /\ 0 <= lobby_player_count (g_mp_menu mw) <= 8
    /\ length (lobby_players (g_mp_menu mw)) = 8%nat
    /\ length (browser_games (g_mp_menu mw)) = 16%nat
    /\ Forall (fun e => length (name (lp_player e)) = 32%nat
                        /\ (length (cstr (name (lp_player e))) <= 31)%nat)
              (lobby_players (g_mp_menu mw))
    /\ (length (status_message (g_mp_menu mw)) = 256%nat
        /\ (length (cstr (status_message (g_mp_menu mw))) <= 255)%nat)
    /\ (length (error_message (g_mp_menu mw)) = 512%nat
        /\ (length (cstr (error_message (g_mp_menu mw))) <= 511)%nat)
    /\ (length (host_game_name (g_mp_menu mw)) = 64%nat
        /\ (length (cstr (host_game_name (g_mp_menu mw))) <= 63)%nat)
    /\ (length (host_player_name (g_mp_menu mw)) = 32%nat
        /\ (length (cstr (host_player_name (g_mp_menu mw))) <= 31)%nat)
    /\ (length (join_hostname (g_mp_menu mw)) = 256%nat
        /\ (length (cstr (join_hostname (g_mp_menu mw))) <= 255)%nat)
    /\ (length (join_player_name (g_mp_menu mw)) = 32%nat
        /\ (length (cstr (join_player_name (g_mp_menu mw))) <= 31)%nat)
    /\ length (main_last_key_state (statics mw)) = 4%nat.
Proof.
  destruct (menu_invariants calls menu_initial_world (reachable_initial E) eq_refl
              storage_menu_initial) as (mw & Hrun & _ & Hb & Hm).
  exists mw. split; [exact Hrun|].
  assert (Hstr : forall n buf, c_string_in (S n) buf ->
                               length buf = S n /\ (length (cstr buf) <= n)%nat).
  { intros n buf (Hl & Hin). pose proof (length_cstr_nul _ Hin). lia. }
  destruct Hm as (H1 & H2 & H3 & H4 & H5 & H6 & H7 & H8 & H9 & _ & H11).
  unfold browser_blank, browser_of in Hb. injection Hb as Hg _ _.
  split; [exact H1|]. split; [exact H2|]. split; [now rewrite Hg|].
  split; [eapply Forall_impl; [exact H3|]; intros e He; exact (Hstr 31%nat _ He)|].
  split; [exact (Hstr 255%nat _ H4)|]. split; [exact (Hstr 511%nat _ H5)|].
  split; [exact (Hstr 63%nat _ H6)|]. split; [exact (Hstr 31%nat _ H7)|].
  split; [exact (Hstr 255%nat _ H8)|]. split; [exact (Hstr 31%nat _ H9)|].
  exact H11.
Qed.

(** X24. The connection status line.  The text
    [multiplayer_draw_connection_status] draws is "Network: Connected" after
    every sequence of public calls of the menu and of the network module,
    whatever the state of the session is (the empty sequence included, where
    the engine is Disconnected): the test it makes is whether
    [network_get_player_count] is at least 0, and the count is never
    negative. *)
Theorem connection_status_always_connected (calls : list menu_call) :
  exists mw,
    menu_run E al_ms calls menu_initial_world = Some mw
    /\ 0 <= network_get_player_count (net mw)
    /\ connection_status_text (net mw) = "Network: Connected"%string.
Proof.
  destruct (menu_invariants calls menu_initial_world (reachable_initial E) eq_refl
              storage_menu_initial) as (mw & Hrun & Hs & _).
  exists mw. split; [exact Hrun|].
  destruct (reachable_session_inv E _ Hs) as ((Hc & _) & _).
  split; [exact Hc|]. unfold connection_status_text, network_get_player_count.
  replace (0 <=? player_count (g_network (net mw))) with true
    by (symmetry; apply Z.leb_le; exact Hc).
  reflexivity.
Qed.

End MenuStorage.

Section MenuLobby.

Variable al_ms : nat -> Z -> Z.

Lemma take_shift_lobby (fuel i : nat) (ls : list lobby_player_entry_t) :
  (i + fuel < length ls)%nat ->
  take (i + fuel) (shift_lobby fuel i ls) = take i ls ++ take fuel (drop (S i) ls).
Proof.
  revert i ls. induction fuel as [|fuel IH]; intros i ls Hlen; simpl shift_lobby.
  - rewrite Nat.add_0_r, take_0, app_nil_r. reflexivity.
  - destruct (lookup_lt_is_Some_2 ls (S i) ltac:(lia)) as [x Hx].
    destruct (lookup_lt_is_Some_2 ls i ltac:(lia)) as [y Hy].
    rewrite Hx. simpl default.
    replace (i + S fuel)%nat with (S i + fuel)%nat by lia.
    rewrite IH by (rewrite length_insert; lia).
    rewrite take_insert_lt by lia.
    rewrite drop_insert_lt by lia.
    rewrite (take_S_r ls i y Hy).
    rewrite insert_app_r_alt by (rewrite length_take; lia).
    rewrite length_take. replace (i - i `min` length ls)%nat with 0%nat by lia.
    rewrite (drop_S ls x (S i) Hx). simpl. rewrite <- app_assoc. reflexivity.
Qed.

(** The shifting loop, as the removal of slot [i] from the first [count]
    entries. *)
Lemma shift_lobby_delete (count i : nat) (ls : list lobby_player_entry_t) :
  (i < count <= length ls)%nat ->
  take (count - 1) (shift_lobby (count - 1 - i) i ls) = delete i (take count ls).
Proof.
  intros Hi.
  replace (count - 1)%nat with (i + (count - 1 - i))%nat at 1 by lia.
  rewrite take_shift_lobby by lia.
  rewrite delete_take_drop, take_take, skipn_firstn_comm.
  f_equal; f_equal; lia.
Qed.

(** The status line after [multiplayer_show_status]. *)
Lemma show_status_text message color timeout (mw : menu_world) :
  length (status_message (g_mp_menu mw)) = 256%nat ->
  cstr (status_message
          (g_mp_menu (multiplayer_show_status al_ms message color timeout mw)))
  = take 255 (cstr message)
  /\ status_color (g_mp_menu (multiplayer_show_status al_ms message color timeout mw))
     = color.
Proof.
  intros Hl. unfold multiplayer_show_status, al_time_ms. cbv zeta. menu_simpl.
  split; [|reflexivity]. apply cstr_strncpy_terminated. lia.
Qed.

(** X25. A player leaving the lobby.  [multiplayer_on_player_left] looks for
    the first of the [lobby_player_count] lobby entries with the given id.
    When there is one, that entry is removed, the entries after it move down
    one slot in their order, the count drops by one and the status line
    reads its name followed by " left" in the warning colour; nothing of the
    network module is touched.  It is the first entry with that id that goes,
    whichever it is, the host's own entry in slot 0 included.  When no entry
    has the id, nothing changes. *)
Theorem lobby_removal (id : Z) (mw : menu_world) :
  menu_storage_inv mw ->
  (forall i e,
     list_find (fun e => player_id (lp_player e) = id)
       (take (Z.to_nat (lobby_player_count (g_mp_menu mw)))
          (lobby_players (g_mp_menu mw))) = Some (i, e) ->
     lobby_player_count (g_mp_menu (multiplayer_on_player_left al_ms id mw))
     = lobby_player_count (g_mp_menu mw) - 1
     /\ take (Z.to_nat (lobby_player_count (g_mp_menu mw) - 1))
          (lobby_players (g_mp_menu (multiplayer_on_player_left al_ms id mw)))
        = delete i (take (Z.to_nat (lobby_player_count (g_mp_menu mw)))
                      (lobby_players (g_mp_menu mw)))
     /\ length (lobby_players (g_mp_menu (multiplayer_on_player_left al_ms id mw)))
        = 8%nat
     /\ cstr (status_message (g_mp_menu (multiplayer_on_player_left al_ms id mw)))
        = cstr (name (lp_player e)) ++ bytes_of_string " left"
     /\ status_color (g_mp_menu (multiplayer_on_player_left al_ms id mw))
        = MP_COLOR_WARNING
     /\ net (multiplayer_on_player_left al_ms id mw) = net mw)
  /\ (list_find (fun e => player_id (lp_player e) = id)
        (take (Z.to_nat (lobby_player_count (g_mp_menu mw)))
           (lobby_players (g_mp_menu mw))) = None ->
      multiplayer_on_player_left al_ms id mw = mw).
Proof.
  intros (H1 & H2 & H3 & (H4 & _) & _).
  unfold multiplayer_on_player_left. cbv zeta.
  split; [|now intros ->].
  intros i e Hf. rewrite Hf.
  pose proof Hf as Hfind.
  apply list_find_Some in Hf as (Hi & _).
  pose proof (lookup_lt_Some _ _ _ Hi) as Hlt. rewrite length_take in Hlt.
  assert (He : c_string_in 32 (name (lp_player e))).
  { rewrite Forall_forall in H3. apply H3.
    apply lookup_take_Some in Hi as (Hi & _). eapply list_elem_of_lookup_2. exact Hi. }
  destruct He as (Hel & Hen). pose proof (length_cstr_nul _ Hen) as Hec.
  match goal with
  | |- context [multiplayer_show_status al_ms ?m ?c ?t ?x] =>
      destruct (show_status_text m c t x H4) as (Hst & Hcol);
      assert (Hframe : sans_notice (multiplayer_show_status al_ms m c t x) = sans_notice x)
        by reflexivity;
      generalize dependent (multiplayer_show_status al_ms m c t x)
  end.
  intros mw' Hst Hcol Hframe.
  pose proof (f_equal (fun x => lobby_player_count (g_mp_menu x)) Hframe) as Hc.
  pose proof (f_equal (fun x => lobby_players (g_mp_menu x)) Hframe) as Hp.
  pose proof (f_equal net Hframe) as Hn.
  cbn beta in Hc, Hp. unfold sans_notice in Hc, Hp, Hn. menu_simpl in Hc.
  menu_simpl in Hp. menu_simpl in Hn.
  split; [exact Hc|]. rewrite Hp.
  split.
  { replace (Z.to_nat (lobby_player_count (g_mp_menu mw) - 1))
      with (Z.to_nat (lobby_player_count (g_mp_menu mw)) - 1)%nat by lia.
    apply shift_lobby_delete. lia. }
  split; [rewrite length_shift_lobby; exact H2|].
  split; [|split; [exact Hcol|exact Hn]].
  rewrite Hst. unfold snprintf_string.
  assert (Hnn : x00 ∉ cstr (name (lp_player e)) ++ bytes_of_string " left").
  { intros Hin. apply elem_of_app in Hin as [Hin|Hin]; [exact (cstr_no_nul _ Hin)|].
    vm_compute in Hin. repeat (apply elem_of_cons in Hin as [Hin|Hin]; [discriminate|]).
    now apply elem_of_nil in Hin. }
  rewrite cstr_id by (intros Hin; apply Hnn;
                      apply elem_of_take in Hin as (k & Hk & _);
                      eapply list_elem_of_lookup_2; exact Hk).
  rewrite take_take.
  apply take_ge. rewrite length_app. change (length (bytes_of_string " left")) with 5%nat.
  lia.
Qed.

End MenuLobby.

Section MenuSessions.

Variable E : sys_env.
Variable al_ms : nat -> Z -> Z.

(** The error line after [multiplayer_menu_show_error]. *)
Lemma show_error_text message timeout (mw : menu_world) :
  length (error_message (g_mp_menu mw)) = 512%nat ->
  cstr (error_message (g_mp_menu (multiplayer_menu_show_error al_ms message timeout mw)))
  = take 511 (cstr message).
Proof.
  intros Hl. unfold multiplayer_menu_show_error, al_time_ms. cbv zeta. menu_simpl.
  apply cstr_strncpy_terminated. lia.
Qed.

Lemma state_is_false (s : network_state_t) (w : world) :
  state (g_network w) <> s -> state_is s w = false.
Proof. intros H. unfold state_is. now apply bool_decide_eq_false_2. Qed.

(** Hosting from the menu while the engine is in a session. *)
Lemma host_start_game_busy (mw : menu_world) :
  state (g_network (net mw)) <> NETWORK_STATE_DISCONNECTED ->
  length (error_message (g_mp_menu mw)) = 512%nat ->
  net (multiplayer_host_start_game E al_ms mw) = net mw
  /\ current_state (g_mp_menu (multiplayer_host_start_game E al_ms mw))
     = current_state (g_mp_menu mw)
  /\ cstr (error_message (g_mp_menu (multiplayer_host_start_game E al_ms mw)))
     = bytes_of_string "Failed to host game".
Proof.
  intros Hst Hl. unfold multiplayer_host_start_game, network_host_game.
  rewrite (state_is_false _ _ Hst). cbv iota beta zeta. cbn [negb Z.eqb].
  split; [reflexivity|]. split; [reflexivity|].
  rewrite show_error_text by exact Hl. reflexivity.
Qed.

(** Joining from the menu while the engine is in a session. *)
Lemma join_connect_busy (mw : menu_world) :
  state (g_network (net mw)) <> NETWORK_STATE_DISCONNECTED ->
  length (error_message (g_mp_menu mw)) = 512%nat ->
  net (multiplayer_join_connect E al_ms mw) = net mw
  /\ current_state (g_mp_menu (multiplayer_join_connect E al_ms mw))
     = current_state (g_mp_menu mw)
  /\ cstr (error_message (g_mp_menu (multiplayer_join_connect E al_ms mw)))
     = bytes_of_string "Failed to connect".
Proof.
  intros Hst Hl. unfold multiplayer_join_connect, network_join_game.
  rewrite (state_is_false _ _ Hst). cbv iota beta zeta. cbn [negb Z.eqb].
  split; [reflexivity|]. split; [reflexivity|].
  rewrite show_error_text by exact Hl. reflexivity.
Qed.

(** What a session consists of, for the menu. *)
Lemma session_kept_refl (w : world) :
  mode_of w = mode_of w /\ roster w = roster w /\ closed w = closed w.
Proof. repeat split. Qed.

Lemma session_kept_start_discovery (w : world) :
  mode_of (snd (network_start_discovery E w)) = mode_of w
  /\ roster (snd (network_start_discovery E w)) = roster w
  /\ closed (snd (network_start_discovery E w)) = closed w.
Proof.
  split; [apply mode_start_discovery|]. split; [|apply start_discovery_spec].
  pose proof (storage_start_discovery E w) as H. unfold storage_of in H.
  injection H as _ Hp Hc _ _ _. unfold roster. now rewrite Hp, Hc.
Qed.

Lemma session_kept_refresh games (mw : menu_world) :
  exists mw',
    multiplayer_browser_refresh E al_ms games mw = Some mw'
    /\ mode_of (net mw') = mode_of (net mw)
    /\ roster (net mw') = roster (net mw)
    /\ closed (net mw') = closed (net mw).
Proof.
  destruct (browser_refresh_spec E al_ms games mw) as (n & Hr & _).
  eexists. split; [exact Hr|]. exact (session_kept_start_discovery (net mw)).
Qed.

(** X26. Only the lobby ends a session.  In a world the program can reach,
    while the engine is not Disconnected and the menu is on any screen but
    the lobby, handling the input (whatever the keys) leaves the state of the
    session, its socket and its roster as they are and closes no socket:
    none of these screens calls [network_disconnect].  In particular Escape
    on the connecting screen goes back to the main screen and leaves the
    engine as it is, and from then on Enter on the host screen only shows
    "Failed to host game" and Enter on the join or connecting screen only
    shows "Failed to connect", the engine refusing both while it is in a
    session. *)
Theorem session_outlives_screens (calls : list menu_call)
    (kb : nat -> allegro_key -> bool) (games : list game_info_t) (mw : menu_world) :
  menu_run E al_ms calls menu_initial_world = Some mw ->
  state (g_network (net mw)) <> NETWORK_STATE_DISCONNECTED ->
  current_state (g_mp_menu mw) <> MP_MENU_LOBBY ->
  exists mw',
    multiplayer_menu_handle_input E al_ms kb games mw = Some mw'
    /\ mode_of (net mw') = mode_of (net mw)
    /\ roster (net mw') = roster (net mw)
    /\ closed (net mw') = closed (net mw)
    /\ (current_state (g_mp_menu mw) = MP_MENU_HOST_SETUP ->
        kb 0%nat ALLEGRO_KEY_ENTER = true ->
        host_last_enter (statics mw) = false ->
        net mw' = net mw
        /\ current_state (g_mp_menu mw') = MP_MENU_HOST_SETUP
        /\ cstr (error_message (g_mp_menu mw')) = bytes_of_string "Failed to host game")
    /\ (current_state (g_mp_menu mw) = MP_MENU_JOIN_SETUP
        \/ current_state (g_mp_menu mw) = MP_MENU_CONNECTING ->
        kb 0%nat ALLEGRO_KEY_ENTER = true ->
        join_last_enter (statics mw) = false ->
        net mw' = net mw
        /\ current_state (g_mp_menu mw') = current_state (g_mp_menu mw)
        /\ cstr (error_message (g_mp_menu mw')) = bytes_of_string "Failed to connect")
    /\ (current_state (g_mp_menu mw) = MP_MENU_CONNECTING ->
        kb 0%nat ALLEGRO_KEY_ENTER = false ->
        kb 1%nat ALLEGRO_KEY_ESCAPE = true ->
        join_last_escape (statics mw) = false ->
        net mw' = net mw /\ current_state (g_mp_menu mw') = MP_MENU_MAIN).
Proof.
  intros Hrun Hst Hnl.
  destruct (menu_invariants E al_ms calls menu_initial_world (reachable_initial E)
              eq_refl (storage_menu_initial)) as (mw0 & Hrun0 & _ & Hb & Hm).
  rewrite Hrun in Hrun0. injection Hrun0 as <-.
  destruct Hm as (_ & _ & _ & _ & (Hel & _) & _).
  unfold multiplayer_menu_handle_input.
  destruct (current_state (g_mp_menu mw)) eqn:Hcs; try contradiction.
  - (* main *)
    unfold multiplayer_handle_main_input. cbv zeta.
    destruct (session_kept_refresh games
                (updm (multiplayer_menu_set_state MP_MENU_GAME_BROWSER) mw))
      as (mwr & Hr & Hk).
    repeat match goal with
           | |- context [if ?b && negb ?c then _ else _] => destruct (b && negb c)
           end; try rewrite Hr; cbn [mbind option_bind];
      (eexists; split; [reflexivity|]); menu_simpl;
      (split; [|split; [|split; [|split; [discriminate|split;
                                                        [intros [?|?]; discriminate
                                                        |discriminate]]]]]);
      try reflexivity; apply Hk.
  - (* host setup *)
    eexists. split; [reflexivity|].
    destruct (host_start_game_busy mw Hst Hel) as (Hn & Hc & He).
    unfold multiplayer_handle_host_input. cbv zeta.
    destruct (kb 0%nat ALLEGRO_KEY_ENTER && negb (host_last_enter (statics mw))) eqn:Hk.
    + menu_simpl. rewrite Hn, Hc, He, Hcs.
      split; [reflexivity|]. split; [reflexivity|]. split; [reflexivity|].
      split; [now intros _ _ _|]. split; [intros [?|?]; discriminate|discriminate].
    + destruct (kb 1%nat ALLEGRO_KEY_ESCAPE && negb (host_last_escape (statics mw)));
        menu_simpl;
        (split; [reflexivity|split; [reflexivity|split; [reflexivity|]]]);
        (split; [intros _ H1 H2; rewrite H1, H2 in Hk; discriminate|]);
        (split; [intros [?|?]; discriminate|discriminate]).
  - (* browser *)
    unfold multiplayer_handle_browser_input. cbv zeta.
    rewrite (browser_join_selected_blank E al_ms mw Hb).
    destruct (session_kept_refresh games mw) as (mwr & Hr & Hk).
    repeat match goal with
           | |- context [if ?b then _ else _] => destruct b
           end; try rewrite Hr; cbn [mbind option_bind];
      (eexists; split; [reflexivity|]); menu_simpl;
      (split; [|split; [|split; [|split; [discriminate|split;
                                                        [intros [?|?]; discriminate
                                                        |discriminate]]]]]);
      try reflexivity; apply Hk.
  - (* join setup *)
    eexists. split; [reflexivity|].
    destruct (join_connect_busy mw Hst Hel) as (Hn & Hc & He).
    unfold multiplayer_handle_join_input. cbv zeta.
    destruct (kb 0%nat ALLEGRO_KEY_ENTER && negb (join_last_enter (statics mw))) eqn:Hk.
    + menu_simpl. rewrite Hn, Hc, He, Hcs.
      split; [reflexivity|]. split; [reflexivity|]. split; [reflexivity|].
      split; [discriminate|]. split; [now intros _ _ _|discriminate].
    + destruct (kb 1%nat ALLEGRO_KEY_ESCAPE && negb (join_last_escape (statics mw)));
        menu_simpl;
        (split; [reflexivity|split; [reflexivity|split; [reflexivity|]]]);
        (split; [discriminate|]);
        (split; [intros _ H1 H2; rewrite H1, H2 in Hk; discriminate|discriminate]).
  - (* connecting *)
    eexists. split; [reflexivity|].
    destruct (join_connect_busy mw Hst Hel) as (Hn & Hc & He).
    unfold multiplayer_handle_join_input. cbv zeta.
    destruct (kb 0%nat ALLEGRO_KEY_ENTER && negb (join_last_enter (statics mw))) eqn:Hk.
    + menu_simpl. rewrite Hn, Hc, He, Hcs.
      split; [reflexivity|]. split; [reflexivity|]. split; [reflexivity|].
      split; [discriminate|]. split; [now intros _ _ _|].
      intros _ H1. rewrite H1 in Hk. discriminate.
    + destruct (kb 1%nat ALLEGRO_KEY_ESCAPE && negb (join_last_escape (statics mw)))
        eqn:Hk2; menu_simpl;
        (split; [reflexivity|split; [reflexivity|split; [reflexivity|]]]);
        (split; [discriminate|]);
        (split; [intros _ H1 H2; rewrite H1, H2 in Hk; discriminate|]).
      * intros _ _ _ _. now split.
      * intros _ _ H1 H2. rewrite H1, H2 in Hk2. discriminate.
  - (* error *)
    unfold multiplayer_handle_main_input. cbv zeta.
    destruct (session_kept_refresh games
                (updm (multiplayer_menu_set_state MP_MENU_GAME_BROWSER) mw))
      as (mwr & Hr & Hk).
    repeat match goal with
           | |- context [if ?b && negb ?c then _ else _] => destruct (b && negb c)
           end; try rewrite Hr; cbn [mbind option_bind];
      (eexists; split; [reflexivity|]); menu_simpl;
      (split; [|split; [|split; [|split; [discriminate|split;
                                                        [intros [?|?]; discriminate
                                                        |discriminate]]]]]);
      try reflexivity; apply Hk.
  - (* settings *)
    unfold multiplayer_handle_main_input. cbv zeta.
    destruct (session_kept_refresh games
                (updm (multiplayer_menu_set_state MP_MENU_GAME_BROWSER) mw))
      as (mwr & Hr & Hk).
    repeat match goal with
           | |- context [if ?b && negb ?c then _ else _] => destruct (b && negb c)
           end; try rewrite Hr; cbn [mbind option_bind];
      (eexists; split; [reflexivity|]); menu_simpl;
      (split; [|split; [|split; [|split; [discriminate|split;
                                                        [intros [?|?]; discriminate
                                                        |discriminate]]]]]);
      try reflexivity; apply Hk.
Qed.

End MenuSessions.

Section MenuJoin.

Variable E : sys_env.
Variable al_ms : nat -> Z -> Z.

Lemma roster_session (w w' : world) : session_of w' = session_of w -> roster w' = roster w.
Proof.
  unfold session_of, roster. intros H. injection H as _ _ Hc Hp _ _. now rewrite Hc, Hp.
Qed.

(** A poll on which [recvfrom] fails dispatches nothing. *)
Lemma poll_failed (errno : Z) out (w : world) :
  roster (snd (poll_socket E (RecvFailed errno) out w)) = roster w
  /\ events (snd (poll_socket E (RecvFailed errno) out w)) = events w.
Proof.
  unfold poll_socket.
  pose proof (session_receive_message (RecvFailed errno) out w) as Hs.
  pose proof (receive_keeps_events (RecvFailed errno) out w) as He.
  assert (Hres : fst (fst (_network_receive_message (RecvFailed errno) out w)) <= 0).
  { unfold _network_receive_message. cbn [recv_return Z.leb Z.compare].
    cbv iota beta zeta. destruct (_ =? _); cbn [fst]; lia. }
  destruct (_network_receive_message (RecvFailed errno) out w) as [[result out1] w1].
  cbn [fst snd] in *.
  replace (0 <? result) with false by (symmetry; apply Z.ltb_ge; lia).
  cbn [snd]. split; [now apply roster_session|exact He].
Qed.

Lemma events_update_discovery (w : world) :
  roster (update_discovery E w) = roster w
  /\ events (update_discovery E w) = events w.
Proof.
  split; [apply roster_session, session_update_discovery|].
  unfold update_discovery. destruct (_ && _); [|reflexivity].
  unfold get_timestamp. cbv iota beta zeta.
  destruct (_ <? _); [|reflexivity].
  match goal with
  | |- context [network_broadcast_discovery E ?w0] =>
      pose proof (f_equal events (sans_traffic_broadcast_discovery E w0)) as Hq;
      destruct (network_broadcast_discovery E w0) as [r w2]
  end.
  cbn [snd] in Hq. exact Hq.
Qed.

(** A join request polled on the session socket by the [network_update] of a
    reachable, initialised host with room in its roster, nothing arriving on
    the discovery socket. *)
Lemma update_join_request (d : sent_datagram) (shown : list byte) (from : sockaddr_in)
    (errno errno' : Z) (frame : stack_frame) (w : world) :
  framed (message_type_code MSG_JOIN_REQUEST) (Z.of_nat (length shown) + 1) d ->
  dg_payload d = shown ++ [x00] ->
  x00 ∉ shown ->
  (length shown <= 63)%nat ->
  reachable E w ->
  network_initialized w <> 0 ->
  state (g_network w) = NETWORK_STATE_HOSTING ->
  player_count (g_network w) < NETWORK_MAX_PLAYERS ->
  exists p,
    roster (network_update E (RecvDatagram from (dg_bytes d) errno) (RecvFailed errno')
              frame w)
    = roster w ++ [p]
    /\ cstr (name p) = take 31 shown
    /\ ip_address p = sin_addr from
    /\ port p = ntohs (sin_port from)
    /\ player_id p = fst (_network_generate_player_id E w)
    /\ events (network_update E (RecvDatagram from (dg_bytes d) errno)
                 (RecvFailed errno') frame w)
       = events w
         ++ (if on_player_joined (g_network_callbacks w)
             then [EvPlayerJoined (player_id p) (name p)] else []).
Proof.
  intros Hf Hpl Hnul Hshort Hr Hinit Hhost Hlt.
  pose proof (reachable_mode_inv E w Hr) as (_ & _ & _ & M4).
  assert (Hsock : server_socket (g_network w) <> INVALID_SOCKET_VALUE)
    by (apply M4; rewrite Hhost; discriminate).
  unfold network_update.
  rewrite (proj2 (Z.eqb_neq _ _) Hinit).
  rewrite (state_is_false NETWORK_STATE_DISCONNECTED w)
    by (rewrite Hhost; discriminate).
  cbn [orb].
  destruct (events_update_discovery
              (update_receive E (RecvDatagram from (dg_bytes d) errno)
                 (RecvFailed errno') frame w)) as (Hr2 & He2).
  rewrite Hr2, He2. clear Hr2 He2.
  unfold update_receive. cbv zeta.
  rewrite (proj2 (Z.eqb_neq _ _) Hsock). cbn [negb].
  destruct (poll_join_request E d shown from errno (sf_from_addr frame) (sf_type frame)
              (sf_size frame)
              (pad (Z.to_nat NETWORK_MAX_MESSAGE_SIZE) (sf_message_data frame)) w
              Hf Hpl Hnul Hshort Hr Hhost Hlt)
    as (p & H1 & H2 & H3 & H4 & _ & H6 & H7).
  exists p.
  destruct (poll_socket E (RecvDatagram from (dg_bytes d) errno) _ w) as [out1 w1].
  cbn [snd] in H1, H7.
  destruct (negb (broadcast_socket (g_network w1) =? INVALID_SOCKET_VALUE)).
  - destruct (poll_failed errno' out1 w1) as (Hp1 & Hp2).
    destruct (poll_socket E (RecvFailed errno') out1 w1) as [out2 w2].
    cbn [snd] in Hp1, Hp2. rewrite Hp1, Hp2.
    repeat split; assumption.
  - repeat split; assumption.
Qed.

(** The lobby and the network world behind a status line. *)
Lemma show_status_keeps message color timeout (mw : menu_world) :
  net (multiplayer_show_status al_ms message color timeout mw) = net mw
  /\ lobby_player_count (g_mp_menu (multiplayer_show_status al_ms message color timeout mw))
     = lobby_player_count (g_mp_menu mw)
  /\ lobby_players (g_mp_menu (multiplayer_show_status al_ms message color timeout mw))
     = lobby_players (g_mp_menu mw).
Proof.
  pose proof (sans_notice_show_status al_ms message color timeout mw) as H.
  split; [exact (f_equal net H)|].
  split; [exact (f_equal (fun x => lobby_player_count (g_mp_menu x)) H)|].
  exact (f_equal (fun x => lobby_players (g_mp_menu x)) H).
Qed.

(** What the rest of [multiplayer_menu_update] keeps of the world the
    callbacks left. *)
Lemma menu_update_keeps rs rb frame games (mw : menu_world) :
  exists mw',
    multiplayer_menu_update E al_ms rs rb frame games mw = Some mw'
    /\ roster (net mw')
       = roster (network_update E rs rb frame (net mw))
    /\ lobby_player_count (g_mp_menu mw')
       = lobby_player_count
           (g_mp_menu (with_callbacks al_ms (net mw)
                         (network_update E rs rb frame (net mw)) mw))
    /\ lobby_players (g_mp_menu mw')
       = lobby_players
           (g_mp_menu (with_callbacks al_ms (net mw)
                         (network_update E rs rb frame (net mw)) mw)).
Proof.
  unfold multiplayer_menu_update. cbv zeta.
  pose proof (net_sans_lobby _ _
                (sans_lobby_with_callbacks al_ms (net mw)
                   (network_update E rs rb frame (net mw)) mw)) as Hn.
  menu_simpl in Hn. revert Hn.
  generalize (with_callbacks al_ms (net mw) (network_update E rs rb frame (net mw)) mw).
  intros mw1 Hn. rewrite <- Hn. clear Hn.
  assert (Hmid : exists mw2,
             (if bool_decide (current_state (g_mp_menu mw1) = MP_MENU_GAME_BROWSER)
                 && negb (browser_auto_refresh (g_mp_menu mw1) =? 0)
              then
                let '(current_time, mw1a) := al_time_ms al_ms 0 mw1 in
                if MP_REFRESH_INTERVAL
                   <? u32 (current_time - browser_last_refresh (g_mp_menu mw1a))
                then
                  multiplayer_browser_refresh E al_ms games mw1a
                  ≫= (fun mw1b =>
                        Some (updm (set_browser_last_refresh current_time) mw1b))
                else Some mw1a
              else Some mw1) = Some mw2
             /\ roster (net mw2) = roster (net mw1)
             /\ lobby_player_count (g_mp_menu mw2) = lobby_player_count (g_mp_menu mw1)
             /\ lobby_players (g_mp_menu mw2) = lobby_players (g_mp_menu mw1)).
  { destruct (_ && _); [|eexists; split; [reflexivity|now repeat split]].
    unfold al_time_ms. cbv zeta.
    destruct (_ <? _); [|eexists; split; [reflexivity|now repeat split]].
    destruct (browser_refresh_spec E al_ms games (put_al_reads (S (al_reads mw1)) mw1))
      as (n & Hr & _).
    rewrite Hr. clear Hr. cbn [mbind option_bind]. eexists. split; [reflexivity|].
    match goal with
    | |- context [multiplayer_show_status al_ms ?m ?c ?t ?x] =>
        destruct (show_status_keeps m c t x) as (S1 & S2 & S3);
        generalize dependent (multiplayer_show_status al_ms m c t x)
    end.
    intros mws S1 S2 S3. menu_simpl. rewrite S1, S2, S3. menu_simpl.
    split; [|split; reflexivity].
    exact (proj1 (proj2 (session_kept_start_discovery E (net mw1)))). }
  destruct Hmid as (mw2 & Hmid & H1 & H2 & H3).
  rewrite Hmid. cbn [mbind option_bind]. unfold al_time_ms. cbv zeta.
  eexists. split; [reflexivity|].
  rewrite <- H1, <- H2, <- H3. clear Hmid H1 H2 H3.
  repeat match goal with |- context [if ?b then _ else _] => destruct b end;
    repeat split.
Qed.

(** X27. A joining peer reaches the lobby.  In a world the program can
    reach, with the engine initialised and Hosting with room in its roster
    and the join callback installed: when a well-formed join request carrying
    a name of at most 63 characters is what [multiplayer_menu_update] finds
    on the session socket (nothing arriving on the discovery socket), the
    roster gains one entry whose name is the first 31 characters of the name
    sent.  If the lobby holds fewer than 8 entries it gains one too, in the
    next free slot, with the id the roster gave the peer, the same name, and
    the ready and host marks cleared, the entries before it untouched.  If
    the lobby already holds 8 entries (the host's own and seven peers) it is
    left as it is: the peer is in the roster and not in the lobby. *)
Theorem lobby_join (calls : list menu_call) (d : sent_datagram) (shown : list byte)
    (from : sockaddr_in) (errno errno' : Z) (frame : stack_frame)
    (games : list game_info_t) (mw : menu_world) :
  menu_run E al_ms calls menu_initial_world = Some mw ->
  network_initialized (net mw) <> 0 ->
  state (g_network (net mw)) = NETWORK_STATE_HOSTING ->
  player_count (g_network (net mw)) < NETWORK_MAX_PLAYERS ->
  on_player_joined (g_network_callbacks (net mw)) = true ->
  framed (message_type_code MSG_JOIN_REQUEST) (Z.of_nat (length shown) + 1) d ->
  dg_payload d = shown ++ [x00] ->
  x00 ∉ shown ->
  (length shown <= 63)%nat ->
  exists mw' p,
    multiplayer_menu_update E al_ms (RecvDatagram from (dg_bytes d) errno)
      (RecvFailed errno') frame games mw = Some mw'
    /\ roster (net mw') = roster (net mw) ++ [p]
    /\ cstr (name p) = take 31 shown
    /\ (lobby_player_count (g_mp_menu mw) < 8 ->
        lobby_player_count (g_mp_menu mw') = lobby_player_count (g_mp_menu mw) + 1
        /\ take (Z.to_nat (lobby_player_count (g_mp_menu mw)))
             (lobby_players (g_mp_menu mw'))
           = take (Z.to_nat (lobby_player_count (g_mp_menu mw)))
               (lobby_players (g_mp_menu mw))
        /\ exists e,
             lobby_players (g_mp_menu mw')
               !! Z.to_nat (lobby_player_count (g_mp_menu mw)) = Some e
             /\ player_id (lp_player e) = player_id p
             /\ cstr (name (lp_player e)) = take 31 shown
             /\ lp_ready e = 0 /\ lp_host e = 0)
    /\ (lobby_player_count (g_mp_menu mw) = 8 ->
        lobby_player_count (g_mp_menu mw') = 8
        /\ lobby_players (g_mp_menu mw') = lobby_players (g_mp_menu mw)).
Proof.
  intros Hrun Hinit Hhost Hlt Hcb Hf Hpl Hnul Hshort.
  destruct (menu_invariants E al_ms calls menu_initial_world (reachable_initial E)
              eq_refl (storage_menu_initial)) as (mw0 & Hrun0 & Hr & _ & Hm).
  rewrite Hrun in Hrun0. injection Hrun0 as <-.
  destruct (update_join_request d shown from errno errno' frame (net mw)
              Hf Hpl Hnul Hshort Hr Hinit Hhost Hlt)
    as (p & H1 & H2 & _ & _ & _ & H6).
  rewrite Hcb in H6.
  destruct (menu_update_keeps (RecvDatagram from (dg_bytes d) errno) (RecvFailed errno')
              frame games mw) as (mw' & Hup & K1 & K2 & K3).
  exists mw', p. split; [exact Hup|].
  split; [now rewrite K1|]. split; [exact H2|].
  rewrite K2, K3. unfold with_callbacks. rewrite H6, drop_app_length.
  cbn [foldl menu_callback].
  generalize (network_update E (RecvDatagram from (dg_bytes d) errno)
                (RecvFailed errno') frame (net mw)).
  intros w'. clear K1 K2 K3 H1 H6 Hup.
  destruct Hm as (M1 & M2 & M3 & _).
  unfold multiplayer_on_player_joined. menu_simpl. cbv zeta.
  split.
  - intros Hroom.
    rewrite (proj2 (Z.ltb_lt _ _)) by (unfold NETWORK_MAX_PLAYERS; lia).
    unfold multiplayer_show_status, al_time_ms. cbv zeta. menu_simpl.
    split; [reflexivity|].
    split; [rewrite take_insert_ge by lia; reflexivity|].
    eexists. split; [apply list_lookup_insert_eq; lia|].
    cbn [lp_player lp_ready lp_host player_id name].
    split; [reflexivity|]. split; [|now split].
    rewrite cstr_strncpy_terminated.
    + rewrite H2. apply take_take.
    + rewrite (proj1 (lobby_entry_lookup _ _ M3)). lia.
  - intros Hfull. rewrite Hfull.
    replace (8 <? NETWORK_MAX_PLAYERS) with false by reflexivity.
    now split.
Qed.

End MenuJoin.

(** ** Accounting of a receive *)

(** X28. Accounting of a receive.  [_network_receive_message] answers 0
    exactly when [recvfrom] delivered nothing (it returned 0 or less) and
    the error code is [EWOULDBLOCK]; then no counter moves.  When it answers
    1, [network_get_statistics] reports the length of the datagram added to
    [bytes_received] and one more message received, the other counters as
    before.  When it answers -1, [errors] is one higher and the other
    counters are as before.  In no case is anything sent, a callback called
    or the session (state, roster, registry) touched. *)
Theorem receive_message_accounting (r : recv_result) (out : recv_out) (w : world) :
  (fst (fst (_network_receive_message r out w)) = 0
   <-> recv_return r <= 0 /\ recv_errno r = SOCKET_WOULD_BLOCK)
  /\ (fst (fst (_network_receive_message r out w)) = 0 ->
      network_get_statistics every_statistic (snd (_network_receive_message r out w))
      = network_get_statistics every_statistic w)
  /\ (fst (fst (_network_receive_message r out w)) = 1 ->
      network_get_statistics every_statistic (snd (_network_receive_message r out w))
      = {| so_bytes_sent := Some (bytes_sent (g_network w));
           so_bytes_received := Some (u32 (bytes_received (g_network w) + recv_return r));
           so_messages_sent := Some (messages_sent (g_network w));
           so_messages_received := Some (u32 (messages_received (g_network w) + 1));
           so_errors := Some (errors (g_network w)) |})
  /\ (fst (fst (_network_receive_message r out w)) = -1 ->
      network_get_statistics every_statistic (snd (_network_receive_message r out w))
      = {| so_bytes_sent := Some (bytes_sent (g_network w));
           so_bytes_received := Some (bytes_received (g_network w));
           so_messages_sent := Some (messages_sent (g_network w));
           so_messages_received := Some (messages_received (g_network w));
           so_errors := Some (u32 (errors (g_network w) + 1)) |})
  /\ wire (snd (_network_receive_message r out w)) = wire w
  /\ events (snd (_network_receive_message r out w)) = events w
  /\ session_of (snd (_network_receive_message r out w)) = session_of w.
Proof.
  split; [|split; [|split; [|split; [|split; [|split]]]]];
    try apply receive_keeps_events; try apply session_receive_message.
  - unfold _network_receive_message. cbv zeta.
    destruct (recv_return r <=? 0) eqn:Hle;
      [apply Z.leb_le in Hle|apply Z.leb_gt in Hle].
    + destruct (recv_errno r =? SOCKET_WOULD_BLOCK) eqn:He;
        [apply Z.eqb_eq in He|apply Z.eqb_neq in He]; cbn [fst]; split; intros H.
      * now split.
      * reflexivity.
      * discriminate.
      * destruct H as (_ & H). contradiction.
    + split.
      * intros H. exfalso. revert H.
        repeat match goal with |- context [if ?b then _ else _] => destruct b end;
          cbn [fst]; discriminate.
      * intros (H & _). lia.
  - unfold _network_receive_message. cbv zeta.
    repeat match goal with |- context [if ?b then _ else _] => destruct b end;
      cbn [fst snd]; intros H; try discriminate H; reflexivity.
  - unfold _network_receive_message. cbv zeta.
    repeat match goal with |- context [if ?b then _ else _] => destruct b end;
      cbn [fst snd]; intros H; try discriminate H; reflexivity.
  - unfold _network_receive_message. cbv zeta.
    repeat match goal with |- context [if ?b then _ else _] => destruct b end;
      cbn [fst snd]; intros H; try discriminate H; reflexivity.
  - unfold _network_receive_message. cbv zeta.
    repeat match goal with |- context [if ?b then _ else _] => destruct b end;
      reflexivity.
Qed.

Section MenuKeys.

Variable E : sys_env.
Variable al_ms : nat -> Z -> Z.

(** X29. Hosting from the menu.  In a world the program can reach,
    [multiplayer_host_start_game] makes one call of [network_host_game], with
    the game name and the port (16 bits) of the host screen.  When that
    returns 0 the error line reads "Failed to host game" and the screen and
    the lobby are as before.  Otherwise the menu is on the lobby screen (the
    screen before remembered), the status line reads "Hosting game..." in
    the success colour, and the lobby count is 1: slot 0 carries the host's
    player name with the host and ready marks set.  The id of slot 0 and the
    slots after it are not written: they keep what they held. *)
Theorem host_from_menu (calls : list menu_call) (mw : menu_world) :
  menu_run E al_ms calls menu_initial_world = Some mw ->
  net (multiplayer_host_start_game E al_ms mw)
  = snd (network_host_game E (Some (host_game_name (g_mp_menu mw)))
           (u16 (host_port (g_mp_menu mw))) (net mw))
  /\ (fst (network_host_game E (Some (host_game_name (g_mp_menu mw)))
             (u16 (host_port (g_mp_menu mw))) (net mw)) = 0 ->
      cstr (error_message (g_mp_menu (multiplayer_host_start_game E al_ms mw)))
      = bytes_of_string "Failed to host game"
      /\ current_state (g_mp_menu (multiplayer_host_start_game E al_ms mw))
         = current_state (g_mp_menu mw)
      /\ lobby_player_count (g_mp_menu (multiplayer_host_start_game E al_ms mw))
         = lobby_player_count (g_mp_menu mw)
      /\ lobby_players (g_mp_menu (multiplayer_host_start_game E al_ms mw))
         = lobby_players (g_mp_menu mw))
  /\ (fst (network_host_game E (Some (host_game_name (g_mp_menu mw)))
             (u16 (host_port (g_mp_menu mw))) (net mw)) <> 0 ->
      current_state (g_mp_menu (multiplayer_host_start_game E al_ms mw)) = MP_MENU_LOBBY
      /\ previous_state (g_mp_menu (multiplayer_host_start_game E al_ms mw))
         = current_state (g_mp_menu mw)
      /\ cstr (status_message (g_mp_menu (multiplayer_host_start_game E al_ms mw)))
         = bytes_of_string "Hosting game..."
      /\ status_color (g_mp_menu (multiplayer_host_start_game E al_ms mw))
         = MP_COLOR_SUCCESS
      /\ lobby_player_count (g_mp_menu (multiplayer_host_start_game E al_ms mw)) = 1
      /\ drop 1 (lobby_players (g_mp_menu (multiplayer_host_start_game E al_ms mw)))
         = drop 1 (lobby_players (g_mp_menu mw))
      /\ exists e0 e,
           lobby_players (g_mp_menu mw) !! 0%nat = Some e0
           /\ lobby_players (g_mp_menu (multiplayer_host_start_game E al_ms mw)) !! 0%nat
              = Some e
           /\ cstr (name (lp_player e)) = cstr (host_player_name (g_mp_menu mw))
           /\ lp_host e = 1 /\ lp_ready e = 1
           /\ player_id (lp_player e) = player_id (lp_player e0)).
Proof.
  intros Hrun.
  destruct (menu_invariants E al_ms calls menu_initial_world (reachable_initial E)
              eq_refl (storage_menu_initial)) as (mw0 & Hrun0 & _ & _ & Hm).
  rewrite Hrun in Hrun0. injection Hrun0 as <-.
  destruct Hm as (_ & M2 & M3 & (M4 & _) & (M5 & _) & _ & (M7 & M7') & _).
  unfold multiplayer_host_start_game. cbv zeta.
  destruct (network_host_game E _ _ (net mw)) as [r w1]. cbn [fst snd].
  split; [destruct (negb (r =? 0)); reflexivity|].
  split.
  - intros ->. cbn [Z.eqb negb].
    rewrite show_error_text by exact M5.
    repeat split.
  - intros Hr. rewrite (proj2 (Z.eqb_neq _ _) Hr). cbn [negb].
    destruct (lookup_lt_is_Some_2 (lobby_players (g_mp_menu mw)) 0%nat ltac:(lia))
      as [e0 He0].
    match goal with
    | |- context [multiplayer_show_status al_ms ?m ?c ?t ?x] =>
        destruct (show_status_text al_ms m c t x M4) as (Hst & Hcol);
        assert (Hframe : sans_notice (multiplayer_show_status al_ms m c t x)
                         = sans_notice x) by reflexivity;
        generalize dependent (multiplayer_show_status al_ms m c t x)
    end.
    intros mw2 Hst Hcol Hframe.
    pose proof (f_equal (fun x => lobby_players (g_mp_menu x)) Hframe) as Hp.
    pose proof (f_equal (fun x => current_state (g_mp_menu x)) Hframe) as Hc.
    pose proof (f_equal (fun x => host_player_name (g_mp_menu x)) Hframe) as Hh.
    cbn beta in Hp, Hc, Hh. unfold sans_notice in Hp, Hc, Hh.
    menu_simpl in Hp. menu_simpl in Hc. menu_simpl in Hh.
    unfold multiplayer_menu_set_state. menu_simpl.
    rewrite Hp, Hc, Hh, He0. cbn [default].
    split; [reflexivity|]. split; [reflexivity|].
    split; [exact Hst|]. split; [exact Hcol|]. split; [reflexivity|].
    split.
    { destruct (lobby_players (g_mp_menu mw)) as [|x l]; [discriminate|reflexivity]. }
    exists e0. eexists. split; [reflexivity|].
    split; [apply list_lookup_insert_eq; lia|].
    cbn [lp_player lp_host lp_ready name player_id].
    split; [|repeat split].
    assert (He : c_string_in 32 (name (lp_player e0))).
    { rewrite Forall_forall in M3. apply M3. eapply list_elem_of_lookup_2. exact He0. }
    destruct He as (Hl & _).
    apply (proj2 (c_string_strcpy (name (lp_player e0))
                    (host_player_name (g_mp_menu mw))
                    ltac:(pose proof (length_cstr_nul _ M7'); lia))).
Qed.

Lemma escape_main_input games (mw : menu_world) :
  main_last_key_state (statics mw) !! 3%nat = Some false ->
  exists mw',
    multiplayer_handle_main_input E al_ms escape_held games mw = Some mw'
    /\ game_phase mw' = GAME_PHASE_MENU
    /\ g_mp_menu mw' = g_mp_menu mw
    /\ net mw' = net mw.
Proof.
  intros Hl. unfold multiplayer_handle_main_input. cbv zeta.
  rewrite Hl. cbn [escape_held andb negb default mbind option_bind].
  eexists. repeat split.
Qed.

(** X30. One press of Escape leaves two screens.  Each input handler
    remembers the keys of its own screen only.  So when Escape is held down
    (and nothing else) while the menu is on the host, join, connecting,
    browser or lobby screen, with Escape not remembered as down by that
    screen nor by the main screen: the first call of
    [multiplayer_menu_handle_input] goes back to the main screen, and the
    next call, Escape still being held, leaves the multiplayer menu
    ([game.phase] becomes [GAME_PHASE_MENU]).  Apart from the lobby, whose
    Escape disconnects, the engine is left as it was. *)
Theorem escape_leaves_two_screens (games1 games2 : list game_info_t) (mw : menu_world) :
  current_state (g_mp_menu mw) <> MP_MENU_MAIN ->
  current_state (g_mp_menu mw) <> MP_MENU_ERROR ->
  current_state (g_mp_menu mw) <> MP_MENU_SETTINGS ->
  screen_last_escape mw = false ->
  main_last_key_state (statics mw) !! 3%nat = Some false ->
  exists mw1 mw2,
    multiplayer_menu_handle_input E al_ms escape_held games1 mw = Some mw1
    /\ current_state (g_mp_menu mw1) = MP_MENU_MAIN
    /\ game_phase mw1 = game_phase mw
    /\ multiplayer_menu_handle_input E al_ms escape_held games2 mw1 = Some mw2
    /\ current_state (g_mp_menu mw2) = MP_MENU_MAIN
    /\ game_phase mw2 = GAME_PHASE_MENU
    /\ (current_state (g_mp_menu mw) <> MP_MENU_LOBBY -> net mw2 = net mw)
    /\ (current_state (g_mp_menu mw) = MP_MENU_LOBBY ->
        net mw2 = network_disconnect E (net mw)).
Proof.
  intros H1 H2 H3 Hesc Hmain.
  assert (Hsecond : forall mw1 : menu_world,
             current_state (g_mp_menu mw1) = MP_MENU_MAIN ->
             main_last_key_state (statics mw1) !! 3%nat = Some false ->
             exists mw2,
               multiplayer_menu_handle_input E al_ms escape_held games2 mw1 = Some mw2
               /\ current_state (g_mp_menu mw2) = MP_MENU_MAIN
               /\ game_phase mw2 = GAME_PHASE_MENU
               /\ net mw2 = net mw1).
  { intros mw1 Hc Hl. unfold multiplayer_menu_handle_input. rewrite Hc.
    destruct (escape_main_input games2 mw1 Hl) as (mw2 & Hi & Hp & Hg & Hn).
    exists mw2. rewrite Hg. repeat split; assumption. }
  unfold screen_last_escape in Hesc.
  unfold multiplayer_menu_handle_input at 1.
  destruct (current_state (g_mp_menu mw)) eqn:Hcs; try contradiction.
  - (* host screen *)
    unfold multiplayer_handle_host_input. cbv zeta. rewrite Hesc.
    cbn [escape_held andb negb].
    match goal with
    | |- context [Some ?x = Some _] =>
        destruct (Hsecond x eq_refl Hmain) as (mw2 & Hi & Hc & Hp & Hn);
        exists x, mw2
    end.
    split; [reflexivity|]. split; [reflexivity|]. split; [reflexivity|].
    split; [exact Hi|]. split; [exact Hc|]. split; [exact Hp|].
    split; [intros _; rewrite Hn; reflexivity|discriminate].
  - (* browser *)
    unfold multiplayer_handle_browser_input. cbv zeta. rewrite Hesc.
    cbn [escape_held andb negb mbind option_bind].
    match goal with
    | |- context [Some ?x = Some _] =>
        destruct (Hsecond x eq_refl Hmain) as (mw2 & Hi & Hc & Hp & Hn);
        exists x, mw2
    end.
    split; [reflexivity|]. split; [reflexivity|]. split; [reflexivity|].
    split; [exact Hi|]. split; [exact Hc|]. split; [exact Hp|].
    split; [intros _; rewrite Hn; reflexivity|discriminate].
  - (* join screen *)
    unfold multiplayer_handle_join_input. cbv zeta. rewrite Hesc.
    cbn [escape_held andb negb].
    match goal with
    | |- context [Some ?x = Some _] =>
        destruct (Hsecond x eq_refl Hmain) as (mw2 & Hi & Hc & Hp & Hn);
        exists x, mw2
    end.
    split; [reflexivity|]. split; [reflexivity|]. split; [reflexivity|].
    split; [exact Hi|]. split; [exact Hc|]. split; [exact Hp|].
    split; [intros _; rewrite Hn; reflexivity|discriminate].
  - (* lobby *)
    unfold multiplayer_handle_lobby_input. cbv zeta. rewrite Hesc.
    cbn [escape_held andb negb].
    match goal with
    | |- context [Some ?x = Some _] =>
        destruct (Hsecond x eq_refl Hmain) as (mw2 & Hi & Hc & Hp & Hn);
        exists x, mw2
    end.
    split; [reflexivity|]. split; [reflexivity|]. split; [reflexivity|].
    split; [exact Hi|]. split; [exact Hc|]. split; [exact Hp|].
    split; [intros H; now contradict H|intros _; rewrite Hn; reflexivity].
  - (* connecting *)
    unfold multiplayer_handle_join_input. cbv zeta. rewrite Hesc.
    cbn [escape_held andb negb].
    match goal with
    | |- context [Some ?x = Some _] =>
        destruct (Hsecond x eq_refl Hmain) as (mw2 & Hi & Hc & Hp & Hn);
        exists x, mw2
    end.
    split; [reflexivity|]. split; [reflexivity|]. split; [reflexivity|].
    split; [exact Hi|]. split; [exact Hc|]. split; [exact Hp|].
    split; [intros _; rewrite Hn; reflexivity|discriminate].
Qed.

End MenuKeys.

(** ** The further properties on concrete runs *)

Lemma send_message_header_witness :
  0 <= 5 <= NETWORK_MAX_MESSAGE_SIZE
  /\ exists d,
       wire (snd (_network_send_message demo_env 3 demo_peer
                    (message_type_code MSG_CHAT) (Some (bytes_of_string "hello")) 5
                    initial_world)) = wire initial_world ++ [d]
       /\ dg_size d = 5.
Proof.
  assert (H : 0 <= 5 <= NETWORK_MAX_MESSAGE_SIZE) by (unfold NETWORK_MAX_MESSAGE_SIZE; lia).
  split; [exact H|].
  destruct (send_message_header demo_env 3 demo_peer (message_type_code MSG_CHAT)
              (Some (bytes_of_string "hello")) 5 initial_world H)
    as (d & H1 & _ & _ & _ & _ & _ & _ & _ & H9 & _).
  exists d. exact (conj H1 H9).
Defined.

Lemma send_message_payload_witness :
  0 <= 5 <= NETWORK_MAX_MESSAGE_SIZE
  /\ exists d,
       wire (snd (_network_send_message demo_env 3 demo_peer
                    (message_type_code MSG_CHAT) (Some (bytes_of_string "hello")) 5
                    initial_world)) = wire initial_world ++ [d]
       /\ dg_payload d = take (Z.to_nat 5) (bytes_of_string "hello").
Proof.
  assert (H : 0 <= 5 <= NETWORK_MAX_MESSAGE_SIZE) by (unfold NETWORK_MAX_MESSAGE_SIZE; lia).
  split; [exact H|].
  destruct (send_message_payload demo_env 3 demo_peer (message_type_code MSG_CHAT)
              (Some (bytes_of_string "hello")) 5 initial_world H)
    as (d & H1 & _ & H3 & _).
  exists d. split; [exact H1|].
  apply H3; [reflexivity|]. vm_compute. discriminate.
Defined.

Lemma session_state_machine_witness :
  state (g_network full_host_world) = NETWORK_STATE_HOSTING
  <-> is_host (g_network full_host_world) = 1.
Proof.
  exact (proj1 (proj2 (proj2 (session_state_machine demo_env full_host_world
                                full_host_world_reachable)))).
Defined.

Lemma storage_stays_in_bounds_witness :
  length (game_name (g_network full_host_world)) = 64%nat
  /\ (length (cstr (game_name (g_network full_host_world))) <= 63)%nat.
Proof.
  pose proof (storage_stays_in_bounds demo_env full_host_world full_host_world_reachable)
    as H.
  exact (conj (proj1 H) (proj1 (proj2 H))).
Defined.

Lemma send_to_all_delivery_witness :
  0 <= 5 <= NETWORK_MAX_MESSAGE_SIZE
  /\ exists ds,
       wire (snd (network_send_to_all demo_env (message_type_code MSG_GAME_DATA)
                    (Some (bytes_of_string "hello")) 5 full_host_world))
       = wire full_host_world ++ ds
       /\ Z.of_nat (length ds) = network_get_player_count full_host_world.
Proof.
  assert (H : 0 <= 5 <= NETWORK_MAX_MESSAGE_SIZE) by (unfold NETWORK_MAX_MESSAGE_SIZE; lia).
  split; [exact H|].
  destruct (send_to_all_delivery demo_env (message_type_code MSG_GAME_DATA)
              (Some (bytes_of_string "hello")) 5 full_host_world
              full_host_world_reachable H) as (ds & H1 & H2 & _).
  exists ds. exact (conj H1 H2).
Defined.

Lemma receive_message_bounds_witness :
  length (receive_buffer (g_network idle_world)) = 4096%nat
  /\ length (receive_buffer
               (g_network
                  (snd (_network_receive_message
                          (RecvDatagram demo_peer (frame MSG_CHAT nova) 0) short_out
                          idle_world)))) = 4096%nat.
Proof.
  assert (H : length (receive_buffer (g_network idle_world)) = 4096%nat)
    by (vm_compute; reflexivity).
  split; [exact H|].
  refine (proj1 (proj2 (receive_message_bounds
                          (RecvDatagram demo_peer (frame MSG_CHAT nova) 0) short_out
                          idle_world H _))).
  intros d Hd.
  assert (d = replicate 1024 x00) as ->
    by (unfold short_out in Hd; cbn [ro_data] in Hd; congruence).
  rewrite length_replicate. lia.
Defined.


Lemma state_sync_not_dispatched_witness :
  0 <= 5 <= NETWORK_MAX_MESSAGE_SIZE
  /\ exists ds1 ds2,
       wire (snd (network_send_game_state demo_env (Some (bytes_of_string "state")) 5
                    full_host_world)) = wire full_host_world ++ ds1
       /\ wire (snd (network_send_turn_data demo_env (Some (bytes_of_string "state")) 5
                       full_host_world)) = wire full_host_world ++ ds2.
Proof.
  assert (H : 0 <= 5 <= NETWORK_MAX_MESSAGE_SIZE) by (unfold NETWORK_MAX_MESSAGE_SIZE; lia).
  split; [exact H|].
  destruct (state_sync_not_dispatched client_env demo_env (Some (bytes_of_string "state"))
              5 full_host_world full_host_world_reachable H)
    as (ds1 & ds2 & H1 & H2 & _).
  exists ds1, ds2. exact (conj H1 H2).
Defined.

Lemma client_dispatch_witness :
  state (g_network connected_client_world) <> NETWORK_STATE_HOSTING
  /\ _network_handle_message later_env demo_peer (message_type_code MSG_JOIN_REQUEST)
       nova 5 connected_client_world
     = (nova, connected_client_world).
Proof.
  assert (H : state (g_network connected_client_world) <> NETWORK_STATE_HOSTING)
    by (vm_compute; discriminate).
  split; [exact H|].
  exact (proj1 (proj2 (client_dispatch later_env connected_client_world demo_peer nova 5
                         connected_client_world_reachable H))).
Defined.

Lemma discovery_round_trip_witness :
  state (g_network host_world) = NETWORK_STATE_HOSTING
  /\ 0 <= network_get_local_ip demo_env < 4294967296
  /\ exists d,
       wire (snd (_network_handle_message demo_env demo_peer
                    (message_type_code MSG_DISCOVERY_REQUEST) [] 0 host_world))
       = wire host_world ++ [d]
       /\ dg_addr d = demo_peer.
Proof.
  assert (H1 : state (g_network host_world) = NETWORK_STATE_HOSTING)
    by (vm_compute; reflexivity).
  assert (H2 : 0 <= network_get_local_ip demo_env < 4294967296)
    by (vm_compute; split; discriminate || reflexivity).
  split; [exact H1|]. split; [exact H2|].
  destruct (discovery_round_trip client_env demo_env host_world demo_peer [] 0
              host_world_reachable H1 H2) as (d & Hw & _ & Ha & _).
  exists d. exact (conj Hw Ha).
Defined.

Lemma join_end_to_end_witness :
  fst (network_join_game client_env (bytes_of_string "192.168.0.1") 7777
         (Some (bytes_of_string "Nova")) idle_world) = 1
  /\ exists d,
       wire (snd (network_join_game client_env (bytes_of_string "192.168.0.1") 7777
                    (Some (bytes_of_string "Nova")) idle_world))
       = wire idle_world ++ [d]
       /\ dg_type d = message_type_code MSG_JOIN_REQUEST.
Proof.
  assert (H : fst (network_join_game client_env (bytes_of_string "192.168.0.1") 7777
                     (Some (bytes_of_string "Nova")) idle_world) = 1)
    by (vm_compute; reflexivity).
  split; [exact H|].
  destruct (join_end_to_end demo_env client_env (bytes_of_string "192.168.0.1") 7777
              (Some (bytes_of_string "Nova")) idle_world H) as (d & H1 & H2 & _).
  exists d. exact (conj H1 H2).
Defined.

Lemma idle_engine_hears_nothing_witness :
  Forall (fun call => starts_session call = false) browse_calls
  /\ registry (run client_env browse_calls initial_world) = []
  /\ events (run client_env browse_calls initial_world) = [].
Proof.
  assert (H : Forall (fun call => starts_session call = false) browse_calls)
    by (repeat constructor).
  split; [exact H|].
  pose proof (idle_engine_hears_nothing client_env browse_calls H) as H0.
  exact (conj (proj1 (proj2 (proj2 H0))) (proj1 (proj2 (proj2 (proj2 H0))))).
Defined.

Lemma get_discovered_games_contract_witness :
  0 <= 16 <= Z.of_nat (length (replicate 16 zero_game_info))
  /\ exists out,
       network_get_discovered_games (Some (replicate 16 zero_game_info)) 16
         one_session_world
       = Some (Z.min (discovered_game_count (g_network one_session_world)) 16, Some out)
       /\ length out = length (replicate 16 zero_game_info).
Proof.
  assert (H : 0 <= 16 <= Z.of_nat (length (replicate 16 zero_game_info)))
    by (rewrite length_replicate; lia).
  split; [exact H|].
  destruct (get_discovered_games_contract client_env one_session_world
              (replicate 16 zero_game_info) 16 one_session_world_reachable H)
    as (out & H1 & _ & H3 & _).
  exists out. exact (conj H1 H3).
Defined.

Lemma restart_contract_witness :
  network_initialized host_world <> 0
  /\ network_initialized (network_shutdown demo_env host_world) = 0
  /\ fst (network_init demo_env (network_shutdown demo_env host_world)) = 1.
Proof.
  assert (H : network_initialized host_world <> 0) by (vm_compute; discriminate).
  split; [exact H|].
  pose proof (restart_contract demo_env host_world H) as H0.
  exact (conj (proj1 H0) (proj1 (proj2 H0))).
Defined.

Lemma lobby_world_storage : menu_storage_inv lobby_world.
Proof.
  apply storage_on_player_joined, storage_menu_init, storage_menu_initial.
Qed.

Lemma lobby_removal_witness :
  lobby_player_count (g_mp_menu lobby_world) = 1
  /\ lobby_player_count (g_mp_menu (multiplayer_on_player_left demo_al_ms 5 lobby_world))
     = lobby_player_count (g_mp_menu lobby_world) - 1.
Proof.
  split; [vm_compute; reflexivity|].
  destruct (list_find (fun e => player_id (lp_player e) = 5)
              (take (Z.to_nat (lobby_player_count (g_mp_menu lobby_world)))
                 (lobby_players (g_mp_menu lobby_world)))) as [[i e]|] eqn:Hf.
  - exact (proj1 (proj1 (lobby_removal demo_al_ms 5 lobby_world lobby_world_storage)
                    i e Hf)).
  - vm_compute in Hf. discriminate.
Defined.

Lemma menu_client_world_run :
  menu_run client_env demo_al_ms menu_client_calls menu_initial_world
  = Some menu_client_world.
Proof. vm_compute. reflexivity. Qed.

Lemma session_outlives_screens_witness :
  state (g_network (net menu_client_world)) <> NETWORK_STATE_DISCONNECTED
  /\ current_state (g_mp_menu menu_client_world) <> MP_MENU_LOBBY
  /\ exists mw',
       multiplayer_menu_handle_input client_env demo_al_ms enter_held []
         menu_client_world = Some mw'
       /\ mode_of (net mw') = mode_of (net menu_client_world).
Proof.
  assert (H1 : state (g_network (net menu_client_world)) <> NETWORK_STATE_DISCONNECTED)
    by (vm_compute; discriminate).
  assert (H2 : current_state (g_mp_menu menu_client_world) <> MP_MENU_LOBBY)
    by (vm_compute; discriminate).
  split; [exact H1|]. split; [exact H2|].
  destruct (session_outlives_screens client_env demo_al_ms menu_client_calls enter_held []
              menu_client_world menu_client_world_run H1 H2) as (mw' & Hi & Hm & _).
  exists mw'. exact (conj Hi Hm).
Defined.

Lemma menu_host_world_run :
  menu_run demo_env demo_al_ms menu_host_calls menu_initial_world = Some menu_host_world.
Proof. vm_compute. reflexivity. Qed.

Lemma join_datagram_framed :
  framed (message_type_code MSG_JOIN_REQUEST)
    (Z.of_nat (length (bytes_of_string "Nova")) + 1) join_datagram
  /\ dg_payload join_datagram = bytes_of_string "Nova" ++ [x00].
Proof. vm_compute. repeat split. Qed.

Lemma lobby_join_witness :
  state (g_network (net menu_host_world)) = NETWORK_STATE_HOSTING
  /\ lobby_player_count (g_mp_menu menu_host_world) = 1
  /\ exists mw' p,
       multiplayer_menu_update demo_env demo_al_ms
         (RecvDatagram demo_peer (dg_bytes join_datagram) SOCKET_WOULD_BLOCK)
         (RecvFailed SOCKET_WOULD_BLOCK) demo_frame [] menu_host_world = Some mw'
       /\ roster (net mw') = roster (net menu_host_world) ++ [p]
       /\ cstr (name p) = take 31 (bytes_of_string "Nova").
Proof.
  assert (H1 : state (g_network (net menu_host_world)) = NETWORK_STATE_HOSTING)
    by (vm_compute; reflexivity).
  split; [exact H1|]. split; [vm_compute; reflexivity|].
  assert (H2 : network_initialized (net menu_host_world) <> 0)
    by (vm_compute; discriminate).
  assert (H3 : player_count (g_network (net menu_host_world)) < NETWORK_MAX_PLAYERS)
    by (vm_compute; reflexivity).
  assert (H4 : on_player_joined (g_network_callbacks (net menu_host_world)) = true)
    by (vm_compute; reflexivity).
  assert (H5 : x00 ∉ bytes_of_string "Nova").
  { vm_compute. intros Hin.
    repeat (apply elem_of_cons in Hin as [Hin|Hin]; [discriminate|]).
    now apply elem_of_nil in Hin. }
  assert (H6 : (length (bytes_of_string "Nova") <= 63)%nat) by (vm_compute; lia).
  destruct (lobby_join demo_env demo_al_ms menu_host_calls join_datagram
              (bytes_of_string "Nova") demo_peer SOCKET_WOULD_BLOCK SOCKET_WOULD_BLOCK
              demo_frame [] menu_host_world menu_host_world_run H2 H1 H3 H4
              (proj1 join_datagram_framed) (proj2 join_datagram_framed) H5 H6)
    as (mw' & p & Hu & Hr & Hn & _).
  exists mw', p. exact (conj Hu (conj Hr Hn)).
Defined.

Lemma host_screen_world_run :
  menu_run demo_env demo_al_ms host_screen_calls menu_initial_world
  = Some host_screen_world.
Proof. reflexivity. Qed.

Lemma host_from_menu_witness :
  net (multiplayer_host_start_game demo_env demo_al_ms host_screen_world)
  = snd (network_host_game demo_env
           (Some (host_game_name (g_mp_menu host_screen_world)))
           (u16 (host_port (g_mp_menu host_screen_world))) (net host_screen_world)).
Proof.
  exact (proj1 (host_from_menu demo_env demo_al_ms host_screen_calls host_screen_world
                  host_screen_world_run)).
Defined.

Lemma escape_leaves_two_screens_witness :
  current_state (g_mp_menu host_screen_world) = MP_MENU_HOST_SETUP
  /\ exists mw1 mw2,
       multiplayer_menu_handle_input demo_env demo_al_ms escape_held []
         host_screen_world = Some mw1
       /\ multiplayer_menu_handle_input demo_env demo_al_ms escape_held [] mw1
          = Some mw2
       /\ game_phase mw2 = GAME_PHASE_MENU.
Proof.
  split; [reflexivity|].
  assert (H1 : current_state (g_mp_menu host_screen_world) <> MP_MENU_MAIN)
    by (vm_compute; discriminate).
  assert (H2 : current_state (g_mp_menu host_screen_world) <> MP_MENU_ERROR)
    by (vm_compute; discriminate).
  assert (H3 : current_state (g_mp_menu host_screen_world) <> MP_MENU_SETTINGS)
    by (vm_compute; discriminate).
  assert (H4 : screen_last_escape host_screen_world = false)
    by (vm_compute; reflexivity).
  assert (H5 : main_last_key_state (statics host_screen_world) !! 3%nat = Some false)
    by (vm_compute; reflexivity).
  destruct (escape_leaves_two_screens demo_env demo_al_ms [] [] host_screen_world
              H1 H2 H3 H4 H5) as (mw1 & mw2 & Ha & _ & _ & Hb & _ & Hc & _).
  exists mw1, mw2. exact (conj Ha (conj Hb Hc)).
Defined.
